(** * hid-ft260: the FT260 USB-HID to I2C/UART bridge, embedded in Rocq

    A shallow embedding of [hid-ft260.c].  The driver's functions are
    translated one by one, under their C names, into a small monad that
    threads a [world] (the [ft260_device] fields the code touches, the
    caller's memory a pending read writes into, and the log of the calls
    made into the kernel and the HID transport) and that can stop with a
    [fault] where C has no defined behaviour (division by zero, a copy that
    leaves its object, a NULL dereference).

    The transport and the TTY layer are external: their answers are given
    by an [environment], a family of functions of the history of calls. *)

From Stdlib Require Import ZArith List Lia Bool.
From Equations Require Import Equations.
Import ListNotations.
Open Scope Z_scope.

(** ** Constants of the driver *)

Definition FIFO_SIZE : Z := 256.
Definition TTY_WAKEUP_WATERMARK : Z := Z.quot FIFO_SIZE 2.

Definition FT260_REPORT_MAX_LENGTH : Z := 64.
Definition FT260_RD_DATA_MAX : Z := 60.
Definition FT260_WR_DATA_MAX : Z := 60.

(** Report IDs / Feature In *)
Definition FT260_CHIP_VERSION : Z := 0xA0.
Definition FT260_SYSTEM_SETTINGS : Z := 0xA1.
Definition FT260_I2C_STATUS : Z := 0xC0.
Definition FT260_I2C_READ_REQ : Z := 0xC2.
Definition FT260_I2C_REPORT_MIN : Z := 0xD0.
Definition FT260_I2C_REPORT_MAX : Z := 0xDE.
Definition FT260_UART_REPORT_MIN : Z := 0xF0.
Definition FT260_UART_REPORT_MAX : Z := 0xFE.

(** Feature Out *)
Definition FT260_SET_I2C_RESET : Z := 0x20.
Definition FT260_SET_UART_CONFIG : Z := 0x41.

(** Response codes in I2C status report *)
Definition FT260_I2C_STATUS_SUCCESS : Z := 0x00.
Definition FT260_I2C_STATUS_CTRL_BUSY : Z := 0x01.
Definition FT260_I2C_STATUS_ERROR : Z := 0x02.
Definition FT260_I2C_STATUS_ADDR_NO_ACK : Z := 0x04.
Definition FT260_I2C_STATUS_DATA_NO_ACK : Z := 0x08.
Definition FT260_I2C_STATUS_ARBITR_LOST : Z := 0x10.
Definition FT260_I2C_STATUS_CTRL_IDLE : Z := 0x20.
Definition FT260_I2C_STATUS_BUS_BUSY : Z := 0x40.

(** I2C Conditions flags *)
Definition FT260_FLAG_NONE : Z := 0x00.
Definition FT260_FLAG_START : Z := 0x02.
Definition FT260_FLAG_START_REPEATED : Z := 0x03.
Definition FT260_FLAG_STOP : Z := 0x04.
Definition FT260_FLAG_START_STOP : Z := 0x06.
Definition FT260_FLAG_START_STOP_REPEATED : Z := 0x07.

(** UART interface configuration *)
Definition FT260_CFG_FLOW_CTRL_OFF : Z := 0x00.
Definition FT260_CFG_FLOW_CTRL_RTS_CTS : Z := 0x01.
Definition FT260_CFG_FLOW_CTRL_DTR_DSR : Z := 0x02.
Definition FT260_CFG_FLOW_CTRL_XON_XOFF : Z := 0x03.
Definition FT260_CFG_FLOW_CTRL_NONE : Z := 0x04.
Definition FT260_CFG_DATA_BITS_7 : Z := 0x07.
Definition FT260_CFG_DATA_BITS_8 : Z := 0x08.
Definition FT260_CFG_PAR_NO : Z := 0x00.
Definition FT260_CFG_PAR_ODD : Z := 0x01.
Definition FT260_CFG_PAR_EVEN : Z := 0x02.
Definition FT260_CFG_STOP_ONE_BIT : Z := 0x00.
Definition FT260_CFG_STOP_TWO_BIT : Z := 0x02.
Definition FT260_CFG_BREAKING_NO : Z := 0x00.
Definition FT260_CFG_BEAKING_YES : Z := 0x01.
Definition FT260_CFG_BAUD_MIN : Z := 1200.
Definition FT260_CFG_BAUD_MAX : Z := 12000000.

(** ** Constants of the kernel headers the driver includes

    Error numbers of [asm-generic/errno-base.h] and [errno.h], SMBus
    transaction codes of [uapi/linux/i2c.h], control-mode bits of
    [asm-generic/termbits.h], power hints of [linux/hid.h]. *)

Definition EIO : Z := 5.
Definition EAGAIN : Z := 11.
Definition ENOMEM : Z := 12.
Definition EBUSY : Z := 16.
Definition EINVAL : Z := 22.
Definition EBADR : Z := 53.
Definition EOPNOTSUPP : Z := 95.
Definition ETIMEDOUT : Z := 110.

Definition I2C_M_RD : Z := 0x0001.
Definition I2C_SMBUS_READ : Z := 1.
Definition I2C_SMBUS_WRITE : Z := 0.
Definition I2C_SMBUS_QUICK : Z := 0.
Definition I2C_SMBUS_BYTE : Z := 1.
Definition I2C_SMBUS_BYTE_DATA : Z := 2.
Definition I2C_SMBUS_WORD_DATA : Z := 3.
Definition I2C_SMBUS_BLOCK_DATA : Z := 5.
Definition I2C_SMBUS_I2C_BLOCK_DATA : Z := 8.

Definition CSIZE : Z := 0x30.
Definition CS5 : Z := 0x00.
Definition CS6 : Z := 0x10.
Definition CS7 : Z := 0x20.
Definition CS8 : Z := 0x30.
Definition CSTOPB : Z := 0x40.
Definition PARENB : Z := 0x100.
Definition PARODD : Z := 0x200.
Definition CRTSCTS : Z := 0x80000000.

Definition PM_HINT_FULLON : Z := 1.
Definition PM_HINT_NORMAL : Z := 2.

(** ** C integer types *)

Definition u8 (x : Z) : Z := x mod 256.
Definition u16 (x : Z) : Z := x mod 65536.
Definition u32 (x : Z) : Z := x mod 4294967296.

(** [le16_to_cpu] of the two bytes of a [__le16] field, and
    [put_unaligned_le32]: the four bytes of a 32-bit value, low byte
    first.  [cpu_to_le32] is the identity (little-endian host). *)
Definition le16_to_cpu (lo hi : Z) : Z := u16 (u8 lo + 256 * u8 hi).
Definition cpu_to_le16 (x : Z) : list Z := [u8 x; u8 (Z.shiftr x 8)].
Definition cpu_to_le32 (x : Z) : Z := u32 x.
Definition put_unaligned_le32 (x : Z) : list Z :=
  [u8 x; u8 (Z.shiftr x 8); u8 (Z.shiftr x 16); u8 (Z.shiftr x 24)].

(** The value a little-endian byte sequence denotes. *)
Fixpoint le_value (bs : list Z) : Z :=
  match bs with
  | [] => 0
  | b :: rest => b + 256 * le_value rest
  end.

(** C's [/] on [int] truncates toward zero: [Z.quot]. *)
Definition FT260_I2C_DATA_REPORT_ID (len : Z) : Z :=
  FT260_I2C_REPORT_MIN + Z.quot (len - 1) 4.
Definition FT260_UART_DATA_REPORT_ID (len : Z) : Z :=
  FT260_UART_REPORT_MIN + Z.quot (len - 1) 4.

(** ** Byte buffers *)

(** [read_bytes buf off n]: the [n] bytes of [buf] from offset [off], when
    they all lie inside [buf]. *)
Definition read_bytes (buf : list Z) (off n : Z) : option (list Z) :=
  if (0 <=? off) && (0 <=? n) && (off + n <=? Z.of_nat (length buf))
  then Some (firstn (Z.to_nat n) (skipn (Z.to_nat off) buf))
  else None.

(** [write_bytes buf off src]: [buf] with [src] copied in at offset [off],
    when the copy stays inside [buf]. *)
Definition write_bytes (buf : list Z) (off : Z) (src : list Z) : option (list Z) :=
  if (0 <=? off) && (off + Z.of_nat (length src) <=? Z.of_nat (length buf))
  then Some (firstn (Z.to_nat off) buf ++ src
             ++ skipn (Z.to_nat off + length src) buf)
  else None.

(** ** The world *)

(** Calls that leave the driver, in the order they are made. *)
Inductive ext_call : Type :=
| HidOutputReport (buf : list Z)
| HidGetReport (report_id : Z) (len : Z)
| HidSetReport (buf : list Z)
| HidPower (hint : Z)
| UsleepRange (lo hi : Z)
| WaitForCompletion (msecs : Z)
| TtyInsertFlipString (chars : list Z)
| TtyFlipBufferPush
| TtyEncodeBaudRate (ibaud obaud : Z)
| TtyWakeup.

(** The fields of [struct ft260_device] the bridge engines use.
    [read_buf] is a pointer into the caller's memory: [None] is NULL,
    [Some off] an offset into [mem] of the world. *)
Record ft260_device : Type := mk_dev {
  write_buf : list Z;
  read_buf : option Z;
  read_idx : Z;
  read_len : Z;
  clock : Z;
  wait : nat;
  xmit_fifo : list Z;
  icount_tx : Z;
  icount_rx : Z;
  port_tty : bool
}.

Record world : Type := mk_world {
  dev : ft260_device;
  mem : list Z;
  log : list ext_call
}.

(** [struct ktermios], as far as the driver reads and writes it. *)
Record ktermios : Type := mk_termios {
  c_cflag : Z;
  c_ispeed : Z;
  c_ospeed : Z
}.

(** [struct i2c_msg].  [buf] holds the bytes of a write message; a read
    message is received into [mem] of the world. *)
Record i2c_msg : Type := mk_msg {
  addr : Z;
  flags : Z;
  len : Z;
  buf : list Z
}.

(** What the transport and the TTY layer answer, as functions of the calls
    made so far; [input_reports] are the reports the transport raises, in
    order, while a wait for completion sleeps. *)
Record environment : Type := mk_env {
  hid_hw_output_report : list ext_call -> list Z -> Z;
  hid_hw_raw_request_get : list ext_call -> Z -> Z -> Z * list Z;
  hid_hw_raw_request_set : list ext_call -> list Z -> Z;
  hid_hw_power : list ext_call -> Z -> Z;
  input_reports : list ext_call -> list (list Z);
  tty_insert_flip_string : list ext_call -> list Z -> Z;
  tty_termios_baud_rate : ktermios -> Z;
  tty_encode_baud_rate : ktermios -> Z -> Z -> ktermios
}.

Inductive fault : Type :=
| DivideByZero
| OutOfBounds
| NullDereference
| Diverges.

Inductive result (A : Type) : Type :=
| Ok (a : A) (w : world)
| Fault (f : fault).
Arguments Ok {A} a w.
Arguments Fault {A} f.

Definition M (A : Type) : Type := world -> result A.

Definition Return {A} (a : A) : M A := fun w => Ok a w.
Definition raise {A} (f : fault) : M A := fun _ => Fault f.
Definition bind {A B} (m : M A) (k : A -> M B) : M B :=
  fun w => match m w with
           | Ok a w' => k a w'
           | Fault f => Fault f
           end.

Declare Scope ft260_scope.
Delimit Scope ft260_scope with ft260.
Notation "x <- m ;; k" := (bind m (fun x => k))
  (at level 61, m at next level, right associativity) : ft260_scope.
Notation "m ;;; k" := (bind m (fun _ => k))
  (at level 61, right associativity) : ft260_scope.
Open Scope ft260_scope.

Definition get_dev : M ft260_device := fun w => Ok (dev w) w.
Definition put_dev (d : ft260_device) : M unit :=
  fun w => Ok tt (mk_world d (mem w) (log w)).
Definition get_mem : M (list Z) := fun w => Ok (mem w) w.
Definition put_mem (m : list Z) : M unit :=
  fun w => Ok tt (mk_world (dev w) m (log w)).
Definition get_log : M (list ext_call) := fun w => Ok (log w) w.
Definition call (c : ext_call) : M unit :=
  fun w => Ok tt (mk_world (dev w) (mem w) (log w ++ [c])).

Definition from_option {A} (f : fault) (o : option A) : M A :=
  match o with
  | Some a => Return a
  | None => raise f
  end.

(** Field updates of [struct ft260_device]. *)
Definition set_write_buf (b : list Z) (d : ft260_device) : ft260_device :=
  mk_dev b (read_buf d) (read_idx d) (read_len d) (clock d) (wait d)
         (xmit_fifo d) (icount_tx d) (icount_rx d) (port_tty d).
Definition set_read (buf : option Z) (idx len : Z) (d : ft260_device) : ft260_device :=
  mk_dev (write_buf d) buf idx len (clock d) (wait d)
         (xmit_fifo d) (icount_tx d) (icount_rx d) (port_tty d).
Definition set_read_idx (idx : Z) (d : ft260_device) : ft260_device :=
  set_read (read_buf d) idx (read_len d) d.
Definition set_clock (c : Z) (d : ft260_device) : ft260_device :=
  mk_dev (write_buf d) (read_buf d) (read_idx d) (read_len d) c (wait d)
         (xmit_fifo d) (icount_tx d) (icount_rx d) (port_tty d).
Definition set_wait (n : nat) (d : ft260_device) : ft260_device :=
  mk_dev (write_buf d) (read_buf d) (read_idx d) (read_len d) (clock d) n
         (xmit_fifo d) (icount_tx d) (icount_rx d) (port_tty d).
Definition set_xmit_fifo (q : list Z) (d : ft260_device) : ft260_device :=
  mk_dev (write_buf d) (read_buf d) (read_idx d) (read_len d) (clock d) (wait d)
         q (icount_tx d) (icount_rx d) (port_tty d).
Definition set_icount_tx (n : Z) (d : ft260_device) : ft260_device :=
  mk_dev (write_buf d) (read_buf d) (read_idx d) (read_len d) (clock d) (wait d)
         (xmit_fifo d) n (icount_rx d) (port_tty d).
Definition set_icount_rx (n : Z) (d : ft260_device) : ft260_device :=
  mk_dev (write_buf d) (read_buf d) (read_idx d) (read_len d) (clock d) (wait d)
         (xmit_fifo d) (icount_tx d) n (port_tty d).

Definition modify_dev (f : ft260_device -> ft260_device) : M unit :=
  fun w => Ok tt (mk_world (f (dev w)) (mem w) (log w)).

(** The reports the driver stages in [dev->write_buf]: a store of [src] at
    offset [off] of the 64-byte buffer. *)
Definition stage (off : Z) (src : list Z) : M unit :=
  d <- get_dev ;;
  b <- from_option OutOfBounds (write_bytes (write_buf d) off src) ;;
  put_dev (set_write_buf b d).

(** The first [len] bytes of [dev->write_buf], as handed to the transport. *)
Definition staged (len : Z) : M (list Z) :=
  d <- get_dev ;;
  from_option OutOfBounds (read_bytes (write_buf d) 0 len).

(** ** The I2C/SMBus bridge engine *)

Section Driver.

Variable env : environment.

(** [ft260_hid_feature_report_get]: the reply is copied out only when the
    transport returned exactly [len]; a short non-negative return is
    [-EIO].  A failed [kmalloc] is one more negative answer of the
    transport.  [data] is what the caller's buffer held before. *)
Definition ft260_hid_feature_report_get (report_id : Z) (data : list Z) (len : Z)
  : M (Z * list Z) :=
  h <- get_log ;;
  call (HidGetReport report_id len) ;;;
  let '(ret, buf) := hid_hw_raw_request_get env h report_id len in
  if ret =? len then Return (ret, firstn (Z.to_nat len) buf)
  else if 0 <=? ret then Return (- EIO, data)
  else Return (ret, data).

(** [ft260_hid_feature_report_set]: byte 0 of the copy is overwritten with
    [FT260_SYSTEM_SETTINGS] before it is sent. *)
Definition ft260_hid_feature_report_set (data : list Z) : M Z :=
  buf <- from_option OutOfBounds (write_bytes data 0 [FT260_SYSTEM_SETTINGS]) ;;
  h <- get_log ;;
  call (HidSetReport buf) ;;;
  Return (hid_hw_raw_request_set env h buf).

(** [ft260_i2c_reset]: a two-byte [ft260_set_i2c_reset_report]; its
    [report] byte is left unset by the caller and filled in by
    [ft260_hid_feature_report_set]. *)
Definition ft260_i2c_reset : M Z :=
  ft260_hid_feature_report_set [0; FT260_SET_I2C_RESET].

Definition bit_set (status flag : Z) : bool := negb (Z.land status flag =? 0).

(** [ft260_xfer_status]: reads the five-byte [ft260_get_i2c_status_report]
    (report, bus_status, clock lo, clock hi, reserved), caches the clock and
    decodes the bus status. *)
Definition ft260_xfer_status : M Z :=
  r <- ft260_hid_feature_report_get FT260_I2C_STATUS [] 5 ;;
  let '(ret, report) := r in
  if ret <? 0 then Return ret
  else
    let bus_status := nth 1 report 0 in
    modify_dev (set_clock (le16_to_cpu (nth 2 report 0) (nth 3 report 0))) ;;;
    if bit_set bus_status FT260_I2C_STATUS_CTRL_BUSY then Return (- EAGAIN)
    else if bit_set bus_status FT260_I2C_STATUS_BUS_BUSY then Return (- EBUSY)
    else if bit_set bus_status FT260_I2C_STATUS_ERROR then Return (- EIO)
    else if bit_set bus_status FT260_I2C_STATUS_CTRL_IDLE then Return 0
    else Return (- EIO).

(** [ft260_hid_output_report] *)
Definition ft260_hid_output_report (data : list Z) : M Z :=
  h <- get_log ;;
  call (HidOutputReport data) ;;;
  Return (hid_hw_output_report env h data).

(** The polling loop of [ft260_hid_output_report_check_status]:
    [do { ret = ft260_xfer_status(dev); if (ret != -EAGAIN) break; }
     while (--try);]  The argument is the number of polls still allowed
    after the one being made ([try - 1]). *)
Fixpoint ft260_poll_status (more : nat) : M Z :=
  ret <- ft260_xfer_status ;;
  if negb (ret =? - EAGAIN) then Return ret
  else match more with
       | O => Return ret
       | S k => ft260_poll_status k
       end.

(** [ft260_hid_output_report_check_status]: [data] is the report, [len]
    its length.  [10000 / dev->clock] is an [int] division. *)
Definition ft260_hid_output_report_check_status (data : list Z) (len : Z) : M Z :=
  ret <- ft260_hid_output_report data ;;
  if ret <? 0 then
    ft260_i2c_reset ;;; Return ret
  else
    d <- get_dev ;;
    if clock d =? 0 then raise DivideByZero
    else
      let usec := Z.quot 10000 (clock d) * len in
      call (UsleepRange usec (usec + 100)) ;;;
      ret <- ft260_poll_status 2 ;;
      if (ret =? 0) || (ret =? - EBUSY) then Return 0
      else ft260_i2c_reset ;;; Return (- EIO).

(** The chunk length [ft260_i2c_write] picks for the bytes left. *)
Definition wr_chunk (data_len : Z) : Z :=
  if data_len <=? FT260_WR_DATA_MAX then data_len else FT260_WR_DATA_MAX.

(** One turn of the loop of [ft260_i2c_write], up to the return value of
    the status check: the report is built in [dev->write_buf] (report,
    address, flag, length, data) and its first [len + 4] bytes are sent. *)
Definition ft260_i2c_write_fragment (addr : Z) (data : list Z) (data_len idx flag : Z)
  : M Z :=
  let len := wr_chunk data_len in
  stage 0 [u8 (FT260_I2C_DATA_REPORT_ID len)] ;;;
  stage 1 [u8 addr] ;;;
  stage 3 [u8 len] ;;;
  stage 2 [u8 flag] ;;;
  chunk <- from_option OutOfBounds (read_bytes data idx len) ;;
  stage 4 chunk ;;;
  rep <- staged (len + 4) ;;
  ft260_hid_output_report_check_status rep (len + 4).

(** [ft260_i2c_write]: [data] is the object [data] points to, [data_len]
    the number of bytes to send from it. *)
Equations? ft260_i2c_write_from (addr : Z) (data : list Z) (data_len idx flag : Z)
  (w : world) : result Z by wf (Z.to_nat data_len) lt :=
  ft260_i2c_write_from addr data data_len idx flag w
    with ft260_i2c_write_fragment addr data data_len idx flag w := {
    | Fault f := Fault f
    | Ok ret w' with Z_lt_dec ret 0 := {
      | left _ := Ok ret w'
      | right _ with Z_gt_dec (data_len - wr_chunk data_len) 0 := {
        | left _ := ft260_i2c_write_from addr data (data_len - wr_chunk data_len)
                      (idx + wr_chunk data_len) flag w'
        | right _ := Ok 0 w' } } }.
Proof.
  unfold wr_chunk, FT260_WR_DATA_MAX in *.
  destruct (data_len <=? 60) eqn:E; lia.
Qed.

Definition ft260_i2c_write (addr : Z) (data : list Z) (data_len flag : Z) : M Z :=
  ft260_i2c_write_from addr data data_len 0 flag.

(** [ft260_smbus_write]: [data] is the object [data] points to ([None] for
    NULL), [data_len] a [u8].  The report id is computed from [len], the
    length of the whole report (four header bytes and [rep->length]). *)
Definition ft260_smbus_write (addr cmd : Z) (data : option (list Z))
  (data_len flag : Z) : M Z :=
  let data_len := u8 data_len in
  if 60 <=? data_len then Return (- EINVAL)
  else
    stage 1 [u8 addr] ;;;
    stage 4 [u8 cmd] ;;;
    stage 3 [u8 (data_len + 1)] ;;;
    stage 2 [u8 flag] ;;;
    let len := 4 + u8 (data_len + 1) in
    stage 0 [u8 (FT260_I2C_DATA_REPORT_ID len)] ;;;
    (if 0 <? data_len then
       region <- from_option NullDereference data ;;
       src <- from_option OutOfBounds (read_bytes region 0 data_len) ;;
       stage 5 src
     else Return tt) ;;;
    rep <- staged len ;;
    ft260_hid_output_report_check_status rep len.

(** ** The UART receive path and the report dispatcher *)

(** [ft260_uart_receive_chars]: [data] is the payload area of the report.
    [tty_insert_flip_string] answers how many characters it took. *)
Definition ft260_uart_receive_chars (data : list Z) (length : Z) : M Z :=
  let length := u8 length in
  if FT260_RD_DATA_MAX <? length then Return (- EBADR)
  else
    src <- from_option OutOfBounds (read_bytes data 0 length) ;;
    h <- get_log ;;
    let ret := tty_insert_flip_string env h src in
    call (TtyInsertFlipString (firstn (Z.to_nat ret) src)) ;;;
    modify_dev (fun d => set_icount_rx (u32 (icount_rx d + ret)) d) ;;;
    (if negb (ret =? 0) then call TtyFlipBufferPush else Return tt) ;;;
    Return ret.

Definition complete : M unit := modify_dev (fun d => set_wait (S (wait d)) d).
Definition reinit_completion : M unit := modify_dev (set_wait 0).

Definition in_range (lo hi x : Z) : bool := (lo <=? x) && (x <=? hi).

(** [ft260_raw_event]: [data] is the raw report, [xfer->report] its byte 0,
    [xfer->length] its byte 1, [xfer->data] what follows. *)
Definition ft260_raw_event (data : list Z) : M Z :=
  hdr <- from_option OutOfBounds (read_bytes data 0 2) ;;
  let report := nth 0 hdr 0 in
  let length := nth 1 hdr 0 in
  if in_range FT260_I2C_REPORT_MIN FT260_I2C_REPORT_MAX report then
    d <- get_dev ;;
    dst <- from_option NullDereference (read_buf d) ;;
    src <- from_option OutOfBounds (read_bytes data 2 length) ;;
    m <- get_mem ;;
    m' <- from_option OutOfBounds (write_bytes m (dst + read_idx d) src) ;;
    put_mem m' ;;;
    let idx := u16 (read_idx d + length) in
    modify_dev (set_read_idx idx) ;;;
    (if idx =? read_len d then complete else Return tt) ;;;
    Return 1
  else if FT260_RD_DATA_MAX <? length then Return (- EBADR)
  else if in_range FT260_UART_REPORT_MIN FT260_UART_REPORT_MAX report then
    ft260_uart_receive_chars (skipn 2 data) length
  else Return 0.

(** ** Waiting for a read to complete *)

(** The transport hands its reports to [ft260_raw_event] one by one; the
    sleeper is woken as soon as the completion is signalled. *)
Fixpoint deliver (reports : list (list Z)) : M unit :=
  match reports with
  | [] => Return tt
  | r :: rest =>
      d <- get_dev ;;
      match wait d with
      | S _ => Return tt
      | O => ft260_raw_event r ;;; deliver rest
      end
  end.

(** [wait_for_completion_timeout]: 0 when the deadline passed with the
    completion not signalled, a positive number otherwise (the signal is
    consumed). *)
Definition wait_for_completion_timeout (msecs : Z) : M Z :=
  h <- get_log ;;
  call (WaitForCompletion msecs) ;;;
  deliver (input_reports env h) ;;;
  d <- get_dev ;;
  match wait d with
  | O => Return 0
  | S n => modify_dev (set_wait n) ;;; Return 1
  end.

(** [ft260_i2c_read]: [data] points into [mem]; [len] is a [u16].  The
    request is the five-byte [ft260_i2c_read_request_report]. *)
Definition ft260_i2c_read (addr : Z) (data : option Z) (len flag : Z) : M Z :=
  let len := u16 len in
  if FT260_RD_DATA_MAX <? len then Return (- EINVAL)
  else
    modify_dev (set_read data 0 len) ;;;
    let rep := [FT260_I2C_READ_REQ; u8 addr; u8 flag] ++ cpu_to_le16 len in
    reinit_completion ;;;
    ret <- ft260_hid_output_report rep ;;
    if ret <? 0 then Return ret
    else
      timeout <- wait_for_completion_timeout 5000 ;;
      if timeout =? 0 then
        ft260_i2c_reset ;;; Return (- ETIMEDOUT)
      else
        ret <- ft260_xfer_status ;;
        if ret =? 0 then Return 0
        else ft260_i2c_reset ;;; Return (- EIO).

(** The chunk length [ft260_i2c_write_read] picks for the bytes left. *)
Definition rd_chunk (left_len : Z) : Z :=
  if left_len <=? FT260_RD_DATA_MAX then left_len else FT260_RD_DATA_MAX.

(** One turn of the loop of [ft260_i2c_write_read]: the dummy write of the
    bytes of [read_off], then the read of the next chunk. *)
Definition ft260_i2c_write_read_turn (addr0 len0 : Z) (read_off : list Z)
  (left_len read_buf : Z) : M Z :=
  ret <- ft260_i2c_write addr0 read_off len0 FT260_FLAG_START ;;
  if ret <? 0 then Return ret
  else ft260_i2c_read addr0 (Some read_buf) (rd_chunk left_len) FT260_FLAG_START_STOP.

(** The loop of [ft260_i2c_write_read].  [read_off] is the [u16] local as
    its two bytes in memory; [read_off += len] wraps at 16 bits. *)
Equations? ft260_i2c_write_read_from (addr0 len0 : Z) (read_off : list Z)
  (left_len read_buf : Z) (w : world) : result Z by wf (Z.to_nat left_len) lt :=
  ft260_i2c_write_read_from addr0 len0 read_off left_len read_buf w
    with ft260_i2c_write_read_turn addr0 len0 read_off left_len read_buf w := {
    | Fault f := Fault f
    | Ok ret w' with Z_lt_dec ret 0 := {
      | left _ := Ok ret w'
      | right _ with Z_gt_dec (u16 (left_len - rd_chunk left_len)) 0 := {
        | left _ := ft260_i2c_write_read_from addr0 len0
                      (cpu_to_le16 (le_value read_off + rd_chunk left_len))
                      (u16 (left_len - rd_chunk left_len))
                      (read_buf + rd_chunk left_len) w'
        | right _ := Ok 0 w' } } }.
Proof.
  unfold rd_chunk, FT260_RD_DATA_MAX, u16 in *.
  destruct (left_len <=? 60) eqn:E.
  - rewrite Z.sub_diag in *. cbn in *. lia.
  - apply Z.leb_gt in E.
    assert ((left_len - 60) mod 65536 <= left_len - 60) by (apply Z.mod_le; lia).
    lia.
Qed.

(** [ft260_i2c_write_read]: [msgs] is the array of two messages. *)
Definition ft260_i2c_write_read (msgs : list i2c_msg) : M Z :=
  msg0 <- from_option OutOfBounds (nth_error msgs 0) ;;
  msg1 <- from_option OutOfBounds (nth_error msgs 1) ;;
  let left_len := u16 (len msg1) in
  let addr0 := u8 (addr msg0) in
  if 2 <? u16 (len msg0) then Return (- EOPNOTSUPP)
  else
    src <- from_option OutOfBounds (read_bytes (buf msg0) 0 (u16 (len msg0))) ;;
    read_off <- from_option OutOfBounds (write_bytes [0; 0] 0 src) ;;
    ft260_i2c_write_read_from addr0 (u16 (len msg0)) read_off left_len 0.

(** [hid_hw_power] *)
Definition hw_power (hint : Z) : M Z :=
  h <- get_log ;;
  call (HidPower hint) ;;;
  Return (hid_hw_power env h hint).

(** [ft260_i2c_xfer] (the mutex is not modelled: one call at a time). *)
Definition ft260_i2c_xfer (msgs : list i2c_msg) (num : Z) : M Z :=
  ret <- hw_power PM_HINT_FULLON ;;
  if ret <? 0 then Return ret
  else
    ret <- (if num =? 1 then
              msg <- from_option OutOfBounds (nth_error msgs 0) ;;
              if bit_set (flags msg) I2C_M_RD then
                ft260_i2c_read (addr msg) (Some 0) (len msg) FT260_FLAG_START_STOP
              else
                ft260_i2c_write (u8 (addr msg)) (buf msg) (u16 (len msg))
                                FT260_FLAG_START_STOP
            else ft260_i2c_write_read msgs) ;;
    hw_power PM_HINT_NORMAL ;;;
    if ret <? 0 then Return ret else Return num.

(** [ft260_smbus_xfer]: [union i2c_smbus_data *data] is [mem] of the world
    ([data->byte], [data->word] and [data->block] all start at offset 0).
    A write phase that does not return 0 skips the read phase. *)
Definition ft260_smbus_read_after_write (addr cmd : Z) (dst : Z) (n : Z) : M Z :=
  ret <- ft260_smbus_write addr cmd None 0 FT260_FLAG_START ;;
  if negb (ret =? 0) then Return ret
  else ft260_i2c_read addr (Some dst) n FT260_FLAG_START_STOP_REPEATED.

Definition ft260_smbus_xfer (addr flags read_write cmd size : Z) : M Z :=
  ret <- hw_power PM_HINT_FULLON ;;
  if ret <? 0 then Return ret
  else
    data <- get_mem ;;
    let rd := read_write =? I2C_SMBUS_READ in
    ret <-
      (if size =? I2C_SMBUS_QUICK then
         if rd then ft260_i2c_read addr (Some 0) 0 FT260_FLAG_START_STOP
         else ft260_smbus_write addr cmd None 0 FT260_FLAG_START_STOP
       else if size =? I2C_SMBUS_BYTE then
         if rd then ft260_i2c_read addr (Some 0) 1 FT260_FLAG_START_STOP
         else ft260_smbus_write addr cmd None 0 FT260_FLAG_START_STOP
       else if size =? I2C_SMBUS_BYTE_DATA then
         if rd then ft260_smbus_read_after_write addr cmd 0 1
         else ft260_smbus_write addr cmd (Some data) 1 FT260_FLAG_START_STOP
       else if size =? I2C_SMBUS_WORD_DATA then
         if rd then ft260_smbus_read_after_write addr cmd 0 2
         else ft260_smbus_write addr cmd (Some data) 2 FT260_FLAG_START_STOP
       else if size =? I2C_SMBUS_BLOCK_DATA then
         if rd then
           ret <- ft260_smbus_write addr cmd None 0 FT260_FLAG_START ;;
           if negb (ret =? 0) then Return ret
           else
             block0 <- from_option OutOfBounds (nth_error data 0) ;;
             ft260_i2c_read addr (Some 0) (block0 + 1)
                            FT260_FLAG_START_STOP_REPEATED
         else
           block0 <- from_option OutOfBounds (nth_error data 0) ;;
           ft260_smbus_write addr cmd (Some data) (block0 + 1) FT260_FLAG_START_STOP
       else if size =? I2C_SMBUS_I2C_BLOCK_DATA then
         if rd then
           ret <- ft260_smbus_write addr cmd None 0 FT260_FLAG_START ;;
           if negb (ret =? 0) then Return ret
           else
             block0 <- from_option OutOfBounds (nth_error data 0) ;;
             ft260_i2c_read addr (Some 1) block0 FT260_FLAG_START_STOP_REPEATED
         else
           block0 <- from_option OutOfBounds (nth_error data 0) ;;
           ft260_smbus_write addr cmd (Some (skipn 1 data)) block0
                             FT260_FLAG_START_STOP
       else Return (- EOPNOTSUPP)) ;;
    hw_power PM_HINT_NORMAL ;;;
    Return ret.

(** ** The UART bridge engine *)

Definition kfifo_len (d : ft260_device) : Z := Z.of_nat (length (xmit_fifo d)).

(** [kfifo_out_locked]: takes up to [len] bytes off the head of the fifo. *)
Definition kfifo_out_locked (len : Z) : M (list Z) :=
  d <- get_dev ;;
  let out := firstn (Z.to_nat len) (xmit_fifo d) in
  put_dev (set_xmit_fifo (skipn (Z.to_nat len) (xmit_fifo d)) d) ;;;
  Return out.

(** [kfifo_in_locked]: appends as many of the bytes as the fifo has room
    for, and returns how many. *)
Definition kfifo_in_locked (src : list Z) : M Z :=
  d <- get_dev ;;
  let room := FIFO_SIZE - kfifo_len d in
  let taken := firstn (Z.to_nat room) src in
  put_dev (set_xmit_fifo (xmit_fifo d ++ taken) d) ;;;
  Return (Z.of_nat (length taken)).

(** One turn of the loop of [ft260_uart_transmit_chars]: the two-byte
    header (report, length) and the bytes taken off the fifo are staged in
    [dev->write_buf].  Returns the result of the send and the number of
    bytes [kfifo_out_locked] gave. *)
Definition ft260_uart_transmit_chunk (data_len : Z) : M (Z * Z) :=
  let len := Z.min data_len FT260_WR_DATA_MAX in
  stage 0 [u8 (FT260_UART_DATA_REPORT_ID len)] ;;;
  stage 1 [u8 len] ;;;
  out <- kfifo_out_locked len ;;
  let len := Z.of_nat (length out) in
  stage 2 out ;;;
  rep <- staged (len + 2) ;;
  ret <- ft260_hid_output_report rep ;;
  Return (ret, len).

(** The loop of [ft260_uart_transmit_chars].  A turn that takes nothing
    off the fifo while bytes are still owed would repeat for ever. *)
Equations? ft260_uart_transmit_from (data_len : Z) (w : world)
  : result Z by wf (Z.to_nat data_len) lt :=
  ft260_uart_transmit_from data_len w with ft260_uart_transmit_chunk data_len w := {
    | Fault f := Fault f
    | Ok (ret, len) w' with Z_lt_dec ret 0 := {
      | left _ := Ok ret w'
      | right _ with Z_gt_dec (data_len - len) 0 := {
        | right _ := Ok 0 (mk_world (set_icount_tx (u32 (icount_tx (dev w') + len)) (dev w'))
                                    (mem w') (log w'))
        | left _ with Z_gt_dec len 0 := {
          | left _ := ft260_uart_transmit_from (data_len - len)
                        (mk_world (set_icount_tx (u32 (icount_tx (dev w') + len)) (dev w'))
                                  (mem w') (log w'))
          | right _ := Fault Diverges } } } }.
Proof. lia. Qed.

(** [ft260_uart_transmit_chars] *)
Definition ft260_uart_transmit_chars : M Z :=
  d <- get_dev ;;
  let data_len := kfifo_len d in
  if negb (port_tty d) || (data_len =? 0) then Return (- EINVAL)
  else
    ret <- ft260_uart_transmit_from data_len ;;
    if ret <? 0 then Return ret
    else
      d <- get_dev ;;
      (if TTY_WAKEUP_WATERMARK <? FIFO_SIZE - kfifo_len d
       then call TtyWakeup else Return tt) ;;;
      Return 0.

(** [ft260_uart_write]: [buf] is the caller's buffer, [count] how many of
    its bytes to queue. *)
Definition ft260_uart_write (buf : list Z) (count : Z) : M Z :=
  src <- from_option OutOfBounds (read_bytes buf 0 count) ;;
  ret <- kfifo_in_locked src ;;
  ft260_uart_transmit_chars ;;;
  Return ret.

Definition ft260_uart_write_room : M Z :=
  d <- get_dev ;; Return (FIFO_SIZE - kfifo_len d).

Definition ft260_uart_chars_in_buffer : M Z :=
  d <- get_dev ;; Return (kfifo_len d).

(** [struct ft260_configure_uart_request], packed: 11 bytes. *)
Record ft260_configure_uart_request : Type := mk_req {
  report : Z;
  request : Z;
  flow_ctrl : Z;
  baudrate : list Z;
  data_bit : Z;
  parity : Z;
  stop_bit : Z;
  breaking : Z
}.

Definition req_bytes (r : ft260_configure_uart_request) : list Z :=
  [report r; request r; flow_ctrl r] ++ baudrate r
  ++ [data_bit r; parity r; stop_bit r; breaking r].

(** The [switch (termios->c_cflag & CSIZE)] of [ft260_uart_change_speed]:
    the data-bit code and the termios it leaves ([CS5] and [CS6] store
    [CS8] over the whole of [c_cflag]). *)
Definition change_speed_data_bit (termios : ktermios) : Z * ktermios :=
  let sz := Z.land (c_cflag termios) CSIZE in
  if sz =? CS7 then (FT260_CFG_DATA_BITS_7, termios)
  else if (sz =? CS5) || (sz =? CS6) then
    (FT260_CFG_DATA_BITS_8, mk_termios CS8 (c_ispeed termios) (c_ospeed termios))
  else (FT260_CFG_DATA_BITS_8, termios).

(** The test [baud == 0 || baud < FT260_CFG_BAUD_MIN || baud > FT260_CFG_BAUD_MAX]. *)
Definition baud_invalid (baud : Z) : bool :=
  (baud =? 0) || (baud <? FT260_CFG_BAUD_MIN) || (FT260_CFG_BAUD_MAX <? baud).

(** [ft260_uart_change_speed]: returns the result of the feature-report
    send and the termios as the function leaves it.  [req] starts zeroed
    ([memset]); the two assignments after the debug print overwrite the
    flow control just derived from [CRTSCTS]. *)
Definition ft260_uart_change_speed (termios : ktermios) : M (Z * ktermios) :=
  d <- get_dev ;;
  let '(db, termios) := change_speed_data_bit termios in
  let sb := if bit_set (c_cflag termios) CSTOPB
            then FT260_CFG_STOP_TWO_BIT else FT260_CFG_STOP_ONE_BIT in
  let par := if bit_set (c_cflag termios) PARENB
             then (if bit_set (c_cflag termios) PARODD
                   then FT260_CFG_PAR_ODD else FT260_CFG_PAR_EVEN)
             else FT260_CFG_PAR_NO in
  let baud := u32 (tty_termios_baud_rate env termios) in
  bt <-
    (if baud_invalid baud then
       if port_tty d then
         call (TtyEncodeBaudRate 9600 9600) ;;;
         Return (9600, tty_encode_baud_rate env termios 9600 9600)
       else raise NullDereference
     else Return (baud, termios)) ;;
  let '(baud, termios) := bt in
  let requested_flow := if bit_set (c_cflag termios) CRTSCTS
                        then FT260_CFG_FLOW_CTRL_RTS_CTS
                        else FT260_CFG_FLOW_CTRL_OFF in
  let req := mk_req FT260_SYSTEM_SETTINGS FT260_SET_UART_CONFIG requested_flow
                    (put_unaligned_le32 (cpu_to_le32 baud)) db par sb 0 in
  let req := mk_req (report req) (request req) FT260_CFG_FLOW_CTRL_NONE
                    (baudrate req) (data_bit req) (parity req) (stop_bit req)
                    FT260_CFG_BREAKING_NO in
  ret <- ft260_hid_feature_report_set (req_bytes req) ;;
  Return (ret, termios).

End Driver.

(** ** The interface type, the sysfs attributes and the opening of a port *)

(** Device interface configuration *)
Definition FT260_MODE_ALL : Z := 0x00.
Definition FT260_MODE_I2C : Z := 0x01.
Definition FT260_MODE_UART : Z := 0x02.
Definition FT260_MODE_BOTH : Z := 0x03.

(** Feature Out requests of the sysfs attributes *)
Definition FT260_SET_CLOCK : Z := 0x01.
Definition FT260_SET_I2C_MODE : Z := 0x02.
Definition FT260_SET_UART_MODE : Z := 0x03.
Definition FT260_SET_I2C_CLOCK_SPEED : Z := 0x22.

(** Return values for ft260_get_interface_type func *)
Definition FT260_IFACE_NONE : Z := 0.
Definition FT260_IFACE_I2C : Z := 1.
Definition FT260_IFACE_UART : Z := 2.

(** Number of UARTs this driver can handle *)
Definition UART_COUNT_MAX : Z := 4.

(** Bit number of the I/O error marker in [tty->flags] ([linux/tty.h]). *)
Definition TTY_IO_ERROR : Z := 1.

(** Conversion to [int] and to [ssize_t], as the compiler of the kernel
    makes it: the value modulo 2^32 (2^64), read as a signed number. *)
Definition s32 (x : Z) : Z := (x + 2147483648) mod 4294967296 - 2147483648.
Definition s64 (x : Z) : Z :=
  (x + 9223372036854775808) mod 18446744073709551616 - 9223372036854775808.

Section Attributes.

Variable env : environment.

(** [ft260_get_system_config]: [cfg] is what the caller's 25-byte
    [struct ft260_get_system_status_report] holds before the call; the
    result carries what it holds after. *)
Definition ft260_get_system_config (cfg : list Z) : M (Z * list Z) :=
  r <- ft260_hid_feature_report_get env FT260_SYSTEM_SETTINGS cfg 25 ;;
  let '(ret, cfg) := r in
  if ret <? 0 then Return (ret, cfg) else Return (0, cfg).

(** [ft260_get_interface_type]: [interface] is [bInterfaceNumber] of the
    USB interface, [is_serial] the value of [dev->ft260_is_serial] before
    the call, [cfg] what the local structure happens to hold.  Returns the
    interface type and [dev->ft260_is_serial] after the call.  The
    [switch] has no [default]: for another chip mode [ret] keeps the 0 that
    [ft260_get_system_config] returned. *)
Definition ft260_get_interface_type (interface is_serial : Z) (cfg : list Z)
  : M (Z * Z) :=
  r <- ft260_get_system_config cfg ;;
  let '(ret, cfg) := r in
  if ret <? 0 then Return (ret, is_serial)
  else
    let chip_mode := nth 1 cfg 0 in
    if (chip_mode =? FT260_MODE_ALL) || (chip_mode =? FT260_MODE_BOTH) then
      if interface =? 1 then Return (FT260_IFACE_UART, 1)
      else Return (FT260_IFACE_I2C, is_serial)
    else if chip_mode =? FT260_MODE_UART then Return (FT260_IFACE_UART, 1)
    else if chip_mode =? FT260_MODE_I2C then Return (FT260_IFACE_I2C, is_serial)
    else Return (ret, is_serial).

(** [FT260_BYTE_ATTR_STORE] ([i2c_enable_store], [uart_mode_store],
    [clock_ctl_store]): [req] is the request code of the attribute,
    [parsed] what [kstrtou8] made of the text ([None] when it failed).
    The three bytes of the report structure are all assigned.  [count] is
    a [size_t]; [ret = count] stores it in the [int ret]. *)
Definition ft260_byte_attr_store (req : Z) (parsed : option Z) (count : Z) : M Z :=
  match parsed with
  | Some name =>
      let rep := [FT260_SYSTEM_SETTINGS; req; u8 name] in
      ret <- ft260_hid_feature_report_set env rep ;;
      if ret =? 0 then Return (s32 count) else Return ret
  | None => Return (- EINVAL)
  end.

(** [FT260_WORD_ATTR_STORE] ([clock_store]): the value is a [u16], stored
    in the [__le16] field as the host has it. *)
Definition ft260_word_attr_store (req : Z) (parsed : option Z) (count : Z) : M Z :=
  match parsed with
  | Some name =>
      let rep := [FT260_SYSTEM_SETTINGS; req] ++ cpu_to_le16 name in
      ret <- ft260_hid_feature_report_set env rep ;;
      if ret =? 0 then Return (s32 count) else Return ret
  | None => Return (- EINVAL)
  end.

Definition i2c_enable_store := ft260_byte_attr_store FT260_SET_I2C_MODE.
Definition uart_mode_store := ft260_byte_attr_store FT260_SET_UART_MODE.
Definition clock_ctl_store := ft260_byte_attr_store FT260_SET_CLOCK.
Definition clock_store := ft260_word_attr_store FT260_SET_I2C_CLOCK_SPEED.

(** [i2c_reset_store]: [return count] turns the [size_t] into the
    [ssize_t] the function returns. *)
Definition i2c_reset_store (count : Z) : M Z :=
  ret <- ft260_i2c_reset env ;;
  if negb (ret =? 0) then Return ret else Return (s64 count).

(** [ft260_uart_activate]: [tty_flags] is [tty->flags], [termios]
    [tty->termios]; the result carries both as the function leaves them.
    [kfifo_reset] empties the fifo. *)
Definition ft260_uart_activate (termios : ktermios) (tty_flags : Z)
  : M (Z * ktermios * Z) :=
  let tty_flags := Z.setbit tty_flags TTY_IO_ERROR in
  modify_dev (set_xmit_fifo []) ;;;
  r <- ft260_uart_change_speed env termios ;;
  let '(_, termios) := r in
  let tty_flags := Z.clearbit tty_flags TTY_IO_ERROR in
  Return (0, termios, tty_flags).

End Attributes.

(** ** Probing and removing the device *)

(** Calls into the HID core, the I2C core, sysfs, the TTY port layer and
    the kfifo allocator, in the order they are made.  Ports are named by
    numbers (the pointers the table holds). *)
Inductive kernel_call : Type :=
| HidParse
| HidHwStart
| HidHwOpen
| HidHwClose
| HidHwStop
| HidSetDrvdata
| I2cAddAdapter
| I2cDelAdapter
| SysfsCreateGroup
| SysfsRemoveGroup
| TtyPortInit (port : nat)
| KfifoAlloc (port : nat)
| KfifoFree (port : nat)
| TtyPortGet (port : nat)
| TtyPortTtyHangup (port : nat)
| TtyPortRegisterDeviceAttr (index : Z)
| TtyPortUnregisterDevice (index : Z).

(** What those calls answer: return values, [true] for a pointer that is
    not NULL; [tty_port_register_device_attr] is 0 for a valid pointer and
    the [PTR_ERR] value otherwise. *)
Record kernel : Type := mk_kernel {
  hid_is_usb : bool;
  devm_kzalloc : bool;
  hid_parse : Z;
  hid_hw_start : Z;
  hid_hw_open : Z;
  i2c_add_adapter : Z;
  sysfs_create_group : Z;
  kfifo_alloc : Z;
  tty_port_register_device_attr : Z
}.

(** The device being probed, beyond the engine fields: [bridge] is the
    world of the bridge engines, [ft260_is_serial] and [index] are fields
    of [struct ft260_device], [drvdata] says whether [hid_set_drvdata] has
    stored the device, [ft260_uart_table] is the global table of ports. *)
Record host : Type := mk_host {
  bridge : world;
  ft260_is_serial : Z;
  index : Z;
  drvdata : bool;
  ft260_uart_table : list (option nat);
  kcalls : list kernel_call
}.

Inductive outcome (A : Type) : Type :=
| Done (a : A) (h : host)
| Stopped (f : fault).
Arguments Done {A} a h.
Arguments Stopped {A} f.

Definition HostM (A : Type) : Type := host -> outcome A.

Definition hret {A} (a : A) : HostM A := fun h => Done a h.
Definition hraise {A} (f : fault) : HostM A := fun _ => Stopped f.
Definition hbind {A B} (m : HostM A) (k : A -> HostM B) : HostM B :=
  fun h => match m h with
           | Done a h' => k a h'
           | Stopped f => Stopped f
           end.

Declare Scope host_scope.
Delimit Scope host_scope with host.
Notation "x <- m ;; k" := (hbind m (fun x => k))
  (at level 61, m at next level, right associativity) : host_scope.
Notation "m ;;; k" := (hbind m (fun _ => k))
  (at level 61, right associativity) : host_scope.

(** A step of the bridge engines, run inside the host. *)
Definition lift {A} (m : M A) : HostM A :=
  fun h => match m (bridge h) with
           | Ok a w => Done a (mk_host w (ft260_is_serial h) (index h) (drvdata h)
                                       (ft260_uart_table h) (kcalls h))
           | Fault f => Stopped f
           end.

Definition kcall (c : kernel_call) : HostM unit :=
  fun h => Done tt (mk_host (bridge h) (ft260_is_serial h) (index h) (drvdata h)
                            (ft260_uart_table h) (kcalls h ++ [c])).

Definition get_host : HostM host := fun h => Done h h.

Definition set_is_serial (v : Z) : HostM unit :=
  fun h => Done tt (mk_host (bridge h) v (index h) (drvdata h)
                            (ft260_uart_table h) (kcalls h)).
Definition set_index (v : Z) : HostM unit :=
  fun h => Done tt (mk_host (bridge h) (ft260_is_serial h) v (drvdata h)
                            (ft260_uart_table h) (kcalls h)).
Definition set_drvdata (v : bool) : HostM unit :=
  fun h => Done tt (mk_host (bridge h) (ft260_is_serial h) (index h) v
                            (ft260_uart_table h) (kcalls h)).
Definition set_table (t : list (option nat)) : HostM unit :=
  fun h => Done tt (mk_host (bridge h) (ft260_is_serial h) (index h) (drvdata h)
                            t (kcalls h)).

Definition hfrom_option {A} (f : fault) (o : option A) : HostM A :=
  match o with
  | Some a => hret a
  | None => hraise f
  end.

(** [table[i] = v], when [i] is a slot of the table. *)
Definition store_slot (t : list (option nat)) (i : Z) (v : option nat)
  : option (list (option nat)) :=
  if (0 <=? i) && (i <? Z.of_nat (length t))
  then Some (firstn (Z.to_nat i) t ++ v :: skipn (S (Z.to_nat i)) t)
  else None.

(** [table[i]], when [i] is a slot of the table. *)
Definition load_slot (t : list (option nat)) (i : Z) : option (option nat) :=
  if 0 <=? i then nth_error t (Z.to_nat i) else None.

Section Probe.

Variable env : environment.
Variable kern : kernel.

Local Open Scope host_scope.

(** The loop of [ft260_uart_add_port], from slot [index] on.  [fuel]
    bounds the number of turns; the loop leaves by its condition before
    the bound is reached. *)
Fixpoint ft260_uart_add_port_from (port : nat) (fuel : nat) (index : Z) : HostM Z :=
  match fuel with
  | O => hraise Diverges
  | S k =>
      if index <? UART_COUNT_MAX then
        h <- get_host ;;
        slot <- hfrom_option OutOfBounds (load_slot (ft260_uart_table h) index) ;;
        match slot with
        | None =>
            set_index index ;;;
            t <- hfrom_option OutOfBounds
                   (store_slot (ft260_uart_table h) index (Some port)) ;;
            set_table t ;;;
            hret 0
        | Some _ => ft260_uart_add_port_from port k (index + 1)
        end
      else hret (- EBUSY)
  end.

(** [ft260_uart_add_port] *)
Definition ft260_uart_add_port (port : nat) : HostM Z :=
  kcall (KfifoAlloc port) ;;;
  if negb (kfifo_alloc kern =? 0) then hret (- ENOMEM)
  else ft260_uart_add_port_from port (S (Z.to_nat UART_COUNT_MAX)) 0.

(** [ft260_uart_port_remove] *)
Definition ft260_uart_port_remove (port : nat) : HostM unit :=
  h <- get_host ;;
  t <- hfrom_option OutOfBounds (store_slot (ft260_uart_table h) (index h) None) ;;
  set_table t ;;;
  kcall (TtyPortTtyHangup port) ;;;
  kcall (KfifoFree port).

(** [ft260_uart_port_get]: [index] is an [unsigned int]. *)
Definition ft260_uart_port_get (index : Z) : HostM (option nat) :=
  let index := u32 index in
  if UART_COUNT_MAX <=? index then hret None
  else
    h <- get_host ;;
    port <- hfrom_option OutOfBounds (load_slot (ft260_uart_table h) index) ;;
    match port with
    | Some p => kcall (TtyPortGet p) ;;; hret (Some p)
    | None => hret None
    end.

(** [ft260_i2c_probe].  The fields of the adapter and its name are not
    modelled.  After [sysfs_create_group] control reaches the label
    [err_i2c_free] on both branches. *)
Definition ft260_i2c_probe : HostM Z :=
  ret <- lift (ft260_xfer_status env) ;;
  (if negb (ret =? 0) then lift (ft260_i2c_reset env) ;;; hret tt else hret tt) ;;;
  kcall I2cAddAdapter ;;;
  let ret := i2c_add_adapter kern in
  if negb (ret =? 0) then hret ret
  else
    kcall SysfsCreateGroup ;;;
    let ret := sysfs_create_group kern in
    kcall I2cDelAdapter ;;;
    hret ret.

(** The configuration [ft260_uart_probe] sends: 9600-8-N-1. *)
Definition ft260_uart_probe_request : ft260_configure_uart_request :=
  mk_req FT260_SYSTEM_SETTINGS FT260_SET_UART_CONFIG FT260_CFG_FLOW_CTRL_NONE
         (put_unaligned_le32 (cpu_to_le32 9600)) FT260_CFG_DATA_BITS_8
         FT260_CFG_PAR_NO FT260_CFG_STOP_ONE_BIT FT260_CFG_BREAKING_NO.

(** [ft260_uart_probe] *)
Definition ft260_uart_probe (port : nat) : HostM Z :=
  kcall (TtyPortInit port) ;;;
  ret <- ft260_uart_add_port port ;;
  if negb (ret =? 0) then hret ret
  else
    h <- get_host ;;
    kcall (TtyPortRegisterDeviceAttr (index h)) ;;;
    let devt := tty_port_register_device_attr kern in
    if negb (devt =? 0) then
      ft260_uart_port_remove port ;;; hret devt
    else
      ret <- lift (ft260_hid_feature_report_set env
                     (req_bytes ft260_uart_probe_request)) ;;
      if ret <? 0 then
        kcall (TtyPortUnregisterDevice (index h)) ;;;
        ft260_uart_port_remove port ;;;
        hret ret
      else hret 0.

(** The labels [err_hid_close] and [err_hid_stop] of [ft260_probe]. *)
Definition err_hid_stop (ret : Z) : HostM Z :=
  kcall HidHwStop ;;; hret ret.
Definition err_hid_close (ret : Z) : HostM Z :=
  kcall HidHwClose ;;; err_hid_stop ret.

(** The device structure as [devm_kzalloc] gives it. *)
Definition ft260_device_zeroed : ft260_device :=
  mk_dev (repeat 0 64) None 0 0 0 0 [] 0 0 false.

(** [ft260_probe]: [port] names the structure [devm_kzalloc] returns,
    [interface] is [bInterfaceNumber]; [version] and [cfg] are what the
    two local report structures hold before they are filled. *)
Definition ft260_probe (port : nat) (interface : Z) (version cfg : list Z) : HostM Z :=
  if negb (hid_is_usb kern) then hret (- EINVAL)
  else if negb (devm_kzalloc kern) then hret (- ENOMEM)
  else
    lift (put_dev ft260_device_zeroed) ;;;
    set_is_serial 0 ;;;
    set_index 0 ;;;
    kcall HidParse ;;;
    if negb (hid_parse kern =? 0) then hret (hid_parse kern)
    else
      kcall HidHwStart ;;;
      if negb (hid_hw_start kern =? 0) then hret (hid_hw_start kern)
      else
        kcall HidHwOpen ;;;
        if negb (hid_hw_open kern =? 0) then err_hid_stop (hid_hw_open kern)
        else
          r <- lift (ft260_hid_feature_report_get env FT260_CHIP_VERSION version 13) ;;
          if fst r <? 0 then err_hid_close (fst r)
          else
            r <- lift (ft260_get_interface_type env interface 0 cfg) ;;
            let '(ret, is_serial) := r in
            set_is_serial is_serial ;;;
            if ret <=? FT260_IFACE_NONE then err_hid_close ret
            else
              kcall HidSetDrvdata ;;;
              set_drvdata true ;;;
              lift (modify_dev (set_wait 0)) ;;;
              if is_serial =? 0 then
                ret <- ft260_i2c_probe ;;
                if negb (ret =? 0) then err_hid_close ret else hret 0
              else
                ret <- ft260_uart_probe port ;;
                if negb (ret =? 0) then err_hid_close ret else hret 0.

(** [ft260_remove] *)
Definition ft260_remove (port : nat) : HostM unit :=
  h <- get_host ;;
  if negb (drvdata h) then hret tt
  else
    (if negb (ft260_is_serial h =? 0) then
       kcall (TtyPortUnregisterDevice (index h)) ;;;
       ft260_uart_port_remove port
     else
       kcall SysfsRemoveGroup ;;;
       kcall I2cDelAdapter) ;;;
    kcall HidHwClose ;;;
    kcall HidHwStop.

End Probe.

(** ** Concrete worlds and environments *)

(** A freshly probed device: [devm_kzalloc] zeroes the structure; the TTY
    is attached. *)
Definition dev_zero : ft260_device :=
  mk_dev (repeat 0 64) None 0 0 0 0 [] 0 0 true.

Definition dev_clock (khz : Z) : ft260_device := set_clock khz dev_zero.

(** A status report with the given bus status and clock. *)
Definition status_report (bus_status khz : Z) : list Z :=
  [FT260_I2C_STATUS; bus_status] ++ cpu_to_le16 khz ++ [0].

(** The input report that carries [payload] as I2C read data. *)
Definition i2c_input_report (payload : list Z) : list Z :=
  u8 (FT260_I2C_DATA_REPORT_ID (Z.of_nat (length payload)))
  :: Z.of_nat (length payload) :: payload.

(** The reports sent with [hid_hw_output_report], oldest first. *)
Fixpoint output_reports (l : list ext_call) : list (list Z) :=
  match l with
  | [] => []
  | HidOutputReport b :: rest => b :: output_reports rest
  | _ :: rest => output_reports rest
  end.

(** The feature reports sent, oldest first. *)
Fixpoint set_reports (l : list ext_call) : list (list Z) :=
  match l with
  | [] => []
  | HidSetReport b :: rest => b :: set_reports rest
  | _ :: rest => set_reports rest
  end.

(** The number of status polls. *)
Fixpoint status_polls (l : list ext_call) : nat :=
  match l with
  | [] => O
  | HidGetReport _ _ :: rest => S (status_polls rest)
  | _ :: rest => status_polls rest
  end.

(** The bus-reset feature report as it goes out. *)
Definition reset_report : list Z := [FT260_SYSTEM_SETTINGS; FT260_SET_I2C_RESET].

Definition is_reset (c : ext_call) : bool :=
  match c with
  | HidSetReport [a; b] => (a =? FT260_SYSTEM_SETTINGS) && (b =? FT260_SET_I2C_RESET)
  | _ => false
  end.

(** The number of bus resets in a log. *)
Definition resets (l : list ext_call) : nat := length (filter is_reset l).

(** A cooperative device: every send is accepted whole; the [k]-th status
    poll is answered with the [k]-th bus status of [statuses] (controller
    idle when the list is used up) at clock [khz]; [answers] are the input
    reports raised during a wait. *)
Definition scripted_env (khz : Z) (statuses : list Z)
  (answers : list ext_call -> list (list Z)) : environment :=
  mk_env (fun _ data => Z.of_nat (length data))
         (fun h _ len =>
            (len, status_report
                    (nth (status_polls h) statuses FT260_I2C_STATUS_CTRL_IDLE) khz))
         (fun _ data => Z.of_nat (length data))
         (fun _ _ => 0)
         answers
         (fun _ src => Z.of_nat (length src))
         c_ospeed
         (fun t ibaud obaud => mk_termios (c_cflag t) ibaud obaud).

Definition answering_env (khz : Z) (answers : list ext_call -> list (list Z))
  : environment := scripted_env khz [] answers.

Definition idle_env (khz : Z) : environment := answering_env khz (fun _ => []).

(** ** Vocabulary of the statements *)

(** The status code [ft260_xfer_status] decodes from a bus status. *)
Definition status_code (bus_status : Z) : Z :=
  if bit_set bus_status FT260_I2C_STATUS_CTRL_BUSY then - EAGAIN
  else if bit_set bus_status FT260_I2C_STATUS_BUS_BUSY then - EBUSY
  else if bit_set bus_status FT260_I2C_STATUS_ERROR then - EIO
  else if bit_set bus_status FT260_I2C_STATUS_CTRL_IDLE then 0
  else - EIO.

Definition status_poll : ext_call := HidGetReport FT260_I2C_STATUS 5.

(** The world after a status poll that the transport answered in full. *)
Definition polled (report : list Z) (w : world) : world :=
  mk_world (set_clock (le16_to_cpu (nth 2 report 0) (nth 3 report 0)) (dev w))
           (mem w) (log w ++ [status_poll]).

(** The world in which [ft260_hid_output_report_check_status] starts to
    poll: the report has been sent and the wait slept. *)
Definition sent_and_slept (data : list Z) (len : Z) (w : world) : world :=
  mk_world (dev w) (mem w)
           (log w ++ [HidOutputReport data;
                      UsleepRange (Z.quot 10000 (clock (dev w)) * len)
                                  (Z.quot 10000 (clock (dev w)) * len + 100)]).

(** The answer of the transport to the [k]-th status poll made after the
    calls [l0], when nothing but status polls is made in between. *)
Definition poll_reply (env : environment) (l0 : list ext_call) (k : nat)
  : Z * list Z :=
  hid_hw_raw_request_get env (l0 ++ repeat status_poll k) FT260_I2C_STATUS 5.

(** That poll is answered in full, with bus status [s]. *)
Definition poll_answers (env : environment) (l0 : list ext_call) (k : nat) (s : Z)
  : Prop :=
  exists report, poll_reply env l0 k = (5, report) /\ nth 1 report 0 = s.

(** The five-byte read request of [ft260_i2c_read]. *)
Definition read_request (addr flag len : Z) : list Z :=
  [FT260_I2C_READ_REQ; u8 addr; u8 flag] ++ cpu_to_le16 (u16 len).

(** The world in which [ft260_i2c_read] starts to wait: the pending read
    is recorded, the completion is reset, the request has been sent. *)
Definition read_started (addr : Z) (data : option Z) (len flag : Z) (w : world)
  : world :=
  mk_world (set_wait 0 (set_read data 0 (u16 len) (dev w))) (mem w)
           (log w ++ [HidOutputReport (read_request addr flag len)]).

(** A world with the bus-reset report sent. *)
Definition with_reset (w : world) : world :=
  mk_world (dev w) (mem w) (log w ++ [HidSetReport reset_report]).

(** An input report, as the dispatcher reads it. *)
Definition report_id (r : list Z) : Z := nth 0 r 0.
Definition report_length (r : list Z) : Z := nth 1 r 0.
Definition report_payload (r : list Z) : list Z :=
  firstn (Z.to_nat (report_length r)) (skipn 2 r).

Definition is_i2c_data (r : list Z) : bool :=
  in_range FT260_I2C_REPORT_MIN FT260_I2C_REPORT_MAX (report_id r).
Definition is_uart_data (r : list Z) : bool :=
  in_range FT260_UART_REPORT_MIN FT260_UART_REPORT_MAX (report_id r).

(** The device after the dispatcher took the I2C data report [r]: the
    offset has advanced by the length of the report, and the completion is
    signalled when the offset has reached the requested length. *)
Definition received (r : list Z) (d : ft260_device) : ft260_device :=
  let idx := u16 (read_idx d + report_length r) in
  if idx =? read_len d
  then set_wait (S (wait d)) (set_read_idx idx d)
  else set_read_idx idx d.

(** A well-formed I2C data report: its id is in the I2C range and its
    payload lies inside the report. *)
Definition i2c_data_report (r : list Z) : Prop :=
  is_i2c_data r = true
  /\ 0 <= report_length r
  /\ 2 + report_length r <= Z.of_nat (length r).

(** The write request that carries [chunk]: report id, address, flag,
    length, data. *)
Definition i2c_write_report (addr flag : Z) (chunk : list Z) : list Z :=
  [u8 (FT260_I2C_DATA_REPORT_ID (Z.of_nat (length chunk))); u8 addr; u8 flag;
   u8 (Z.of_nat (length chunk))] ++ chunk.

(** A world whose staging buffer has its 64 bytes. *)
Definition staging_ok (w : world) : Prop :=
  length (write_buf (dev w)) = 64%nat.

(** The world with [rep] staged at the head of [dev->write_buf]. *)
Definition with_staged (rep : list Z) (w : world) : world :=
  mk_world (set_write_buf (rep ++ skipn (length rep) (write_buf (dev w))) (dev w))
           (mem w) (log w).

(** A transport that takes every report. *)
Definition accepts_reports (env : environment) : Prop :=
  forall h data, 0 <= hid_hw_output_report env h data.

(** A transport that takes every report and a controller that answers
    every status poll in full, with a status [ft260_xfer_status] decodes
    to 0 or to -EBUSY, and with a clock that is not zero. *)
Definition cooperative (env : environment) : Prop :=
  accepts_reports env
  /\ (forall h, exists report,
        hid_hw_raw_request_get env h FT260_I2C_STATUS 5 = (5, report)
        /\ (status_code (nth 1 report 0) = 0
            \/ status_code (nth 1 report 0) = - EBUSY)
        /\ le16_to_cpu (nth 2 report 0) (nth 3 report 0) <> 0).

(** The same with a controller that is idle at every poll. *)
Definition idle_device (env : environment) : Prop :=
  accepts_reports env
  /\ (forall h, exists report,
        hid_hw_raw_request_get env h FT260_I2C_STATUS 5 = (5, report)
        /\ status_code (nth 1 report 0) = 0
        /\ le16_to_cpu (nth 2 report 0) (nth 3 report 0) <> 0).

(** The slave answers every read request with one input report that
    carries [payload]. *)
Definition answers_with (env : environment) (payload : list Z) : Prop :=
  forall h, input_reports env h = [i2c_input_report payload].

(** A payload cut the way the loop of [ft260_i2c_write] cuts it: chunks
    of 60 bytes, the last one shorter; one empty chunk for no bytes.
    [fuel] bounds the number of cuts. *)
Fixpoint split60 (fuel : nat) (l : list Z) : list (list Z) :=
  match fuel with
  | O => [l]
  | S k => if (length l <=? 60)%nat then [l]
           else firstn 60 l :: split60 k (skipn 60 l)
  end.

Definition chunks60 (l : list Z) : list (list Z) := split60 (length l) l.

(** The number of reports of 60 bytes that [len] bytes fill or start. *)
Definition ceil_div60 (len : Z) : Z := (len + 59) / 60.

(** The log a run ends with. *)
Definition log_of {A} (r : result A) : list ext_call :=
  match r with
  | Ok _ w => log w
  | Fault _ => []
  end.

(** A device just probed, with a bus clock of 100 kHz cached, and [m] as
    the caller's memory. *)
Definition world_100 (m : list Z) : world := mk_world (dev_clock 100) m [].

(** The write request [ft260_smbus_write] builds for the command byte
    [cmd] followed by the bytes [src]: report id, address, flag, length,
    command, data.  The id is taken from the length of the whole report. *)
Definition smbus_write_report (addr cmd flag : Z) (src : list Z) : list Z :=
  [u8 (FT260_I2C_DATA_REPORT_ID (4 + (Z.of_nat (length src) + 1)));
   u8 addr; u8 flag; u8 (Z.of_nat (length src) + 1); u8 cmd] ++ src.

(** The world after the read request was answered by one report with the
    bytes asked for, and the status polled. *)
Definition read_done (addr dst len flag : Z) (m' : list Z) (report : list Z)
  (w : world) : world :=
  polled report
    (mk_world (set_wait 0 (set_read_idx (u16 len)
                 (dev (read_started addr (Some dst) len flag w))))
              m'
              (log (read_started addr (Some dst) len flag w)
               ++ [WaitForCompletion 5000])).

(** [hid_hw_power] never fails. *)
Definition power_ok (env : environment) : Prop :=
  forall h hint, 0 <= hid_hw_power env h hint.

(** The configuration [ft260_uart_change_speed] sends for a termios: the
    termios as the data-size switch leaves it, the baud rate read from it,
    and the request built from them. *)
Definition speed_termios (termios : ktermios) : ktermios :=
  snd (change_speed_data_bit termios).

Definition speed_baud (env : environment) (termios : ktermios) : Z :=
  u32 (tty_termios_baud_rate env (speed_termios termios)).

Definition speed_request (env : environment) (termios : ktermios)
  : ft260_configure_uart_request :=
  let t := speed_termios termios in
  let baud := speed_baud env termios in
  mk_req FT260_SYSTEM_SETTINGS FT260_SET_UART_CONFIG FT260_CFG_FLOW_CTRL_NONE
         (put_unaligned_le32 (if baud_invalid baud then 9600 else baud))
         (fst (change_speed_data_bit termios))
         (if bit_set (c_cflag t) PARENB
          then (if bit_set (c_cflag t) PARODD
                then FT260_CFG_PAR_ODD else FT260_CFG_PAR_EVEN)
          else FT260_CFG_PAR_NO)
         (if bit_set (c_cflag t) CSTOPB
          then FT260_CFG_STOP_TWO_BIT else FT260_CFG_STOP_ONE_BIT)
         FT260_CFG_BREAKING_NO.

(** The UART write request that carries [chunk]: report id, length, data. *)
Definition uart_write_report (chunk : list Z) : list Z :=
  [u8 (FT260_UART_DATA_REPORT_ID (Z.of_nat (length chunk)));
   u8 (Z.of_nat (length chunk))] ++ chunk.

(** The world after [ft260_uart_transmit_chunk] took [chunk] off the fifo
    and sent it. *)
Definition chunk_sent (chunk : list Z) (w : world) : world :=
  mk_world
    (set_write_buf
       (uart_write_report chunk
        ++ skipn (length (uart_write_report chunk)) (write_buf (dev w)))
       (set_xmit_fifo (skipn (length chunk) (xmit_fifo (dev w))) (dev w)))
    (mem w)
    (log w ++ [HidOutputReport (uart_write_report chunk)]).

(** ** Vocabulary of the further properties *)

(** The bits of the bus status that [ft260_xfer_status] looks at. *)
Definition decided_bits : Z :=
  Z.lor (Z.lor FT260_I2C_STATUS_CTRL_BUSY FT260_I2C_STATUS_BUS_BUSY)
        (Z.lor FT260_I2C_STATUS_ERROR FT260_I2C_STATUS_CTRL_IDLE).

(** The status code of [x] is that of its decided bits, and is 0 exactly
    when controller-idle is the only one of them set. *)
Definition status_code_low7_check (x : Z) : bool :=
  (status_code x =? status_code (Z.land x decided_bits))
  && Bool.eqb (status_code x =? 0)
              (Z.land x decided_bits =? FT260_I2C_STATUS_CTRL_IDLE).

(** A transport that takes every output report and refuses every feature
    request with [err]. *)
Definition refusing_env (err : Z) : environment :=
  mk_env (fun _ data => Z.of_nat (length data))
         (fun _ _ _ => (err, []))
         (fun _ _ => err)
         (fun _ _ => 0)
         (fun _ => [])
         (fun _ src => Z.of_nat (length src))
         c_ospeed
         (fun t ibaud obaud => mk_termios (c_cflag t) ibaud obaud).

(** The power hints given with [hid_hw_power], oldest first. *)
Fixpoint power_hints (l : list ext_call) : list Z :=
  match l with
  | [] => []
  | HidPower hint :: rest => hint :: power_hints rest
  | _ :: rest => power_hints rest
  end.

(** From [w] to [w'] the log has only grown, and by no power hint. *)
Definition bridge_only (w w' : world) : Prop :=
  exists mid, log w' = log w ++ mid /\ power_hints mid = [].

(** A transfer that went from [w] to [w'] and returned [ret] kept to the
    power protocol: when the full-on hint is refused the refusal is
    returned and nothing else is done; otherwise the normal hint is the
    last call made and no other hint is given in between. *)
Definition power_bracket (env : environment) (w : world) (ret : Z) (w' : world)
  : Prop :=
  let on := hid_hw_power env (log w) PM_HINT_FULLON in
  if on <? 0
  then ret = on /\ log w' = log w ++ [HidPower PM_HINT_FULLON]
  else exists mid,
         log w' = log w ++ [HidPower PM_HINT_FULLON] ++ mid
                        ++ [HidPower PM_HINT_NORMAL]
         /\ power_hints mid = [].

(** The register offset sent in turn [k] of a combined write-read that
    started from the two bytes [read_off]: the bytes as given in turn 0,
    then the little-endian number they denote advanced by 60 per turn. *)
Definition random_read_offset (read_off : list Z) (k : nat) : list Z :=
  match k with
  | O => read_off
  | S _ => cpu_to_le16 (le_value read_off + 60 * Z.of_nat k)
  end.

(** The number of turns a read of [left_len] bytes takes. *)
Definition random_read_turns (left_len : Z) : nat :=
  Z.to_nat (Z.max 1 (ceil_div60 left_len)).

(** The two reports of turn [k], and the reports of all the turns. *)
Definition random_read_turn (addr0 len0 : Z) (read_off : list Z) (left_len : Z)
  (k : nat) : list (list Z) :=
  [i2c_write_report addr0 FT260_FLAG_START
     (firstn (Z.to_nat len0) (random_read_offset read_off k));
   read_request addr0 FT260_FLAG_START_STOP
     (Z.min FT260_RD_DATA_MAX (left_len - 60 * Z.of_nat k))].

Definition random_read_reports (addr0 len0 : Z) (read_off : list Z) (left_len : Z)
  : list (list Z) :=
  flat_map (random_read_turn addr0 len0 read_off left_len)
           (seq 0 (random_read_turns left_len)).

(** A transport that takes the first [n] output reports and refuses every
    later one with [err]; the controller is idle at every poll, at clock
    [khz]. *)
Definition failing_send_env (khz : Z) (n : nat) (err : Z) : environment :=
  mk_env (fun h data => if (length (output_reports h) <? n)%nat
                        then Z.of_nat (length data) else err)
         (fun _ _ len => (len, status_report FT260_I2C_STATUS_CTRL_IDLE khz))
         (fun _ data => Z.of_nat (length data))
         (fun _ _ => 0)
         (fun _ => [])
         (fun _ src => Z.of_nat (length src))
         c_ospeed
         (fun t ibaud obaud => mk_termios (c_cflag t) ibaud obaud).

(** The world a run ends in. *)
Definition world_of {A} (r : result A) : world :=
  match r with
  | Ok _ w => w
  | Fault _ => mk_world dev_zero [] []
  end.

(** The length a read request asks for, when [c] is the send of one. *)
Definition requested_length (c : ext_call) : nat :=
  match c with
  | HidOutputReport [_; _; _; lo; _] => Z.to_nat lo
  | _ => O
  end.

(** An idle device at clock [khz] whose slave answers every read request
    with as many bytes [b] as were asked for, in one input report. *)
Definition echo_env (khz b : Z) : environment :=
  answering_env khz
    (fun h => [i2c_input_report
                 (repeat b (requested_length (last h TtyWakeup)))]).
(** The lowest free slot of the port table. *)
Fixpoint first_free (t : list (option nat)) : option nat :=
  match t with
  | [] => None
  | None :: _ => Some O
  | Some _ :: rest => option_map S (first_free rest)
  end.

(** The host with one more kernel call made. *)
Definition with_kcalls (l : list kernel_call) (h : host) : host :=
  mk_host (bridge h) (ft260_is_serial h) (index h) (drvdata h)
          (ft260_uart_table h) (kcalls h ++ l).

(** A port table with its [UART_COUNT_MAX] slots. *)
Definition table_ok (h : host) : Prop :=
  length (ft260_uart_table h) = Z.to_nat UART_COUNT_MAX.

(** The table with slot [i] given to [port], and with slot [i] cleared. *)
Definition slot_taken (t : list (option nat)) (i : nat) (port : nat)
  : list (option nat) :=
  firstn i t ++ Some port :: skipn (S i) t.
Definition slot_freed (t : list (option nat)) (i : nat) : list (option nat) :=
  firstn i t ++ None :: skipn (S i) t.

(** The host after [ft260_uart_add_port] gave slot [i] to [port]. *)
Definition port_added (port i : nat) (h : host) : host :=
  mk_host (bridge h) (ft260_is_serial h) (Z.of_nat i) (drvdata h)
          (slot_taken (ft260_uart_table h) i port)
          (kcalls h ++ [KfifoAlloc port]).

(** The configuration report [ft260_uart_probe] sends, as it goes out. *)
Definition uart_probe_report : list Z :=
  [0xA1; 0x41; 0x04; 0x80; 0x25; 0; 0; 0x08; 0; 0; 0].

(** The calls that start, open, close and stop the HID hardware. *)
Definition is_hw_call (c : kernel_call) : bool :=
  match c with
  | HidHwStart | HidHwOpen | HidHwClose | HidHwStop => true
  | _ => false
  end.
Definition hw_calls (l : list kernel_call) : list kernel_call :=
  filter is_hw_call l.

(** The host with the bridge world [w], the port index [i], the table [t]
    and the kernel calls [calls] made. *)
Definition host_after (w : world) (i : Z) (t : list (option nat))
  (calls : list kernel_call) (h : host) : host :=
  mk_host w (ft260_is_serial h) i (drvdata h) t (kcalls h ++ calls).

(** The bridge world after a feature report went out. *)
Definition with_set_report (rep : list Z) (w : world) : world :=
  mk_world (dev w) (mem w) (log w ++ [HidSetReport rep]).

(** The host in which [ft260_probe] reads the chip version: the device
    structure is fresh and the hardware has been started and opened. *)
Definition probe_opened (h : host) : host :=
  mk_host (mk_world ft260_device_zeroed (mem (bridge h)) (log (bridge h)))
          0 0 (drvdata h) (ft260_uart_table h)
          (kcalls h ++ [HidParse; HidHwStart; HidHwOpen]).

(** The host with the bridge world [w] and the serial flag [ser]. *)
Definition probe_typed (w : world) (ser : Z) (h : host) : host :=
  mk_host w ser (index h) (drvdata h) (ft260_uart_table h) (kcalls h).

(** The host in which the interface is probed: the driver data is stored
    and the completion initialised. *)
Definition probe_bound (w : world) (ser : Z) (h : host) : host :=
  mk_host (mk_world (set_wait 0 (dev w)) (mem w) (log w)) ser (index h) true
          (ft260_uart_table h) (kcalls h ++ [HidSetDrvdata]).

(** What [ft260_probe] returns once the interface probe returned [r] in
    host [h]. *)
Definition probe_finish (r : Z) (h : host) : outcome Z :=
  if negb (r =? 0) then Done r (with_kcalls [HidHwClose; HidHwStop] h)
  else Done 0 h.

(** A chip in mode [mode] at 100 kHz: every send is accepted whole, a
    status poll finds the controller idle, and any other feature report
    is answered in full with the chip mode in its second byte. *)
Definition chip_env (mode : Z) : environment :=
  mk_env (hid_hw_output_report (idle_env 100))
         (fun h id len =>
            if id =? FT260_I2C_STATUS
            then hid_hw_raw_request_get (idle_env 100) h id len
            else (len, id :: mode :: repeat 0 (Z.to_nat len - 2)))
         (hid_hw_raw_request_set (idle_env 100))
         (hid_hw_power (idle_env 100))
         (input_reports (idle_env 100))
         (tty_insert_flip_string (idle_env 100))
         (tty_termios_baud_rate (idle_env 100))
         (tty_encode_baud_rate (idle_env 100)).

(** A kernel in which every call succeeds. *)
Definition kernel_ok : kernel := mk_kernel true true 0 0 0 0 0 0 0.

(** A host before the probe, with the port table [t]. *)
Definition host_with (t : list (option nat)) : host :=
  mk_host (world_100 []) 0 0 false t [].

(** The host an operation ends in. *)
Definition host_of {A} (o : outcome A) : host :=
  match o with
  | Done _ h => h
  | Stopped _ => host_with []
  end.

(** A transport that answers 0 to every feature report it is sent. *)
Definition accepting_env : environment :=
  mk_env (fun _ data => Z.of_nat (length data))
         (fun _ _ len => (len, status_report FT260_I2C_STATUS_CTRL_IDLE 100))
         (fun _ _ => 0)
         (fun _ _ => 0)
         (fun _ => [])
         (fun _ src => Z.of_nat (length src))
         c_ospeed
         (fun t ibaud obaud => mk_termios (c_cflag t) ibaud obaud).

(** * Properties *)

(** ** Stepping through the monad *)

Lemma bind_Ok {A B} (m : M A) (k : A -> M B) w a w' :
  m w = Ok a w' -> bind m k w = k a w'.
Proof. unfold bind. intros ->. reflexivity. Qed.

Lemma bind_Fault {A B} (m : M A) (k : A -> M B) w f :
  m w = Fault f -> bind m k w = Fault f.
Proof. unfold bind. intros ->. reflexivity. Qed.

Lemma write_bytes_Some buf off src :
  0 <= off -> off + Z.of_nat (length src) <= Z.of_nat (length buf) ->
  write_bytes buf off src =
  Some (firstn (Z.to_nat off) buf ++ src ++ skipn (Z.to_nat off + length src) buf).
Proof.
  intros H1 H2. unfold write_bytes.
  apply Z.leb_le in H1, H2. rewrite H1, H2. reflexivity.
Qed.

Lemma write_bytes_length buf off src b :
  write_bytes buf off src = Some b -> length b = length buf.
Proof.
  unfold write_bytes.
  destruct ((0 <=? off) && _) eqn:E; [|discriminate].
  apply andb_true_iff in E. destruct E as [E1 E2].
  apply Z.leb_le in E1, E2. intros [= <-].
  rewrite !length_app, length_firstn, length_skipn. lia.
Qed.

Lemma read_bytes_Some buf off n :
  0 <= off -> 0 <= n -> off + n <= Z.of_nat (length buf) ->
  read_bytes buf off n = Some (firstn (Z.to_nat n) (skipn (Z.to_nat off) buf)).
Proof.
  intros H1 H2 H3. unfold read_bytes.
  apply Z.leb_le in H1, H2, H3. rewrite H1, H2, H3. reflexivity.
Qed.

Lemma read_bytes_length buf off n l :
  read_bytes buf off n = Some l -> Z.of_nat (length l) = n.
Proof.
  unfold read_bytes.
  destruct ((0 <=? off) && (0 <=? n) && _) eqn:E; [|discriminate].
  apply andb_true_iff in E. destruct E as [E E3].
  apply andb_true_iff in E. destruct E as [E1 E2].
  apply Z.leb_le in E1, E2, E3. intros [= <-].
  rewrite length_firstn, length_skipn. lia.
Qed.

Lemma nth_firstn_lt {A} (l : list A) n i d :
  (i < n)%nat -> nth i (firstn n l) d = nth i l d.
Proof.
  revert n i. induction l as [|x l IH]; intros n i H.
  - rewrite firstn_nil. reflexivity.
  - destruct n; [lia|]. destruct i; simpl; [reflexivity|]. apply IH. lia.
Qed.

(** ** The status poll *)

Lemma ft260_xfer_status_answered env w report :
  hid_hw_raw_request_get env (log w) FT260_I2C_STATUS 5 = (5, report) ->
  ft260_xfer_status env w = Ok (status_code (nth 1 report 0)) (polled report w).
Proof.
  intros H.
  unfold ft260_xfer_status, ft260_hid_feature_report_get, bind, get_log, call,
    modify_dev, Return. cbn [log dev mem].
  rewrite H. cbn [Z.eqb Pos.eqb Z.ltb Z.compare].
  change (Z.to_nat 5) with 5%nat.
  rewrite !nth_firstn_lt by lia.
  unfold status_code, polled, status_poll.
  repeat match goal with |- context [if ?c then _ else _] => destruct c end;
    reflexivity.
Qed.

Lemma ft260_xfer_status_returns env w :
  exists ret w', ft260_xfer_status env w = Ok ret w'
                 /\ mem w' = mem w
                 /\ log w' = log w ++ [status_poll]
                 /\ write_buf (dev w') = write_buf (dev w).
Proof.
  unfold ft260_xfer_status, ft260_hid_feature_report_get, bind, get_log, call,
    modify_dev, Return. cbn [log dev mem].
  destruct (hid_hw_raw_request_get env (log w) FT260_I2C_STATUS 5) as [r b].
  destruct (r =? 5);
    repeat match goal with |- context [if ?c then _ else _] => destruct c end;
    cbn; eauto 10.
Qed.

(** A status request that is refused, or answered short, returns before
    the clock is cached. *)
Lemma ft260_xfer_status_failed env w r buf :
  hid_hw_raw_request_get env (log w) FT260_I2C_STATUS 5 = (r, buf) -> r <> 5 ->
  ft260_xfer_status env w =
  Ok (if 0 <=? r then - EIO else r)
     (mk_world (dev w) (mem w) (log w ++ [status_poll])).
Proof.
  intros Hr Hne.
  unfold ft260_xfer_status, ft260_hid_feature_report_get, bind, get_log, call,
    Return, modify_dev.
  cbn [log dev mem]. rewrite Hr.
  apply Z.eqb_neq in Hne. rewrite Hne.
  destruct (0 <=? r) eqn:E.
  - reflexivity.
  - apply Z.leb_gt in E. apply Z.ltb_lt in E. rewrite E. reflexivity.
Qed.

Lemma ft260_i2c_reset_eq env w :
  ft260_i2c_reset env w =
  Ok (hid_hw_raw_request_set env (log w) reset_report)
     (mk_world (dev w) (mem w) (log w ++ [HidSetReport reset_report])).
Proof. reflexivity. Qed.

(** ** The wait before the status poll (claim C10) *)

Lemma ft260_poll_status_returns env more w :
  exists ret w' k, ft260_poll_status env more w = Ok ret w'
                 /\ mem w' = mem w
                 /\ write_buf (dev w') = write_buf (dev w)
                 /\ (1 <= k <= S more)%nat
                 /\ log w' = log w ++ repeat status_poll k.
Proof.
  revert w. induction more as [|k IH]; intros w; cbn [ft260_poll_status];
    destruct (ft260_xfer_status_returns env w) as (ret & w1 & E & Hm & Hl & Hb);
    rewrite (bind_Ok _ _ _ _ _ E).
  - exists ret, w1, 1%nat.
    destruct (negb (ret =? - EAGAIN)); unfold Return; repeat split; auto.
  - destruct (negb (ret =? - EAGAIN)).
    + exists ret, w1, 1%nat. unfold Return. repeat split; auto. lia.
    + destruct (IH w1) as (r2 & w2 & k2 & E2 & Hm2 & Hb2 & Hk & Hl2).
      exists r2, w2, (S k2). rewrite E2, Hm2, Hb2, Hl2, Hl, <- app_assoc.
      repeat split; auto; lia.
Qed.

Lemma check_status_sent env data len w :
  0 <= hid_hw_output_report env (log w) data ->
  ft260_hid_output_report_check_status env data len w =
  if clock (dev w) =? 0 then Fault DivideByZero
  else match ft260_poll_status env 2 (sent_and_slept data len w) with
       | Ok ret w' =>
           if (ret =? 0) || (ret =? - EBUSY) then Ok 0 w'
           else Ok (- EIO) (mk_world (dev w') (mem w')
                                     (log w' ++ [HidSetReport reset_report]))
       | Fault f => Fault f
       end.
Proof.
  intros H.
  unfold ft260_hid_output_report_check_status, ft260_hid_output_report.
  unfold bind at 1 2 3. unfold get_log, call, Return. cbn [log dev mem].
  apply Z.ltb_ge in H. rewrite H.
  unfold bind at 1. unfold get_dev. cbn [log dev mem].
  destruct (clock (dev w) =? 0); [reflexivity|].
  unfold bind at 1. unfold call. cbn [log dev mem].
  rewrite <- app_assoc. cbn [app].
  unfold bind at 1. fold (sent_and_slept data len w).
  destruct (ft260_poll_status env 2 (sent_and_slept data len w)) as [ret w'|f];
    [|reflexivity].
  destruct ((ret =? 0) || (ret =? - EBUSY)); [reflexivity|].
  unfold bind. rewrite ft260_i2c_reset_eq. reflexivity.
Qed.

(** C10.  The wait before the status poll is [10000 / clock * len]
    microseconds, the division made first and on integers, with the clock
    the device last reported; nothing guards the division.  Once a report
    has been sent, the status check has a result exactly when the cached
    clock is not zero, and the code sleeps that long; with a cached clock
    of zero it divides by zero.  The cache takes whatever clock the status
    report carries, zero included. *)
Theorem C10_wait_time_divides_by_cached_clock env data len w :
  0 <= hid_hw_output_report env (log w) data ->
  (clock (dev w) = 0 ->
   ft260_hid_output_report_check_status env data len w = Fault DivideByZero)
  /\ (clock (dev w) <> 0 ->
      exists ret w',
        ft260_hid_output_report_check_status env data len w = Ok ret w'
        /\ nth_error (log w') (S (length (log w)))
           = Some (UsleepRange (Z.quot 10000 (clock (dev w)) * len)
                               (Z.quot 10000 (clock (dev w)) * len + 100)))
  /\ (forall report,
        hid_hw_raw_request_get env (log w) FT260_I2C_STATUS 5 = (5, report) ->
        exists ret w',
          ft260_xfer_status env w = Ok ret w'
          /\ clock (dev w') = le16_to_cpu (nth 2 report 0) (nth 3 report 0)).
Proof.
  intros Hsent. repeat split.
  - intros Hc. rewrite check_status_sent by assumption.
    rewrite Hc. reflexivity.
  - intros Hc. rewrite check_status_sent by assumption.
    apply Z.eqb_neq in Hc. rewrite Hc.
    destruct (ft260_poll_status_returns env 2 (sent_and_slept data len w))
      as (ret & w' & k & E & _ & _ & _ & Hl).
    rewrite E. cbn [sent_and_slept log] in Hl.
    assert (Hn : forall rest,
               nth_error ((log w ++ [HidOutputReport data;
                   UsleepRange (Z.quot 10000 (clock (dev w)) * len)
                               (Z.quot 10000 (clock (dev w)) * len + 100)]) ++ rest)
                         (S (length (log w)))
               = Some (UsleepRange (Z.quot 10000 (clock (dev w)) * len)
                                   (Z.quot 10000 (clock (dev w)) * len + 100))).
    { intros rest. rewrite <- app_assoc.
      rewrite nth_error_app2 by lia.
      replace (S (length (log w)) - length (log w))%nat with 1%nat by lia.
      reflexivity. }
    destruct ((ret =? 0) || (ret =? - EBUSY)).
    + exists 0, w'. split; [reflexivity|]. rewrite Hl. apply Hn.
    + eexists _, _. split; [reflexivity|]. cbn [log]. rewrite Hl, <- app_assoc.
      apply Hn.
  - intros report Hr. rewrite (ft260_xfer_status_answered _ _ _ Hr).
    eexists _, _. split; reflexivity.
Qed.

(** ** The status check after a send (claim C5) *)

Lemma poll_answers_shift env l0 k s :
  poll_answers env (l0 ++ [status_poll]) k s <-> poll_answers env l0 (S k) s.
Proof.
  unfold poll_answers, poll_reply.
  rewrite <- app_assoc. cbn [app repeat]. reflexivity.
Qed.

Lemma status_code_busy s :
  bit_set s FT260_I2C_STATUS_CTRL_BUSY = true -> status_code s = - EAGAIN.
Proof. unfold status_code. intros ->. reflexivity. Qed.

(** Polls answered busy are repeated; the first other answer ends the
    loop with its code. *)
Lemma ft260_poll_status_decided env more n s w :
  (n <= more)%nat ->
  (forall k, (k < n)%nat ->
     exists b, poll_answers env (log w) k b
               /\ bit_set b FT260_I2C_STATUS_CTRL_BUSY = true) ->
  poll_answers env (log w) n s ->
  status_code s <> - EAGAIN ->
  exists w', ft260_poll_status env more w = Ok (status_code s) w'
             /\ mem w' = mem w
             /\ log w' = log w ++ repeat status_poll (S n).
Proof.
  revert n w. induction more as [|m IH]; intros n w Hn Hbusy Hs Hcode.
  - assert (n = 0%nat) by lia. subst n.
    destruct Hs as (report & Hr & <-).
    unfold poll_reply in Hr. cbn [repeat] in Hr. rewrite app_nil_r in Hr.
    cbn [ft260_poll_status].
    rewrite (bind_Ok _ _ _ _ _ (ft260_xfer_status_answered _ _ _ Hr)).
    apply Z.eqb_neq in Hcode. rewrite Hcode. cbn [negb].
    eexists. split; [reflexivity|]. split; reflexivity.
  - destruct n as [|n].
    + destruct Hs as (report & Hr & <-).
      unfold poll_reply in Hr. cbn [repeat] in Hr. rewrite app_nil_r in Hr.
      cbn [ft260_poll_status].
      rewrite (bind_Ok _ _ _ _ _ (ft260_xfer_status_answered _ _ _ Hr)).
      apply Z.eqb_neq in Hcode. rewrite Hcode. cbn [negb].
      eexists. split; [reflexivity|]. split; reflexivity.
    + destruct (Hbusy 0%nat ltac:(lia)) as (b & (report & Hr & <-) & Hb).
      unfold poll_reply in Hr. cbn [repeat] in Hr. rewrite app_nil_r in Hr.
      cbn [ft260_poll_status].
      rewrite (bind_Ok _ _ _ _ _ (ft260_xfer_status_answered _ _ _ Hr)).
      rewrite (status_code_busy _ Hb), Z.eqb_refl. cbn [negb].
      destruct (IH n (polled report w)) as (w' & E & Hm & Hl).
      * lia.
      * intros k Hk. destruct (Hbusy (S k) ltac:(lia)) as (b' & Hb' & Hbb).
        exists b'. split; [|exact Hbb].
        cbn [polled log]. apply poll_answers_shift. exact Hb'.
      * cbn [polled log]. apply poll_answers_shift. exact Hs.
      * exact Hcode.
      * exists w'. rewrite E, Hm, Hl. cbn [polled log mem].
        rewrite <- app_assoc. repeat split.
Qed.

(** Polls all answered busy: the loop gives up after [more + 1] of them. *)
Lemma ft260_poll_status_exhausted env more w :
  (forall k, (k <= more)%nat ->
     exists b, poll_answers env (log w) k b
               /\ bit_set b FT260_I2C_STATUS_CTRL_BUSY = true) ->
  exists w', ft260_poll_status env more w = Ok (- EAGAIN) w'
             /\ mem w' = mem w
             /\ log w' = log w ++ repeat status_poll (S more).
Proof.
  revert w. induction more as [|m IH]; intros w Hbusy;
    destruct (Hbusy 0%nat ltac:(lia)) as (b & (report & Hr & <-) & Hb);
    unfold poll_reply in Hr; cbn [repeat] in Hr; rewrite app_nil_r in Hr;
    cbn [ft260_poll_status];
    rewrite (bind_Ok _ _ _ _ _ (ft260_xfer_status_answered _ _ _ Hr));
    rewrite (status_code_busy _ Hb), Z.eqb_refl; cbn [negb].
  - eexists. split; [reflexivity|]. split; reflexivity.
  - destruct (IH (polled report w)) as (w' & E & Hm & Hl).
    + intros k Hk. destruct (Hbusy (S k) ltac:(lia)) as (b' & Hb' & Hbb).
      exists b'. split; [|exact Hbb].
      cbn [polled log]. apply poll_answers_shift. exact Hb'.
    + exists w'. rewrite E, Hm, Hl. cbn [polled log mem].
      rewrite <- app_assoc. repeat split.
Qed.

(** C5 (amended).  After a report has been sent on the write path, the
    status report is polled at most three times.  An answer with the
    CTRL_BUSY bit set is polled again, as long as tries are left.  The
    first answer without that bit decides, by the first of three bits that
    is set in it: with BUS_BUSY the check succeeds with 0 and no reset is
    sent; with ERROR it sends the bus-reset report and returns -EIO; with
    CTRL_IDLE it succeeds.  With none of them set it fails like ERROR.
    The bits ADDR_NO_ACK, DATA_NO_ACK and ARBITR_LOST are never tested:
    a status that carries one of them alone is a failure because CTRL_IDLE
    is missing, and next to CTRL_IDLE or BUS_BUSY they change nothing.
    Three busy answers in a row also end in the bus reset and -EIO. *)
Theorem C5_status_check_after_send env data len w :
  0 <= hid_hw_output_report env (log w) data ->
  clock (dev w) <> 0 ->
  let l0 := log (sent_and_slept data len w) in
  let busy_before n :=
    forall k, (k < n)%nat ->
      exists b, poll_answers env l0 k b
                /\ bit_set b FT260_I2C_STATUS_CTRL_BUSY = true in
  let decides n s :=
    (n < 3)%nat /\ busy_before n /\ poll_answers env l0 n s
    /\ bit_set s FT260_I2C_STATUS_CTRL_BUSY = false in
  let succeeds n :=
    exists w',
      ft260_hid_output_report_check_status env data len w = Ok 0 w'
      /\ log w' = l0 ++ repeat status_poll (S n) in
  let fails n :=
    exists w',
      ft260_hid_output_report_check_status env data len w = Ok (- EIO) w'
      /\ log w' = l0 ++ repeat status_poll n ++ [HidSetReport reset_report] in
  (forall n s,
     decides n s -> bit_set s FT260_I2C_STATUS_BUS_BUSY = true -> succeeds n)
  /\ (forall n s,
     decides n s -> bit_set s FT260_I2C_STATUS_BUS_BUSY = false ->
     bit_set s FT260_I2C_STATUS_ERROR = true -> fails (S n))
  /\ (forall n s,
     decides n s -> bit_set s FT260_I2C_STATUS_BUS_BUSY = false ->
     bit_set s FT260_I2C_STATUS_ERROR = false ->
     bit_set s FT260_I2C_STATUS_CTRL_IDLE = true -> succeeds n)
  /\ (forall n s,
     decides n s -> bit_set s FT260_I2C_STATUS_BUS_BUSY = false ->
     bit_set s FT260_I2C_STATUS_ERROR = false ->
     bit_set s FT260_I2C_STATUS_CTRL_IDLE = false -> fails (S n))
  /\ (forall n s,
     (n < 3)%nat -> busy_before n -> poll_answers env l0 n s ->
     In s [FT260_I2C_STATUS_BUS_BUSY; FT260_I2C_STATUS_CTRL_IDLE] ->
     succeeds n)
  /\ (forall n s,
     (n < 3)%nat -> busy_before n -> poll_answers env l0 n s ->
     In s [FT260_I2C_STATUS_ERROR; FT260_I2C_STATUS_ADDR_NO_ACK;
           FT260_I2C_STATUS_DATA_NO_ACK; FT260_I2C_STATUS_ARBITR_LOST] ->
     fails (S n))
  /\ (busy_before 3%nat -> fails 3%nat).
Proof.
  intros Hsent Hclock l0 busy_before decides succeeds fails.
  apply Z.eqb_neq in Hclock.
  assert (Hcode : forall n s,
             (n < 3)%nat -> busy_before n -> poll_answers env l0 n s ->
             status_code s <> - EAGAIN ->
             (status_code s = 0 \/ status_code s = - EBUSY -> succeeds n)
             /\ (status_code s = - EIO -> fails (S n))).
  { intros n s Hn Hbusy Hs Hne.
    destruct (ft260_poll_status_decided env 2 n s (sent_and_slept data len w))
      as (w' & E & _ & Hl); try assumption; try lia.
    split.
    - intros Hc. unfold succeeds.
      rewrite check_status_sent by assumption. rewrite Hclock, E.
      exists w'. split; [|exact Hl].
      destruct Hc as [-> | ->]; reflexivity.
    - intros Hc. unfold fails.
      rewrite check_status_sent by assumption. rewrite Hclock, E, Hc.
      eexists. split; [reflexivity|].
      cbn [log]. rewrite Hl, <- app_assoc. reflexivity. }
  assert (Hbits : forall n s,
             decides n s ->
             (status_code s = 0 \/ status_code s = - EBUSY -> succeeds n)
             /\ (status_code s = - EIO -> fails (S n))).
  { intros n s (Hn & Hbusy & Hs & Hb).
    apply Hcode; try assumption.
    unfold status_code. rewrite Hb.
    repeat match goal with |- context [if ?c then _ else _] => destruct c end;
      discriminate. }
  split; [|split; [|split; [|split; [|split; [|split]]]]].
  - intros n s Hd Hbb. apply (Hbits n s Hd). right.
    destruct Hd as (_ & _ & _ & Hb). unfold status_code. rewrite Hb, Hbb.
    reflexivity.
  - intros n s Hd Hbb He. apply (Hbits n s Hd).
    destruct Hd as (_ & _ & _ & Hb). unfold status_code. rewrite Hb, Hbb, He.
    reflexivity.
  - intros n s Hd Hbb He Hi. apply (Hbits n s Hd). left.
    destruct Hd as (_ & _ & _ & Hb). unfold status_code. rewrite Hb, Hbb, He, Hi.
    reflexivity.
  - intros n s Hd Hbb He Hi. apply (Hbits n s Hd).
    destruct Hd as (_ & _ & _ & Hb). unfold status_code. rewrite Hb, Hbb, He, Hi.
    reflexivity.
  - intros n s Hn Hbusy Hs Hin.
    apply (Hcode n s Hn Hbusy Hs).
    + destruct Hin as [<-|[<-|[]]]; vm_compute; discriminate.
    + destruct Hin as [<-|[<-|[]]]; [right|left]; reflexivity.
  - intros n s Hn Hbusy Hs Hin.
    apply (Hcode n s Hn Hbusy Hs).
    + destruct Hin as [<-|[<-|[<-|[<-|[]]]]]; vm_compute; discriminate.
    + destruct Hin as [<-|[<-|[<-|[<-|[]]]]]; reflexivity.
  - intros Hbusy. unfold fails.
    rewrite check_status_sent by assumption. rewrite Hclock.
    destruct (ft260_poll_status_exhausted env 2 (sent_and_slept data len w))
      as (w' & E & _ & Hl).
    { intros k Hk. apply Hbusy. lia. }
    rewrite E. eexists. split; [reflexivity|].
    cbn [log]. rewrite Hl, <- app_assoc. reflexivity.
Qed.

(** Counterexample to C5 as stated: a status that carries ADDR_NO_ACK next
    to CTRL_IDLE (0x24) is no failure.  The check returns 0 after the one
    poll and sends no reset.  The same holds for ERROR next to BUS_BUSY
    (0x42). *)
Lemma C5_nack_next_to_idle_succeeds :
  bit_set 0x24 FT260_I2C_STATUS_ADDR_NO_ACK = true
  /\ ft260_hid_output_report_check_status
       (scripted_env 100 [0x24] (fun _ => [])) [0xD0; 0x50; 0x06; 0] 4
       (world_100 [])
     = Ok 0 (mk_world (dev_clock 100) []
               [HidOutputReport [0xD0; 0x50; 0x06; 0]; UsleepRange 400 500;
                status_poll])
  /\ bit_set 0x42 FT260_I2C_STATUS_ERROR = true
  /\ ft260_hid_output_report_check_status
       (scripted_env 100 [0x42] (fun _ => [])) [0xD0; 0x50; 0x06; 0] 4
       (world_100 [])
     = Ok 0 (mk_world (dev_clock 100) []
               [HidOutputReport [0xD0; 0x50; 0x06; 0]; UsleepRange 400 500;
                status_poll]).
Proof. repeat split; vm_compute; reflexivity. Qed.

(** ** The report dispatcher and the pending read (claims C3, C4) *)

Lemma resets_app l1 l2 : resets (l1 ++ l2) = (resets l1 + resets l2)%nat.
Proof. unfold resets. rewrite filter_app, length_app. reflexivity. Qed.

(** Destructs the tests and matches the hypotheses are stuck on. *)
Ltac break_match :=
  repeat (cbv beta in *;
          match goal with
          | H : Fault _ = Ok _ _ |- _ => discriminate H
          | H : Ok _ _ = Ok _ _ |- _ => injection H as ? ?; subst
          | H : context [match ?x with _ => _ end] |- _ =>
              let E := fresh "E" in destruct x eqn:E
          end).

(** The dispatcher sends no report: it leaves the resets of the log as
    they are. *)
Lemma ft260_raw_event_resets env r w ret w' :
  ft260_raw_event env r w = Ok ret w' -> resets (log w') = resets (log w).
Proof.
  intros H.
  unfold ft260_raw_event, ft260_uart_receive_chars, complete, bind, from_option,
    get_dev, get_mem, put_mem, modify_dev, Return, raise, get_log, call in H.
  cbn [log dev mem] in H.
  break_match; cbn [log]; rewrite ?resets_app; cbn; lia.
Qed.

Lemma deliver_resets env rs w w' :
  deliver env rs w = Ok tt w' -> resets (log w') = resets (log w).
Proof.
  revert w. induction rs as [|r rs IH]; intros w H; cbn [deliver] in H.
  - injection H as <-. reflexivity.
  - unfold bind at 1 in H. unfold get_dev in H.
    destruct (wait (dev w)).
    + unfold bind at 1 in H.
      destruct (ft260_raw_event env r w) as [ret w1|f] eqn:E; [|discriminate].
      rewrite (IH _ H). eapply ft260_raw_event_resets; eauto.
    + injection H as <-. reflexivity.
Qed.

Lemma wait_for_completion_timeout_resets env msecs w t w' :
  wait_for_completion_timeout env msecs w = Ok t w' ->
  resets (log w') = resets (log w).
Proof.
  unfold wait_for_completion_timeout.
  unfold bind at 1 2. unfold get_log, call. cbn [log dev mem].
  unfold bind at 1.
  destruct (deliver env (input_reports env (log w)) _) as [[] w1|f] eqn:E;
    [|discriminate].
  apply deliver_resets in E. cbn [log] in E.
  rewrite resets_app in E. cbn in E.
  unfold bind, get_dev, modify_dev, Return.
  destruct (wait (dev w1)); intros [= <- <-]; cbn [log]; lia.
Qed.

(** [ft260_i2c_read], once the request has been sent. *)
Lemma ft260_i2c_read_sent env addr data len flag w :
  u16 len <= FT260_RD_DATA_MAX ->
  0 <= hid_hw_output_report env (log w) (read_request addr flag len) ->
  ft260_i2c_read env addr data len flag w =
  match wait_for_completion_timeout env 5000 (read_started addr data len flag w) with
  | Fault f => Fault f
  | Ok t w2 =>
      if t =? 0 then Ok (- ETIMEDOUT) (with_reset w2)
      else match ft260_xfer_status env w2 with
           | Fault f => Fault f
           | Ok ret w3 => if ret =? 0 then Ok 0 w3 else Ok (- EIO) (with_reset w3)
           end
  end.
Proof.
  intros Hlen Hsent.
  unfold ft260_i2c_read. cbv zeta.
  apply Z.ltb_ge in Hlen. rewrite Hlen.
  unfold bind at 1 2. unfold reinit_completion, modify_dev. cbn [log dev mem].
  unfold ft260_hid_output_report.
  unfold bind at 1 2 3. unfold get_log, call, Return. cbn [log dev mem].
  fold (read_request addr flag len).
  apply Z.ltb_ge in Hsent. rewrite Hsent.
  unfold bind at 1. fold (read_started addr data len flag w).
  destruct (wait_for_completion_timeout env 5000 _) as [t w2|f]; [|reflexivity].
  destruct (t =? 0).
  - unfold bind. rewrite ft260_i2c_reset_eq. reflexivity.
  - unfold bind at 1.
    destruct (ft260_xfer_status env w2) as [ret w3|f]; [|reflexivity].
    destruct (ret =? 0); [reflexivity|].
    unfold bind. rewrite ft260_i2c_reset_eq. reflexivity.
Qed.

(** With no report raised during the wait, the wait times out, whatever
    the completion held before the read. *)
Lemma wait_for_completion_timeout_silent env addr data len flag w :
  input_reports env (log (read_started addr data len flag w)) = [] ->
  wait_for_completion_timeout env 5000 (read_started addr data len flag w) =
  Ok 0 (mk_world (dev (read_started addr data len flag w)) (mem w)
                 (log (read_started addr data len flag w) ++ [WaitForCompletion 5000])).
Proof.
  intros H. unfold wait_for_completion_timeout.
  unfold bind at 1 2. unfold get_log, call. cbn [dev mem].
  rewrite H. reflexivity.
Qed.

(** C4.  Once the read request has been sent: when the wait for the
    completion runs into its 5000 ms deadline, [ft260_i2c_read] sends the
    bus-reset report, once, and returns -ETIMEDOUT; this is what happens
    when no report arrives during the wait, also if the completion had
    been signalled before the read started.  When the wait is completed,
    the status is polled once, and what the transport answers decides:
    an answer in full whose bus status has CTRL_BUSY, BUS_BUSY or ERROR
    set, or CTRL_IDLE not set, makes the read send the bus-reset report,
    once, and return -EIO; so does an answer that is refused or short;
    only an answer in full with CTRL_IDLE set and none of the other three
    makes it return 0, with no reset. *)
Theorem C4_read_timeout_and_status env addr data len flag w :
  u16 len <= FT260_RD_DATA_MAX ->
  0 <= hid_hw_output_report env (log w) (read_request addr flag len) ->
  let w1 := read_started addr data len flag w in
  (forall w2,
     wait_for_completion_timeout env 5000 w1 = Ok 0 w2 ->
     ft260_i2c_read env addr data len flag w = Ok (- ETIMEDOUT) (with_reset w2)
     /\ resets (log (with_reset w2)) = S (resets (log w)))
  /\ (input_reports env (log w1) = [] ->
      exists w3,
        ft260_i2c_read env addr data len flag w = Ok (- ETIMEDOUT) w3
        /\ log w3 = log w1 ++ [WaitForCompletion 5000; HidSetReport reset_report])
  /\ (forall t w2 report,
        wait_for_completion_timeout env 5000 w1 = Ok t w2 -> t <> 0 ->
        hid_hw_raw_request_get env (log w2) FT260_I2C_STATUS 5 = (5, report) ->
        let s := nth 1 report 0 in
        let idle :=
          bit_set s FT260_I2C_STATUS_CTRL_BUSY = false
          /\ bit_set s FT260_I2C_STATUS_BUS_BUSY = false
          /\ bit_set s FT260_I2C_STATUS_ERROR = false
          /\ bit_set s FT260_I2C_STATUS_CTRL_IDLE = true in
        (~ idle ->
         ft260_i2c_read env addr data len flag w
         = Ok (- EIO) (with_reset (polled report w2))
         /\ log (with_reset (polled report w2))
            = log w2 ++ [status_poll; HidSetReport reset_report]
         /\ resets (log (with_reset (polled report w2))) = S (resets (log w)))
        /\ (idle ->
            ft260_i2c_read env addr data len flag w = Ok 0 (polled report w2)
            /\ log (polled report w2) = log w2 ++ [status_poll]
            /\ resets (log (polled report w2)) = resets (log w)))
  /\ (forall t w2 r buf,
        wait_for_completion_timeout env 5000 w1 = Ok t w2 -> t <> 0 ->
        hid_hw_raw_request_get env (log w2) FT260_I2C_STATUS 5 = (r, buf) ->
        r <> 5 ->
        let w3 := mk_world (dev w2) (mem w2) (log w2 ++ [status_poll]) in
        ft260_i2c_read env addr data len flag w = Ok (- EIO) (with_reset w3)
        /\ resets (log (with_reset w3)) = S (resets (log w))).
Proof.
  intros Hlen Hsent w1.
  assert (Hr1 : resets (log w1) = resets (log w)).
  { subst w1. unfold read_started. cbn [log]. rewrite resets_app. cbn. lia. }
  split; [|split; [|split]].
  - intros w2 H. split.
    + rewrite ft260_i2c_read_sent by assumption. fold w1. rewrite H. reflexivity.
    + apply wait_for_completion_timeout_resets in H.
      unfold with_reset. cbn [log]. rewrite resets_app, H, Hr1. cbn. lia.
  - intros Hsilent.
    rewrite ft260_i2c_read_sent by assumption.
    subst w1. rewrite wait_for_completion_timeout_silent by assumption.
    eexists. split; [reflexivity|].
    unfold with_reset. cbn [log]. rewrite <- app_assoc. reflexivity.
  - intros t w2 report Hw Ht Hget s idle.
    pose proof (wait_for_completion_timeout_resets _ _ _ _ _ Hw) as Hr2.
    apply Z.eqb_neq in Ht.
    assert (Hrun : ft260_i2c_read env addr data len flag w
                   = if status_code s =? 0 then Ok 0 (polled report w2)
                     else Ok (- EIO) (with_reset (polled report w2))).
    { rewrite ft260_i2c_read_sent by assumption. fold w1. rewrite Hw, Ht.
      rewrite (ft260_xfer_status_answered _ _ _ Hget). reflexivity. }
    assert (Hidle : status_code s = 0 <-> idle).
    { subst idle. unfold status_code.
      destruct (bit_set s FT260_I2C_STATUS_CTRL_BUSY);
        destruct (bit_set s FT260_I2C_STATUS_BUS_BUSY);
        destruct (bit_set s FT260_I2C_STATUS_ERROR);
        destruct (bit_set s FT260_I2C_STATUS_CTRL_IDLE);
        (split; [intros E; try discriminate E; repeat split
                |intros (E1 & E2 & E3 & E4); try discriminate; reflexivity]). }
    split.
    + intros Hn.
      assert (E : (status_code s =? 0) = false)
        by (apply Z.eqb_neq; intros E; apply Hn, Hidle, E).
      rewrite Hrun, E. split; [reflexivity|].
      unfold with_reset, polled. cbn [log].
      split; [rewrite <- app_assoc; reflexivity|].
      rewrite !resets_app, Hr2, Hr1. cbn. lia.
    + intros Hi. apply Hidle in Hi. rewrite Hrun, Hi. split; [reflexivity|].
      unfold polled. cbn [log]. split; [reflexivity|].
      rewrite resets_app, Hr2, Hr1. cbn. lia.
  - intros t w2 r buf Hw Ht Hget Hne w3.
    pose proof (wait_for_completion_timeout_resets _ _ _ _ _ Hw) as Hr2.
    apply Z.eqb_neq in Ht.
    split.
    + rewrite ft260_i2c_read_sent by assumption. fold w1. rewrite Hw, Ht.
      rewrite (ft260_xfer_status_failed _ _ _ _ Hget Hne). fold w3.
      destruct (0 <=? r) eqn:E0; [reflexivity|].
      apply Z.leb_gt in E0.
      replace (r =? 0) with false by (symmetry; apply Z.eqb_neq; lia).
      reflexivity.
    + unfold with_reset. subst w3. cbn [log].
      rewrite !resets_app, Hr2, Hr1. cbn. lia.
Qed.

Lemma read_bytes_header r :
  (2 <= length r)%nat ->
  exists hdr, read_bytes r 0 2 = Some hdr
              /\ nth 0 hdr 0 = report_id r /\ nth 1 hdr 0 = report_length r.
Proof.
  intros H. destruct r as [|a [|b r]]; cbn [length] in H; try lia.
  unfold read_bytes. cbn [length].
  replace (0 + 2 <=? Z.of_nat (S (S (length r)))) with true
    by (symmetry; apply Z.leb_le; lia).
  eexists. split; [reflexivity|]. split; reflexivity.
Qed.

(** The four rules of the dispatcher, in the order the code tries them. *)
Lemma ft260_raw_event_i2c env r w dst src m' :
  (2 <= length r)%nat -> is_i2c_data r = true ->
  read_buf (dev w) = Some dst ->
  read_bytes r 2 (report_length r) = Some src ->
  write_bytes (mem w) (dst + read_idx (dev w)) src = Some m' ->
  ft260_raw_event env r w = Ok 1 (mk_world (received r (dev w)) m' (log w)).
Proof.
  intros Hlen Hid Hbuf Hsrc Hdst.
  destruct (read_bytes_header r Hlen) as (hdr & Hh & H0 & H1).
  unfold ft260_raw_event.
  unfold bind at 1. rewrite Hh. cbn [from_option]. unfold Return at 1.
  rewrite H0, H1. unfold is_i2c_data in Hid. rewrite Hid.
  unfold bind at 1 2. unfold get_dev. rewrite Hbuf. cbn [from_option].
  unfold Return at 1.
  unfold bind at 1. rewrite Hsrc. cbn [from_option]. unfold Return at 1.
  unfold bind at 1 2. unfold get_mem. rewrite Hdst. cbn [from_option].
  unfold Return at 1.
  unfold bind, put_mem, modify_dev, complete, Return, received. cbn [dev mem log].
  destruct (u16 (read_idx (dev w) + report_length r) =? read_len (dev w));
    destruct w as [d m l]; reflexivity.
Qed.

Lemma ft260_raw_event_other env r w :
  (2 <= length r)%nat -> is_i2c_data r = false ->
  ft260_raw_event env r w =
  if FT260_RD_DATA_MAX <? report_length r then Ok (- EBADR) w
  else if is_uart_data r
       then ft260_uart_receive_chars env (skipn 2 r) (report_length r) w
       else Ok 0 w.
Proof.
  intros Hlen Hid.
  destruct (read_bytes_header r Hlen) as (hdr & Hh & H0 & H1).
  unfold ft260_raw_event.
  unfold bind at 1. rewrite Hh. cbn [from_option]. unfold Return at 1.
  rewrite H0, H1. unfold is_i2c_data in Hid. rewrite Hid.
  unfold is_uart_data.
  destruct (FT260_RD_DATA_MAX <? report_length r); [reflexivity|].
  destruct (in_range FT260_UART_REPORT_MIN _ _); reflexivity.
Qed.

Lemma read_write_extend m dst i acc src m' :
  0 <= dst -> 0 <= i ->
  read_bytes m dst i = Some acc ->
  write_bytes m (dst + i) src = Some m' ->
  read_bytes m' dst (i + Z.of_nat (length src)) = Some (acc ++ src).
Proof.
  intros Hd Hi Hr Hw.
  pose proof (read_bytes_length _ _ _ _ Hr) as Hacc.
  pose proof (write_bytes_length _ _ _ _ Hw) as Hlen.
  unfold read_bytes in Hr.
  destruct ((0 <=? dst) && (0 <=? i) && _) eqn:E1; [|discriminate].
  injection Hr as Hr.
  unfold write_bytes in Hw.
  destruct ((0 <=? dst + i) && _) eqn:E2; [|discriminate].
  injection Hw as Hw.
  apply andb_true_iff in E2. destruct E2 as [_ E2]. apply Z.leb_le in E2.
  rewrite read_bytes_Some by lia.
  f_equal. subst m'.
  replace (Z.to_nat (dst + i)) with (Z.to_nat dst + Z.to_nat i)%nat by lia.
  rewrite skipn_app.
  rewrite skipn_firstn_comm.
  replace (Z.to_nat dst + Z.to_nat i - Z.to_nat dst)%nat with (Z.to_nat i) by lia.
  rewrite Hr.
  rewrite length_firstn.
  replace (Z.to_nat dst - _)%nat with 0%nat by lia.
  cbn [skipn].
  rewrite firstn_app.
  replace (Z.to_nat (i + Z.of_nat (length src)) - length acc)%nat
    with (length src) by lia.
  rewrite firstn_all2 by lia.
  rewrite firstn_app, firstn_all.
  replace (length src - length src)%nat with 0%nat by lia.
  cbn [firstn]. rewrite app_nil_r. reflexivity.
Qed.

Lemma ft260_raw_event_i2c_overrun env r w dst src :
  (2 <= length r)%nat -> is_i2c_data r = true ->
  read_buf (dev w) = Some dst ->
  read_bytes r 2 (report_length r) = Some src ->
  write_bytes (mem w) (dst + read_idx (dev w)) src = None ->
  ft260_raw_event env r w = Fault OutOfBounds.
Proof.
  intros Hlen Hid Hbuf Hsrc Hdst.
  destruct (read_bytes_header r Hlen) as (hdr & Hh & H0 & H1).
  unfold ft260_raw_event.
  unfold bind at 1. rewrite Hh. cbn [from_option]. unfold Return at 1.
  rewrite H0, H1. unfold is_i2c_data in Hid. rewrite Hid.
  unfold bind at 1 2. unfold get_dev. rewrite Hbuf. cbn [from_option].
  unfold Return at 1.
  unfold bind at 1. rewrite Hsrc. cbn [from_option]. unfold Return at 1.
  unfold bind at 1 2. unfold get_mem. rewrite Hdst. reflexivity.
Qed.

Lemma deliver_signalled env rs w :
  wait (dev w) <> O -> deliver env rs w = Ok tt w.
Proof.
  intros H. destruct rs as [|r rs]; [reflexivity|].
  cbn [deliver]. unfold bind, get_dev.
  destruct (wait (dev w)); [contradiction|reflexivity].
Qed.

Lemma i2c_data_report_payload r :
  i2c_data_report r ->
  (2 <= length r)%nat
  /\ read_bytes r 2 (report_length r) = Some (report_payload r)
  /\ Z.of_nat (length (report_payload r)) = report_length r.
Proof.
  intros (_ & H0 & H2).
  assert (E : read_bytes r 2 (report_length r) = Some (report_payload r))
    by (rewrite read_bytes_Some by lia; reflexivity).
  repeat split; [lia|exact E|].
  apply (read_bytes_length _ _ _ _ E).
Qed.

(** The pending read under a run of I2C data reports: when the completion
    gets signalled, the reports taken so far carry exactly the bytes still
    owed, and the destination holds them in the order they came. *)
Lemma deliver_completion env rs :
  forall w dst acc w',
    wait (dev w) = O -> read_buf (dev w) = Some dst ->
    0 <= dst -> 0 <= read_idx (dev w) ->
    Z.of_nat (length (mem w)) < 65536 ->
    read_bytes (mem w) dst (read_idx (dev w)) = Some acc ->
    Forall i2c_data_report rs ->
    deliver env rs w = Ok tt w' -> wait (dev w') <> O ->
    exists rs1 rs2,
      rs = rs1 ++ rs2
      /\ read_idx (dev w) + Z.of_nat (length (concat (map report_payload rs1)))
         = read_len (dev w)
      /\ read_bytes (mem w') dst (read_len (dev w))
         = Some (acc ++ concat (map report_payload rs1)).
Proof.
  induction rs as [|r rs IH]; intros w dst acc w' Hw Hbuf Hdst Hidx Hmem Hacc Hrs Hrun Hdone.
  - injection Hrun as <-. contradiction.
  - inversion Hrs as [|? ? Hr Hrs']; subst.
    destruct (i2c_data_report_payload r Hr) as (Hlen & Hsrc & Hpl).
    destruct Hr as (Hid & Hl0 & _).
    cbn [deliver] in Hrun. unfold bind at 1 in Hrun. unfold get_dev in Hrun.
    rewrite Hw in Hrun. unfold bind at 1 in Hrun.
    destruct (write_bytes (mem w) (dst + read_idx (dev w)) (report_payload r))
      as [m'|] eqn:Ewr.
    2: { rewrite (ft260_raw_event_i2c_overrun env r w dst _ Hlen Hid Hbuf Hsrc Ewr)
           in Hrun. discriminate. }
    rewrite (ft260_raw_event_i2c env r w dst _ m' Hlen Hid Hbuf Hsrc Ewr) in Hrun.
    pose proof (write_bytes_length _ _ _ _ Ewr) as Hm'.
    pose proof (read_write_extend _ _ _ _ _ _ Hdst Hidx Hacc Ewr) as Hext.
    assert (Hfit : read_idx (dev w) + report_length r < 65536).
    { unfold write_bytes in Ewr.
      destruct ((0 <=? dst + read_idx (dev w)) && _) eqn:E; [|discriminate].
      apply andb_true_iff in E. destruct E as [_ E]. apply Z.leb_le in E. lia. }
    assert (Hu : u16 (read_idx (dev w) + report_length r)
                 = read_idx (dev w) + report_length r)
      by (unfold u16; apply Z.mod_small; lia).
    unfold received in Hrun. rewrite Hu in Hrun.
    destruct (read_idx (dev w) + report_length r =? read_len (dev w)) eqn:Eq.
    + apply Z.eqb_eq in Eq.
      rewrite deliver_signalled in Hrun by (cbn; discriminate).
      injection Hrun as <-.
      exists [r], rs. cbn [map concat app mem]. rewrite app_nil_r.
      repeat split.
      * lia.
      * rewrite <- Eq, <- Hpl. exact Hext.
    + match type of Hrun with
      | deliver _ _ ?w1 = _ =>
          specialize (IH w1 dst (acc ++ report_payload r) w')
      end.
      cbn [dev mem read_idx read_buf wait set_read_idx set_read read_len] in IH.
      rewrite <- Hpl in IH at 2.
      destruct IH as (rs1 & rs2 & -> & Hsum & Hrd); try assumption; try lia.
      exists (r :: rs1), rs2.
      cbn [map concat app]. rewrite length_app.
      repeat split.
      * lia.
      * rewrite Hrd, <- app_assoc. reflexivity.
Qed.

Lemma data_report_id_range base len :
  0 <= len <= 60 -> base + 0 <= base + Z.quot (len - 1) 4 <= base + 14.
Proof.
  intros H. destruct (Z.eq_dec len 0) as [->|Hn]; [cbn; lia|].
  rewrite Z.quot_div_nonneg by lia.
  assert (0 <= (len - 1) / 4) by (apply Z.div_pos; lia).
  assert ((len - 1) / 4 <= 59 / 4) by (apply Z.div_le_mono; lia).
  change (59 / 4) with 14 in *. lia.
Qed.

Lemma i2c_input_report_ok payload :
  (length payload <= 60)%nat ->
  i2c_data_report (i2c_input_report payload)
  /\ report_length (i2c_input_report payload) = Z.of_nat (length payload)
  /\ report_payload (i2c_input_report payload) = payload.
Proof.
  intros H.
  assert (Hp : report_payload (i2c_input_report payload) = payload).
  { unfold report_payload, report_length, i2c_input_report. cbn [nth skipn].
    rewrite Nat2Z.id. apply firstn_all. }
  repeat split; try exact Hp.
  - unfold is_i2c_data, report_id, i2c_input_report, in_range. cbn [nth].
    pose proof (data_report_id_range FT260_I2C_REPORT_MIN
                  (Z.of_nat (length payload)) ltac:(lia)) as Hr.
    unfold FT260_I2C_DATA_REPORT_ID, u8, FT260_I2C_REPORT_MIN, FT260_I2C_REPORT_MAX in *.
    rewrite Z.mod_small by lia.
    apply andb_true_iff. split; apply Z.leb_le; lia.
  - unfold report_length, i2c_input_report. cbn [nth]. lia.
  - unfold report_length, i2c_input_report. cbn [nth length]. lia.
Qed.

(** One input report that carries all the bytes asked for completes the
    pending read. *)
Lemma deliver_single env w dst payload m' :
  wait (dev w) = O -> read_buf (dev w) = Some dst ->
  read_idx (dev w) = 0 -> read_len (dev w) = Z.of_nat (length payload) ->
  (length payload <= 60)%nat ->
  write_bytes (mem w) dst payload = Some m' ->
  deliver env [i2c_input_report payload] w =
  Ok tt (mk_world (set_wait 1 (set_read_idx (Z.of_nat (length payload)) (dev w)))
                  m' (log w)).
Proof.
  intros Hw Hbuf Hidx Hlen Hp Hwr.
  destruct (i2c_input_report_ok payload Hp) as (Hr & Hrl & Hrp).
  destruct (i2c_data_report_payload _ Hr) as (H2 & Hsrc & _).
  destruct Hr as (Hid & _).
  cbn [deliver]. unfold bind at 1. unfold get_dev. rewrite Hw.
  unfold bind at 1.
  rewrite (ft260_raw_event_i2c env _ w dst payload m'); try assumption.
  - unfold Return, received. rewrite Hidx, Hrl, Hlen, Hw. cbn [Z.add].
    unfold u16. rewrite Z.mod_small by lia. rewrite Z.eqb_refl. reflexivity.
  - rewrite Hsrc, Hrp. reflexivity.
  - rewrite Hidx, Z.add_0_r. exact Hwr.
Qed.

(** C3.  The dispatcher tries its rules in order.  A report whose id is in
    the I2C data range has its [length] bytes copied to the destination of
    the pending read at the current offset, the offset advances by
    [length], and the completion is signalled exactly when the new offset
    equals the requested length.  Any other report with a length above 60
    is answered -EBADR and leaves everything as it was; any other report
    whose id is in the UART data range goes to [ft260_uart_receive_chars];
    what remains is dropped with result 0.  For a read of at most 60
    bytes into a destination smaller than 64 KiB, a run of I2C data reports
    signals the completion only when the reports taken carry exactly the
    requested number of bytes, which the destination then holds in order;
    one report with all the bytes does complete the read. *)
Theorem C3_dispatcher_rules env :
  (forall r w, (2 <= length r)%nat ->
     (is_i2c_data r = true ->
      forall dst src m',
        read_buf (dev w) = Some dst ->
        read_bytes r 2 (report_length r) = Some src ->
        write_bytes (mem w) (dst + read_idx (dev w)) src = Some m' ->
        ft260_raw_event env r w = Ok 1 (mk_world (received r (dev w)) m' (log w))
        /\ read_bytes m' (dst + read_idx (dev w)) (report_length r) = Some src
        /\ read_idx (received r (dev w)) = u16 (read_idx (dev w) + report_length r)
        /\ (wait (received r (dev w)) = S (wait (dev w)) <->
            u16 (read_idx (dev w) + report_length r) = read_len (dev w))
        /\ (wait (received r (dev w)) = wait (dev w) <->
            u16 (read_idx (dev w) + report_length r) <> read_len (dev w)))
     /\ (is_i2c_data r = false -> FT260_RD_DATA_MAX < report_length r ->
         ft260_raw_event env r w = Ok (- EBADR) w)
     /\ (is_i2c_data r = false -> report_length r <= FT260_RD_DATA_MAX ->
         is_uart_data r = true ->
         ft260_raw_event env r w =
         ft260_uart_receive_chars env (skipn 2 r) (report_length r) w)
     /\ (is_i2c_data r = false -> report_length r <= FT260_RD_DATA_MAX ->
         is_uart_data r = false ->
         ft260_raw_event env r w = Ok 0 w))
  /\ (forall addr dst len flag w rs w',
        0 <= dst <= Z.of_nat (length (mem w)) -> u16 len <= FT260_RD_DATA_MAX ->
        Z.of_nat (length (mem w)) < 65536 ->
        Forall i2c_data_report rs ->
        deliver env rs (read_started addr (Some dst) len flag w) = Ok tt w' ->
        wait (dev w') <> O ->
        exists rs1 rs2,
          rs = rs1 ++ rs2
          /\ Z.of_nat (length (concat (map report_payload rs1))) = u16 len
          /\ read_bytes (mem w') dst (u16 len)
             = Some (concat (map report_payload rs1)))
  /\ (forall addr dst len flag w payload m',
        Z.of_nat (length payload) = u16 len -> u16 len <= FT260_RD_DATA_MAX ->
        write_bytes (mem w) dst payload = Some m' ->
        exists w',
          deliver env [i2c_input_report payload]
                  (read_started addr (Some dst) len flag w) = Ok tt w'
          /\ wait (dev w') = 1%nat /\ mem w' = m').
Proof.
  split; [|split].
  - intros r w Hlen. split; [|split; [|split]].
    + intros Hid dst src m' Hbuf Hsrc Hwr.
      split; [|split; [|split; [|split]]].
      * apply (ft260_raw_event_i2c env r w dst src m'); assumption.
      * pose proof (read_bytes_length _ _ _ _ Hsrc) as <-.
        pose proof Hwr as Hwr0.
        unfold write_bytes in Hwr0.
        destruct ((0 <=? dst + read_idx (dev w)) && _) eqn:E; [|discriminate].
        apply andb_true_iff in E. destruct E as [E1 E2].
        apply Z.leb_le in E1, E2.
        assert (Hr : read_bytes (mem w) (dst + read_idx (dev w)) 0 = Some [])
          by (rewrite read_bytes_Some by lia; reflexivity).
        rewrite <- (Z.add_0_r (dst + read_idx (dev w))) in Hwr.
        apply (read_write_extend _ _ _ _ _ _ E1 (Z.le_refl 0) Hr Hwr).
      * unfold received.
        destruct (_ =? _); reflexivity.
      * unfold received.
        destruct (_ =? _) eqn:E; cbn [wait set_wait set_read_idx set_read].
        -- apply Z.eqb_eq in E. split; intros _; [exact E|reflexivity].
        -- apply Z.eqb_neq in E. split; intros Hc; [lia|contradiction].
      * unfold received.
        destruct (_ =? _) eqn:E; cbn [wait set_wait set_read_idx set_read].
        -- apply Z.eqb_eq in E. split; intros Hc; [lia|contradiction].
        -- apply Z.eqb_neq in E. split; intros _; [exact E|reflexivity].
    + intros Hid Hl. rewrite ft260_raw_event_other by assumption.
      apply Z.ltb_lt in Hl. rewrite Hl. reflexivity.
    + intros Hid Hl Hu. rewrite ft260_raw_event_other by assumption.
      apply Z.ltb_ge in Hl. rewrite Hl, Hu. reflexivity.
    + intros Hid Hl Hu. rewrite ft260_raw_event_other by assumption.
      apply Z.ltb_ge in Hl. rewrite Hl, Hu. reflexivity.
  - intros addr dst len flag w rs w' Hdst Hlen Hmem Hrs Hrun Hdone.
    destruct (deliver_completion env rs (read_started addr (Some dst) len flag w)
                dst [] w') as (rs1 & rs2 & E & Hsum & Hrd);
      cbn [read_started dev mem wait set_wait set_read read_buf read_idx];
      try assumption; try reflexivity; try lia.
    { rewrite read_bytes_Some by lia. reflexivity. }
    exists rs1, rs2.
    cbn [read_started dev set_wait set_read read_idx read_len] in Hsum, Hrd.
    repeat split; assumption.
  - intros addr dst len flag w payload m' Hp Hlen Hwr.
    eexists. split; [|split].
    + apply deliver_single with (dst := dst) (m' := m');
        cbn [read_started dev mem wait set_wait set_read read_buf read_idx read_len];
        try reflexivity; try assumption.
      * symmetry. exact Hp.
      * unfold FT260_RD_DATA_MAX in Hlen. lia.
    + reflexivity.
    + reflexivity.
Qed.

(** ** Staging and sending a write request (claims C1, C2) *)

Lemma stage_Ok off src w b :
  write_bytes (write_buf (dev w)) off src = Some b ->
  stage off src w = Ok tt (mk_world (set_write_buf b (dev w)) (mem w) (log w)).
Proof.
  intros H. unfold stage, bind, get_dev, put_dev. rewrite H. reflexivity.
Qed.

Lemma staging_buffer (b : list Z) :
  length b = 64%nat ->
  exists x0 x1 x2 x3 x4 rest,
    b = x0 :: x1 :: x2 :: x3 :: x4 :: rest /\ length rest = 59%nat.
Proof.
  intros H.
  destruct b as [|x0 [|x1 [|x2 [|x3 [|x4 rest]]]]]; cbn [length] in H; try lia.
  exists x0, x1, x2, x3, x4, rest. split; [reflexivity|lia].
Qed.

(** The header bytes of a write request, stored one by one. *)
Lemma stage_header id a l f w (k : M Z) :
  staging_ok w ->
  (stage 0 [id] ;;; stage 1 [a] ;;; stage 3 [l] ;;; stage 2 [f] ;;; k) w
  = k (with_staged [id; a; f; l] w).
Proof.
  intros Hb. destruct w as [d m lg]. unfold staging_ok in Hb. cbn [dev] in Hb.
  destruct d as [wb rb ri rl ck wt xf tx rx tty]. cbn [write_buf] in Hb.
  destruct (staging_buffer _ Hb) as (x0 & x1 & x2 & x3 & x4 & rest & -> & Hr).
  unfold with_staged. cbn [dev mem log length skipn write_buf].
  repeat (unfold bind at 1;
          erewrite stage_Ok
            by (cbn [dev write_buf set_write_buf];
                apply write_bytes_Some; cbn [length]; lia);
          cbv [Z.to_nat Pos.to_nat Pos.iter_op Nat.add firstn skipn app length
               set_write_buf write_buf dev mem log read_buf read_idx read_len
               clock wait xmit_fifo icount_tx icount_rx port_tty]).
  reflexivity.
Qed.

Lemma wr_chunk_le data_len : wr_chunk data_len <= 60.
Proof.
  unfold wr_chunk, FT260_WR_DATA_MAX.
  destruct (data_len <=? 60) eqn:E; [apply Z.leb_le in E|]; lia.
Qed.

Lemma length_i2c_write_report addr flag chunk :
  length (i2c_write_report addr flag chunk) = (4 + length chunk)%nat.
Proof. reflexivity. Qed.

Lemma ft260_i2c_write_fragment_eq env addr data data_len idx flag w chunk :
  staging_ok w ->
  read_bytes data idx (wr_chunk data_len) = Some chunk ->
  ft260_i2c_write_fragment env addr data data_len idx flag w =
  ft260_hid_output_report_check_status env (i2c_write_report addr flag chunk)
    (wr_chunk data_len + 4) (with_staged (i2c_write_report addr flag chunk) w).
Proof.
  intros Hb Hrd.
  pose proof (read_bytes_length _ _ _ _ Hrd) as Hlen.
  pose proof (wr_chunk_le data_len) as Hle.
  unfold ft260_i2c_write_fragment. cbv zeta.
  rewrite stage_header by assumption.
  unfold bind at 1. rewrite Hrd. cbn [from_option]. unfold Return at 1.
  unfold staging_ok in Hb.
  assert (Hst : write_bytes (write_buf (dev (with_staged
                  [u8 (FT260_I2C_DATA_REPORT_ID (wr_chunk data_len)); u8 addr;
                   u8 flag; u8 (wr_chunk data_len)] w))) 4 chunk
                = Some (i2c_write_report addr flag chunk
                        ++ skipn (length (i2c_write_report addr flag chunk))
                                 (write_buf (dev w)))).
  { unfold with_staged. cbn [dev write_buf set_write_buf].
    rewrite write_bytes_Some;
      [|lia|rewrite length_app, length_skipn; cbn [length]; lia].
    f_equal. unfold i2c_write_report. rewrite Hlen.
    change (Z.to_nat 4) with 4%nat. cbn [firstn app length].
    do 5 f_equal.
    change (4 + length chunk)%nat with (S (S (S (S (length chunk))))).
    destruct (staging_buffer _ Hb) as (x0 & x1 & x2 & x3 & x4 & rest & -> & _).
    reflexivity. }
  unfold bind at 1. rewrite (stage_Ok _ _ _ _ Hst).
  unfold with_staged at 1. cbn [dev mem log set_write_buf].
  unfold staged. unfold bind at 1 2. unfold get_dev. cbn [dev write_buf].
  cbn [write_buf set_write_buf].
  rewrite read_bytes_Some;
    [|lia|lia|rewrite length_app, length_skipn, length_i2c_write_report; lia].
  cbn [from_option skipn Z.to_nat]. unfold Return at 1.
  rewrite firstn_app.
  replace (Z.to_nat (wr_chunk data_len + 4)) with
    (length (i2c_write_report addr flag chunk))
    by (rewrite length_i2c_write_report; lia).
  rewrite firstn_all, Nat.sub_diag. cbn [firstn]. rewrite app_nil_r.
  unfold with_staged.
  destruct w as [d m l]. destruct d. reflexivity.
Qed.

Lemma output_reports_app l1 l2 :
  output_reports (l1 ++ l2) = output_reports l1 ++ output_reports l2.
Proof.
  induction l1 as [|c l1 IH]; [reflexivity|].
  destruct c; cbn [app output_reports]; rewrite IH; reflexivity.
Qed.

Lemma output_reports_polls k : output_reports (repeat status_poll k) = [].
Proof. induction k; [reflexivity|exact IHk]. Qed.

(** Whatever comes of the status check, it sends its report, and only it,
    as an output report. *)
Lemma check_status_outputs env data len w ret w' :
  ft260_hid_output_report_check_status env data len w = Ok ret w' ->
  output_reports (log w') = output_reports (log w) ++ [data]
  /\ write_buf (dev w') = write_buf (dev w)
  /\ mem w' = mem w.
Proof.
  destruct (Z_lt_dec (hid_hw_output_report env (log w) data) 0) as [Hneg|Hpos].
  - unfold ft260_hid_output_report_check_status, ft260_hid_output_report.
    unfold bind at 1 2 3. unfold get_log, call, Return. cbn [log dev mem].
    apply Z.ltb_lt in Hneg. rewrite Hneg.
    unfold bind. rewrite ft260_i2c_reset_eq. intros [= <- <-].
    cbn [log dev mem]. rewrite !output_reports_app. cbn. rewrite app_nil_r.
    auto.
  - rewrite check_status_sent by lia.
    destruct (clock (dev w) =? 0); [discriminate|].
    destruct (ft260_poll_status_returns env 2 (sent_and_slept data len w))
      as (r & w1 & k & E & Hm & Hb & _ & Hl).
    rewrite E.
    assert (Ho : output_reports (log w1) = output_reports (log w) ++ [data]).
    { rewrite Hl. unfold sent_and_slept. cbn [log].
      rewrite !output_reports_app, output_reports_polls. cbn.
      rewrite app_nil_r. reflexivity. }
    destruct ((r =? 0) || (r =? - EBUSY)); intros [= <- <-]; cbn [log dev mem].
    + auto.
    + rewrite output_reports_app, Ho. cbn. rewrite app_nil_r. auto.
Qed.

(** With a cooperative device the status check succeeds at its first
    poll. *)
Lemma check_status_cooperative env data len w :
  cooperative env -> clock (dev w) <> 0 ->
  exists w', ft260_hid_output_report_check_status env data len w = Ok 0 w'
             /\ clock (dev w') <> 0.
Proof.
  intros [Hout Hst] Hc.
  rewrite check_status_sent by apply Hout.
  apply Z.eqb_neq in Hc. rewrite Hc.
  destruct (Hst (log (sent_and_slept data len w))) as (report & Hr & Hcode & Hclk).
  cbn [ft260_poll_status].
  rewrite (bind_Ok _ _ _ _ _ (ft260_xfer_status_answered _ _ _ Hr)).
  destruct Hcode as [E|E]; rewrite E; cbn; eexists; (split; [reflexivity|]);
    exact Hclk.
Qed.

(** The loop of [ft260_i2c_write], one turn unfolded. *)
Lemma ft260_i2c_write_from_eq env addr data data_len idx flag w :
  ft260_i2c_write_from env addr data data_len idx flag w =
  match ft260_i2c_write_fragment env addr data data_len idx flag w with
  | Fault f => Fault f
  | Ok ret w' =>
      if ret <? 0 then Ok ret w'
      else if 0 <? data_len - wr_chunk data_len
           then ft260_i2c_write_from env addr data (data_len - wr_chunk data_len)
                  (idx + wr_chunk data_len) flag w'
           else Ok 0 w'
  end.
Proof.
  simp ft260_i2c_write_from.
  destruct (ft260_i2c_write_fragment env addr data data_len idx flag w)
    as [ret w'|f]; cbn; [|reflexivity].
  destruct (Z_lt_dec ret 0) as [H|H]; cbn.
  - apply Z.ltb_lt in H. rewrite H. reflexivity.
  - replace (ret <? 0) with false by (symmetry; apply Z.ltb_ge; lia).
    destruct (Z_gt_dec (data_len - wr_chunk data_len) 0) as [G|G]; cbn.
    + replace (0 <? data_len - wr_chunk data_len) with true
        by (symmetry; apply Z.ltb_lt; lia). reflexivity.
    + replace (0 <? data_len - wr_chunk data_len) with false
        by (symmetry; apply Z.ltb_ge; lia). reflexivity.
Qed.

(** One turn of the loop of [ft260_i2c_write]. *)
Lemma ft260_i2c_write_fragment_turn env addr data data_len idx flag w :
  staging_ok w -> 0 <= idx -> 0 <= data_len ->
  idx + data_len <= Z.of_nat (length data) ->
  let chunk := firstn (Z.to_nat (wr_chunk data_len)) (skipn (Z.to_nat idx) data) in
  (forall ret w1,
     ft260_i2c_write_fragment env addr data data_len idx flag w = Ok ret w1 ->
     output_reports (log w1)
     = output_reports (log w) ++ [i2c_write_report addr flag chunk]
     /\ staging_ok w1 /\ mem w1 = mem w)
  /\ (cooperative env -> clock (dev w) <> 0 ->
      exists w1,
        ft260_i2c_write_fragment env addr data data_len idx flag w = Ok 0 w1
        /\ clock (dev w1) <> 0).
Proof.
  intros Hb Hidx Hlen Hfit chunk.
  pose proof (wr_chunk_le data_len) as Hle.
  assert (H0 : 0 <= wr_chunk data_len <= data_len).
  { unfold wr_chunk, FT260_WR_DATA_MAX.
    destruct (data_len <=? 60) eqn:E; [|apply Z.leb_gt in E]; lia. }
  assert (Hrd : read_bytes data idx (wr_chunk data_len) = Some chunk)
    by (apply read_bytes_Some; lia).
  rewrite (ft260_i2c_write_fragment_eq env addr data data_len idx flag w chunk Hb Hrd).
  pose proof (read_bytes_length _ _ _ _ Hrd) as Hcl.
  split.
  - intros ret w1 E.
    destruct (check_status_outputs _ _ _ _ _ _ E) as (Ho & Hw & Hm).
    repeat split; try assumption.
    unfold staging_ok in *. rewrite Hw. unfold with_staged.
    cbn [dev write_buf set_write_buf].
    rewrite length_app, length_skipn, length_i2c_write_report. lia.
  - intros Hco Hclk.
    apply check_status_cooperative; [assumption|].
    unfold with_staged. destruct w as [d m l]. destruct d. exact Hclk.
Qed.

Lemma split60_short fuel l : (length l <= 60)%nat -> split60 fuel l = [l].
Proof.
  intros H. destruct fuel; [reflexivity|]. cbn [split60].
  apply Nat.leb_le in H. rewrite H. reflexivity.
Qed.

Lemma split60_long fuel l :
  (60 < length l)%nat ->
  split60 (S fuel) l = firstn 60 l :: split60 fuel (skipn 60 l).
Proof.
  intros H. cbn [split60].
  apply Nat.leb_gt in H. rewrite H. reflexivity.
Qed.

(** A write that does not fail has sent the chunks of the payload, each as
    one write request, and nothing else, and returns 0. *)
Lemma ft260_i2c_write_from_fragments env addr data flag fuel :
  forall data_len idx w ret w',
    (Z.to_nat data_len <= fuel)%nat ->
    0 <= idx -> 0 <= data_len -> idx + data_len <= Z.of_nat (length data) ->
    staging_ok w ->
    ft260_i2c_write_from env addr data data_len idx flag w = Ok ret w' ->
    0 <= ret ->
    ret = 0
    /\ output_reports (log w')
       = output_reports (log w)
         ++ map (i2c_write_report addr flag)
                (split60 fuel (firstn (Z.to_nat data_len)
                                      (skipn (Z.to_nat idx) data)))
    /\ mem w' = mem w /\ staging_ok w'.
Proof.
  induction fuel as [|k IH];
    intros data_len idx w ret0 w' Hfuel Hidx Hlen Hsum Hb Hrun Hret;
    rewrite ft260_i2c_write_from_eq in Hrun;
    destruct (ft260_i2c_write_fragment env addr data data_len idx flag w)
      as [ret w1|f] eqn:E; try discriminate;
    destruct (ft260_i2c_write_fragment_turn env addr data data_len idx flag w
                Hb Hidx Hlen Hsum) as [Hturn _];
    destruct (Hturn ret w1 E) as (Ho & Hb1 & Hm1);
    pose proof (length_skipn (Z.to_nat idx) data) as Hrem;
    unfold wr_chunk, FT260_WR_DATA_MAX in *.
  - assert (data_len = 0) by lia. subst data_len. cbn in Hrun, Ho.
    destruct (ret <? 0) eqn:Er.
    + apply Z.ltb_lt in Er. injection Hrun as -> <-. lia.
    + injection Hrun as <- <-. rewrite Ho. cbn [split60 map Z.to_nat firstn].
      auto.
  - destruct (data_len <=? 60) eqn:E60.
    + apply Z.leb_le in E60.
      rewrite Z.sub_diag in Hrun. cbn in Hrun.
      rewrite split60_short by (rewrite length_firstn; lia).
      destruct (ret <? 0) eqn:Er.
      * apply Z.ltb_lt in Er. injection Hrun as -> <-. lia.
      * injection Hrun as <- <-. rewrite Ho. auto.
    + apply Z.leb_gt in E60.
      destruct (ret <? 0) eqn:Er.
      * apply Z.ltb_lt in Er. injection Hrun as -> <-. lia.
      * replace (0 <? data_len - 60) with true in Hrun
          by (symmetry; apply Z.ltb_lt; lia).
        apply IH in Hrun as (Hr0 & Ho' & Hm' & Hb');
          [|lia|lia|lia|lia|exact Hb1|exact Hret].
        rewrite split60_long by (rewrite length_firstn; lia).
        rewrite Ho', Ho, Hm', Hm1. cbn [map]. rewrite <- app_assoc. cbn [app].
        rewrite firstn_firstn.
        replace (Nat.min 60 (Z.to_nat data_len)) with (Z.to_nat 60) by lia.
        rewrite skipn_firstn_comm, skipn_skipn.
        replace (Z.to_nat (idx + 60)) with (60 + Z.to_nat idx)%nat by lia.
        replace (Z.to_nat (data_len - 60)) with (Z.to_nat data_len - 60)%nat by lia.
        auto.
Qed.

(** With a cooperative device a write goes through. *)
Lemma ft260_i2c_write_from_cooperative env addr data flag fuel :
  cooperative env ->
  forall data_len idx w,
    (Z.to_nat data_len <= fuel)%nat ->
    0 <= idx -> 0 <= data_len -> idx + data_len <= Z.of_nat (length data) ->
    staging_ok w -> clock (dev w) <> 0 ->
    exists w', ft260_i2c_write_from env addr data data_len idx flag w = Ok 0 w'
               /\ clock (dev w') <> 0 /\ staging_ok w'.
Proof.
  intros Hco.
  induction fuel as [|k IH]; intros data_len idx w Hfuel Hidx Hlen Hsum Hb Hclk;
    rewrite ft260_i2c_write_from_eq;
    destruct (ft260_i2c_write_fragment_turn env addr data data_len idx flag w
                Hb Hidx Hlen Hsum) as [Hturn Hgo];
    destruct (Hgo Hco Hclk) as (w1 & E & Hclk1);
    destruct (Hturn _ _ E) as (_ & Hb1 & _);
    rewrite E; cbn [Z.ltb Z.compare];
    unfold wr_chunk, FT260_WR_DATA_MAX in *.
  - assert (data_len = 0) by lia. subst data_len. cbn. eauto.
  - destruct (data_len <=? 60) eqn:E60.
    + rewrite Z.sub_diag. cbn. eauto.
    + apply Z.leb_gt in E60.
      replace (0 <? data_len - 60) with true by (symmetry; apply Z.ltb_lt; lia).
      apply IH; try assumption; lia.
Qed.

(** ** The fragments of a write (claim C2) *)

Lemma concat_split60 fuel l : concat (split60 fuel l) = l.
Proof.
  revert l. induction fuel as [|k IH]; intros l; cbn [split60].
  - cbn. apply app_nil_r.
  - destruct (length l <=? 60)%nat.
    + cbn. apply app_nil_r.
    + cbn [concat]. rewrite IH. apply firstn_skipn.
Qed.

Lemma length_split60 fuel l :
  (length l <= fuel)%nat ->
  Z.of_nat (length (split60 fuel l)) = Z.max 1 (ceil_div60 (Z.of_nat (length l))).
Proof.
  unfold ceil_div60.
  revert l. induction fuel as [|k IH]; intros l H.
  - replace (length l) with 0%nat by lia. reflexivity.
  - destruct (Nat.le_gt_cases (length l) 60) as [Hs|Hl].
    + rewrite split60_short by assumption. cbn [length].
      assert ((Z.of_nat (length l) + 59) / 60 <= 119 / 60)
        by (apply Z.div_le_mono; lia).
      change (119 / 60) with 1 in *. lia.
    + rewrite split60_long by assumption. cbn [length].
      rewrite Nat2Z.inj_succ, IH by (rewrite length_skipn; lia).
      rewrite length_skipn.
      replace (Z.of_nat (length l) + 59)
        with (Z.of_nat (length l - 60) + 59 + 1 * 60) by lia.
      rewrite Z.div_add by lia.
      assert (60 / 60 <= (Z.of_nat (length l - 60) + 59) / 60)
        by (apply Z.div_le_mono; lia).
      change (60 / 60) with 1 in *. lia.
Qed.

Lemma Forall_split60 fuel l :
  (length l <= fuel)%nat ->
  Forall (fun c => (length c <= 60)%nat) (split60 fuel l).
Proof.
  revert l. induction fuel as [|k IH]; intros l H.
  - cbn. constructor; [lia|constructor].
  - destruct (Nat.le_gt_cases (length l) 60) as [Hs|Hl].
    + rewrite split60_short by assumption. constructor; [lia|constructor].
    + rewrite split60_long by assumption. constructor.
      * rewrite length_firstn. lia.
      * apply IH. rewrite length_skipn. lia.
Qed.

(** The fields of a write request that carries at most 60 bytes. *)
Lemma i2c_write_report_fields addr flag c :
  (length c <= 60)%nat ->
  nth 0 (i2c_write_report addr flag c) 0
  = FT260_I2C_REPORT_MIN + Z.quot (Z.of_nat (length c) - 1) 4
  /\ nth 3 (i2c_write_report addr flag c) 0 = Z.of_nat (length c)
  /\ skipn 4 (i2c_write_report addr flag c) = c.
Proof.
  intros H. unfold i2c_write_report. cbn [nth skipn app].
  pose proof (data_report_id_range FT260_I2C_REPORT_MIN
                (Z.of_nat (length c)) ltac:(lia)) as Hr.
  unfold FT260_I2C_DATA_REPORT_ID, u8, FT260_I2C_REPORT_MIN in *.
  rewrite !Z.mod_small by lia. auto.
Qed.

(** C2 (amended).  [ft260_i2c_write] cuts its payload into chunks of 60
    bytes, the last one shorter, and sends one write request for each; it
    makes at least one turn, so that a payload of no bytes is sent as one
    request with no data.  A write that returns 0 has sent exactly these
    requests; with a cooperative device it does return 0.  The requests
    are max(1, ceil(L/60)) in number, which is ceil(L/60) for L >= 1; the
    length field of each is the length of its chunk, and the chunks put
    end to end are the payload.  60 bytes go out as one request, 61 bytes
    as two, of 60 bytes and of 1 byte. *)
Theorem C2_write_fragments env addr data flag w :
  staging_ok w ->
  (forall w',
     ft260_i2c_write env addr data (Z.of_nat (length data)) flag w = Ok 0 w' ->
     output_reports (log w')
     = output_reports (log w) ++ map (i2c_write_report addr flag) (chunks60 data))
  /\ (cooperative env -> clock (dev w) <> 0 ->
      exists w',
        ft260_i2c_write env addr data (Z.of_nat (length data)) flag w = Ok 0 w')
  /\ concat (chunks60 data) = data
  /\ Z.of_nat (length (chunks60 data))
     = Z.max 1 (ceil_div60 (Z.of_nat (length data)))
  /\ (data <> [] ->
      Z.of_nat (length (chunks60 data)) = ceil_div60 (Z.of_nat (length data)))
  /\ Forall (fun c =>
               nth 3 (i2c_write_report addr flag c) 0 = Z.of_nat (length c)
               /\ skipn 4 (i2c_write_report addr flag c) = c
               /\ (length c <= 60)%nat) (chunks60 data)
  /\ (length data = 60%nat -> chunks60 data = [data])
  /\ (length data = 61%nat -> chunks60 data = [firstn 60 data; skipn 60 data]).
Proof.
  intros Hb. unfold chunks60, ft260_i2c_write.
  split; [|split; [|split; [|split; [|split; [|split; [|split]]]]]].
  - intros w' Hrun.
    apply (ft260_i2c_write_from_fragments env addr data flag (length data))
      in Hrun as (_ & Ho & _); try assumption; try lia.
    cbn [Z.to_nat skipn] in Ho. rewrite Nat2Z.id, firstn_all in Ho. exact Ho.
  - intros Hco Hclk.
    destruct (ft260_i2c_write_from_cooperative env addr data flag (length data)
                Hco (Z.of_nat (length data)) 0 w) as (w' & E & _);
      try assumption; try lia.
    exists w'. exact E.
  - apply concat_split60.
  - apply length_split60. lia.
  - intros Hne. rewrite length_split60 by lia.
    assert (0 < length data)%nat
      by (destruct data; [contradiction|cbn; lia]).
    unfold ceil_div60.
    assert (60 / 60 <= (Z.of_nat (length data) + 59) / 60)
      by (apply Z.div_le_mono; lia).
    change (60 / 60) with 1 in *. lia.
  - pose proof (Forall_split60 (length data) data (Nat.le_refl _)) as HF.
    eapply Forall_impl; [|exact HF].
    intros c Hc. cbv beta in Hc.
    destruct (i2c_write_report_fields addr flag c Hc) as (_ & H3 & H4). auto.
  - intros H. apply split60_short. lia.
  - intros H. rewrite H.
    rewrite split60_long by lia.
    rewrite split60_short by (rewrite length_skipn; lia). reflexivity.
Qed.

(** Counterexample to C2 as stated: a payload of no bytes, ceil(0/60) = 0,
    is sent as one write request. *)
Lemma C2_empty_payload_one_fragment :
  output_reports
    (log_of (ft260_i2c_write (idle_env 100) 0x50 [] 0 FT260_FLAG_START_STOP
                             (world_100 [])))
  = [[0xD0; 0x50; 0x06; 0]]
  /\ Z.of_nat (length (output_reports
       (log_of (ft260_i2c_write (idle_env 100) 0x50 [] 0 FT260_FLAG_START_STOP
                                (world_100 [])))))
     <> ceil_div60 0.
Proof. split; [reflexivity|vm_compute; discriminate]. Qed.

(** The cooperative device of the examples. *)
Lemma scripted_env_cooperative khz answers :
  0 < khz < 65536 -> cooperative (scripted_env khz [] answers).
Proof.
  intros H. split.
  - intros h data. cbn. lia.
  - intros h. eexists. split; [reflexivity|].
    split; [left|].
    + destruct (status_polls h) as [|[|n]]; reflexivity.
    + unfold status_report. cbn [nth app cpu_to_le16].
      unfold le16_to_cpu, u16, u8.
      rewrite Z.shiftr_div_pow2 by lia. change (2 ^ 8) with 256.
      rewrite !Z.mod_mod by lia.
      assert (khz / 256 < 256) by (apply Z.div_lt_upper_bound; lia).
      assert (0 <= khz / 256) by (apply Z.div_pos; lia).
      rewrite (Z.mod_small (khz / 256)) by lia.
      replace (khz mod 256 + 256 * (khz / 256)) with khz
        by (pose proof (Z.div_mod khz 256 ltac:(lia)); lia).
      rewrite Z.mod_small by lia. lia.
Qed.

Lemma C2_write_fragments_witness :
  exists w',
    ft260_i2c_write (idle_env 100) 0x50 (repeat 7 61) (Z.of_nat (length (repeat 7 61)))
                    FT260_FLAG_START_STOP (world_100 []) = Ok 0 w'.
Proof.
  refine (proj1 (proj2 (C2_write_fragments (idle_env 100) 0x50 (repeat 7 61)
                          FT260_FLAG_START_STOP (world_100 []) _)) _ _).
  - reflexivity.
  - apply scripted_env_cooperative. lia.
  - vm_compute. discriminate.
Defined.

(** ** The SMBus write request (claims C1, C7) *)

Lemma ft260_smbus_write_eq env addr cmd data data_len flag w src :
  staging_ok w -> u8 data_len < 60 ->
  Z.of_nat (length src) = u8 data_len ->
  (0 < u8 data_len ->
   exists region, data = Some region
                  /\ read_bytes region 0 (u8 data_len) = Some src) ->
  ft260_smbus_write env addr cmd data data_len flag w =
  ft260_hid_output_report_check_status env (smbus_write_report addr cmd flag src)
    (5 + Z.of_nat (length src))
    (with_staged (smbus_write_report addr cmd flag src) w).
Proof.
  intros Hb Hdl Hlen Hsrc.
  assert (H0 : 0 <= u8 data_len) by (unfold u8; apply Z.mod_pos_bound; lia).
  unfold ft260_smbus_write. cbv zeta.
  replace (60 <=? u8 data_len) with false by (symmetry; apply Z.leb_gt; lia).
  assert (Hl1 : u8 (u8 data_len + 1) = u8 data_len + 1)
    by (unfold u8 at 1; apply Z.mod_small; lia).
  rewrite Hl1.
  destruct w as [d m lg]. unfold staging_ok in Hb. cbn [dev] in Hb.
  destruct d as [wb rb ri rl ck wt xf tx rx tty]. cbn [write_buf] in Hb.
  destruct (staging_buffer _ Hb) as (x0 & x1 & x2 & x3 & x4 & rest & -> & Hr).
  remember (5 + Z.of_nat (length src)) as n5 eqn:En5.
  do 5 (unfold bind at 1;
        erewrite stage_Ok
          by (cbn [dev write_buf set_write_buf];
              apply write_bytes_Some; cbn [length]; lia);
        cbv [Z.to_nat Pos.to_nat Pos.iter_op Nat.add firstn skipn app length
             set_write_buf write_buf dev mem log read_buf read_idx read_len
             clock wait xmit_fifo icount_tx icount_rx port_tty]).
  unfold with_staged, smbus_write_report.
  cbn [dev mem log write_buf set_write_buf].
  replace (4 + (u8 data_len + 1)) with n5 by lia.
  destruct (0 <? u8 data_len) eqn:Epos.
  - apply Z.ltb_lt in Epos.
    destruct (Hsrc Epos) as (region & -> & Hrd).
    unfold bind at 1 2. cbn [from_option]. unfold Return at 1.
    unfold bind at 1. rewrite Hrd. cbn [from_option]. unfold Return at 1.
    erewrite stage_Ok
      by (cbn [dev write_buf]; apply write_bytes_Some; cbn [length]; lia).
    unfold staged. unfold bind at 1 2. unfold get_dev.
    cbn [dev mem log write_buf set_write_buf].
    change (Z.to_nat 5) with 5%nat. cbn [firstn app].
    rewrite read_bytes_Some;
      [|lia|lia|cbn [length]; rewrite length_app, length_skipn; cbn [length]; lia].
    cbn [from_option skipn Z.to_nat]. unfold Return at 1.
    replace (Z.to_nat n5) with (5 + length src)%nat by lia.
    cbn [Nat.add firstn]. rewrite firstn_app, firstn_all, Nat.sub_diag.
    cbn [firstn]. rewrite app_nil_r.
    replace (4 + (Z.of_nat (length src) + 1)) with n5 by lia.
    rewrite Hlen, ?Hl1. cbn [length app skipn]. reflexivity.
  - apply Z.ltb_ge in Epos. assert (u8 data_len = 0) as E0 by lia.
    destruct src; [|cbn [length] in Hlen; lia]. rewrite E0.
    unfold bind at 1. unfold Return at 1.
    unfold staged. unfold bind at 1 2. unfold get_dev.
    cbn [dev mem log write_buf set_write_buf].
    subst n5. vm_compute Z.add. vm_compute (u8 1).
    rewrite read_bytes_Some; [|lia|lia|cbn [length]; lia].
    reflexivity.
Qed.

(** ** A read that is answered (claims C6, C7) *)

Lemma idle_device_cooperative env : idle_device env -> cooperative env.
Proof.
  intros [Ha Hi]. split; [exact Ha|].
  intros h. destruct (Hi h) as (report & Hr & Hc & Hk).
  exists report. auto.
Qed.

Lemma ft260_i2c_read_answered env addr dst len flag w payload m' :
  idle_device env -> answers_with env payload ->
  u16 len <= FT260_RD_DATA_MAX ->
  Z.of_nat (length payload) = u16 len ->
  write_bytes (mem w) dst payload = Some m' ->
  exists report,
    ft260_i2c_read env addr (Some dst) len flag w
    = Ok 0 (read_done addr dst len flag m' report w)
    /\ le16_to_cpu (nth 2 report 0) (nth 3 report 0) <> 0.
Proof.
  intros [Ha Hi] Hans Hlen Hp Hwr.
  rewrite ft260_i2c_read_sent by (try assumption; apply Ha).
  unfold wait_for_completion_timeout.
  unfold bind at 1 2. unfold get_log, call. cbn [dev mem].
  rewrite Hans. unfold bind at 1.
  erewrite deliver_single with (dst := dst) (m' := m');
    cbn [read_started dev mem log wait set_wait set_read read_buf read_idx read_len];
    try reflexivity; try assumption;
    [|symmetry; exact Hp|unfold FT260_RD_DATA_MAX in Hlen; lia].
  unfold bind at 1. unfold get_dev. cbn [dev wait set_wait].
  unfold bind at 1. unfold modify_dev, Return. cbn [dev mem log Z.eqb].
  match goal with
  | |- context [ft260_xfer_status env ?w1] =>
      destruct (Hi (log w1)) as (report & Hr & Hc & Hk);
      rewrite (ft260_xfer_status_answered env w1 report Hr)
  end.
  rewrite Hc. cbn [Z.eqb].
  exists report. split; [|exact Hk].
  unfold read_done, read_started. rewrite Hp.
  cbn [dev mem log set_wait set_read_idx set_read wait read_buf read_idx read_len
       write_buf clock xmit_fifo icount_tx icount_rx port_tty].
  reflexivity.
Qed.

Lemma read_done_facts addr dst len flag m' report w :
  mem (read_done addr dst len flag m' report w) = m'
  /\ output_reports (log (read_done addr dst len flag m' report w))
     = output_reports (log w) ++ [read_request addr flag len]
  /\ write_buf (dev (read_done addr dst len flag m' report w)) = write_buf (dev w)
  /\ clock (dev (read_done addr dst len flag m' report w))
     = le16_to_cpu (nth 2 report 0) (nth 3 report 0).
Proof.
  unfold read_done, polled, read_started. cbn [mem log dev].
  repeat split.
  rewrite !output_reports_app. cbn. rewrite !app_nil_r. reflexivity.
Qed.

(** The command phase of an SMBus read, with a cooperative device. *)
Lemma ft260_smbus_write_command env addr cmd flag w :
  cooperative env -> staging_ok w -> clock (dev w) <> 0 ->
  exists w1,
    ft260_smbus_write env addr cmd None 0 flag w = Ok 0 w1
    /\ output_reports (log w1)
       = output_reports (log w) ++ [smbus_write_report addr cmd flag []]
    /\ mem w1 = mem w /\ staging_ok w1 /\ clock (dev w1) <> 0.
Proof.
  intros Hco Hb Hclk.
  rewrite (ft260_smbus_write_eq env addr cmd None 0 flag w []);
    [|assumption|reflexivity|reflexivity
     |intros H; vm_compute in H; discriminate].
  destruct (check_status_cooperative env (smbus_write_report addr cmd flag [])
              (5 + Z.of_nat (length (@nil Z)))
              (with_staged (smbus_write_report addr cmd flag []) w) Hco)
    as (w1 & E & Hclk1).
  { unfold with_staged. destruct w as [d m l]. destruct d. exact Hclk. }
  exists w1. split; [exact E|].
  destruct (check_status_outputs _ _ _ _ _ _ E) as (Ho & Hw & Hm).
  repeat split; try assumption.
  unfold staging_ok in *. rewrite Hw. unfold with_staged.
  cbn [dev write_buf set_write_buf].
  rewrite length_app, length_skipn. cbn [length smbus_write_report app]. lia.
Qed.

Lemma u16_small x : 0 <= x <= 60 -> u16 x = x.
Proof. intros H. unfold u16. apply Z.mod_small. lia. Qed.

(** The read branches of [ft260_smbus_xfer] for the two block sizes. *)
Lemma ft260_smbus_xfer_block_read env addr flags cmd w :
  power_ok env ->
  let w0 := mk_world (dev w) (mem w) (log w ++ [HidPower PM_HINT_FULLON]) in
  let finish (r : result Z) :=
    match r with
    | Fault f => Fault f
    | Ok ret w2 =>
        Ok ret (mk_world (dev w2) (mem w2) (log w2 ++ [HidPower PM_HINT_NORMAL]))
    end in
  let read_phase (dst : Z) (n : Z -> Z) :=
    match ft260_smbus_write env addr cmd None 0 FT260_FLAG_START w0 with
    | Fault f => Fault f
    | Ok ret w1 =>
        if negb (ret =? 0) then finish (Ok ret w1)
        else match nth_error (mem w) 0 with
             | None => Fault OutOfBounds
             | Some block0 =>
                 finish (ft260_i2c_read env addr (Some dst) (n block0)
                                        FT260_FLAG_START_STOP_REPEATED w1)
             end
    end in
  ft260_smbus_xfer env addr flags I2C_SMBUS_READ cmd I2C_SMBUS_BLOCK_DATA w
  = read_phase 0 (fun b => b + 1)
  /\ ft260_smbus_xfer env addr flags I2C_SMBUS_READ cmd I2C_SMBUS_I2C_BLOCK_DATA w
     = read_phase 1 (fun b => b).
Proof.
  intros Hpow w0 finish read_phase.
  unfold ft260_smbus_xfer, read_phase, finish.
  unfold hw_power, get_log, call, get_mem, from_option, bind, Return, raise.
  cbv beta. cbn [dev mem log].
  replace (hid_hw_power env (log w) PM_HINT_FULLON <? 0) with false
    by (symmetry; apply Z.ltb_ge; apply Hpow).
  fold w0.
  change (I2C_SMBUS_READ =? I2C_SMBUS_READ) with true.
  change (I2C_SMBUS_BLOCK_DATA =? I2C_SMBUS_QUICK) with false.
  change (I2C_SMBUS_BLOCK_DATA =? I2C_SMBUS_BYTE) with false.
  change (I2C_SMBUS_BLOCK_DATA =? I2C_SMBUS_BYTE_DATA) with false.
  change (I2C_SMBUS_BLOCK_DATA =? I2C_SMBUS_WORD_DATA) with false.
  change (I2C_SMBUS_BLOCK_DATA =? I2C_SMBUS_BLOCK_DATA) with true.
  change (I2C_SMBUS_I2C_BLOCK_DATA =? I2C_SMBUS_QUICK) with false.
  change (I2C_SMBUS_I2C_BLOCK_DATA =? I2C_SMBUS_BYTE) with false.
  change (I2C_SMBUS_I2C_BLOCK_DATA =? I2C_SMBUS_BYTE_DATA) with false.
  change (I2C_SMBUS_I2C_BLOCK_DATA =? I2C_SMBUS_WORD_DATA) with false.
  change (I2C_SMBUS_I2C_BLOCK_DATA =? I2C_SMBUS_BLOCK_DATA) with false.
  change (I2C_SMBUS_I2C_BLOCK_DATA =? I2C_SMBUS_I2C_BLOCK_DATA) with true.
  cbv iota. change (mem w0) with (mem w).
  split; destruct (ft260_smbus_write env addr cmd None 0 FT260_FLAG_START w0)
    as [ret w1|f]; try reflexivity;
    destruct (negb (_ =? 0)); try reflexivity;
    destruct (nth_error (mem w) 0); reflexivity.
Qed.

(** C7.  On an SMBus BlockData read the engine sends one write request
    that carries the command byte alone, with condition Start, and then a
    read request for [block[0] + 1] bytes with condition
    StartStopRepeated; the bytes received fill the block from index 0 on,
    the length byte first.  On an I2cBlockData read the read request asks
    for [block[0]] bytes, and they are stored from index 1 on, [block[0]]
    staying as it was.  (Device idle and answering with one input report,
    lengths within the 60 bytes of a read.) *)
Theorem C7_smbus_block_reads env addr flags cmd w block0 payload :
  idle_device env -> power_ok env -> answers_with env payload ->
  staging_ok w -> clock (dev w) <> 0 ->
  nth_error (mem w) 0 = Some block0 -> 0 <= block0 ->
  (Z.of_nat (length payload) = block0 + 1 -> block0 + 1 <= FT260_RD_DATA_MAX ->
   (length payload <= length (mem w))%nat ->
   exists w',
     ft260_smbus_xfer env addr flags I2C_SMBUS_READ cmd I2C_SMBUS_BLOCK_DATA w
     = Ok 0 w'
     /\ output_reports (log w')
        = output_reports (log w)
          ++ [[0xD1; u8 addr; FT260_FLAG_START; 1; u8 cmd];
              [FT260_I2C_READ_REQ; u8 addr; FT260_FLAG_START_STOP_REPEATED;
               block0 + 1; 0]]
     /\ mem w' = payload ++ skipn (length payload) (mem w))
  /\ (Z.of_nat (length payload) = block0 -> block0 <= FT260_RD_DATA_MAX ->
      (1 + length payload <= length (mem w))%nat ->
      exists w',
        ft260_smbus_xfer env addr flags I2C_SMBUS_READ cmd
                         I2C_SMBUS_I2C_BLOCK_DATA w
        = Ok 0 w'
        /\ output_reports (log w')
           = output_reports (log w)
             ++ [[0xD1; u8 addr; FT260_FLAG_START; 1; u8 cmd];
                 [FT260_I2C_READ_REQ; u8 addr; FT260_FLAG_START_STOP_REPEATED;
                  block0; 0]]
        /\ mem w' = firstn 1 (mem w) ++ payload
                    ++ skipn (1 + length payload) (mem w)).
Proof.
  intros Hidle Hpow Hans Hb Hclk Hb0 Hpos.
  pose proof (idle_device_cooperative env Hidle) as Hco.
  unfold FT260_RD_DATA_MAX.
  assert (Hreq : forall n, 0 <= n <= 60 ->
            read_request addr FT260_FLAG_START_STOP_REPEATED n
            = [FT260_I2C_READ_REQ; u8 addr; FT260_FLAG_START_STOP_REPEATED; n; 0]).
  { intros n Hn. unfold read_request, cpu_to_le16. cbn [app].
    rewrite u16_small by lia. unfold u8.
    rewrite Z.shiftr_div_pow2 by lia. change (2 ^ 8) with 256.
    rewrite (Z.div_small n 256) by lia.
    rewrite (Z.mod_small n) by lia. reflexivity. }
  set (w0 := mk_world (dev w) (mem w) (log w ++ [HidPower PM_HINT_FULLON])).
  destruct (ft260_smbus_write_command env addr cmd FT260_FLAG_START w0 Hco Hb Hclk)
    as (w1 & Ew & Ho1 & Hm1 & Hb1 & Hclk1).
  destruct (ft260_smbus_xfer_block_read env addr flags cmd w Hpow)
    as [Hblock Hi2c].
  cbv zeta in Hblock, Hi2c. fold w0 in Hblock, Hi2c.
  rewrite Ew in Hblock, Hi2c. cbn [Z.eqb negb] in Hblock, Hi2c.
  rewrite Hb0 in Hblock, Hi2c.
  split.
  - intros Hp Hle Hfit.
    assert (Hwr : write_bytes (mem w1) 0 payload
                  = Some (payload ++ skipn (length payload) (mem w)))
      by (rewrite Hm1; subst w0; cbn [mem];
          rewrite write_bytes_Some by lia; reflexivity).
    destruct (ft260_i2c_read_answered env addr 0 (block0 + 1)
                FT260_FLAG_START_STOP_REPEATED w1 payload _ Hidle Hans
                ltac:(rewrite u16_small by lia; unfold FT260_RD_DATA_MAX; lia)
                ltac:(rewrite u16_small by lia; exact Hp) Hwr)
      as (report & Er & Hk).
    destruct (read_done_facts addr 0 (block0 + 1) FT260_FLAG_START_STOP_REPEATED
                (payload ++ skipn (length payload) (mem w)) report w1)
      as (Hm2 & Ho2 & _).
    rewrite Hblock, Er.
    eexists. split; [reflexivity|]. cbn [dev mem log]. split; [|exact Hm2].
    rewrite output_reports_app, Ho2, Ho1. subst w0. cbn [log].
    rewrite output_reports_app, Hreq by lia. cbn.
    rewrite !app_nil_r, <- app_assoc. reflexivity.
  - intros Hp Hle Hfit.
    assert (Hwr : write_bytes (mem w1) 1 payload
                  = Some (firstn 1 (mem w) ++ payload
                          ++ skipn (1 + length payload) (mem w)))
      by (rewrite Hm1; subst w0; cbn [mem];
          rewrite write_bytes_Some by lia; reflexivity).
    destruct (ft260_i2c_read_answered env addr 1 block0
                FT260_FLAG_START_STOP_REPEATED w1 payload _ Hidle Hans
                ltac:(rewrite u16_small by lia; unfold FT260_RD_DATA_MAX; lia)
                ltac:(rewrite u16_small by lia; exact Hp) Hwr)
      as (report & Er & Hk).
    destruct (read_done_facts addr 1 block0 FT260_FLAG_START_STOP_REPEATED
                (firstn 1 (mem w) ++ payload
                 ++ skipn (1 + length payload) (mem w)) report w1)
      as (Hm2 & Ho2 & _).
    rewrite Hi2c, Er.
    eexists. split; [reflexivity|]. cbn [dev mem log]. split; [|exact Hm2].
    rewrite output_reports_app, Ho2, Ho1. subst w0. cbn [log].
    rewrite output_reports_app, Hreq by lia. cbn.
    rewrite !app_nil_r, <- app_assoc. reflexivity.
Qed.

(** ** The combined write-then-read transfer (claim C6) *)

(** The dispatcher sends nothing and leaves the staging buffer alone. *)
Lemma ft260_raw_event_outputs env r w ret w' :
  ft260_raw_event env r w = Ok ret w' ->
  output_reports (log w') = output_reports (log w)
  /\ write_buf (dev w') = write_buf (dev w).
Proof.
  intros H.
  unfold ft260_raw_event, ft260_uart_receive_chars, complete, bind, from_option,
    get_dev, get_mem, put_mem, modify_dev, Return, raise, get_log, call in H.
  cbn [log dev mem] in H.
  break_match; cbn [log dev write_buf set_wait set_read_idx set_read set_icount_rx];
    rewrite ?output_reports_app; cbn [output_reports]; rewrite ?app_nil_r; auto.
Qed.

Lemma deliver_outputs env rs w w' :
  deliver env rs w = Ok tt w' ->
  output_reports (log w') = output_reports (log w)
  /\ write_buf (dev w') = write_buf (dev w).
Proof.
  revert w. induction rs as [|r rs IH]; intros w H; cbn [deliver] in H.
  - injection H as <-. auto.
  - unfold bind at 1 in H. unfold get_dev in H.
    destruct (wait (dev w)).
    + unfold bind at 1 in H.
      destruct (ft260_raw_event env r w) as [ret w1|f] eqn:E; [|discriminate].
      destruct (ft260_raw_event_outputs _ _ _ _ _ E) as [Ho Hb].
      destruct (IH _ H) as [Ho' Hb']. rewrite Ho', Hb'. auto.
    + injection H as <-. auto.
Qed.

Lemma wait_for_completion_timeout_outputs env msecs w t w' :
  wait_for_completion_timeout env msecs w = Ok t w' ->
  output_reports (log w') = output_reports (log w)
  /\ write_buf (dev w') = write_buf (dev w).
Proof.
  unfold wait_for_completion_timeout.
  unfold bind at 1 2. unfold get_log, call. cbn [log dev mem].
  unfold bind at 1.
  destruct (deliver env (input_reports env (log w)) _) as [[] w1|f] eqn:E;
    [|discriminate].
  apply deliver_outputs in E. cbn [log dev] in E. destruct E as [Ho Hb].
  rewrite output_reports_app in Ho. cbn in Ho. rewrite app_nil_r in Ho.
  unfold bind, get_dev, modify_dev, Return.
  destruct (wait (dev w1)); intros [= <- <-]; cbn [log dev write_buf set_wait];
    auto.
Qed.

(** A read that does not fail has sent its request, and nothing else. *)
Lemma ft260_i2c_read_outputs env addr data len flag w ret w' :
  ft260_i2c_read env addr data len flag w = Ok ret w' -> 0 <= ret ->
  ret = 0
  /\ u16 len <= FT260_RD_DATA_MAX
  /\ output_reports (log w')
     = output_reports (log w) ++ [read_request addr flag len]
  /\ write_buf (dev w') = write_buf (dev w).
Proof.
  intros Hrun Hret.
  destruct (Z_le_gt_dec (u16 len) FT260_RD_DATA_MAX) as [Hlen|Hlen].
  2: { unfold ft260_i2c_read in Hrun. cbv zeta in Hrun.
       replace (FT260_RD_DATA_MAX <? u16 len) with true in Hrun
         by (symmetry; apply Z.ltb_lt; lia).
       injection Hrun as <- <-. vm_compute in Hret. contradiction. }
  destruct (Z_lt_dec (hid_hw_output_report env (log w) (read_request addr flag len)) 0)
    as [Hneg|Hsent].
  { unfold ft260_i2c_read in Hrun. cbv zeta in Hrun.
    replace (FT260_RD_DATA_MAX <? u16 len) with false in Hrun
      by (symmetry; apply Z.ltb_ge; lia).
    unfold bind at 1 2 in Hrun. unfold reinit_completion, modify_dev in Hrun.
    cbn [log dev mem] in Hrun. unfold ft260_hid_output_report in Hrun.
    unfold bind at 1 2 3 in Hrun. unfold get_log, call, Return in Hrun.
    cbn [log dev mem] in Hrun. fold (read_request addr flag len) in Hrun.
    replace (hid_hw_output_report env (log w) (read_request addr flag len) <? 0)
      with true in Hrun by (symmetry; apply Z.ltb_lt; lia).
    injection Hrun as <- <-. lia. }
  rewrite ft260_i2c_read_sent in Hrun by (try assumption; lia).
  destruct (wait_for_completion_timeout env 5000 _) as [t w2|f] eqn:Ew;
    [|discriminate].
  apply wait_for_completion_timeout_outputs in Ew. destruct Ew as [Ho2 Hb2].
  unfold read_started in Ho2, Hb2. cbn [log dev write_buf set_wait set_read] in Ho2, Hb2.
  rewrite output_reports_app in Ho2. cbn in Ho2.
  destruct (t =? 0).
  { injection Hrun as <- <-. vm_compute in Hret. contradiction. }
  destruct (ft260_xfer_status_returns env w2) as (r & w3 & E & _ & Hl & Hb3).
  rewrite E in Hrun.
  destruct (r =? 0) eqn:Er.
  - injection Hrun as <- <-. rewrite Hl, output_reports_app, Ho2, Hb3, Hb2.
    cbn. rewrite app_nil_r. auto.
  - injection Hrun as <- <-. vm_compute in Hret. contradiction.
Qed.

(** The loop of [ft260_i2c_write_read], one turn unfolded. *)
Lemma ft260_i2c_write_read_from_eq env addr0 len0 read_off left_len read_buf w :
  ft260_i2c_write_read_from env addr0 len0 read_off left_len read_buf w =
  match ft260_i2c_write_read_turn env addr0 len0 read_off left_len read_buf w with
  | Fault f => Fault f
  | Ok ret w' =>
      if ret <? 0 then Ok ret w'
      else if 0 <? u16 (left_len - rd_chunk left_len)
           then ft260_i2c_write_read_from env addr0 len0
                  (cpu_to_le16 (le_value read_off + rd_chunk left_len))
                  (u16 (left_len - rd_chunk left_len))
                  (read_buf + rd_chunk left_len) w'
           else Ok 0 w'
  end.
Proof.
  simp ft260_i2c_write_read_from.
  destruct (ft260_i2c_write_read_turn env addr0 len0 read_off left_len read_buf w)
    as [ret w'|f]; cbn; [|reflexivity].
  destruct (Z_lt_dec ret 0) as [H|H]; cbn.
  - apply Z.ltb_lt in H. rewrite H. reflexivity.
  - replace (ret <? 0) with false by (symmetry; apply Z.ltb_ge; lia).
    destruct (Z_gt_dec (u16 (left_len - rd_chunk left_len)) 0) as [G|G]; cbn.
    + replace (0 <? u16 (left_len - rd_chunk left_len)) with true
        by (symmetry; apply Z.ltb_lt; lia). reflexivity.
    + replace (0 <? u16 (left_len - rd_chunk left_len)) with false
        by (symmetry; apply Z.ltb_ge; lia). reflexivity.
Qed.

Lemma ft260_i2c_write_read_turn_outputs env addr0 len0 read_off left_len rb w ret w1 :
  staging_ok w -> 0 <= len0 <= 2 -> length read_off = 2%nat ->
  ft260_i2c_write_read_turn env addr0 len0 read_off left_len rb w = Ok ret w1 ->
  0 <= ret ->
  ret = 0
  /\ output_reports (log w1)
     = output_reports (log w)
       ++ [i2c_write_report addr0 FT260_FLAG_START (firstn (Z.to_nat len0) read_off);
           read_request addr0 FT260_FLAG_START_STOP (rd_chunk left_len)]
  /\ staging_ok w1.
Proof.
  intros Hb Hl0 Hoff Hrun Hret.
  unfold ft260_i2c_write_read_turn, ft260_i2c_write in Hrun.
  unfold bind at 1 in Hrun.
  destruct (ft260_i2c_write_from env addr0 read_off len0 0 FT260_FLAG_START w)
    as [r1 w'|f] eqn:Ew; [|discriminate].
  destruct (r1 <? 0) eqn:Er.
  { apply Z.ltb_lt in Er. injection Hrun as <- <-. lia. }
  apply Z.ltb_ge in Er.
  apply (ft260_i2c_write_from_fragments env addr0 read_off FT260_FLAG_START 2)
    in Ew as (_ & Ho1 & _ & Hb1); try assumption; try lia.
  cbn [Z.to_nat skipn] in Ho1.
  rewrite split60_short in Ho1 by (rewrite length_firstn; lia).
  destruct (ft260_i2c_read_outputs _ _ _ _ _ _ _ _ Hrun Hret)
    as (-> & _ & Ho2 & Hb2).
  split; [reflexivity|]. split.
  - rewrite Ho2, Ho1. cbn [map]. rewrite <- app_assoc. reflexivity.
  - unfold staging_ok in *. rewrite Hb2. exact Hb1.
Qed.

(** A combined transfer that does not fail starts with the write of the
    first message, condition Start, and the read request for the first
    chunk, condition StartStop; a second message of at most 60 bytes
    needs nothing more. *)
Lemma ft260_i2c_write_read_from_outputs env addr0 len0 fuel :
  forall read_off left_len rb w ret w',
    (Z.to_nat left_len <= fuel)%nat ->
    staging_ok w -> 0 <= len0 <= 2 -> length read_off = 2%nat ->
    ft260_i2c_write_read_from env addr0 len0 read_off left_len rb w = Ok ret w' ->
    0 <= ret ->
    exists rest,
      output_reports (log w')
      = output_reports (log w)
        ++ [i2c_write_report addr0 FT260_FLAG_START
                             (firstn (Z.to_nat len0) read_off);
            read_request addr0 FT260_FLAG_START_STOP (rd_chunk left_len)]
        ++ rest
      /\ (left_len <= FT260_RD_DATA_MAX -> rest = []).
Proof.
  induction fuel as [|k IH];
    intros read_off left_len rb w ret w' Hfuel Hb Hl0 Hoff Hrun Hret;
    rewrite ft260_i2c_write_read_from_eq in Hrun;
    destruct (ft260_i2c_write_read_turn env addr0 len0 read_off left_len rb w)
      as [r w1|f] eqn:Et; try discriminate;
    (destruct (r <? 0) eqn:Er;
     [apply Z.ltb_lt in Er; injection Hrun as <- <-; lia|]);
    apply Z.ltb_ge in Er;
    destruct (ft260_i2c_write_read_turn_outputs _ _ _ _ _ _ _ _ _ Hb Hl0 Hoff Et Er)
      as (_ & Ho & Hb1);
    unfold rd_chunk, FT260_RD_DATA_MAX, u16 in *;
    destruct (left_len <=? 60) eqn:E60.
  - rewrite Z.sub_diag in Hrun. cbn in Hrun. injection Hrun as <- <-.
    exists []. rewrite Ho. auto.
  - apply Z.leb_gt in E60. lia.
  - rewrite Z.sub_diag in Hrun. cbn in Hrun. injection Hrun as <- <-.
    exists []. rewrite Ho. auto.
  - apply Z.leb_gt in E60.
    destruct (0 <? (left_len - 60) mod 65536) eqn:Em.
    + assert ((left_len - 60) mod 65536 <= left_len - 60)
        by (apply Z.mod_le; lia).
      assert (0 <= (left_len - 60) mod 65536)
        by (apply Z.mod_pos_bound; lia).
      apply IH in Hrun as (rest & Ho' & _);
        [|lia|exact Hb1|lia|reflexivity|exact Hret].
      eexists. split; [|intros; lia].
      rewrite Ho', Ho, <- app_assoc. cbn [app]. reflexivity.
    + injection Hrun as <- <-. exists []. rewrite Ho. split; [reflexivity|lia].
Qed.

Lemma read_bytes_inv buf off n l :
  read_bytes buf off n = Some l ->
  l = firstn (Z.to_nat n) (skipn (Z.to_nat off) buf)
  /\ 0 <= off /\ 0 <= n /\ off + n <= Z.of_nat (length buf).
Proof.
  unfold read_bytes.
  destruct ((0 <=? off) && (0 <=? n) && _) eqn:E; [|discriminate].
  apply andb_true_iff in E. destruct E as [E E3].
  apply andb_true_iff in E. destruct E as [E1 E2].
  apply Z.leb_le in E1, E2, E3. intros [= <-]. auto.
Qed.

Lemma ft260_i2c_write_read_eq env msg0 msg1 w :
  ft260_i2c_write_read env [msg0; msg1] w =
  if 2 <? u16 (len msg0) then Ok (- EOPNOTSUPP) w
  else match read_bytes (buf msg0) 0 (u16 (len msg0)) with
       | None => Fault OutOfBounds
       | Some src =>
           match write_bytes [0; 0] 0 src with
           | None => Fault OutOfBounds
           | Some read_off =>
               ft260_i2c_write_read_from env (u8 (addr msg0)) (u16 (len msg0))
                 read_off (u16 (len msg1)) 0 w
           end
       end.
Proof.
  unfold ft260_i2c_write_read, from_option, bind, Return, raise.
  cbn [nth_error].
  destruct (2 <? u16 (len msg0)); [reflexivity|].
  destruct (read_bytes (buf msg0) 0 (u16 (len msg0))) as [src|]; [|reflexivity].
  destruct (write_bytes [0; 0] 0 src); reflexivity.
Qed.

(** C6.  A combined transfer whose first message has more than two bytes
    is refused with -EOPNOTSUPP, with no call made and nothing changed.
    Otherwise the bytes of the first message go out as one write request
    with condition Start, and a read request with condition StartStop
    follows for the second message (for its first 60 bytes when it is
    longer): these are the first two reports of every transfer that
    returns 0, and the only ones when the second message has at most 60
    bytes.  With an idle device that answers the read, such a transfer
    returns 0 and the bytes received fill the buffer of the second
    message. *)
Theorem C6_combined_write_read env msg0 msg1 w :
  (2 < u16 (len msg0) ->
   ft260_i2c_write_read env [msg0; msg1] w = Ok (- EOPNOTSUPP) w)
  /\ (u16 (len msg0) <= 2 -> staging_ok w ->
      forall w',
        ft260_i2c_write_read env [msg0; msg1] w = Ok 0 w' ->
        exists rest,
          output_reports (log w')
          = output_reports (log w)
            ++ [i2c_write_report (u8 (addr msg0)) FT260_FLAG_START
                  (firstn (Z.to_nat (u16 (len msg0))) (buf msg0));
                read_request (u8 (addr msg0)) FT260_FLAG_START_STOP
                  (rd_chunk (u16 (len msg1)))]
            ++ rest
          /\ (u16 (len msg1) <= FT260_RD_DATA_MAX -> rest = []))
  /\ (u16 (len msg0) <= 2 -> staging_ok w -> clock (dev w) <> 0 ->
      u16 (len msg0) <= Z.of_nat (length (buf msg0)) ->
      u16 (len msg1) <= FT260_RD_DATA_MAX ->
      forall payload,
        idle_device env -> answers_with env payload ->
        Z.of_nat (length payload) = u16 (len msg1) ->
        (length payload <= length (mem w))%nat ->
        exists w',
          ft260_i2c_write_read env [msg0; msg1] w = Ok 0 w'
          /\ mem w' = payload ++ skipn (length payload) (mem w)).
Proof.
  assert (H16 : forall x, 0 <= u16 x < 65536)
    by (intros x; unfold u16; apply Z.mod_pos_bound; lia).
  pose proof (H16 (len msg0)) as Hr0. pose proof (H16 (len msg1)) as Hr1.
  rewrite ft260_i2c_write_read_eq.
  split; [|split].
  - intros H. apply Z.ltb_lt in H. rewrite H. reflexivity.
  - intros H Hb w' Hrun.
    replace (2 <? u16 (len msg0)) with false in Hrun
      by (symmetry; apply Z.ltb_ge; lia).
    destruct (read_bytes (buf msg0) 0 (u16 (len msg0))) as [src|] eqn:Esrc;
      [|discriminate].
    pose proof (read_bytes_length _ _ _ _ Esrc) as Hsl.
    rewrite write_bytes_Some in Hrun by (cbn [length]; lia).
    cbn [Z.to_nat firstn app] in Hrun.
    apply (ft260_i2c_write_read_from_outputs env (u8 (addr msg0)) (u16 (len msg0))
             (Z.to_nat (u16 (len msg1)))) in Hrun as (rest & Ho & Hrest);
      try assumption; try lia.
    2: { rewrite length_app, length_skipn. cbn [length]. lia. }
    exists rest. split; [|exact Hrest].
    rewrite Ho. do 3 f_equal.
    rewrite firstn_app.
    replace (Z.to_nat (u16 (len msg0)) - length src)%nat with 0%nat by lia.
    cbn [firstn]. rewrite app_nil_r.
    apply read_bytes_inv in Esrc as (-> & _).
    cbn [Z.to_nat skipn].
    rewrite firstn_firstn, Nat.min_id. reflexivity.
  - intros H Hb Hclk Hfit0 Hl1 payload Hidle Hans Hp Hfit.
    pose proof (idle_device_cooperative env Hidle) as Hco.
    replace (2 <? u16 (len msg0)) with false by (symmetry; apply Z.ltb_ge; lia).
    rewrite read_bytes_Some by lia.
    set (src := firstn (Z.to_nat (u16 (len msg0))) (skipn (Z.to_nat 0) (buf msg0))).
    assert (Hsl : (length src <= 2)%nat) by (subst src; rewrite length_firstn; lia).
    rewrite write_bytes_Some by (cbn [length]; lia).
    cbn [Z.to_nat firstn app].
    set (read_off := src ++ skipn (0 + length src) [0; 0]).
    assert (Hoff : length read_off = 2%nat).
    { subst read_off. rewrite length_app, length_skipn. cbn [length]. lia. }
    rewrite ft260_i2c_write_read_from_eq.
    unfold ft260_i2c_write_read_turn, ft260_i2c_write.
    destruct (ft260_i2c_write_from_cooperative env (u8 (addr msg0)) read_off
                FT260_FLAG_START 2 Hco (u16 (len msg0)) 0 w)
      as (w1 & Ew & Hclk1 & Hb1); try assumption; try lia.
    pose proof Ew as Ew'.
    apply (ft260_i2c_write_from_fragments env (u8 (addr msg0)) read_off
             FT260_FLAG_START 2) in Ew' as (_ & _ & Hm1 & _);
      try assumption; try lia.
    unfold bind at 1. rewrite Ew. cbn [Z.ltb Z.compare].
    unfold rd_chunk. unfold FT260_RD_DATA_MAX in *.
    replace (u16 (len msg1) <=? 60) with true by (symmetry; apply Z.leb_le; lia).
    destruct (ft260_i2c_read_answered env (u8 (addr msg0)) 0 (u16 (len msg1))
                FT260_FLAG_START_STOP w1 payload
                (payload ++ skipn (length payload) (mem w)) Hidle Hans)
      as (report & Er & _).
    + rewrite u16_small; unfold FT260_RD_DATA_MAX; lia.
    + rewrite u16_small by lia. exact Hp.
    + rewrite Hm1. rewrite write_bytes_Some by lia. reflexivity.
    + rewrite Er. cbn [Z.ltb Z.compare].
      rewrite Z.sub_diag. change (0 <? u16 0) with false. cbv iota.
      eexists. split; [reflexivity|].
      apply read_done_facts.
Qed.

(** ** The line configuration (claims C8, C9) *)

Lemma set_reports_app l1 l2 :
  set_reports (l1 ++ l2) = set_reports l1 ++ set_reports l2.
Proof.
  induction l1 as [|c l1 IH]; [reflexivity|].
  destruct c; cbn [app set_reports]; rewrite IH; reflexivity.
Qed.

Lemma le_value_put_unaligned_le32 x :
  0 <= x < 4294967296 -> le_value (put_unaligned_le32 x) = x.
Proof.
  intros H. unfold put_unaligned_le32, le_value, u8.
  rewrite !Z.shiftr_div_pow2 by lia.
  change (2 ^ 8) with 256. change (2 ^ 16) with 65536.
  change (2 ^ 24) with 16777216.
  Z.div_mod_to_equations. lia.
Qed.

(** With a TTY attached [ft260_uart_change_speed] returns, and the one
    feature report it sends is [speed_request]. *)
Lemma ft260_uart_change_speed_sends env termios w :
  port_tty (dev w) = true ->
  exists ret termios' w',
    ft260_uart_change_speed env termios w = Ok (ret, termios') w'
    /\ set_reports (log w')
       = set_reports (log w) ++ [req_bytes (speed_request env termios)].
Proof.
  intros Htty.
  unfold ft260_uart_change_speed, speed_request, speed_baud, speed_termios.
  unfold bind at 1. unfold get_dev.
  destruct (change_speed_data_bit termios) as [db t1]. cbn [fst snd].
  set (baud := u32 (tty_termios_baud_rate env t1)).
  assert (Hb : 0 <= baud < 4294967296)
    by (subst baud; unfold u32; apply Z.mod_pos_bound; lia).
  unfold bind at 1.
  destruct (baud_invalid baud) eqn:Einv.
  - rewrite Htty. unfold bind at 1. unfold call, Return at 1. cbn [dev mem log].
    unfold ft260_hid_feature_report_set, req_bytes.
    cbn [report request flow_ctrl baudrate data_bit parity stop_bit breaking app].
    unfold bind, from_option, get_log, call, Return. cbn [write_bytes].
    rewrite write_bytes_Some by (cbn [length]; lia).
    cbn [dev mem log Z.to_nat firstn skipn length Nat.add app].
    eexists _, _, _. split; [reflexivity|]. cbn [log].
    rewrite !set_reports_app. cbn [set_reports]. rewrite app_nil_r.
    reflexivity.
  - unfold Return at 1.
    unfold ft260_hid_feature_report_set, req_bytes.
    cbn [report request flow_ctrl baudrate data_bit parity stop_bit breaking app].
    unfold bind, from_option, get_log, call, Return. cbn [write_bytes].
    rewrite write_bytes_Some by (cbn [length]; lia).
    cbn [dev mem log Z.to_nat firstn skipn length Nat.add app].
    eexists _, _, _. split; [reflexivity|]. cbn [log].
    rewrite !set_reports_app. cbn [set_reports].
    unfold cpu_to_le32. subst baud. unfold u32.
    rewrite Z.mod_mod by lia. reflexivity.
Qed.

Lemma change_speed_data_bit_cases termios :
  fst (change_speed_data_bit termios)
  = (if Z.land (c_cflag termios) CSIZE =? CS7
     then FT260_CFG_DATA_BITS_7 else FT260_CFG_DATA_BITS_8).
Proof.
  unfold change_speed_data_bit.
  destruct (Z.land (c_cflag termios) CSIZE =? CS7); [reflexivity|].
  destruct ((_ =? CS5) || (_ =? CS6)); reflexivity.
Qed.

(** C8.  The configuration report that is sent carries, in its bytes 3 to
    6, low byte first, the baud rate read from the termios when that lies
    in [1200, 12000000], and 9600 when it does not (0 included): the
    corrected value is the one encoded.  Its data-bit byte is 7 for CS7 and
    8 for every other size (CS5 and CS6 are corrected to 8). *)
Theorem C8_baud_and_data_bits env termios w :
  port_tty (dev w) = true ->
  let req := speed_request env termios in
  let baud := speed_baud env termios in
  (exists ret termios' w',
     ft260_uart_change_speed env termios w = Ok (ret, termios') w'
     /\ set_reports (log w') = set_reports (log w) ++ [req_bytes req])
  /\ firstn 4 (skipn 3 (req_bytes req)) = baudrate req
  /\ (baud = 0 \/ baud < FT260_CFG_BAUD_MIN \/ FT260_CFG_BAUD_MAX < baud ->
      baudrate req = [0x80; 0x25; 0; 0] /\ le_value (baudrate req) = 9600)
  /\ (FT260_CFG_BAUD_MIN <= baud <= FT260_CFG_BAUD_MAX ->
      le_value (baudrate req) = baud)
  /\ nth 7 (req_bytes req) 0 = data_bit req
  /\ data_bit req = (if Z.land (c_cflag termios) CSIZE =? CS7
                     then FT260_CFG_DATA_BITS_7 else FT260_CFG_DATA_BITS_8).
Proof.
  intros Htty req baud.
  split; [apply ft260_uart_change_speed_sends; exact Htty|].
  split; [reflexivity|].
  assert (Hb : 0 <= baud < 4294967296)
    by (subst baud; unfold speed_baud, u32; apply Z.mod_pos_bound; lia).
  unfold FT260_CFG_BAUD_MIN, FT260_CFG_BAUD_MAX.
  split; [|split; [|split]].
  - intros Hout.
    assert (Hinv : baud_invalid baud = true).
    { unfold baud_invalid, FT260_CFG_BAUD_MIN, FT260_CFG_BAUD_MAX.
      destruct Hout as [->|[H|H]].
      - reflexivity.
      - apply Z.ltb_lt in H. rewrite H. apply orb_true_iff. left.
        apply orb_true_r.
      - apply Z.ltb_lt in H. rewrite H. apply orb_true_r. }
    subst req. unfold speed_request. cbn [baudrate]. fold baud. rewrite Hinv.
    split; reflexivity.
  - intros Hin.
    assert (Hinv : baud_invalid baud = false).
    { unfold baud_invalid, FT260_CFG_BAUD_MIN, FT260_CFG_BAUD_MAX.
      replace (baud =? 0) with false by (symmetry; apply Z.eqb_neq; lia).
      replace (baud <? 1200) with false by (symmetry; apply Z.ltb_ge; lia).
      replace (12000000 <? baud) with false by (symmetry; apply Z.ltb_ge; lia).
      reflexivity. }
    subst req. unfold speed_request. cbn [baudrate]. fold baud. rewrite Hinv.
    apply le_value_put_unaligned_le32. exact Hb.
  - reflexivity.
  - subst req. unfold speed_request. cbn [data_bit].
    apply change_speed_data_bit_cases.
Qed.

(** C9.  Whatever the termios asks for, RTS/CTS included, the
    configuration report that is sent carries the flow-control code
    FT260_CFG_FLOW_CTRL_NONE (no flow control) and the break code
    FT260_CFG_BREAKING_NO. *)
Theorem C9_flow_control_and_break_forced env termios w :
  port_tty (dev w) = true ->
  let req := speed_request env termios in
  (exists ret termios' w',
     ft260_uart_change_speed env termios w = Ok (ret, termios') w'
     /\ set_reports (log w') = set_reports (log w) ++ [req_bytes req])
  /\ nth 2 (req_bytes req) 0 = FT260_CFG_FLOW_CTRL_NONE
  /\ nth 10 (req_bytes req) 0 = FT260_CFG_BREAKING_NO.
Proof.
  intros Htty req.
  split; [apply ft260_uart_change_speed_sends; exact Htty|].
  split; reflexivity.
Qed.

(** ** The UART transmit chunks (claim C1) *)

Lemma ft260_uart_transmit_chunk_eq env data_len w :
  staging_ok w -> 0 < data_len <= kfifo_len (dev w) ->
  let chunk := firstn (Z.to_nat (Z.min data_len FT260_WR_DATA_MAX))
                      (xmit_fifo (dev w)) in
  ft260_uart_transmit_chunk env data_len w =
  Ok (hid_hw_output_report env (log w) (uart_write_report chunk),
      Z.of_nat (length chunk))
     (chunk_sent chunk w)
  /\ Z.of_nat (length chunk) = Z.min data_len FT260_WR_DATA_MAX.
Proof.
  intros Hb Hlen chunk. subst chunk.
  unfold kfifo_len, FT260_WR_DATA_MAX in *.
  unfold ft260_uart_transmit_chunk, FT260_WR_DATA_MAX. cbv zeta.
  destruct w as [d m lg]. unfold staging_ok in Hb. cbn [dev] in *.
  destruct d as [wb rb ri rl ck wt xf tx rx tty]. cbn [write_buf xmit_fifo] in *.
  remember (firstn (Z.to_nat (Z.min data_len 60)) xf) as chunk eqn:Ec.
  assert (Hcl : Z.of_nat (length chunk) = Z.min data_len 60)
    by (subst chunk; rewrite length_firstn; lia).
  split; [|exact Hcl].
  remember (Z.min data_len 60) as n eqn:En.
  destruct (staging_buffer _ Hb) as (x0 & x1 & x2 & x3 & x4 & rest & -> & Hr).
  do 2 (unfold bind at 1;
        erewrite stage_Ok
          by (cbn [dev write_buf set_write_buf];
              apply write_bytes_Some; cbn [length]; lia);
        cbv [Z.to_nat Pos.to_nat Pos.iter_op
             set_write_buf write_buf dev mem log read_buf read_idx read_len
             clock wait xmit_fifo icount_tx icount_rx port_tty];
        cbn [Nat.add length firstn skipn app]).
  unfold kfifo_out_locked.
  unfold bind at 1 2 3. unfold get_dev, put_dev, Return at 1.
  cbn [dev mem log xmit_fifo set_xmit_fifo write_buf read_buf read_idx read_len
       clock wait icount_tx icount_rx port_tty].
  rewrite <- Ec.
  unfold bind at 1.
  erewrite stage_Ok
    by (cbn [dev write_buf set_xmit_fifo]; apply write_bytes_Some;
        cbn [length]; lia).
  cbn [dev mem log write_buf set_write_buf set_xmit_fifo].
  change (Z.to_nat 2) with 2%nat. cbn [firstn app].
  unfold staged. unfold bind at 1 2. unfold get_dev.
  cbn [dev mem log write_buf].
  cbn [write_buf set_write_buf set_xmit_fifo Nat.add skipn].
  rewrite read_bytes_Some;
    [|lia|lia|cbn [length]; rewrite length_app, length_skipn; cbn [length]; lia].
  cbn [from_option skipn Z.to_nat]. unfold Return at 1.
  unfold ft260_hid_output_report, bind, get_log, call, Return. cbn [dev mem log].
  replace (Z.to_nat (Z.of_nat (length chunk) + 2)) with (S (S (length chunk)))
    by lia.
  cbn [firstn]. rewrite firstn_app, firstn_all, Nat.sub_diag.
  cbn [firstn]. rewrite app_nil_r.
  unfold chunk_sent, uart_write_report. rewrite Hcl.
  cbn [dev mem log write_buf xmit_fifo set_xmit_fifo set_write_buf length app skipn].
  replace (Z.to_nat n) with (length chunk) by lia.
  reflexivity.
Qed.

(** The loop of [ft260_uart_transmit_chars], one turn unfolded. *)
Lemma ft260_uart_transmit_from_eq env data_len w :
  ft260_uart_transmit_from env data_len w =
  match ft260_uart_transmit_chunk env data_len w with
  | Fault f => Fault f
  | Ok (ret, len) w' =>
      if ret <? 0 then Ok ret w'
      else
        let w'' := mk_world (set_icount_tx (u32 (icount_tx (dev w') + len)) (dev w'))
                            (mem w') (log w') in
        if 0 <? data_len - len
        then (if 0 <? len then ft260_uart_transmit_from env (data_len - len) w''
              else Fault Diverges)
        else Ok 0 w''
  end.
Proof.
  simp ft260_uart_transmit_from.
  destruct (ft260_uart_transmit_chunk env data_len w) as [[ret len] w'|f]; cbn;
    [|reflexivity].
  destruct (Z_lt_dec ret 0) as [H|H]; cbn.
  - apply Z.ltb_lt in H. rewrite H. reflexivity.
  - replace (ret <? 0) with false by (symmetry; apply Z.ltb_ge; lia).
    destruct (Z_gt_dec (data_len - len) 0) as [G|G]; cbn.
    + replace (0 <? data_len - len) with true by (symmetry; apply Z.ltb_lt; lia).
      destruct (Z_gt_dec len 0) as [L|L]; cbn.
      * replace (0 <? len) with true by (symmetry; apply Z.ltb_lt; lia).
        reflexivity.
      * replace (0 <? len) with false by (symmetry; apply Z.ltb_ge; lia).
        reflexivity.
    + replace (0 <? data_len - len) with false by (symmetry; apply Z.ltb_ge; lia).
      reflexivity.
Qed.

(** With a transport that takes every report, the loop empties the fifo
    in chunks of 60 bytes, one UART write request for each. *)
Lemma ft260_uart_transmit_from_chunks env fuel :
  accepts_reports env ->
  forall data_len w,
    (Z.to_nat data_len <= fuel)%nat ->
    0 < data_len -> data_len = kfifo_len (dev w) -> staging_ok w ->
    exists w',
      ft260_uart_transmit_from env data_len w = Ok 0 w'
      /\ output_reports (log w')
         = output_reports (log w)
           ++ map uart_write_report (split60 fuel (xmit_fifo (dev w)))
      /\ xmit_fifo (dev w') = [] /\ port_tty (dev w') = port_tty (dev w).
Proof.
  intros Hacc.
  induction fuel as [|k IH]; intros data_len w Hfuel Hpos Hlen Hb; [lia|].
  rewrite ft260_uart_transmit_from_eq.
  destruct (ft260_uart_transmit_chunk_eq env data_len w Hb ltac:(lia)) as [E Hcl].
  cbv zeta in E, Hcl. rewrite E.
  replace (hid_hw_output_report env (log w) _ <? 0) with false
    by (symmetry; apply Z.ltb_ge; apply Hacc).
  cbv zeta. unfold kfifo_len, FT260_WR_DATA_MAX in *.
  set (chunk := firstn (Z.to_nat (Z.min data_len 60)) (xmit_fifo (dev w))) in *.
  destruct (Z_le_gt_dec data_len 60) as [Hs|Hl].
  - replace (0 <? data_len - Z.of_nat (length chunk)) with false
      by (symmetry; apply Z.ltb_ge; lia).
    assert (Hc : chunk = xmit_fifo (dev w))
      by (subst chunk; apply firstn_all2; lia).
    eexists. split; [reflexivity|].
    cbn [dev mem log chunk_sent set_icount_tx xmit_fifo set_write_buf
         set_xmit_fifo port_tty].
    rewrite split60_short by lia.
    rewrite output_reports_app, Hc. cbn [map output_reports].
    rewrite skipn_all. auto.
  - replace (0 <? data_len - Z.of_nat (length chunk)) with true
      by (symmetry; apply Z.ltb_lt; lia).
    replace (0 <? Z.of_nat (length chunk)) with true
      by (symmetry; apply Z.ltb_lt; lia).
    match goal with
    | |- context [ft260_uart_transmit_from env ?dl ?w2] =>
        destruct (IH dl w2) as (w' & Er & Ho & Hf & Ht)
    end.
    + lia.
    + lia.
    + cbn [dev chunk_sent set_icount_tx xmit_fifo set_write_buf set_xmit_fifo].
      rewrite length_skipn. lia.
    + unfold staging_ok in *.
      cbn [dev chunk_sent set_icount_tx write_buf set_write_buf].
      rewrite length_app, length_skipn. cbn [uart_write_report length app].
      lia.
    + exists w'. split; [exact Er|].
      cbn [dev mem log chunk_sent set_icount_tx xmit_fifo set_write_buf
           set_xmit_fifo port_tty] in Ho, Ht.
      rewrite split60_long by lia.
      rewrite Ho, output_reports_app. cbn [map output_reports].
      rewrite <- app_assoc. cbn [app].
      replace (length chunk) with 60%nat by lia.
      subst chunk. replace (Z.to_nat (Z.min data_len 60)) with 60%nat by lia.
      auto.
Qed.

(** The fields of a UART write request that carries 1 to 60 bytes. *)
Lemma uart_write_report_fields c :
  (length c <= 60)%nat ->
  nth 0 (uart_write_report c) 0
  = FT260_UART_REPORT_MIN + Z.quot (Z.of_nat (length c) - 1) 4
  /\ nth 1 (uart_write_report c) 0 = Z.of_nat (length c)
  /\ skipn 2 (uart_write_report c) = c.
Proof.
  intros H. unfold uart_write_report. cbn [nth skipn app].
  pose proof (data_report_id_range FT260_UART_REPORT_MIN
                (Z.of_nat (length c)) ltac:(lia)) as Hr.
  unfold FT260_UART_DATA_REPORT_ID, u8, FT260_UART_REPORT_MIN in *.
  rewrite !Z.mod_small by lia. auto.
Qed.

(** [ft260_uart_transmit_chars] with bytes queued and a TTY attached: the
    queue goes out in UART write requests whose ids and length fields are
    those of their chunks. *)
Lemma ft260_uart_transmit_chars_chunks env w :
  accepts_reports env -> staging_ok w ->
  port_tty (dev w) = true -> xmit_fifo (dev w) <> [] ->
  exists w',
    ft260_uart_transmit_chars env w = Ok 0 w'
    /\ output_reports (log w')
       = output_reports (log w)
         ++ map uart_write_report (chunks60 (xmit_fifo (dev w)))
    /\ Forall (fun c =>
                 nth 0 (uart_write_report c) 0
                 = FT260_UART_REPORT_MIN + Z.quot (Z.of_nat (length c) - 1) 4
                 /\ nth 1 (uart_write_report c) 0 = Z.of_nat (length c))
              (chunks60 (xmit_fifo (dev w))).
Proof.
  intros Hacc Hb Htty Hne.
  assert (Hpos : 0 < kfifo_len (dev w)).
  { unfold kfifo_len. destruct (xmit_fifo (dev w)); [contradiction|cbn; lia]. }
  destruct (ft260_uart_transmit_from_chunks env (length (xmit_fifo (dev w))) Hacc
              (kfifo_len (dev w)) w) as (w' & E & Ho & Hf & Ht);
    try assumption; try reflexivity; [unfold kfifo_len; lia|].
  unfold ft260_uart_transmit_chars.
  unfold bind at 1. unfold get_dev. rewrite Htty. cbn [negb orb].
  replace (kfifo_len (dev w) =? 0) with false by (symmetry; apply Z.eqb_neq; lia).
  unfold bind at 1. rewrite E. cbn [Z.ltb Z.compare].
  unfold bind at 1 2. unfold get_dev.
  destruct (TTY_WAKEUP_WATERMARK <? FIFO_SIZE - kfifo_len (dev w')).
  - unfold call, Return. eexists. split; [reflexivity|]. cbn [log].
    rewrite output_reports_app, Ho. cbn [output_reports]. rewrite app_nil_r.
    split; [reflexivity|].
    pose proof (Forall_split60 _ _ (Nat.le_refl (length (xmit_fifo (dev w))))) as HF.
    eapply Forall_impl; [|exact HF].
    intros c Hc. cbv beta in Hc.
    destruct (uart_write_report_fields c Hc) as (H0 & H1 & _). auto.
  - unfold Return. eexists. split; [reflexivity|].
    split; [exact Ho|].
    pose proof (Forall_split60 _ _ (Nat.le_refl (length (xmit_fifo (dev w))))) as HF.
    eapply Forall_impl; [|exact HF].
    intros c Hc. cbv beta in Hc.
    destruct (uart_write_report_fields c Hc) as (H0 & H1 & _). auto.
Qed.

(** ** The report id of an SMBus write (claim C1) *)

(** An SMBus write that is accepted goes out with the id that belongs to
    the length of the whole report: one more than the id its chunk length
    calls for, and past the last I2C data id for chunks over 56 bytes. *)
Lemma smbus_write_report_id addr cmd flag src :
  (length src < 60)%nat ->
  let rep := smbus_write_report addr cmd flag src in
  nth 3 rep 0 = Z.of_nat (length src) + 1
  /\ nth 0 rep 0 = FT260_I2C_REPORT_MIN + Z.quot (nth 3 rep 0 - 1) 4 + 1
  /\ ((56 <= length src)%nat -> FT260_I2C_REPORT_MAX < nth 0 rep 0).
Proof.
  intros H rep. subst rep. unfold smbus_write_report. cbn [nth app].
  unfold FT260_I2C_DATA_REPORT_ID, u8, FT260_I2C_REPORT_MIN, FT260_I2C_REPORT_MAX.
  rewrite (Z.mod_small (Z.of_nat (length src) + 1)) by lia.
  rewrite !Z.quot_div_nonneg by lia.
  replace (4 + (Z.of_nat (length src) + 1) - 1)
    with (Z.of_nat (length src) + 1 * 4) by lia.
  rewrite Z.div_add by lia.
  replace (Z.of_nat (length src) + 1 - 1) with (Z.of_nat (length src)) by lia.
  assert (0 <= Z.of_nat (length src) / 4) by (apply Z.div_pos; lia).
  assert (Z.of_nat (length src) / 4 <= 59 / 4) by (apply Z.div_le_mono; lia).
  change (59 / 4) with 14 in *.
  rewrite Z.mod_small by lia.
  split; [reflexivity|]. split; [lia|].
  intros H56.
  assert (56 / 4 <= Z.of_nat (length src) / 4) by (apply Z.div_le_mono; lia).
  change (56 / 4) with 14 in *. lia.
Qed.

(** C1 at its failing input.  The SMBus Byte write of command 0x10 to
    address 0x50 is one report with chunk length 1 ([command]); it goes out
    with report id 0xD1, while base + (1 - 1) / 4 is 0xD0.  A chunk of 57
    bytes goes out with id 0xDF, past FT260_I2C_REPORT_MAX. *)
Theorem C1_smbus_write_report_id :
  output_reports
    (log_of (ft260_smbus_xfer (idle_env 100) 0x50 0 I2C_SMBUS_WRITE 0x10
                              I2C_SMBUS_BYTE (world_100 [])))
  = [[0xD1; 0x50; FT260_FLAG_START_STOP; 1; 0x10]]
  /\ FT260_I2C_REPORT_MIN + Z.quot (1 - 1) 4 = 0xD0
  /\ output_reports
       (log_of (ft260_smbus_write (idle_env 100) 0x50 0x10 (Some (repeat 0 56)) 56
                                  FT260_FLAG_START_STOP (world_100 [])))
     = [[0xDF; 0x50; FT260_FLAG_START_STOP; 57; 0x10] ++ repeat 0 56]
  /\ FT260_I2C_REPORT_MAX < 0xDF.
Proof. repeat split. Qed.

(** * Further properties *)

Lemma check_status_refused env data len w :
  hid_hw_output_report env (log w) data < 0 ->
  ft260_hid_output_report_check_status env data len w =
  Ok (hid_hw_output_report env (log w) data)
     (mk_world (dev w) (mem w)
               (log w ++ [HidOutputReport data; HidSetReport reset_report])).
Proof.
  intros H. apply Z.ltb_lt in H.
  unfold ft260_hid_output_report_check_status, ft260_hid_output_report,
    ft260_i2c_reset, ft260_hid_feature_report_set, bind, get_log, call, Return,
    from_option.
  cbn. rewrite H. cbn. rewrite <- app_assoc. reflexivity.
Qed.

Lemma status_polls_app l1 l2 :
  status_polls (l1 ++ l2) = (status_polls l1 + status_polls l2)%nat.
Proof.
  induction l1 as [|c l1 IH]; [reflexivity|].
  destruct c; cbn; rewrite ?IH; reflexivity.
Qed.

Lemma status_polls_repeat k : status_polls (repeat status_poll k) = k.
Proof. induction k; [reflexivity|cbn; now rewrite IHk]. Qed.

Lemma resets_polls k : resets (repeat status_poll k) = O.
Proof. induction k; [reflexivity|exact IHk]. Qed.

Lemma check_status_result env data len w ret w' :
  ft260_hid_output_report_check_status env data len w = Ok ret w' ->
  (ret = 0 /\ resets (log w') = resets (log w))
  \/ (ret < 0 /\ resets (log w') = S (resets (log w))).
Proof.
  intros Hrun.
  destruct (Z_lt_dec (hid_hw_output_report env (log w) data) 0) as [Hneg|Hpos].
  - rewrite (check_status_refused _ _ _ _ Hneg) in Hrun.
    injection Hrun as <- <-. cbn [log].
    right. split; [exact Hneg|]. rewrite resets_app. cbn. lia.
  - rewrite check_status_sent in Hrun by lia.
    destruct (clock (dev w) =? 0); [discriminate|].
    destruct (ft260_poll_status_returns env 2 (sent_and_slept data len w))
      as (r & w1 & k & Hpoll & _ & _ & Hk & Hlog).
    rewrite Hpoll in Hrun. cbn [log sent_and_slept] in Hlog.
    destruct ((r =? 0) || (r =? - EBUSY)) eqn:E; injection Hrun as <- <-.
    + left. split; [reflexivity|].
      rewrite Hlog, !resets_app, resets_polls. cbn. lia.
    + right. split; [unfold EIO; lia|].
      cbn [log]. rewrite Hlog, !resets_app, resets_polls. cbn. lia.
Qed.

(** X1.  Whatever the transport and the controller answer, a run of
    [ft260_hid_output_report_check_status] that returns has sent its report
    as the one output report and made at most three status polls; either
    it returned 0 and sent no bus reset, or it returned a negative code and
    sent exactly one bus reset, as its last call.  It never returns a
    positive value. *)
Theorem check_status_outcomes env data len w ret w' :
  ft260_hid_output_report_check_status env data len w = Ok ret w' ->
  output_reports (log w') = output_reports (log w) ++ [data]
  /\ (status_polls (log w') <= status_polls (log w) + 3)%nat
  /\ ((ret = 0 /\ resets (log w') = resets (log w))
      \/ (ret < 0 /\ resets (log w') = S (resets (log w))
          /\ exists l, log w' = l ++ [HidSetReport reset_report])).
Proof.
  intros Hrun.
  destruct (Z_lt_dec (hid_hw_output_report env (log w) data) 0) as [Hneg|Hpos].
  - rewrite (check_status_refused _ _ _ _ Hneg) in Hrun.
    injection Hrun as <- <-. cbn [log].
    split; [|split].
    + rewrite output_reports_app. reflexivity.
    + rewrite status_polls_app. cbn. lia.
    + right. split; [exact Hneg|]. split.
      * rewrite resets_app. cbn. lia.
      * exists (log w ++ [HidOutputReport data]).
        rewrite <- app_assoc. reflexivity.
  - rewrite check_status_sent in Hrun by lia.
    destruct (clock (dev w) =? 0); [discriminate|].
    destruct (ft260_poll_status_returns env 2 (sent_and_slept data len w))
      as (r & w1 & k & Hpoll & _ & _ & Hk & Hlog).
    rewrite Hpoll in Hrun. cbn [log sent_and_slept] in Hlog.
    destruct ((r =? 0) || (r =? - EBUSY)) eqn:E; injection Hrun as <- <-.
    + rewrite Hlog. split; [|split].
      * rewrite !output_reports_app, output_reports_polls, app_nil_r. reflexivity.
      * rewrite !status_polls_app, status_polls_repeat. cbn. lia.
      * left. split; [reflexivity|].
        rewrite !resets_app, resets_polls. cbn. lia.
    + cbn [log]. rewrite Hlog. split; [|split].
      * rewrite !output_reports_app, output_reports_polls. cbn.
        rewrite !app_nil_r. reflexivity.
      * rewrite !status_polls_app, status_polls_repeat. cbn. lia.
      * right. split; [unfold EIO; lia|]. split.
        -- rewrite !resets_app, resets_polls. cbn. lia.
        -- eexists. reflexivity.
Qed.

(** X2.  When the report was sent but the status request itself is
    refused by the transport, or answered short, the device structure
    (the cached clock with it) stays as it was.  A refusal with -EBUSY is
    taken for a busy bus: the check returns 0 and sends no reset.  Any
    other refusal than -EAGAIN makes it return -EIO after one bus reset. *)
Theorem status_request_refused env data len w r buf :
  0 <= hid_hw_output_report env (log w) data -> clock (dev w) <> 0 ->
  hid_hw_raw_request_get env (log (sent_and_slept data len w)) FT260_I2C_STATUS 5
  = (r, buf) ->
  r <> 5 -> r <> - EAGAIN ->
  let w1 := mk_world (dev w) (mem w)
                     (log (sent_and_slept data len w) ++ [status_poll]) in
  (r = - EBUSY ->
   ft260_hid_output_report_check_status env data len w = Ok 0 w1)
  /\ (r <> - EBUSY ->
      ft260_hid_output_report_check_status env data len w
      = Ok (- EIO) (with_reset w1)).
Proof.
  intros Hsend Hclk Hr H5 Hagain w1.
  rewrite check_status_sent by assumption.
  apply Z.eqb_neq in Hclk. rewrite Hclk.
  cbn [ft260_poll_status].
  rewrite (bind_Ok _ _ _ _ _ (ft260_xfer_status_failed _ _ _ _ Hr H5)).
  cbn [dev mem log sent_and_slept] in *. fold w1.
  split; intros Hb.
  - subst r. reflexivity.
  - destruct (0 <=? r) eqn:E.
    + reflexivity.
    + apply Z.leb_gt in E.
      replace (negb (r =? - EAGAIN)) with true
        by (symmetry; apply negb_true_iff, Z.eqb_neq; exact Hagain).
      unfold Return.
      replace ((r =? 0) || (r =? - EBUSY)) with false; [reflexivity|].
      symmetry. apply orb_false_iff. split; apply Z.eqb_neq; [lia|exact Hb].
Qed.

Lemma land_low7 s f : 0 <= f < 128 -> Z.land s f = Z.land (s mod 128) f.
Proof.
  intros Hf.
  change 128 with (2 ^ 7). rewrite <- Z.land_ones by lia.
  rewrite <- Z.land_assoc. f_equal.
  rewrite Z.land_comm, Z.land_ones by lia.
  symmetry. apply Z.mod_small. exact Hf.
Qed.

Lemma status_code_low7 x :
  0 <= x < 128 -> status_code_low7_check x = true.
Proof.
  intros Hx.
  assert (H : forallb status_code_low7_check (map Z.of_nat (seq 0 128)) = true)
    by (vm_compute; reflexivity).
  rewrite forallb_forall in H. apply H.
  apply in_map_iff. exists (Z.to_nat x). split; [lia|].
  apply in_seq. lia.
Qed.

Lemma status_code_mask s :
  status_code s = status_code (Z.land s decided_bits)
  /\ (status_code s = 0 <-> Z.land s decided_bits = FT260_I2C_STATUS_CTRL_IDLE).
Proof.
  assert (E : status_code s = status_code (s mod 128)).
  { unfold status_code, bit_set.
    rewrite (land_low7 s FT260_I2C_STATUS_CTRL_BUSY),
      (land_low7 s FT260_I2C_STATUS_BUS_BUSY),
      (land_low7 s FT260_I2C_STATUS_ERROR),
      (land_low7 s FT260_I2C_STATUS_CTRL_IDLE) by (cbv; split; congruence).
    reflexivity. }
  assert (Hm : 0 <= s mod 128 < 128) by (apply Z.mod_pos_bound; lia).
  pose proof (status_code_low7 _ Hm) as H.
  unfold status_code_low7_check in H.
  apply andb_true_iff in H as [H1 H2].
  apply Z.eqb_eq in H1. apply Bool.eqb_prop in H2.
  rewrite (land_low7 s decided_bits) by (cbv; split; congruence).
  rewrite E. split; [exact H1|].
  rewrite <- Z.eqb_eq, H2, Z.eqb_eq. reflexivity.
Qed.

(** X3.  A status poll that is answered in full returns 0 exactly when,
    of the four bits it tests (controller busy, bus busy, error, controller
    idle), controller-idle alone is set.  The address-NACK, data-NACK and
    arbitration-lost bits never change the code: two replies that agree on
    the four tested bits give the same return value. *)
Theorem xfer_status_ignores_nack_bits env w report :
  hid_hw_raw_request_get env (log w) FT260_I2C_STATUS 5 = (5, report) ->
  let s := nth 1 report 0 in
  exists ret w',
    ft260_xfer_status env w = Ok ret w'
    /\ (ret = 0 <-> Z.land s decided_bits = FT260_I2C_STATUS_CTRL_IDLE)
    /\ (forall env2 w2 report2,
          hid_hw_raw_request_get env2 (log w2) FT260_I2C_STATUS 5 = (5, report2) ->
          Z.land (nth 1 report2 0) decided_bits = Z.land s decided_bits ->
          exists w2', ft260_xfer_status env2 w2 = Ok ret w2').
Proof.
  intros Hr s.
  exists (status_code s), (polled report w).
  split; [apply ft260_xfer_status_answered; exact Hr|].
  split; [apply status_code_mask|].
  intros env2 w2 report2 Hr2 Hmask.
  exists (polled report2 w2).
  rewrite (ft260_xfer_status_answered _ _ _ Hr2).
  f_equal.
  rewrite (proj1 (status_code_mask (nth 1 report2 0))), Hmask.
  symmetry. apply status_code_mask.
Qed.

(** One turn of the loop of [ft260_i2c_write], whatever the device does:
    the chunk goes out as one report; the bus is reset exactly when the
    turn fails. *)
Lemma ft260_i2c_write_fragment_result env addr data data_len idx flag w ret w1 :
  staging_ok w -> 0 <= idx -> 0 <= data_len ->
  idx + data_len <= Z.of_nat (length data) ->
  ft260_i2c_write_fragment env addr data data_len idx flag w = Ok ret w1 ->
  output_reports (log w1)
  = output_reports (log w)
    ++ [i2c_write_report addr flag
          (firstn (Z.to_nat (wr_chunk data_len)) (skipn (Z.to_nat idx) data))]
  /\ staging_ok w1
  /\ ((ret = 0 /\ resets (log w1) = resets (log w))
      \/ (ret < 0 /\ resets (log w1) = S (resets (log w)))).
Proof.
  intros Hb Hidx Hlen Hfit E.
  destruct (ft260_i2c_write_fragment_turn env addr data data_len idx flag w
              Hb Hidx Hlen Hfit) as [Hturn _].
  destruct (Hturn ret w1 E) as (Ho & Hb1 & _).
  split; [exact Ho|]. split; [exact Hb1|].
  assert (H0 : 0 <= wr_chunk data_len <= data_len).
  { unfold wr_chunk, FT260_WR_DATA_MAX.
    destruct (data_len <=? 60) eqn:E60; [|apply Z.leb_gt in E60]; lia. }
  erewrite ft260_i2c_write_fragment_eq in E;
    [|exact Hb|apply read_bytes_Some; lia].
  apply check_status_result in E as [[-> Hr]|(Hneg & Hr)].
  - left. split; [reflexivity|exact Hr].
  - right. split; [exact Hneg|exact Hr].
Qed.

Lemma ft260_i2c_write_from_prefix env addr data flag fuel :
  forall data_len idx w ret w',
    (Z.to_nat data_len <= fuel)%nat ->
    0 <= idx -> 0 <= data_len -> idx + data_len <= Z.of_nat (length data) ->
    staging_ok w ->
    ft260_i2c_write_from env addr data data_len idx flag w = Ok ret w' ->
    let chunks := split60 fuel (firstn (Z.to_nat data_len)
                                       (skipn (Z.to_nat idx) data)) in
    exists k,
      (1 <= k <= length chunks)%nat
      /\ output_reports (log w')
         = output_reports (log w)
           ++ map (i2c_write_report addr flag) (firstn k chunks)
      /\ ((ret = 0 /\ k = length chunks /\ resets (log w') = resets (log w))
          \/ (ret < 0 /\ resets (log w') = S (resets (log w)))).
Proof.
  induction fuel as [|n IH];
    intros data_len idx w ret0 w' Hfuel Hidx Hlen Hsum Hb Hrun chunks;
    rewrite ft260_i2c_write_from_eq in Hrun;
    destruct (ft260_i2c_write_fragment env addr data data_len idx flag w)
      as [ret w1|f] eqn:E; try discriminate;
    destruct (ft260_i2c_write_fragment_result _ _ _ _ _ _ _ _ _
                Hb Hidx Hlen Hsum E) as (Ho & Hb1 & Hres);
    pose proof (length_skipn (Z.to_nat idx) data) as Hrem;
    unfold wr_chunk, FT260_WR_DATA_MAX in *.
  - assert (data_len = 0) by lia. subst data_len. cbn in Hrun, Ho.
    exists 1%nat. subst chunks. cbn [split60 Z.to_nat firstn length map].
    split; [lia|].
    destruct Hres as [[-> Hr]|[Hneg Hr]].
    + cbn in Hrun. injection Hrun as <- <-. split; [exact Ho|]. left. auto.
    + apply Z.ltb_lt in Hneg. rewrite Hneg in Hrun. injection Hrun as <- <-.
      split; [exact Ho|]. right. apply Z.ltb_lt in Hneg. auto.
  - destruct (data_len <=? 60) eqn:E60.
    + apply Z.leb_le in E60.
      rewrite Z.sub_diag in Hrun.
      exists 1%nat. subst chunks.
      rewrite split60_short by (rewrite length_firstn; lia).
      cbn [length firstn map]. split; [lia|].
      destruct Hres as [[-> Hr]|[Hneg Hr]].
      * cbn in Hrun. injection Hrun as <- <-. split; [exact Ho|]. left. auto.
      * apply Z.ltb_lt in Hneg. rewrite Hneg in Hrun. injection Hrun as <- <-.
        split; [exact Ho|]. right. apply Z.ltb_lt in Hneg. auto.
    + apply Z.leb_gt in E60. subst chunks.
      rewrite split60_long by (rewrite length_firstn; lia).
      assert (Hhead : firstn 60 (firstn (Z.to_nat data_len) (skipn (Z.to_nat idx) data))
                      = firstn (Z.to_nat 60) (skipn (Z.to_nat idx) data)).
      { rewrite firstn_firstn. f_equal. lia. }
      rewrite Hhead.
      destruct Hres as [[-> Hr]|[Hneg Hr]].
      * replace (0 <? data_len - 60) with true in Hrun
          by (symmetry; apply Z.ltb_lt; lia).
        cbn [Z.ltb Z.compare] in Hrun.
        apply IH in Hrun as (k & Hk & Ho' & Hres'); [|lia|lia|lia|lia|exact Hb1].
        assert (Htail : skipn 60 (firstn (Z.to_nat data_len) (skipn (Z.to_nat idx) data))
                        = firstn (Z.to_nat (data_len - 60))
                                 (skipn (Z.to_nat (idx + 60)) data)).
        { rewrite skipn_firstn_comm, skipn_skipn.
          replace (Z.to_nat (idx + 60)) with (60 + Z.to_nat idx)%nat by lia.
          replace (Z.to_nat (data_len - 60)) with (Z.to_nat data_len - 60)%nat by lia.
          reflexivity. }
        rewrite Htail. exists (S k). cbn [length firstn map].
        split; [lia|]. split.
        -- rewrite Ho', Ho, <- app_assoc. reflexivity.
        -- rewrite Hr in Hres'.
           destruct Hres' as [(-> & -> & Hr')|[Hn Hr']]; [left|right]; auto.
      * apply Z.ltb_lt in Hneg. rewrite Hneg in Hrun. injection Hrun as <- <-.
        apply Z.ltb_lt in Hneg.
        exists 1%nat. cbn [length firstn map]. split; [lia|].
        split; [rewrite Ho; reflexivity|]. right. auto.
Qed.

(** X4.  [ft260_i2c_write] stops at the first fragment that fails: the
    reports sent are the first [k] chunks of the payload, in order, with
    [k] at least 1.  When it returns 0 they are all the chunks and no bus
    reset was sent; when it returns a negative code exactly one bus reset
    was sent.  It never returns a positive value. *)
Theorem i2c_write_stops_at_failure env addr data flag w ret w' :
  staging_ok w ->
  ft260_i2c_write env addr data (Z.of_nat (length data)) flag w = Ok ret w' ->
  exists k,
    (1 <= k <= length (chunks60 data))%nat
    /\ output_reports (log w')
       = output_reports (log w)
         ++ map (i2c_write_report addr flag) (firstn k (chunks60 data))
    /\ ((ret = 0 /\ k = length (chunks60 data)
         /\ resets (log w') = resets (log w))
        \/ (ret < 0 /\ resets (log w') = S (resets (log w)))).
Proof.
  intros Hb Hrun. unfold ft260_i2c_write in Hrun.
  apply (ft260_i2c_write_from_prefix env addr data flag (length data)) in Hrun;
    [|lia|lia|lia|lia|exact Hb].
  cbn zeta in Hrun.
  rewrite Nat2Z.id in Hrun. cbn [Z.to_nat skipn] in Hrun.
  rewrite firstn_all in Hrun. exact Hrun.
Qed.




(** A status poll changes nothing of the device but the cached clock. *)
Lemma ft260_xfer_status_frame env w ret w' :
  ft260_xfer_status env w = Ok ret w' ->
  ret <= 0
  /\ wait (dev w') = wait (dev w)
  /\ resets (log w') = resets (log w)
  /\ output_reports (log w') = output_reports (log w).
Proof.
  intros H.
  unfold ft260_xfer_status, ft260_hid_feature_report_get, bind, get_log, call,
    Return, modify_dev in H.
  cbn [log dev mem] in H.
  destruct (hid_hw_raw_request_get env (log w) FT260_I2C_STATUS 5) as [r b].
  assert (Hl : forall d m, resets (log (mk_world d m (log w ++ [HidGetReport FT260_I2C_STATUS 5])))
                           = resets (log w)
                           /\ output_reports (log (mk_world d m (log w ++ [HidGetReport FT260_I2C_STATUS 5])))
                              = output_reports (log w)).
  { intros d m. cbn [log]. rewrite resets_app, output_reports_app. cbn.
    rewrite app_nil_r. split; [lia|reflexivity]. }
  unfold EAGAIN, EBUSY, EIO in *.
  break_match; cbn [dev wait set_clock];
    (split; [lia|split; [reflexivity|apply Hl]]).
Qed.


(** ** Calls made between the power hints *)

Lemma power_hints_app l1 l2 :
  power_hints (l1 ++ l2) = power_hints l1 ++ power_hints l2.
Proof.
  induction l1 as [|c l1 IH]; [reflexivity|].
  destruct c; cbn [app power_hints]; rewrite IH; reflexivity.
Qed.

Lemma bridge_only_refl w w' : log w' = log w -> bridge_only w w'.
Proof. intros H. exists []. rewrite app_nil_r. auto. Qed.

Lemma bridge_only_trans w1 w2 w3 :
  bridge_only w1 w2 -> bridge_only w2 w3 -> bridge_only w1 w3.
Proof.
  intros (m1 & H1 & P1) (m2 & H2 & P2). exists (m1 ++ m2).
  rewrite H2, H1, <- app_assoc, power_hints_app, P1, P2. auto.
Qed.

Lemma bridge_only_step w w' mid :
  log w' = log w ++ mid -> power_hints mid = [] -> bridge_only w w'.
Proof. intros H P. exists mid. auto. Qed.

Lemma ft260_raw_event_bridge env r w ret w' :
  ft260_raw_event env r w = Ok ret w' -> bridge_only w w'.
Proof.
  intros H.
  unfold ft260_raw_event, ft260_uart_receive_chars, complete, bind, from_option,
    get_dev, get_mem, put_mem, modify_dev, Return, raise, get_log, call in H.
  cbn [log dev mem] in H.
  break_match;
    first [ apply bridge_only_refl; reflexivity
          | eapply bridge_only_step;
            [cbn [log]; rewrite <- ?app_assoc; reflexivity|reflexivity] ].
Qed.

Lemma deliver_bridge env rs w w' :
  deliver env rs w = Ok tt w' -> bridge_only w w'.
Proof.
  revert w. induction rs as [|r rs IH]; intros w H; cbn [deliver] in H.
  - injection H as <-. apply bridge_only_refl. reflexivity.
  - unfold bind at 1 in H. unfold get_dev in H.
    destruct (wait (dev w)).
    + unfold bind at 1 in H.
      destruct (ft260_raw_event env r w) as [ret w1|f] eqn:E; [|discriminate].
      eapply bridge_only_trans; [eapply ft260_raw_event_bridge; eauto|auto].
    + injection H as <-. apply bridge_only_refl. reflexivity.
Qed.

Lemma wait_for_completion_timeout_bridge env msecs w t w' :
  wait_for_completion_timeout env msecs w = Ok t w' -> bridge_only w w'.
Proof.
  unfold wait_for_completion_timeout.
  unfold bind at 1 2. unfold get_log, call. cbn [log dev mem].
  unfold bind at 1.
  destruct (deliver env (input_reports env (log w)) _) as [[] w1|f] eqn:E;
    [|discriminate].
  apply deliver_bridge in E.
  intros H.
  eapply bridge_only_trans;
    [|eapply bridge_only_trans; [exact E|]].
  { eapply bridge_only_step with (mid := [WaitForCompletion msecs]);
      reflexivity. }
  unfold bind, get_dev, modify_dev, Return in H.
  destruct (wait (dev w1)); injection H as <- <-; apply bridge_only_refl;
    reflexivity.
Qed.

Lemma power_hints_polls k : power_hints (repeat status_poll k) = [].
Proof. induction k; [reflexivity|exact IHk]. Qed.

Lemma ft260_xfer_status_bridge env w ret w' :
  ft260_xfer_status env w = Ok ret w' -> bridge_only w w'.
Proof.
  intros H.
  destruct (ft260_xfer_status_returns env w) as (r & w1 & E & _ & Hl & _).
  rewrite E in H. injection H as <- <-.
  eapply bridge_only_step; [exact Hl|reflexivity].
Qed.

Lemma check_status_bridge env data len w ret w' :
  ft260_hid_output_report_check_status env data len w = Ok ret w' ->
  bridge_only w w'.
Proof.
  intros Hrun.
  destruct (Z_lt_dec (hid_hw_output_report env (log w) data) 0) as [Hneg|Hpos].
  - rewrite (check_status_refused _ _ _ _ Hneg) in Hrun.
    injection Hrun as <- <-.
    eapply bridge_only_step; [reflexivity|reflexivity].
  - rewrite check_status_sent in Hrun by lia.
    destruct (clock (dev w) =? 0); [discriminate|].
    destruct (ft260_poll_status_returns env 2 (sent_and_slept data len w))
      as (r & w1 & k & Hpoll & _ & _ & Hk & Hlog).
    rewrite Hpoll in Hrun. cbn [log sent_and_slept] in Hlog.
    rewrite <- app_assoc in Hlog.
    destruct ((r =? 0) || (r =? - EBUSY)); injection Hrun as <- <-.
    + eapply bridge_only_step; [exact Hlog|].
      rewrite power_hints_app, power_hints_polls. reflexivity.
    + eapply bridge_only_step;
        [cbn [log]; rewrite Hlog, <- !app_assoc; reflexivity|].
      rewrite !power_hints_app, power_hints_polls. reflexivity.
Qed.

Lemma ft260_i2c_read_bridge env addr data len flag w ret w' :
  ft260_i2c_read env addr data len flag w = Ok ret w' -> bridge_only w w'.
Proof.
  intros Hrun.
  destruct (Z_lt_dec FT260_RD_DATA_MAX (u16 len)) as [Hbig|Hfit].
  { unfold ft260_i2c_read in Hrun. cbv zeta in Hrun.
    apply Z.ltb_lt in Hbig. rewrite Hbig in Hrun. injection Hrun as <- <-.
    apply bridge_only_refl. reflexivity. }
  assert (H0 : bridge_only w (read_started addr data len flag w))
    by (eapply bridge_only_step; reflexivity).
  destruct (Z_lt_dec (hid_hw_output_report env (log w) (read_request addr flag len)) 0)
    as [Hneg|Hpos].
  - unfold ft260_i2c_read in Hrun. cbv zeta in Hrun.
    assert (Hlen' : (FT260_RD_DATA_MAX <? u16 len) = false) by (apply Z.ltb_ge; lia).
    rewrite Hlen' in Hrun.
    unfold bind at 1 2 in Hrun.
    unfold reinit_completion, modify_dev in Hrun. cbn [log dev mem] in Hrun.
    unfold ft260_hid_output_report in Hrun.
    unfold bind at 1 2 3 in Hrun. unfold get_log, call, Return in Hrun.
    cbn [log dev mem] in Hrun.
    fold (read_request addr flag len) in Hrun.
    apply Z.ltb_lt in Hneg. rewrite Hneg in Hrun.
    injection Hrun as <- <-. exact H0.
  - rewrite ft260_i2c_read_sent in Hrun by lia.
    destruct (wait_for_completion_timeout env 5000 _) as [t w2|f] eqn:Ew;
      [|discriminate].
    apply wait_for_completion_timeout_bridge in Ew.
    assert (H2 : bridge_only w w2) by (eapply bridge_only_trans; eauto).
    destruct (t =? 0).
    + injection Hrun as <- <-.
      eapply bridge_only_trans; [exact H2|].
      eapply bridge_only_step; reflexivity.
    + destruct (ft260_xfer_status env w2) as [r w3|f] eqn:Es; [|discriminate].
      apply ft260_xfer_status_bridge in Es.
      assert (H3 : bridge_only w w3) by (eapply bridge_only_trans; eauto).
      destruct (r =? 0); injection Hrun as <- <-; [exact H3|].
      eapply bridge_only_trans; [exact H3|].
      eapply bridge_only_step; reflexivity.
Qed.

Lemma bind_inv {A B} (m : M A) (k : A -> M B) w b w' :
  bind m k w = Ok b w' -> exists a w1, m w = Ok a w1 /\ k a w1 = Ok b w'.
Proof.
  unfold bind. destruct (m w) as [a w1|f]; [eauto|discriminate].
Qed.

Lemma from_option_inv {A} f (o : option A) w a w' :
  from_option f o w = Ok a w' -> o = Some a /\ w' = w.
Proof.
  destruct o; cbn; unfold Return, raise; [intros [= <- <-]; auto|discriminate].
Qed.

Lemma stage_log off src w w' : stage off src w = Ok tt w' -> log w' = log w.
Proof.
  unfold stage, bind, get_dev, put_dev, from_option, Return, raise.
  destruct (write_bytes _ _ _); [intros [= <-]; reflexivity|discriminate].
Qed.

Lemma staged_inv len w rep w' : staged len w = Ok rep w' -> w' = w.
Proof.
  unfold staged, bind, get_dev, from_option, Return, raise.
  destruct (read_bytes _ _ _); [intros [= _ <-]; reflexivity|discriminate].
Qed.

Lemma bridge_only_log w0 w w' :
  log w0 = log w -> bridge_only w0 w' -> bridge_only w w'.
Proof. unfold bridge_only. intros ->. auto. Qed.

Ltac stage_steps H :=
  repeat match type of H with
         | bind (stage _ _) _ _ = Ok _ _ =>
             let u := fresh "u" in
             let w1 := fresh "w" in
             let S := fresh "S" in
             apply bind_inv in H as (u & w1 & S & H);
             destruct u; apply stage_log in S
         end.

Lemma ft260_smbus_write_bridge env addr cmd data data_len flag w ret w' :
  ft260_smbus_write env addr cmd data data_len flag w = Ok ret w' ->
  bridge_only w w'.
Proof.
  intros H. unfold ft260_smbus_write in H. cbv zeta in H.
  destruct (60 <=? u8 data_len).
  { injection H as <- <-. apply bridge_only_refl. reflexivity. }
  stage_steps H.
  apply bind_inv in H as ([] & w5 & S5 & H).
  assert (L5 : log w5 = log w4).
  { destruct (0 <? u8 data_len).
    - apply bind_inv in S5 as (region & w6 & F1 & S5).
      apply from_option_inv in F1 as [_ ->].
      apply bind_inv in S5 as (src & w7 & F2 & S5).
      apply from_option_inv in F2 as [_ ->].
      apply stage_log in S5. exact S5.
    - injection S5 as <-. reflexivity. }
  apply bind_inv in H as (rep & w6 & S6 & H).
  apply staged_inv in S6. subst w6.
  apply check_status_bridge in H.
  eapply bridge_only_log; [|exact H]. congruence.
Qed.

Lemma ft260_i2c_write_fragment_bridge env addr data data_len idx flag w ret w' :
  ft260_i2c_write_fragment env addr data data_len idx flag w = Ok ret w' ->
  bridge_only w w'.
Proof.
  intros H. unfold ft260_i2c_write_fragment in H. cbv zeta in H.
  stage_steps H.
  apply bind_inv in H as (chunk & w4 & F & H).
  apply from_option_inv in F as [_ ->].
  stage_steps H.
  apply bind_inv in H as (rep & w6 & S6 & H).
  apply staged_inv in S6. subst w6.
  apply check_status_bridge in H.
  eapply bridge_only_log; [|exact H]. congruence.
Qed.

Lemma ft260_i2c_write_from_bridge env addr data flag fuel :
  forall data_len idx w ret w',
    (Z.to_nat data_len <= fuel)%nat ->
    ft260_i2c_write_from env addr data data_len idx flag w = Ok ret w' ->
    bridge_only w w'.
Proof.
  induction fuel as [|n IH]; intros data_len idx w ret0 w' Hfuel Hrun;
    rewrite ft260_i2c_write_from_eq in Hrun;
    destruct (ft260_i2c_write_fragment env addr data data_len idx flag w)
      as [ret w1|f] eqn:E; try discriminate;
    apply ft260_i2c_write_fragment_bridge in E;
    (destruct (ret <? 0); [injection Hrun as <- <-; exact E|]);
    (destruct (0 <? data_len - wr_chunk data_len) eqn:Em;
     [|injection Hrun as <- <-; exact E]);
    apply Z.ltb_lt in Em;
    unfold wr_chunk, FT260_WR_DATA_MAX in *;
    destruct (data_len <=? 60) eqn:E60; try lia.
  apply Z.leb_gt in E60.
  eapply bridge_only_trans; [exact E|].
  eapply IH; [|exact Hrun]. lia.
Qed.

Lemma ft260_i2c_write_bridge env addr data data_len flag w ret w' :
  ft260_i2c_write env addr data data_len flag w = Ok ret w' -> bridge_only w w'.
Proof.
  unfold ft260_i2c_write. apply ft260_i2c_write_from_bridge with (fuel := Z.to_nat data_len).
  lia.
Qed.

Lemma ft260_i2c_write_read_turn_bridge env addr0 len0 read_off left_len rb w ret w' :
  ft260_i2c_write_read_turn env addr0 len0 read_off left_len rb w = Ok ret w' ->
  bridge_only w w'.
Proof.
  intros H. unfold ft260_i2c_write_read_turn in H.
  apply bind_inv in H as (r & w1 & E & H).
  apply ft260_i2c_write_bridge in E.
  destruct (r <? 0).
  - injection H as <- <-. exact E.
  - apply ft260_i2c_read_bridge in H. eapply bridge_only_trans; eauto.
Qed.

Lemma ft260_i2c_write_read_from_bridge env addr0 len0 fuel :
  forall read_off left_len rb w ret w',
    (Z.to_nat left_len <= fuel)%nat ->
    ft260_i2c_write_read_from env addr0 len0 read_off left_len rb w = Ok ret w' ->
    bridge_only w w'.
Proof.
  induction fuel as [|n IH]; intros read_off left_len rb w ret0 w' Hfuel Hrun;
    rewrite ft260_i2c_write_read_from_eq in Hrun;
    destruct (ft260_i2c_write_read_turn env addr0 len0 read_off left_len rb w)
      as [ret w1|f] eqn:E; try discriminate;
    apply ft260_i2c_write_read_turn_bridge in E;
    (destruct (ret <? 0); [injection Hrun as <- <-; exact E|]);
    (destruct (0 <? u16 (left_len - rd_chunk left_len)) eqn:Em;
     [|injection Hrun as <- <-; exact E]);
    apply Z.ltb_lt in Em;
    unfold rd_chunk, FT260_RD_DATA_MAX, u16 in *;
    destruct (left_len <=? 60) eqn:E60;
    try (rewrite Z.sub_diag in Em; cbn in Em; lia).
  - apply Z.leb_gt in E60. lia.
  - apply Z.leb_gt in E60.
    eapply bridge_only_trans; [exact E|].
    eapply IH; [|exact Hrun].
    assert ((left_len - 60) mod 65536 <= left_len - 60) by (apply Z.mod_le; lia).
    lia.
Qed.

Lemma ft260_i2c_write_read_bridge env msgs w ret w' :
  ft260_i2c_write_read env msgs w = Ok ret w' -> bridge_only w w'.
Proof.
  intros H. unfold ft260_i2c_write_read in H.
  apply bind_inv in H as (msg0 & w1 & F0 & H).
  apply from_option_inv in F0 as [_ ->].
  apply bind_inv in H as (msg1 & w1 & F1 & H).
  apply from_option_inv in F1 as [_ ->].
  cbv zeta in H.
  destruct (2 <? u16 (len msg0)).
  { injection H as <- <-. apply bridge_only_refl. reflexivity. }
  apply bind_inv in H as (src & w1 & F2 & H).
  apply from_option_inv in F2 as [_ ->].
  apply bind_inv in H as (off & w1 & F3 & H).
  apply from_option_inv in F3 as [_ ->].
  eapply ft260_i2c_write_read_from_bridge; [|exact H]. apply Nat.le_refl.
Qed.

Lemma power_bracket_intro env w ret w' w1 :
  0 <= hid_hw_power env (log w) PM_HINT_FULLON ->
  bridge_only (mk_world (dev w) (mem w) (log w ++ [HidPower PM_HINT_FULLON])) w1 ->
  log w' = log w1 ++ [HidPower PM_HINT_NORMAL] ->
  power_bracket env w ret w'.
Proof.
  intros Hon (mid & Hl & Hp) Hw'. unfold power_bracket. cbv zeta.
  replace (_ <? 0) with false by (symmetry; apply Z.ltb_ge; exact Hon).
  exists mid. cbn [log] in Hl. rewrite Hw', Hl, <- !app_assoc. auto.
Qed.

Lemma ft260_smbus_read_after_write_bridge env addr cmd dst n w ret w' :
  ft260_smbus_read_after_write env addr cmd dst n w = Ok ret w' ->
  bridge_only w w'.
Proof.
  intros H. unfold ft260_smbus_read_after_write in H.
  apply bind_inv in H as (r & w1 & E & H).
  apply ft260_smbus_write_bridge in E.
  destruct (negb (r =? 0)).
  - injection H as <- <-. exact E.
  - apply ft260_i2c_read_bridge in H. eapply bridge_only_trans; eauto.
Qed.

(** X6.  [ft260_smbus_xfer] and the power hints: when the full-on hint
    is refused, the refusal is returned and nothing else is done;
    otherwise the normal hint is the last call made and no other hint is
    given in between.  A transaction size the driver does not know returns
    -EOPNOTSUPP with nothing but the two hints. *)
Theorem smbus_xfer_power_hints env addr flags read_write cmd size w ret w' :
  ft260_smbus_xfer env addr flags read_write cmd size w = Ok ret w' ->
  power_bracket env w ret w'
  /\ (0 <= hid_hw_power env (log w) PM_HINT_FULLON ->
      ~ In size [I2C_SMBUS_QUICK; I2C_SMBUS_BYTE; I2C_SMBUS_BYTE_DATA;
                 I2C_SMBUS_WORD_DATA; I2C_SMBUS_BLOCK_DATA;
                 I2C_SMBUS_I2C_BLOCK_DATA] ->
      ret = - EOPNOTSUPP
      /\ w' = mk_world (dev w) (mem w)
                       (log w ++ [HidPower PM_HINT_FULLON; HidPower PM_HINT_NORMAL])).
Proof.
  intros H. split.
  2:{ intros Hon Hsize. unfold ft260_smbus_xfer, hw_power in H.
      unfold bind at 1 2 3 in H. unfold get_log, call, Return in H.
      cbn [log dev mem] in H.
      apply Z.ltb_ge in Hon. rewrite Hon in H.
      unfold bind at 1 in H. unfold get_mem in H. cbn [mem] in H.
      cbn [In] in Hsize.
      repeat match type of H with
             | context [size =? ?c] =>
                 replace (size =? c) with false in H
                   by (symmetry; apply Z.eqb_neq; intros ->; tauto)
             end.
      unfold bind, get_log, call, Return in H. cbn [log dev mem] in H.
      injection H as <- <-. rewrite <- app_assoc. auto. }
  unfold ft260_smbus_xfer, hw_power in H.
  unfold bind at 1 2 3 in H. unfold get_log, call, Return in H.
  cbn [log dev mem] in H.
  destruct (hid_hw_power env (log w) PM_HINT_FULLON <? 0) eqn:Eon.
  { injection H as <- <-. unfold power_bracket. cbv zeta. rewrite Eon. auto. }
  apply Z.ltb_ge in Eon.
  apply bind_inv in H as (data & w0 & G & H).
  unfold get_mem in G. injection G as <- <-.
  apply bind_inv in H as (r & w1 & Hbody & H).
  unfold bind at 1 2 in H. unfold get_log, call, Return in H.
  injection H as <- <-.
  eapply power_bracket_intro; [exact Eon| |reflexivity].
  cbn [mem] in Hbody.
  repeat match type of Hbody with
         | (if ?c then _ else _) _ = _ => destruct c
         end;
    try (apply ft260_i2c_read_bridge in Hbody; exact Hbody);
    try (apply ft260_smbus_write_bridge in Hbody; exact Hbody);
    try (apply ft260_smbus_read_after_write_bridge in Hbody; exact Hbody);
    try (injection Hbody as <- <-; apply bridge_only_refl; reflexivity).
  - apply bind_inv in Hbody as (r1 & w2 & E & Hbody).
    apply ft260_smbus_write_bridge in E.
    destruct (negb (r1 =? 0)); [injection Hbody as <- <-; exact E|].
    apply bind_inv in Hbody as (b0 & w3 & F & Hbody).
    apply from_option_inv in F as [_ ->].
    apply ft260_i2c_read_bridge in Hbody. eapply bridge_only_trans; eauto.
  - apply bind_inv in Hbody as (b0 & w3 & F & Hbody).
    apply from_option_inv in F as [_ ->].
    apply ft260_smbus_write_bridge in Hbody. exact Hbody.
  - apply bind_inv in Hbody as (r1 & w2 & E & Hbody).
    apply ft260_smbus_write_bridge in E.
    destruct (negb (r1 =? 0)); [injection Hbody as <- <-; exact E|].
    apply bind_inv in Hbody as (b0 & w3 & F & Hbody).
    apply from_option_inv in F as [_ ->].
    apply ft260_i2c_read_bridge in Hbody. eapply bridge_only_trans; eauto.
  - apply bind_inv in Hbody as (b0 & w3 & F & Hbody).
    apply from_option_inv in F as [_ ->].
    apply ft260_smbus_write_bridge in Hbody. exact Hbody.
Qed.

(** X7.  [ft260_i2c_xfer] keeps to the same power protocol, and returns
    either the message count it was given or a negative code.  When the
    count is not 1 it runs the combined write-read on the first two
    messages only: whatever follows them changes nothing, and the count is
    returned all the same. *)
Theorem i2c_xfer_outcomes env msgs num w ret w' :
  ft260_i2c_xfer env msgs num w = Ok ret w' ->
  power_bracket env w ret w'
  /\ (ret = num \/ ret < 0)
  /\ (num <> 1 -> forall extra,
        ft260_i2c_xfer env (firstn 2 msgs ++ extra) num w = Ok ret w').
Proof.
  intros H.
  assert (Hextra : num <> 1 -> forall extra,
            ft260_i2c_xfer env (firstn 2 msgs ++ extra) num w = Ok ret w').
  { intros Hnum extra. unfold ft260_i2c_xfer in *.
    apply Z.eqb_neq in Hnum. rewrite Hnum in *.
    unfold bind at 1 in H. unfold bind at 1.
    destruct (hw_power env PM_HINT_FULLON w) as [r w0|f]; [|discriminate].
    destruct (r <? 0); [exact H|].
    destruct msgs as [|m0 [|m1 rest]]; [discriminate H|discriminate H|exact H]. }
  unfold ft260_i2c_xfer, hw_power in H.
  unfold bind at 1 2 3 in H. unfold get_log, call, Return in H.
  cbn [log dev mem] in H.
  destruct (hid_hw_power env (log w) PM_HINT_FULLON <? 0) eqn:Eon.
  { injection H as <- <-. unfold power_bracket. cbv zeta. rewrite Eon.
    apply Z.ltb_lt in Eon. auto. }
  apply Z.ltb_ge in Eon.
  apply bind_inv in H as (r & w1 & Hbody & H).
  unfold bind at 1 2 3 in H. unfold get_log, call, Return in H.
  assert (Hb : bridge_only (mk_world (dev w) (mem w)
                              (log w ++ [HidPower PM_HINT_FULLON])) w1).
  { destruct (num =? 1).
    - apply bind_inv in Hbody as (msg & w2 & F & Hbody).
      apply from_option_inv in F as [_ ->].
      destruct (bit_set (flags msg) I2C_M_RD).
      + apply ft260_i2c_read_bridge in Hbody. exact Hbody.
      + apply ft260_i2c_write_bridge in Hbody. exact Hbody.
    - apply ft260_i2c_write_read_bridge in Hbody. exact Hbody. }
  destruct (r <? 0) eqn:Er; injection H as <- <-.
  - split; [eapply power_bracket_intro; [exact Eon|exact Hb|reflexivity]|].
    apply Z.ltb_lt in Er. auto.
  - split; [eapply power_bracket_intro; [exact Eon|exact Hb|reflexivity]|].
    auto.
Qed.
Lemma smbus_xfer_block_write env addr flags cmd w :
  ft260_smbus_xfer env addr flags I2C_SMBUS_WRITE cmd I2C_SMBUS_BLOCK_DATA w =
  if hid_hw_power env (log w) PM_HINT_FULLON <? 0
  then Ok (hid_hw_power env (log w) PM_HINT_FULLON)
          (mk_world (dev w) (mem w) (log w ++ [HidPower PM_HINT_FULLON]))
  else
    let w0 := mk_world (dev w) (mem w) (log w ++ [HidPower PM_HINT_FULLON]) in
    match nth_error (mem w) 0 with
    | None => Fault OutOfBounds
    | Some block0 =>
        match ft260_smbus_write env addr cmd (Some (mem w)) (block0 + 1)
                                FT260_FLAG_START_STOP w0 with
        | Fault f => Fault f
        | Ok ret w1 =>
            Ok ret (mk_world (dev w1) (mem w1) (log w1 ++ [HidPower PM_HINT_NORMAL]))
        end
    end.
Proof.
  unfold ft260_smbus_xfer, hw_power.
  unfold bind at 1 2 3. unfold get_log, call, Return. cbn [log dev mem].
  destruct (hid_hw_power env (log w) PM_HINT_FULLON <? 0); [reflexivity|].
  unfold bind at 1. unfold get_mem. cbn [mem].
  change (I2C_SMBUS_WRITE =? I2C_SMBUS_READ) with false.
  change (I2C_SMBUS_BLOCK_DATA =? I2C_SMBUS_QUICK) with false.
  change (I2C_SMBUS_BLOCK_DATA =? I2C_SMBUS_BYTE) with false.
  change (I2C_SMBUS_BLOCK_DATA =? I2C_SMBUS_BYTE_DATA) with false.
  change (I2C_SMBUS_BLOCK_DATA =? I2C_SMBUS_WORD_DATA) with false.
  change (I2C_SMBUS_BLOCK_DATA =? I2C_SMBUS_BLOCK_DATA) with true.
  cbv iota zeta.
  unfold bind at 1 2.
  destruct (nth_error (mem w) 0) as [block0|]; [|reflexivity].
  cbn [from_option]. unfold Return at 1.
  destruct (ft260_smbus_write env addr cmd (Some (mem w)) (block0 + 1)
              FT260_FLAG_START_STOP _) as [ret w1|f]; [|reflexivity].
  reflexivity.
Qed.

Lemma ft260_smbus_xfer_byte_write env addr flags cmd w :
  ft260_smbus_xfer env addr flags I2C_SMBUS_WRITE cmd I2C_SMBUS_BYTE w =
  if hid_hw_power env (log w) PM_HINT_FULLON <? 0
  then Ok (hid_hw_power env (log w) PM_HINT_FULLON)
          (mk_world (dev w) (mem w) (log w ++ [HidPower PM_HINT_FULLON]))
  else
    let w0 := mk_world (dev w) (mem w) (log w ++ [HidPower PM_HINT_FULLON]) in
    match ft260_smbus_write env addr cmd None 0 FT260_FLAG_START_STOP w0 with
    | Fault f => Fault f
    | Ok ret w1 =>
        Ok ret (mk_world (dev w1) (mem w1) (log w1 ++ [HidPower PM_HINT_NORMAL]))
    end.
Proof.
  unfold ft260_smbus_xfer, hw_power.
  unfold bind at 1 2 3. unfold get_log, call, Return. cbn [log dev mem].
  destruct (hid_hw_power env (log w) PM_HINT_FULLON <? 0); [reflexivity|].
  unfold bind at 1. unfold get_mem. cbn [mem].
  change (I2C_SMBUS_WRITE =? I2C_SMBUS_READ) with false.
  change (I2C_SMBUS_BYTE =? I2C_SMBUS_QUICK) with false.
  change (I2C_SMBUS_BYTE =? I2C_SMBUS_BYTE) with true.
  cbv iota zeta.
  unfold bind at 1.
  destruct (ft260_smbus_write env addr cmd None 0 FT260_FLAG_START_STOP _)
    as [ret w1|f]; reflexivity.
Qed.

(** X8.  The length of an SMBus block write is [block[0] + 1] cut to
    eight bits.  For [block[0]] up to 58 the count byte and the data go out
    after the command in one write request; for 59 to 254 the transaction
    is refused with -EINVAL and only the two power hints are given; for
    255 the length wraps to 0 and the transaction is the same as an SMBus
    byte write of the command alone. *)
Theorem smbus_block_write_lengths env addr flags cmd w block0 :
  0 <= hid_hw_power env (log w) PM_HINT_FULLON ->
  nth_error (mem w) 0 = Some block0 ->
  let block_write :=
    ft260_smbus_xfer env addr flags I2C_SMBUS_WRITE cmd I2C_SMBUS_BLOCK_DATA w in
  (0 <= block0 <= 58 -> staging_ok w ->
   block0 + 1 <= Z.of_nat (length (mem w)) ->
   forall ret w',
     block_write = Ok ret w' ->
     output_reports (log w')
     = output_reports (log w)
       ++ [smbus_write_report addr cmd FT260_FLAG_START_STOP
             (firstn (Z.to_nat (block0 + 1)) (mem w))])
  /\ (59 <= block0 <= 254 ->
      block_write
      = Ok (- EINVAL)
           (mk_world (dev w) (mem w)
              (log w ++ [HidPower PM_HINT_FULLON; HidPower PM_HINT_NORMAL])))
  /\ (block0 = 255 ->
      block_write
      = ft260_smbus_xfer env addr flags I2C_SMBUS_WRITE cmd I2C_SMBUS_BYTE w).
Proof.
  intros Hon Hb0 block_write. subst block_write.
  rewrite smbus_xfer_block_write, ft260_smbus_xfer_byte_write.
  apply Z.ltb_ge in Hon. rewrite Hon, Hb0. cbv zeta.
  split; [|split].
  - intros Hr Hst Hfit ret w' Hrun.
    assert (Hu : u8 (block0 + 1) = block0 + 1)
      by (unfold u8; apply Z.mod_small; lia).
    erewrite ft260_smbus_write_eq
      with (src := firstn (Z.to_nat (block0 + 1)) (mem w)) in Hrun.
    + destruct (ft260_hid_output_report_check_status _ _ _ _) as [r w1|f] eqn:E;
        [|discriminate].
      injection Hrun as <- <-.
      apply check_status_outputs in E as (Ho & _ & _).
      cbn [log with_staged] in *.
      rewrite output_reports_app, Ho, output_reports_app. cbn.
      rewrite !app_nil_r. reflexivity.
    + exact Hst.
    + lia.
    + rewrite length_firstn, Hu. lia.
    + intros _. exists (mem w). split; [reflexivity|].
      rewrite Hu. apply read_bytes_Some; cbn [mem]; lia.
  - intros Hr.
    unfold ft260_smbus_write. cbv zeta.
    assert (Hu : u8 (block0 + 1) = block0 + 1)
      by (unfold u8; apply Z.mod_small; lia).
    rewrite Hu.
    replace (60 <=? block0 + 1) with true by (symmetry; apply Z.leb_le; lia).
    unfold Return. cbn [dev mem log]. rewrite <- app_assoc. reflexivity.
  - intros ->. reflexivity.
Qed.

(** ** The UART transmit loop, whatever the transport answers *)

Lemma u32_add_idemp a b c : u32 (u32 (a + b) + c) = u32 (a + (b + c)).
Proof.
  unfold u32. rewrite Z.add_mod_idemp_l by lia. f_equal. lia.
Qed.

Lemma ft260_uart_transmit_from_any env fuel :
  forall data_len w,
    (Z.to_nat data_len <= fuel)%nat ->
    0 < data_len -> data_len = kfifo_len (dev w) -> staging_ok w ->
    0 <= icount_tx (dev w) < 4294967296 ->
    let chunks := split60 fuel (xmit_fifo (dev w)) in
    exists ret w' k,
      ft260_uart_transmit_from env data_len w = Ok ret w'
      /\ (1 <= k <= length chunks)%nat
      /\ log w'
         = log w ++ map (fun c => HidOutputReport (uart_write_report c))
                        (firstn k chunks)
      /\ xmit_fifo (dev w')
         = skipn (length (concat (firstn k chunks))) (xmit_fifo (dev w))
      /\ staging_ok w' /\ port_tty (dev w') = port_tty (dev w)
      /\ ((ret = 0 /\ k = length chunks
           /\ icount_tx (dev w')
              = u32 (icount_tx (dev w) + Z.of_nat (length (xmit_fifo (dev w)))))
          \/ (ret < 0
              /\ (exists h rep, ret = hid_hw_output_report env h rep)
              /\ icount_tx (dev w')
                 = u32 (icount_tx (dev w)
                        + Z.of_nat (length (concat (firstn (k - 1) chunks)))))).
Proof.
  induction fuel as [|n IH]; intros data_len w Hfuel Hpos Hlen Hb Htx chunks; [lia|].
  rewrite ft260_uart_transmit_from_eq.
  destruct (ft260_uart_transmit_chunk_eq env data_len w Hb ltac:(lia)) as [E Hcl].
  cbv zeta in E, Hcl. rewrite E. clear E.
  unfold kfifo_len, FT260_WR_DATA_MAX in *.
  set (chunk := firstn (Z.to_nat (Z.min data_len 60)) (xmit_fifo (dev w))) in *.
  assert (Hst : staging_ok (chunk_sent chunk w)).
  { unfold staging_ok in *.
    cbn [dev chunk_sent set_icount_tx write_buf set_write_buf].
    rewrite length_app, length_skipn. cbn [uart_write_report length app]. lia. }
  assert (Hhead : (data_len <= 60 -> chunks = [chunk] /\ chunk = xmit_fifo (dev w))
                  /\ (60 < data_len ->
                      chunks = chunk :: split60 n (skipn 60 (xmit_fifo (dev w)))
                      /\ length chunk = 60%nat)).
  { subst chunks. split; intros Hd.
    - assert (Hc : chunk = xmit_fifo (dev w))
        by (subst chunk; apply firstn_all2; lia).
      rewrite split60_short by lia. rewrite <- Hc. auto.
    - rewrite split60_long by lia.
      replace (firstn 60 (xmit_fifo (dev w))) with chunk
        by (subst chunk; f_equal; lia).
      split; [reflexivity|lia]. }
  destruct Hhead as (Hshort & Hlong).
  assert (Hh1 : firstn 1 chunks = [chunk] /\ (1 <= length chunks)%nat).
  { destruct (Z_le_gt_dec data_len 60) as [Hs|Hl].
    - destruct (Hshort Hs) as [-> _]. cbn. auto.
    - destruct (Hlong ltac:(lia)) as [-> _]. cbn. split; [reflexivity|lia]. }
  destruct Hh1 as [Hh1 Hh2].
  destruct (hid_hw_output_report env (log w) (uart_write_report chunk) <? 0) eqn:Er.
  - apply Z.ltb_lt in Er.
    eexists _, _, 1%nat. split; [reflexivity|].
    rewrite Hh1.
    cbn [dev mem log chunk_sent set_icount_tx xmit_fifo set_write_buf
         set_xmit_fifo port_tty icount_tx Nat.sub firstn concat length map].
    split; [lia|]. split; [reflexivity|]. split; [rewrite app_nil_r; reflexivity|].
    split; [exact Hst|]. split; [reflexivity|].
    right. split; [exact Er|]. split; [eauto|].
    unfold u32. rewrite Z.add_0_r, Z.mod_small by lia. reflexivity.
  - apply Z.ltb_ge in Er. cbv zeta.
    destruct (Z_le_gt_dec data_len 60) as [Hs|Hl].
    + destruct (Hshort Hs) as [Hc1 Hc2].
      replace (0 <? data_len - Z.of_nat (length chunk)) with false
        by (symmetry; apply Z.ltb_ge; lia).
      eexists _, _, 1%nat. split; [reflexivity|].
      rewrite Hh1, Hc1.
      cbn [dev mem log chunk_sent set_icount_tx xmit_fifo set_write_buf
           set_xmit_fifo port_tty icount_tx Nat.sub firstn concat length map].
      split; [lia|]. split; [reflexivity|]. split; [rewrite app_nil_r; reflexivity|].
      split; [exact Hst|]. split; [reflexivity|].
      left. rewrite Hc2. auto.
    + destruct (Hlong ltac:(lia)) as [Hc1 Hc2].
      replace (0 <? data_len - Z.of_nat (length chunk)) with true
        by (symmetry; apply Z.ltb_lt; lia).
      replace (0 <? Z.of_nat (length chunk)) with true
        by (symmetry; apply Z.ltb_lt; lia).
      match goal with
      | |- context [ft260_uart_transmit_from env ?dl ?w2] =>
          destruct (IH dl w2) as (ret & w' & k & Erun & Hk & Ho & Hf & Hb' & Ht & Hres)
      end.
      * lia.
      * lia.
      * cbn [dev chunk_sent set_icount_tx xmit_fifo set_write_buf set_xmit_fifo].
        rewrite length_skipn. lia.
      * exact Hst.
      * cbn [dev icount_tx set_icount_tx]. unfold u32.
        apply Z.mod_pos_bound. lia.
      * cbn [dev mem log chunk_sent set_icount_tx xmit_fifo set_write_buf
             set_xmit_fifo port_tty icount_tx] in Ho, Hf, Ht, Hres, Hk.
        rewrite Hc2 in Ho, Hf, Hres, Hk.
        exists ret, w', (S k). split; [exact Erun|].
        rewrite Hc1. cbn [length firstn map concat].
        split; [lia|]. split.
        { rewrite Ho, <- app_assoc. reflexivity. }
        split.
        { rewrite Hf, skipn_skipn, length_app, Hc2. f_equal. lia. }
        split; [exact Hb'|]. split; [exact Ht|].
        destruct Hres as [(-> & -> & Htx')|(Hneg & Hret & Htx')]; [left|right].
        -- split; [reflexivity|]. split; [reflexivity|].
           rewrite Htx', u32_add_idemp, length_skipn. f_equal. lia.
        -- split; [exact Hneg|]. split; [exact Hret|].
           rewrite Htx', u32_add_idemp.
           replace (S k - 1)%nat with (S (k - 1)) by lia.
           cbn [firstn concat]. rewrite length_app, Hc2. f_equal. lia.
Qed.

Lemma fifo_nonempty (q : list Z) : q <> [] -> 0 < Z.of_nat (length q).
Proof. destruct q; [contradiction|cbn; lia]. Qed.

Lemma ft260_uart_transmit_chars_any env w :
  staging_ok w -> 0 <= icount_tx (dev w) < 4294967296 ->
  port_tty (dev w) = true -> xmit_fifo (dev w) <> [] ->
  let chunks := chunks60 (xmit_fifo (dev w)) in
  let sent k := map (fun c => HidOutputReport (uart_write_report c))
                    (firstn k chunks) in
  exists ret w' k,
    ft260_uart_transmit_chars env w = Ok ret w'
    /\ (1 <= k <= length chunks)%nat
    /\ xmit_fifo (dev w')
       = skipn (length (concat (firstn k chunks))) (xmit_fifo (dev w))
    /\ staging_ok w' /\ port_tty (dev w') = true
    /\ ((ret = 0 /\ k = length chunks /\ xmit_fifo (dev w') = []
         /\ icount_tx (dev w')
            = u32 (icount_tx (dev w) + Z.of_nat (length (xmit_fifo (dev w))))
         /\ log w' = log w ++ sent k ++ [TtyWakeup])
        \/ (ret < 0
            /\ (exists h rep, ret = hid_hw_output_report env h rep)
            /\ icount_tx (dev w')
               = u32 (icount_tx (dev w)
                      + Z.of_nat (length (concat (firstn (k - 1) chunks))))
            /\ log w' = log w ++ sent k)).
Proof.
  intros Hb Htx Htty Hne chunks sent.
  pose proof (fifo_nonempty _ Hne) as Hpos.
  assert (Hfuel : (Z.to_nat (kfifo_len (dev w)) <= length (xmit_fifo (dev w)))%nat)
    by (unfold kfifo_len; lia).
  assert (Hpos' : 0 < kfifo_len (dev w)) by (unfold kfifo_len; lia).
  destruct (ft260_uart_transmit_from_any env (length (xmit_fifo (dev w)))
              (kfifo_len (dev w)) w Hfuel Hpos' eq_refl Hb Htx)
    as (ret & w1 & k & E & Hk & Hl & Hf & Hb1 & Ht & Hres).
  cbv zeta in Hk, Hl, Hf, Hres. fold (chunks60 (xmit_fifo (dev w))) in Hk, Hl, Hf, Hres.
  fold chunks in Hk, Hl, Hf, Hres.
  unfold ft260_uart_transmit_chars.
  unfold bind at 1. unfold get_dev. rewrite Htty. cbn [negb orb].
  replace (kfifo_len (dev w) =? 0) with false
    by (symmetry; apply Z.eqb_neq; unfold kfifo_len; lia).
  unfold bind at 1. rewrite E.
  destruct Hres as [(-> & -> & Htx')|(Hneg & Hret & Htx')].
  - cbn [Z.ltb Z.compare].
    assert (Hempty : xmit_fifo (dev w1) = []).
    { rewrite Hf, firstn_all. unfold chunks, chunks60.
      rewrite concat_split60. apply skipn_all. }
    unfold bind at 1 2. unfold get_dev. unfold kfifo_len. rewrite Hempty.
    change (TTY_WAKEUP_WATERMARK <? FIFO_SIZE - Z.of_nat (length (@nil Z))) with true.
    unfold call, Return.
    eexists 0, _, (length chunks). split; [reflexivity|].
    cbn [dev log]. split; [lia|]. split; [exact Hf|]. split; [exact Hb1|].
    split; [congruence|]. left.
    repeat split; try assumption. rewrite Hl, <- app_assoc. reflexivity.
  - pose proof Hneg as Hneg'. apply Z.ltb_lt in Hneg'. rewrite Hneg'.
    unfold Return.
    exists ret, w1, k. split; [reflexivity|].
    split; [lia|]. split; [exact Hf|]. split; [exact Hb1|].
    split; [congruence|]. right. auto.
Qed.

(** X9.  [ft260_uart_transmit_chars] with no TTY or an empty fifo returns
    -EINVAL and changes nothing.  Otherwise it sends the fifo in chunks of
    60 bytes until a send fails.  On success the fifo is empty, [icount.tx]
    has advanced by the bytes sent (modulo 2^32) and the TTY wake-up is the
    last call.  On failure the chunk the transport refused has already
    left the fifo but is not counted in [icount.tx], and no wake-up is
    made. *)
Theorem uart_transmit_chars_outcomes env w :
  staging_ok w -> 0 <= icount_tx (dev w) < 4294967296 ->
  (port_tty (dev w) = false \/ xmit_fifo (dev w) = [] ->
   ft260_uart_transmit_chars env w = Ok (- EINVAL) w)
  /\ (port_tty (dev w) = true -> xmit_fifo (dev w) <> [] ->
      let chunks := chunks60 (xmit_fifo (dev w)) in
      let sent k := map (fun c => HidOutputReport (uart_write_report c))
                        (firstn k chunks) in
      exists ret w' k,
        ft260_uart_transmit_chars env w = Ok ret w'
        /\ (1 <= k <= length chunks)%nat
        /\ xmit_fifo (dev w')
           = skipn (length (concat (firstn k chunks))) (xmit_fifo (dev w))
        /\ ((ret = 0 /\ k = length chunks /\ xmit_fifo (dev w') = []
             /\ icount_tx (dev w')
                = u32 (icount_tx (dev w) + Z.of_nat (length (xmit_fifo (dev w))))
             /\ log w' = log w ++ sent k ++ [TtyWakeup])
            \/ (ret < 0
                /\ icount_tx (dev w')
                   = u32 (icount_tx (dev w)
                          + Z.of_nat (length (concat (firstn (k - 1) chunks))))
                /\ log w' = log w ++ sent k))).
Proof.
  intros Hb Htx. split.
  - intros H. unfold ft260_uart_transmit_chars.
    unfold bind at 1. unfold get_dev.
    destruct H as [H|H].
    + rewrite H. reflexivity.
    + unfold kfifo_len. rewrite H. cbn. rewrite orb_true_r. reflexivity.
  - intros Htty Hne chunks sent.
    destruct (ft260_uart_transmit_chars_any env w Hb Htx Htty Hne)
      as (ret & w' & k & E & Hk & Hf & _ & _ & Hres).
    exists ret, w', k. split; [exact E|]. split; [exact Hk|]. split; [exact Hf|].
    destruct Hres as [H|(H1 & _ & H2)]; [left; exact H|right; auto].
Qed.

Lemma list_nil_or (l : list Z) : l = [] \/ l <> [].
Proof. destruct l; [left; reflexivity|right; discriminate]. Qed.

(** X10.  [ft260_uart_write] accepts [min(count, room)] bytes and
    returns that number whatever becomes of the transmission; what stays
    queued is a tail of the old queue followed by the accepted bytes.
    Without a TTY the bytes stay queued and nothing is sent.  With a TTY
    and a transport that takes every report, everything queued goes out in
    order, in chunks of 60, and the queue is left empty. *)
Theorem uart_write_accepts_room env buf count w :
  staging_ok w -> 0 <= icount_tx (dev w) < 4294967296 ->
  kfifo_len (dev w) <= FIFO_SIZE -> 0 <= count <= Z.of_nat (length buf) ->
  let ret := Z.min count (FIFO_SIZE - kfifo_len (dev w)) in
  let queued := xmit_fifo (dev w) ++ firstn (Z.to_nat ret) buf in
  exists w',
    ft260_uart_write env buf count w = Ok ret w'
    /\ (exists n, xmit_fifo (dev w') = skipn n queued)
    /\ (port_tty (dev w) = false ->
        xmit_fifo (dev w') = queued /\ log w' = log w)
    /\ (port_tty (dev w) = true -> accepts_reports env -> queued <> [] ->
        xmit_fifo (dev w') = []
        /\ log w' = log w
                    ++ map (fun c => HidOutputReport (uart_write_report c))
                           (chunks60 queued)
                    ++ [TtyWakeup]).
Proof.
  intros Hb Htx Hroom Hcount ret queued.
  unfold ft260_uart_write.
  unfold bind at 1. rewrite read_bytes_Some by lia.
  cbn [from_option skipn Z.to_nat]. unfold Return at 1.
  unfold kfifo_in_locked.
  unfold bind at 1 2 3. unfold get_dev, put_dev, Return at 1.
  cbn [dev mem log].
  set (taken := firstn (Z.to_nat (FIFO_SIZE - kfifo_len (dev w)))
                       (firstn (Z.to_nat count) buf)).
  assert (Htaken : taken = firstn (Z.to_nat ret) buf).
  { subst taken ret. rewrite firstn_firstn. f_equal. lia. }
  assert (Hlen : Z.of_nat (length taken) = ret).
  { rewrite Htaken, length_firstn. subst ret. lia. }
  rewrite Hlen. rewrite Htaken. fold queued.
  set (w1 := mk_world (set_xmit_fifo queued (dev w)) (mem w) (log w)).
  assert (Hb1 : staging_ok w1) by exact Hb.
  assert (Htx1 : 0 <= icount_tx (dev w1) < 4294967296) by exact Htx.
  destruct (port_tty (dev w)) eqn:Htty.
  - destruct (list_nil_or queued) as [Eq|Hne].
    + assert (E : ft260_uart_transmit_chars env w1 = Ok (- EINVAL) w1).
      { unfold ft260_uart_transmit_chars. unfold bind at 1. unfold get_dev.
        unfold kfifo_len. cbn [dev w1 xmit_fifo set_xmit_fifo]. rewrite Eq.
        cbn. rewrite orb_true_r. reflexivity. }
      unfold bind. rewrite E. unfold Return.
      exists w1. split; [reflexivity|]. split; [exists 0%nat; reflexivity|].
      split; [discriminate|]. intros _ _ Hne. contradiction.
    + destruct (ft260_uart_transmit_chars_any env w1 Hb1 Htx1 Htty Hne)
        as (r & w' & k & E & Hk & Hf & _ & _ & Hres).
      cbn [dev xmit_fifo set_xmit_fifo w1 log] in Hf, Hres, Hk.
      unfold bind. rewrite E. unfold Return.
      exists w'. split; [reflexivity|].
      split; [eexists; exact Hf|]. split; [discriminate|].
      intros _ Hacc _.
      destruct Hres as [(_ & -> & He & _ & Hl)|(Hneg & (h & rep & Hr) & _)].
      * rewrite firstn_all in Hl. auto.
      * pose proof (Hacc h rep). lia.
  - assert (E : ft260_uart_transmit_chars env w1 = Ok (- EINVAL) w1).
    { unfold ft260_uart_transmit_chars. unfold bind at 1. unfold get_dev.
      cbn [dev w1 port_tty set_xmit_fifo]. rewrite Htty. reflexivity. }
    unfold bind. rewrite E. unfold Return.
    exists w1. split; [reflexivity|]. split; [exists 0%nat; reflexivity|].
    split; [auto|discriminate].
Qed.

Lemma uart_not_i2c r : is_uart_data r = true -> is_i2c_data r = false.
Proof.
  unfold is_uart_data, is_i2c_data, in_range,
    FT260_UART_REPORT_MIN, FT260_UART_REPORT_MAX,
    FT260_I2C_REPORT_MIN, FT260_I2C_REPORT_MAX.
  intros H. apply andb_true_iff in H as [H1 H2].
  apply Z.leb_le in H1. apply andb_false_iff. right. apply Z.leb_gt. lia.
Qed.

(** X11.  A UART data report of at most 60 bytes hands its payload to
    the TTY, adds the number of characters the TTY took to [icount.rx]
    (modulo 2^32), pushes the flip buffer only when that number is not 0,
    and returns it; the pending I2C read and the caller's memory are left
    alone.  An I2C data report does not touch [icount.rx] and makes no
    call. *)
Theorem raw_event_uart_receive env r w :
  ((2 <= length r)%nat -> is_uart_data r = true ->
   0 <= report_length r <= FT260_RD_DATA_MAX ->
   2 + report_length r <= Z.of_nat (length r) ->
   let n := tty_insert_flip_string env (log w) (report_payload r) in
   ft260_raw_event env r w =
   Ok n (mk_world (set_icount_rx (u32 (icount_rx (dev w) + n)) (dev w)) (mem w)
           (log w ++ TtyInsertFlipString (firstn (Z.to_nat n) (report_payload r))
                  :: (if n =? 0 then [] else [TtyFlipBufferPush]))))
  /\ (forall ret w',
        is_i2c_data r = true -> ft260_raw_event env r w = Ok ret w' ->
        icount_rx (dev w') = icount_rx (dev w) /\ log w' = log w).
Proof.
  split.
  - intros Hlen Hu Hr Hfit n.
    rewrite ft260_raw_event_other by (auto using uart_not_i2c).
    replace (FT260_RD_DATA_MAX <? report_length r) with false
      by (symmetry; apply Z.ltb_ge; lia).
    rewrite Hu.
    unfold ft260_uart_receive_chars. cbv zeta.
    assert (Hu8 : u8 (report_length r) = report_length r)
      by (unfold u8, FT260_RD_DATA_MAX in *; apply Z.mod_small; lia).
    rewrite Hu8.
    replace (FT260_RD_DATA_MAX <? report_length r) with false
      by (symmetry; apply Z.ltb_ge; lia).
    unfold bind at 1.
    rewrite read_bytes_Some by (rewrite ?length_skipn; lia).
    change (skipn (Z.to_nat 0) (skipn 2 r)) with (skipn 2 r).
    cbn [from_option]. unfold Return at 1.
    fold (report_payload r).
    unfold bind, get_log, call, modify_dev, Return. cbn [log dev mem].
    fold n. destruct (n =? 0); cbn [negb log dev mem];
      rewrite <- ?app_assoc; reflexivity.
  - intros ret w' Hi H.
    unfold ft260_raw_event, complete, bind, from_option,
      get_dev, get_mem, put_mem, modify_dev, Return, raise in H.
    cbn [log dev mem] in H.
    fold (report_id r) in H. unfold is_i2c_data in Hi.
    destruct (read_bytes r 0 2) as [hdr|] eqn:Ehdr; [|discriminate].
    assert (Hid : nth 0 hdr 0 = report_id r).
    { apply read_bytes_inv in Ehdr as (-> & _ & _ & Hl).
      cbn [Z.to_nat skipn]. change (Z.to_nat 2) with 2%nat.
      unfold report_id. destruct r as [|a [|b r]]; cbn in *; try lia; reflexivity. }
    rewrite Hid, Hi in H.
    break_match; cbn [dev log icount_rx set_wait set_read_idx set_read]; auto.
Qed.

(** ** The line configuration, field by field *)

(** [ft260_uart_change_speed] in closed form: the report, the termios it
    leaves and the calls it makes. *)
Lemma ft260_uart_change_speed_eq env termios w :
  port_tty (dev w) = true \/ baud_invalid (speed_baud env termios) = false ->
  let rep := req_bytes (speed_request env termios) in
  let invalid := baud_invalid (speed_baud env termios) in
  let l1 := if invalid then log w ++ [TtyEncodeBaudRate 9600 9600] else log w in
  ft260_uart_change_speed env termios w =
  Ok (hid_hw_raw_request_set env l1 rep,
      if invalid
      then tty_encode_baud_rate env (speed_termios termios) 9600 9600
      else speed_termios termios)
     (mk_world (dev w) (mem w) (l1 ++ [HidSetReport rep])).
Proof.
  intros Htty.
  unfold ft260_uart_change_speed, speed_request, speed_baud, speed_termios in *.
  unfold bind at 1. unfold get_dev.
  destruct (change_speed_data_bit termios) as [db t1]. cbn [fst snd] in *.
  set (baud := u32 (tty_termios_baud_rate env t1)) in *.
  assert (Hb : 0 <= baud < 4294967296)
    by (subst baud; unfold u32; apply Z.mod_pos_bound; lia).
  unfold bind at 1.
  destruct (baud_invalid baud) eqn:Einv.
  - destruct Htty as [Htty|Htty]; [|discriminate].
    rewrite Htty. unfold bind at 1. unfold call, Return at 1. cbn [dev mem log].
    unfold ft260_hid_feature_report_set, req_bytes.
    cbn [report request flow_ctrl baudrate data_bit parity stop_bit breaking app].
    unfold bind, from_option, get_log, call, Return. cbn [write_bytes].
    rewrite write_bytes_Some by (cbn [length]; lia).
    cbn [dev mem log Z.to_nat firstn skipn length Nat.add app].
    reflexivity.
  - unfold Return at 1.
    unfold ft260_hid_feature_report_set, req_bytes.
    cbn [report request flow_ctrl baudrate data_bit parity stop_bit breaking app].
    unfold bind, from_option, get_log, call, Return. cbn [write_bytes].
    rewrite write_bytes_Some by (cbn [length]; lia).
    cbn [dev mem log Z.to_nat firstn skipn length Nat.add app].
    unfold cpu_to_le32. subst baud. unfold u32.
    rewrite Z.mod_mod by lia. reflexivity.
Qed.

(** X12.  The configuration report has 11 bytes.  For CS7 and CS8 its
    parity byte is none, odd or even as PARENB and PARODD say, its
    stop-bit byte is the two-bit code exactly when CSTOPB is set, and the
    termios goes on as it was.  For CS5 and CS6 the whole of [c_cflag] is
    replaced by CS8 before parity and stop bits are read: the report says
    no parity and one stop bit whatever the termios asked for, and the
    termios goes on with [c_cflag = CS8] and its speeds as they were.
    The termios that goes on is what the function leaves when the baud
    rate is valid; with an invalid rate it is first passed through
    [tty_encode_baud_rate] for 9600 baud. *)
Theorem change_speed_parity_and_stop_bits env termios w :
  port_tty (dev w) = true ->
  let cflag := c_cflag termios in
  let sz := Z.land cflag CSIZE in
  let leaves t :=
    if baud_invalid (speed_baud env termios)
    then tty_encode_baud_rate env t 9600 9600 else t in
  exists ret termios' w' rep,
    ft260_uart_change_speed env termios w = Ok (ret, termios') w'
    /\ set_reports (log w') = set_reports (log w) ++ [rep]
    /\ length rep = 11%nat
    /\ (sz = CS5 \/ sz = CS6 ->
        nth 8 rep 0 = FT260_CFG_PAR_NO
        /\ nth 9 rep 0 = FT260_CFG_STOP_ONE_BIT
        /\ termios'
           = leaves (mk_termios CS8 (c_ispeed termios) (c_ospeed termios)))
    /\ (sz <> CS5 -> sz <> CS6 ->
        nth 8 rep 0
        = (if bit_set cflag PARENB
           then (if bit_set cflag PARODD
                 then FT260_CFG_PAR_ODD else FT260_CFG_PAR_EVEN)
           else FT260_CFG_PAR_NO)
        /\ nth 9 rep 0
           = (if bit_set cflag CSTOPB
              then FT260_CFG_STOP_TWO_BIT else FT260_CFG_STOP_ONE_BIT)
        /\ termios' = leaves termios).
Proof.
  intros Htty cflag sz leaves.
  rewrite (ft260_uart_change_speed_eq env termios w (or_introl Htty)).
  cbv zeta. eexists _, _, _, _. split; [reflexivity|].
  cbn [log]. rewrite set_reports_app. cbn [set_reports].
  split.
  { f_equal. destruct (baud_invalid _); [|reflexivity].
    rewrite set_reports_app. cbn. apply app_nil_r. }
  split; [reflexivity|].
  subst leaves. cbv beta.
  unfold req_bytes, speed_request, speed_termios, change_speed_data_bit.
  cbn [report request flow_ctrl baudrate data_bit parity stop_bit breaking].
  unfold put_unaligned_le32. cbn [app nth].
  fold cflag. fold sz.
  split.
  - intros Hsz.
    assert (E7 : (sz =? CS7) = false)
      by (apply Z.eqb_neq; destruct Hsz as [-> | ->]; discriminate).
    assert (E56 : ((sz =? CS5) || (sz =? CS6)) = true)
      by (destruct Hsz as [-> | ->]; reflexivity).
    rewrite E7, E56. cbn [snd c_cflag].
    split; [reflexivity|]. split; reflexivity.
  - intros H5 H6.
    assert (E56 : ((sz =? CS5) || (sz =? CS6)) = false)
      by (apply orb_false_iff; split; apply Z.eqb_neq; assumption).
    assert (Ht : snd (if sz =? CS7 then (FT260_CFG_DATA_BITS_7, termios)
                      else if (sz =? CS5) || (sz =? CS6)
                           then (FT260_CFG_DATA_BITS_8,
                                 mk_termios CS8 (c_ispeed termios) (c_ospeed termios))
                           else (FT260_CFG_DATA_BITS_8, termios)) = termios).
    { rewrite E56. destruct (sz =? CS7); reflexivity. }
    rewrite Ht. fold cflag.
    split; [reflexivity|]. split; reflexivity.
Qed.

(** ** Every turn of a combined write-read *)

Lemma le_value_cpu_to_le16 x : le_value (cpu_to_le16 x) = u16 x.
Proof.
  unfold cpu_to_le16, le_value, u8, u16.
  rewrite Z.shiftr_div_pow2 by lia. change (2 ^ 8) with 256.
  change 65536 with (256 * 256).
  rewrite Z.rem_mul_r by lia. rewrite Z.mul_0_r, Z.add_0_r. reflexivity.
Qed.

Lemma cpu_to_le16_u16 x y : cpu_to_le16 (u16 x + y) = cpu_to_le16 (x + y).
Proof.
  unfold cpu_to_le16, u8, u16.
  rewrite !Z.shiftr_div_pow2 by lia. change (2 ^ 8) with 256.
  pose proof (Z.div_mod x 65536 ltac:(lia)) as Hx.
  set (q := x / 65536) in *. set (r := x mod 65536) in *.
  replace (x + y) with (r + y + (256 * q) * 256) by lia.
  rewrite Z.div_add by lia.
  f_equal; [|f_equal].
  - replace (r + y + 256 * q * 256) with (r + y + (256 * q * 256)) by lia.
    replace (256 * q * 256) with ((256 * q) * 256) by lia.
    rewrite Z.mod_add by lia. reflexivity.
  - replace ((r + y) / 256 + 256 * q) with ((r + y) / 256 + q * 256) by lia.
    rewrite Z.mod_add by lia. reflexivity.
Qed.

Lemma flat_map_map {A B C} (f : B -> list C) (g : A -> B) l :
  flat_map f (map g l) = flat_map (fun x => f (g x)) l.
Proof. induction l as [|a l IH]; [reflexivity|cbn; now rewrite IH]. Qed.

Lemma random_read_turns_short left_len :
  0 <= left_len <= 60 -> random_read_turns left_len = 1%nat.
Proof.
  intros H. unfold random_read_turns, ceil_div60.
  assert ((left_len + 59) / 60 < 2) by (apply Z.div_lt_upper_bound; lia).
  assert (0 <= (left_len + 59) / 60) by (apply Z.div_pos; lia).
  lia.
Qed.

Lemma random_read_turns_long left_len :
  60 < left_len ->
  random_read_turns left_len = S (random_read_turns (left_len - 60)).
Proof.
  intros H. unfold random_read_turns, ceil_div60.
  replace (left_len + 59) with (left_len - 60 + 59 + 1 * 60) by lia.
  rewrite Z.div_add by lia.
  assert (1 <= (left_len - 60 + 59) / 60) by (apply Z.div_le_lower_bound; lia).
  lia.
Qed.

Lemma random_read_turn_shift addr0 len0 read_off left_len k :
  random_read_turn addr0 len0 (cpu_to_le16 (le_value read_off + 60))
                   (left_len - 60) k
  = random_read_turn addr0 len0 read_off left_len (S k).
Proof.
  unfold random_read_turn. f_equal; [|f_equal].
  - f_equal. f_equal. unfold random_read_offset.
    destruct k as [|j].
    + f_equal; lia.
    + rewrite le_value_cpu_to_le16, cpu_to_le16_u16. f_equal; lia.
  - f_equal; lia.
Qed.

Lemma ft260_i2c_write_read_from_turns env addr0 len0 fuel :
  forall read_off left_len rb w ret w',
    (Z.to_nat left_len <= fuel)%nat -> 0 <= left_len < 65536 ->
    staging_ok w -> 0 <= len0 <= 2 -> length read_off = 2%nat ->
    ft260_i2c_write_read_from env addr0 len0 read_off left_len rb w = Ok ret w' ->
    0 <= ret ->
    output_reports (log w')
    = output_reports (log w) ++ random_read_reports addr0 len0 read_off left_len.
Proof.
  induction fuel as [|k IH];
    intros read_off left_len rb w ret w' Hfuel Hrange Hb Hl0 Hoff Hrun Hret;
    rewrite ft260_i2c_write_read_from_eq in Hrun;
    destruct (ft260_i2c_write_read_turn env addr0 len0 read_off left_len rb w)
      as [r w1|f] eqn:Et; try discriminate;
    (destruct (r <? 0) eqn:Er;
     [apply Z.ltb_lt in Er; injection Hrun as <- <-; lia|]);
    apply Z.ltb_ge in Er;
    destruct (ft260_i2c_write_read_turn_outputs _ _ _ _ _ _ _ _ _ Hb Hl0 Hoff Et Er)
      as (_ & Ho & Hb1);
    unfold random_read_reports;
    unfold rd_chunk, FT260_RD_DATA_MAX, u16 in *;
    destruct (left_len <=? 60) eqn:E60;
    try (apply Z.leb_le in E60; rewrite Z.sub_diag in Hrun; cbn in Hrun;
         injection Hrun as <- <-;
         rewrite random_read_turns_short by lia; cbn [seq flat_map];
         rewrite Ho, app_nil_r; unfold random_read_turn, random_read_offset,
           FT260_RD_DATA_MAX;
         cbn [Z.of_nat]; rewrite Z.mul_0_r, Z.sub_0_r, Z.min_r by lia;
         reflexivity).
  - apply Z.leb_gt in E60. lia.
  - apply Z.leb_gt in E60.
    rewrite (Z.mod_small (left_len - 60)) in Hrun by lia.
    replace (0 <? left_len - 60) with true in Hrun
      by (symmetry; apply Z.ltb_lt; lia).
    apply IH in Hrun; [|lia|lia|exact Hb1|lia|reflexivity|exact Hret].
    rewrite Hrun, Ho. unfold random_read_reports.
    rewrite (random_read_turns_long left_len) by lia.
    cbn [seq flat_map]. rewrite <- seq_shift, flat_map_map.
    rewrite <- app_assoc. f_equal.
    assert (H0 : random_read_turn addr0 len0 read_off left_len 0
                 = [i2c_write_report addr0 FT260_FLAG_START
                      (firstn (Z.to_nat len0) read_off);
                    read_request addr0 FT260_FLAG_START_STOP 60]).
    { unfold random_read_turn, random_read_offset, FT260_RD_DATA_MAX.
      cbn [Z.of_nat]. rewrite Z.mul_0_r, Z.sub_0_r, Z.min_l by lia. reflexivity. }
    rewrite H0. cbn [app]. do 2 f_equal.
    apply flat_map_ext. intros j. apply random_read_turn_shift.
Qed.

(** X13.  A combined write-read that returns 0 has sent, for each turn
    [k] from 0 to [n - 1], where [n = max(1, ceil(len1 / 60))], the write
    of the offset bytes and the read request for [min(60, len1 - 60 k)]
    bytes, and nothing else: [2 n] reports in all.  The offset of turn 0
    is the first message as given; from turn 1 on it is the little-endian
    16-bit number those bytes denote, plus [60 k]. *)
Theorem write_read_sends_every_turn env msg0 msg1 w w' :
  u16 (len msg0) <= 2 -> staging_ok w ->
  ft260_i2c_write_read env [msg0; msg1] w = Ok 0 w' ->
  exists read_off,
    write_bytes [0; 0] 0 (firstn (Z.to_nat (u16 (len msg0))) (buf msg0))
    = Some read_off
    /\ output_reports (log w')
       = output_reports (log w)
         ++ random_read_reports (u8 (addr msg0)) (u16 (len msg0)) read_off
                                (u16 (len msg1))
    /\ length (random_read_reports (u8 (addr msg0)) (u16 (len msg0)) read_off
                                   (u16 (len msg1)))
       = (2 * random_read_turns (u16 (len msg1)))%nat.
Proof.
  intros Hl0 Hb Hrun.
  rewrite ft260_i2c_write_read_eq in Hrun.
  replace (2 <? u16 (len msg0)) with false in Hrun
    by (symmetry; apply Z.ltb_ge; lia).
  destruct (read_bytes (buf msg0) 0 (u16 (len msg0))) as [src|] eqn:Es;
    [|discriminate].
  apply read_bytes_inv in Es as (-> & _ & Hl0' & _). cbn [Z.to_nat skipn] in *.
  destruct (write_bytes [0; 0] 0 _) as [read_off|] eqn:Eo; [|discriminate].
  exists read_off. split; [reflexivity|].
  assert (Hu : 0 <= u16 (len msg1) < 65536)
    by (unfold u16; apply Z.mod_pos_bound; lia).
  split.
  - eapply (ft260_i2c_write_read_from_turns env _ _ (Z.to_nat (u16 (len msg1))));
      [apply Nat.le_refl|exact Hu|exact Hb|lia| |exact Hrun|lia].
    apply write_bytes_length in Eo. exact Eo.
  - unfold random_read_reports. rewrite flat_map_concat_map.
    assert (Hlen : forall l,
               length (concat (map (random_read_turn (u8 (addr msg0)) (u16 (len msg0))
                                      read_off (u16 (len msg1))) l))
               = (2 * length l)%nat).
    { induction l as [|a l IH]; [reflexivity|].
      cbn [map concat]. rewrite length_app, IH. cbn [length random_read_turn]. lia. }
    rewrite Hlen, length_seq. reflexivity.
Qed.

(** X14.  For a payload of 0 to 60 bytes the report ids computed by
    [FT260_I2C_DATA_REPORT_ID] and [FT260_UART_DATA_REPORT_ID] lie in the
    I2C and the UART data ranges, at the same distance [k] from the start
    of their range, and [k] is the least number with [len <= 4 (k + 1)]. *)
Theorem data_report_id_capacity len :
  0 <= len <= FT260_WR_DATA_MAX ->
  let k := FT260_I2C_DATA_REPORT_ID len - FT260_I2C_REPORT_MIN in
  in_range FT260_I2C_REPORT_MIN FT260_I2C_REPORT_MAX
           (FT260_I2C_DATA_REPORT_ID len) = true
  /\ in_range FT260_UART_REPORT_MIN FT260_UART_REPORT_MAX
              (FT260_UART_DATA_REPORT_ID len) = true
  /\ FT260_UART_DATA_REPORT_ID len - FT260_UART_REPORT_MIN = k
  /\ len <= 4 * (k + 1)
  /\ (0 < len -> 4 * k < len).
Proof.
  intros H k. subst k.
  unfold in_range, FT260_I2C_DATA_REPORT_ID, FT260_UART_DATA_REPORT_ID,
    FT260_I2C_REPORT_MIN, FT260_I2C_REPORT_MAX, FT260_UART_REPORT_MIN,
    FT260_UART_REPORT_MAX, FT260_WR_DATA_MAX in *.
  assert (Hq : (len = 0 /\ Z.quot (len - 1) 4 = 0)
               \/ (0 < len /\ Z.quot (len - 1) 4 = (len - 1) / 4)).
  { destruct (Z.eq_dec len 0) as [->|Hne]; [left; auto|right].
    split; [lia|]. apply Z.quot_div_nonneg; lia. }
  assert (Hd : 0 < len -> 4 * ((len - 1) / 4) <= len - 1 < 4 * ((len - 1) / 4) + 4).
  { intros Hp. pose proof (Z.div_mod (len - 1) 4 ltac:(lia)).
    pose proof (Z.mod_pos_bound (len - 1) 4 ltac:(lia)). lia. }
  destruct Hq as [[-> ->]|[Hp ->]].
  - cbn. repeat split; lia.
  - specialize (Hd Hp).
    repeat split; try lia; apply andb_true_iff; split; apply Z.leb_le; lia.
Qed.

(** ** The interface type *)

Lemma ft260_get_system_config_eq env cfg w :
  ft260_get_system_config env cfg w =
  let '(r, report) := hid_hw_raw_request_get env (log w) FT260_SYSTEM_SETTINGS 25 in
  let w' := mk_world (dev w) (mem w)
                     (log w ++ [HidGetReport FT260_SYSTEM_SETTINGS 25]) in
  if r =? 25 then Ok (0, firstn 25 report) w'
  else if 0 <=? r then Ok (- EIO, cfg) w'
  else Ok (r, cfg) w'.
Proof.
  unfold ft260_get_system_config, ft260_hid_feature_report_get, bind, get_log,
    call, Return.
  cbn [log dev mem].
  destruct (hid_hw_raw_request_get env (log w) FT260_SYSTEM_SETTINGS 25) as [r report].
  destruct (r =? 25) eqn:E25.
  - apply Z.eqb_eq in E25. subst r. reflexivity.
  - destruct (0 <=? r) eqn:E0; [reflexivity|].
    apply Z.leb_gt in E0. apply Z.ltb_lt in E0. rewrite E0. reflexivity.
Qed.

(** X15.  When [ft260_get_interface_type] returns, it has made one call,
    the request for the system settings, and left the device structure
    alone.  It returns a negative code, or one of the three interface
    types.  A result that is not negative was decided by the chip mode
    byte of the answer: UART for the UART mode and, on interface 1, for
    the two shared modes; I2C for the I2C mode and, on any other
    interface, for the shared modes; and [FT260_IFACE_NONE] for every
    chip mode outside 0..3, which no case of the switch takes.  The
    serial flag becomes 1 when the result is UART and is left as it was
    otherwise. *)
Theorem interface_type_table env interface is_serial cfg w ret is_serial' w' :
  ft260_get_interface_type env interface is_serial cfg w = Ok (ret, is_serial') w' ->
  (ret = FT260_IFACE_UART -> is_serial' = 1)
  /\ (ret <> FT260_IFACE_UART -> is_serial' = is_serial)
  /\ (ret < 0 \/ ret = FT260_IFACE_NONE \/ ret = FT260_IFACE_I2C
      \/ ret = FT260_IFACE_UART)
  /\ (0 <= ret ->
      exists report,
        hid_hw_raw_request_get env (log w) FT260_SYSTEM_SETTINGS 25 = (25, report)
        /\ let mode := nth 1 report 0 in
           let shared := mode = FT260_MODE_ALL \/ mode = FT260_MODE_BOTH in
           (ret = FT260_IFACE_UART <->
            mode = FT260_MODE_UART \/ (shared /\ interface = 1))
           /\ (ret = FT260_IFACE_I2C <->
               mode = FT260_MODE_I2C \/ (shared /\ interface <> 1))
           /\ (ret = FT260_IFACE_NONE <->
               ~ (0 <= mode <= 3)))
  /\ dev w' = dev w
  /\ log w' = log w ++ [HidGetReport FT260_SYSTEM_SETTINGS 25].
Proof.
  intros Hrun. unfold ft260_get_interface_type in Hrun.
  unfold bind at 1 in Hrun. rewrite ft260_get_system_config_eq in Hrun.
  destruct (hid_hw_raw_request_get env (log w) FT260_SYSTEM_SETTINGS 25)
    as [r report] eqn:Er.
  cbv zeta in Hrun.
  unfold FT260_IFACE_NONE, FT260_IFACE_I2C, FT260_IFACE_UART, FT260_MODE_ALL,
    FT260_MODE_I2C, FT260_MODE_UART, FT260_MODE_BOTH, EIO in *.
  destruct (r =? 25) eqn:E25.
  - apply Z.eqb_eq in E25. subst r.
    cbn [Z.ltb Z.compare] in Hrun.
    change (nth 1 (firstn 25 report) 0) with (nth 1 (firstn (S (S 23)) report) 0) in Hrun.
    rewrite nth_firstn_lt in Hrun by lia.
    set (mode := nth 1 report 0) in *.
    destruct (mode =? 0) eqn:E0; [apply Z.eqb_eq in E0|apply Z.eqb_neq in E0];
      [|destruct (mode =? 3) eqn:E3; [apply Z.eqb_eq in E3|apply Z.eqb_neq in E3]];
      cbn [orb] in Hrun;
      try (destruct (interface =? 1) eqn:Ei;
           [apply Z.eqb_eq in Ei|apply Z.eqb_neq in Ei];
           injection Hrun as <- <- <-;
           (repeat split; try lia; try (intros; discriminate); auto);
           try (intros _; exists report; split; [reflexivity|]; cbv zeta; fold mode; lia)).
    destruct (mode =? 2) eqn:E2; [apply Z.eqb_eq in E2|apply Z.eqb_neq in E2];
      [|destruct (mode =? 1) eqn:E1; [apply Z.eqb_eq in E1|apply Z.eqb_neq in E1]];
      injection Hrun as <- <- <-;
      (repeat split; try lia; try (intros; discriminate); auto);
      try (intros _; exists report; split; [reflexivity|]; cbv zeta; fold mode; lia).
  - assert (Hneg : (if 0 <=? r then -5 else r) < 0)
      by (destruct (0 <=? r) eqn:E0; [lia|apply Z.leb_gt in E0; lia]).
    destruct (0 <=? r); cbn [Z.ltb Z.compare] in Hrun.
    + injection Hrun as <- <- <-. repeat split; try lia; auto; intros; lia.
    + replace (r <? 0) with true in Hrun by (symmetry; apply Z.ltb_lt; lia).
      injection Hrun as <- <- <-. repeat split; try lia; auto; intros; lia.
Qed.

(** ** The sysfs stores *)

Lemma ft260_hid_feature_report_set_eq env b0 rest w :
  ft260_hid_feature_report_set env (b0 :: rest) w =
  Ok (hid_hw_raw_request_set env (log w) (FT260_SYSTEM_SETTINGS :: rest))
     (mk_world (dev w) (mem w)
               (log w ++ [HidSetReport (FT260_SYSTEM_SETTINGS :: rest)])).
Proof.
  unfold ft260_hid_feature_report_set.
  unfold bind at 1. rewrite write_bytes_Some by (cbn [length]; lia).
  cbn [Z.to_nat firstn app length Nat.add skipn from_option].
  reflexivity.
Qed.

(** X16.  The sysfs stores.  An input that does not parse returns
    [-EINVAL] and nothing is sent.  Otherwise a byte store sends the three
    bytes report id, request and value, a word store the four bytes with
    the value in little-endian order, and [i2c_reset_store] the two bytes
    of the reset request.  When the transport answers 0 the byte and word
    stores return [count] as the [int] it is stored in, so [count] itself
    when it is below 2^31, and the same for two counts that differ by
    2^32; [i2c_reset_store] returns [count] as an [ssize_t].  Any other
    answer of the transport is returned as it is: with a transport that
    answers a feature report with the number of bytes it took, the stores
    return 3, 4 and 2 whatever [count] is. *)
Theorem attr_store_outcomes env req count w :
  let sent rep := mk_world (dev w) (mem w) (log w ++ [HidSetReport rep]) in
  let answer rep := hid_hw_raw_request_set env (log w) rep in
  let result rep := if answer rep =? 0 then s32 count else answer rep in
  (ft260_byte_attr_store env req None count w = Ok (- EINVAL) w
   /\ ft260_word_attr_store env req None count w = Ok (- EINVAL) w)
  /\ (forall name,
        let rep := [FT260_SYSTEM_SETTINGS; req; u8 name] in
        ft260_byte_attr_store env req (Some name) count w
        = Ok (result rep) (sent rep))
  /\ (forall name,
        let rep := [FT260_SYSTEM_SETTINGS; req; u8 name; u8 (Z.shiftr name 8)] in
        ft260_word_attr_store env req (Some name) count w
        = Ok (result rep) (sent rep))
  /\ i2c_reset_store env count w
     = Ok (if answer reset_report =? 0 then s64 count else answer reset_report)
          (sent reset_report)
  /\ (0 <= count < 2147483648 ->
      (forall rep, answer rep = 0 -> result rep = count)
      /\ s64 count = count)
  /\ (forall name,
        ft260_byte_attr_store env req (Some name) (count + 4294967296) w
        = ft260_byte_attr_store env req (Some name) count w
        /\ ft260_word_attr_store env req (Some name) (count + 4294967296) w
           = ft260_word_attr_store env req (Some name) count w)
  /\ ((forall h data, hid_hw_raw_request_set env h data = Z.of_nat (length data)) ->
      forall name,
        (exists w1, ft260_byte_attr_store env req (Some name) count w = Ok 3 w1)
        /\ (exists w1, ft260_word_attr_store env req (Some name) count w = Ok 4 w1)
        /\ (exists w1, i2c_reset_store env count w = Ok 2 w1)).
Proof.
  intros sent answer result.
  assert (Hb : forall c name,
             ft260_byte_attr_store env req (Some name) c w
             = Ok (if answer [FT260_SYSTEM_SETTINGS; req; u8 name] =? 0
                   then s32 c else answer [FT260_SYSTEM_SETTINGS; req; u8 name])
                  (sent [FT260_SYSTEM_SETTINGS; req; u8 name])).
  { intros c name. unfold ft260_byte_attr_store. cbv zeta.
    unfold bind. rewrite ft260_hid_feature_report_set_eq.
    subst answer sent. cbv beta.
    destruct (hid_hw_raw_request_set env (log w) _ =? 0); reflexivity. }
  assert (Hw : forall c name,
             ft260_word_attr_store env req (Some name) c w
             = Ok (if answer [FT260_SYSTEM_SETTINGS; req; u8 name;
                              u8 (Z.shiftr name 8)] =? 0
                   then s32 c
                   else answer [FT260_SYSTEM_SETTINGS; req; u8 name;
                                u8 (Z.shiftr name 8)])
                  (sent [FT260_SYSTEM_SETTINGS; req; u8 name; u8 (Z.shiftr name 8)])).
  { intros c name. unfold ft260_word_attr_store, cpu_to_le16. cbv zeta. cbn [app].
    unfold bind. rewrite ft260_hid_feature_report_set_eq.
    subst answer sent. cbv beta.
    destruct (hid_hw_raw_request_set env (log w) _ =? 0); reflexivity. }
  assert (Hr : i2c_reset_store env count w
               = Ok (if answer reset_report =? 0 then s64 count
                     else answer reset_report)
                    (sent reset_report)).
  { unfold i2c_reset_store. unfold bind. rewrite ft260_i2c_reset_eq.
    subst answer sent. cbv beta.
    destruct (hid_hw_raw_request_set env (log w) _ =? 0); reflexivity. }
  assert (Hwrap : s32 (count + 4294967296) = s32 count).
  { unfold s32.
    replace (count + 4294967296 + 2147483648)
      with (count + 2147483648 + 1 * 4294967296) by lia.
    rewrite Z.mod_add by lia. reflexivity. }
  split; [split; reflexivity|]. split; [intros name; apply Hb|].
  split; [intros name; apply Hw|]. split; [exact Hr|].
  split.
  { intros Hc. split.
    - intros rep E. subst result. cbv beta. rewrite E. cbn [Z.eqb].
      unfold s32. rewrite Z.mod_small by lia. lia.
    - unfold s64. rewrite Z.mod_small by lia. lia. }
  split.
  { intros name. rewrite !Hb, !Hw, Hwrap. split; reflexivity. }
  intros Hlen name. rewrite Hb, Hw, Hr. subst answer. cbv beta.
  rewrite !Hlen. unfold reset_report.
  repeat split; eexists; reflexivity.
Qed.

(** ** Opening a port *)

(** X17.  With a TTY attached, [ft260_uart_activate] returns 0 whatever
    the transport answers to the configuration: the transmit fifo is
    empty afterwards, the bit [TTY_IO_ERROR] of the TTY flags is clear
    and every other bit is as it was, and one feature report, the
    configuration for the given termios, has been sent. *)
Theorem uart_activate_outcomes env termios tty_flags w :
  port_tty (dev w) = true ->
  exists termios' tty_flags' w',
    ft260_uart_activate env termios tty_flags w = Ok (0, termios', tty_flags') w'
    /\ xmit_fifo (dev w') = []
    /\ Z.testbit tty_flags' TTY_IO_ERROR = false
    /\ (forall n, 0 <= n -> n <> TTY_IO_ERROR ->
          Z.testbit tty_flags' n = Z.testbit tty_flags n)
    /\ set_reports (log w')
       = set_reports (log w) ++ [req_bytes (speed_request env termios)].
Proof.
  intros Htty. unfold ft260_uart_activate. cbv zeta.
  unfold bind at 1. unfold modify_dev at 1.
  set (w1 := mk_world (set_xmit_fifo [] (dev w)) (mem w) (log w)).
  unfold bind at 1.
  rewrite (ft260_uart_change_speed_eq env termios w1) by (left; exact Htty).
  cbv zeta. unfold Return.
  eexists _, _, _. split; [reflexivity|].
  cbn [dev mem log w1 xmit_fifo set_xmit_fifo].
  split; [reflexivity|]. split; [|split].
  - unfold TTY_IO_ERROR. apply Z.clearbit_eq.
  - intros n Hn Hne. unfold TTY_IO_ERROR in *.
    rewrite Z.clearbit_neq by lia. rewrite Z.setbit_neq by lia. reflexivity.
  - rewrite set_reports_app. cbn [set_reports]. f_equal.
    destruct (baud_invalid _); [|reflexivity].
    rewrite set_reports_app. cbn. apply app_nil_r.
Qed.

(** ** The table of UART ports *)

Lemma hbind_Done {A B} (m : HostM A) (k : A -> HostM B) h a h' :
  m h = Done a h' -> hbind m k h = k a h'.
Proof. unfold hbind. intros ->. reflexivity. Qed.

Lemma hbind_inv {A B} (m : HostM A) (k : A -> HostM B) h b h' :
  hbind m k h = Done b h' -> exists a h1, m h = Done a h1 /\ k a h1 = Done b h'.
Proof.
  unfold hbind. destruct (m h) as [a h1|f]; [eauto|discriminate].
Qed.

Lemma table_four (t : list (option nat)) :
  length t = Z.to_nat UART_COUNT_MAX -> exists a b c d, t = [a; b; c; d].
Proof.
  change (Z.to_nat UART_COUNT_MAX) with 4%nat.
  destruct t as [|a [|b [|c [|d [|e t]]]]]; cbn; try discriminate.
  intros _. eauto.
Qed.

Lemma ft260_uart_add_port_eq kern port h :
  ft260_uart_add_port kern port h =
  if negb (kfifo_alloc kern =? 0)
  then Done (- ENOMEM) (with_kcalls [KfifoAlloc port] h)
  else ft260_uart_add_port_from port 5 0 (with_kcalls [KfifoAlloc port] h).
Proof.
  unfold ft260_uart_add_port, hbind, kcall, with_kcalls.
  destruct (negb (kfifo_alloc kern =? 0)); reflexivity.
Qed.

(** X18.  [ft260_uart_add_port] with a table of [UART_COUNT_MAX] slots:
    when the fifo cannot be allocated it returns [-ENOMEM]; when no slot
    is free it returns [-EBUSY] with the fifo allocated and not freed;
    in both cases the table and the index are untouched.  Otherwise it
    returns 0, the port sits in the lowest free slot, that slot is its
    index, every slot below is taken by another port and no other slot
    has changed. *)
Theorem uart_add_port_outcomes kern port h :
  table_ok h ->
  (kfifo_alloc kern <> 0 ->
   ft260_uart_add_port kern port h = Done (- ENOMEM) (with_kcalls [KfifoAlloc port] h))
  /\ (kfifo_alloc kern = 0 -> first_free (ft260_uart_table h) = None ->
      ft260_uart_add_port kern port h = Done (- EBUSY) (with_kcalls [KfifoAlloc port] h))
  /\ (forall i,
        kfifo_alloc kern = 0 -> first_free (ft260_uart_table h) = Some i ->
        exists t',
          ft260_uart_add_port kern port h
          = Done 0 (mk_host (bridge h) (ft260_is_serial h) (Z.of_nat i) (drvdata h) t'
                            (kcalls h ++ [KfifoAlloc port]))
          /\ length t' = length (ft260_uart_table h)
          /\ nth_error (ft260_uart_table h) i = Some None
          /\ nth_error t' i = Some (Some port)
          /\ (forall j, j <> i ->
                nth_error t' j = nth_error (ft260_uart_table h) j)
          /\ (forall j, (j < i)%nat ->
                exists p, nth_error (ft260_uart_table h) j = Some (Some p))).
Proof.
  intros Hok. destruct (table_four _ Hok) as (a & b & c & d & Ht).
  rewrite ft260_uart_add_port_eq.
  destruct h as [br ser idx drv t kc]. cbn [ft260_uart_table] in *. subst t.
  unfold with_kcalls. cbn [bridge ft260_is_serial index drvdata ft260_uart_table kcalls].
  split; [|split].
  - intros Hk. apply Z.eqb_neq in Hk. rewrite Hk. reflexivity.
  - intros Hk Hfree. apply Z.eqb_eq in Hk. rewrite Hk. cbn [negb].
    destruct a, b, c, d; try discriminate Hfree. reflexivity.
  - intros i Hk Hfree. apply Z.eqb_eq in Hk. rewrite Hk. cbn [negb].
    destruct a as [pa|]; [destruct b as [pb|]; [destruct c as [pc|];
      [destruct d as [pd|]|]|]|];
      cbn in Hfree; try discriminate Hfree; injection Hfree as <-;
      eexists; (split; [reflexivity|]);
      (split; [reflexivity|]); (split; [reflexivity|]); (split; [reflexivity|]);
      (split;
       [intros j Hne; destruct j as [|[|[|[|j]]]]; try reflexivity; contradiction
       |intros j Hlt; destruct j as [|[|[|[|j]]]]; try lia; cbn; eauto]).
Qed.

(** X19.  The port table round trip.  After [ft260_uart_add_port]
    returned 0, [ft260_uart_port_get] at the index of the port finds the
    port and takes a reference on it; [ft260_uart_port_remove] then gives
    back the table as it was before the port was added, hangs the TTY up
    and frees the fifo, in this order, and the same lookup finds nothing.
    An index of [UART_COUNT_MAX] or more, read as an unsigned int, finds
    nothing and touches nothing. *)
Theorem uart_port_table_round_trip kern port h h1 :
  table_ok h -> ft260_uart_add_port kern port h = Done 0 h1 ->
  ft260_uart_port_get (index h1) h1
  = Done (Some port) (with_kcalls [TtyPortGet port] h1)
  /\ (exists h2,
        ft260_uart_port_remove port h1 = Done tt h2
        /\ ft260_uart_table h2 = ft260_uart_table h
        /\ kcalls h2 = kcalls h1 ++ [TtyPortTtyHangup port; KfifoFree port]
        /\ ft260_uart_port_get (index h1) h2 = Done None h2)
  /\ (forall i h', UART_COUNT_MAX <= u32 i ->
        ft260_uart_port_get i h' = Done None h').
Proof.
  intros Hok Hrun.
  assert (Hfar : forall i h', UART_COUNT_MAX <= u32 i ->
                   ft260_uart_port_get i h' = Done None h').
  { intros i h' Hi. unfold ft260_uart_port_get. cbv zeta.
    apply Z.leb_le in Hi. rewrite Hi. reflexivity. }
  destruct (table_four _ Hok) as (a & b & c & d & Ht).
  rewrite ft260_uart_add_port_eq in Hrun.
  destruct (negb (kfifo_alloc kern =? 0)); [discriminate|].
  destruct h as [br ser idx drv t kc]. cbn [ft260_uart_table] in *. subst t.
  unfold with_kcalls in Hrun.
  cbn [bridge ft260_is_serial index drvdata ft260_uart_table kcalls] in Hrun.
  destruct a as [pa|]; [destruct b as [pb|]; [destruct c as [pc|];
    [destruct d as [pd|]|]|]|];
    try discriminate Hrun; injection Hrun as <-;
    (split; [reflexivity|]);
    (split; [|exact Hfar]);
    eexists; (split; [reflexivity|]);
    (split; [reflexivity|]); (split; [|reflexivity]);
    cbn [kcalls]; rewrite <- app_assoc; reflexivity.
Qed.

(** ** Probing and removing *)

(** X20.  [ft260_i2c_probe] always returns.  It polls the status first
    and resets the bus exactly when the poll did not return 0.  When the
    adapter cannot be added it returns that error.  When the adapter was
    added it creates the sysfs group and then deletes the adapter again,
    on success as on failure, and returns what [sysfs_create_group]
    returned. *)
Theorem i2c_probe_deletes_adapter env kern h :
  exists ret h' s w1,
    ft260_i2c_probe env kern h = Done ret h'
    /\ ft260_xfer_status env (bridge h) = Ok s w1
    /\ bridge h' = (if s =? 0 then w1 else with_reset w1)
    /\ (i2c_add_adapter kern <> 0 ->
        ret = i2c_add_adapter kern
        /\ kcalls h' = kcalls h ++ [I2cAddAdapter])
    /\ (i2c_add_adapter kern = 0 ->
        ret = sysfs_create_group kern
        /\ kcalls h' = kcalls h ++ [I2cAddAdapter; SysfsCreateGroup; I2cDelAdapter]).
Proof.
  destruct (ft260_xfer_status_returns env (bridge h)) as (s & w1 & E & _).
  unfold ft260_i2c_probe.
  unfold hbind at 1. unfold lift at 1. rewrite E.
  assert (Hstep : exists h1,
             hbind (if negb (s =? 0)
                    then hbind (lift (ft260_i2c_reset env)) (fun _ => hret tt)
                    else hret tt)
                   (fun _ => hret tt)
                   (mk_host w1 (ft260_is_serial h) (index h) (drvdata h)
                            (ft260_uart_table h) (kcalls h))
             = Done tt h1
             /\ bridge h1 = (if s =? 0 then w1 else with_reset w1)
             /\ kcalls h1 = kcalls h).
  { destruct (s =? 0); cbn [negb].
    - eexists. split; [reflexivity|]. auto.
    - unfold hbind, lift. cbn [bridge]. rewrite ft260_i2c_reset_eq.
      eexists. split; [reflexivity|]. auto. }
  destruct Hstep as (h1 & Hs & Hb & Hk).
  unfold hbind at 1.
  unfold hbind at 1 in Hs.
  destruct ((if negb (s =? 0)
             then hbind (lift (ft260_i2c_reset env)) (fun _ => hret tt)
             else hret tt) _) as [[] h1'|f]; [|discriminate].
  unfold hret in Hs. injection Hs as ->.
  unfold hbind at 1. unfold kcall at 1.
  destruct (i2c_add_adapter kern =? 0) eqn:Ea; cbn [negb].
  - apply Z.eqb_eq in Ea.
    unfold hbind, kcall, hret.
    cbn [bridge ft260_is_serial index drvdata ft260_uart_table kcalls].
    eexists _, _, s, w1. split; [reflexivity|]. split; [reflexivity|].
    cbn [bridge kcalls]. split; [exact Hb|].
    split; [intros Hne; contradiction|].
    intros _. rewrite Hk, <- !app_assoc. auto.
  - apply Z.eqb_neq in Ea. unfold hret.
    eexists _, _, s, w1. split; [reflexivity|]. split; [reflexivity|].
    cbn [bridge kcalls]. split; [exact Hb|].
    split; [|intros He; contradiction].
    intros _. rewrite Hk. auto.
Qed.

Lemma ft260_uart_add_port_run kern port h :
  table_ok h -> kfifo_alloc kern = 0 ->
  ft260_uart_add_port kern port h =
  match first_free (ft260_uart_table h) with
  | Some i => Done 0 (port_added port i h)
  | None => Done (- EBUSY) (with_kcalls [KfifoAlloc port] h)
  end.
Proof.
  intros Hok Hk. destruct (table_four _ Hok) as (a & b & c & d & Ht).
  rewrite ft260_uart_add_port_eq. apply Z.eqb_eq in Hk. rewrite Hk. cbn [negb].
  destruct h as [br ser idx drv t kc]. cbn [ft260_uart_table] in *. subst t.
  destruct a as [pa|]; [destruct b as [pb|]; [destruct c as [pc|];
    [destruct d as [pd|]|]|]|]; reflexivity.
Qed.

Lemma first_free_spec t i :
  first_free t = Some i ->
  (i < length t)%nat /\ nth_error t i = Some None.
Proof.
  revert i. induction t as [|[p|] t IH]; intros i H; cbn in H.
  - discriminate.
  - destruct (first_free t) as [j|]; [|discriminate].
    injection H as <-. destruct (IH j eq_refl). cbn. split; [lia|assumption].
  - injection H as <-. cbn. split; [lia|reflexivity].
Qed.

Lemma firstn_skipn_middle {A} (l1 : list A) x l2 :
  firstn (length l1) (l1 ++ x :: l2) = l1
  /\ skipn (S (length l1)) (l1 ++ x :: l2) = l2.
Proof.
  split.
  - rewrite firstn_app, Nat.sub_diag, firstn_all. cbn. apply app_nil_r.
  - induction l1 as [|a l1 IH]; [reflexivity|exact IH].
Qed.

Lemma slot_freed_taken t i port :
  nth_error t i = Some None -> slot_freed (slot_taken t i port) i = t.
Proof.
  intros H. apply nth_error_split in H as (l1 & l2 & -> & <-).
  unfold slot_freed, slot_taken.
  destruct (firstn_skipn_middle l1 None l2) as [-> ->].
  destruct (firstn_skipn_middle l1 (Some port) l2) as [-> ->].
  reflexivity.
Qed.

Lemma ft260_uart_port_remove_run port h i :
  index h = Z.of_nat i -> (i < length (ft260_uart_table h))%nat ->
  ft260_uart_port_remove port h =
  Done tt (mk_host (bridge h) (ft260_is_serial h) (index h) (drvdata h)
                   (slot_freed (ft260_uart_table h) i)
                   (kcalls h ++ [TtyPortTtyHangup port; KfifoFree port])).
Proof.
  intros Hi Hlt. unfold ft260_uart_port_remove.
  unfold hbind at 1. unfold get_host.
  unfold store_slot. rewrite Hi.
  replace ((0 <=? Z.of_nat i) && (Z.of_nat i <? Z.of_nat (length (ft260_uart_table h))))
    with true
    by (symmetry; apply andb_true_iff; split; [apply Z.leb_le|apply Z.ltb_lt]; lia).
  rewrite Nat2Z.id.
  unfold hbind, hfrom_option, hret, set_table, kcall.
  cbn [bridge ft260_is_serial index drvdata ft260_uart_table kcalls].
  rewrite <- app_assoc, Hi. reflexivity.
Qed.

Lemma ft260_uart_probe_request_sent env w :
  ft260_hid_feature_report_set env (req_bytes ft260_uart_probe_request) w
  = Ok (hid_hw_raw_request_set env (log w) uart_probe_report)
       (with_set_report uart_probe_report w).
Proof. apply ft260_hid_feature_report_set_eq. Qed.

(** [ft260_uart_probe] in closed form. *)
Lemma ft260_uart_probe_run env kern port h :
  table_ok h ->
  let t := ft260_uart_table h in
  let devt := tty_port_register_device_attr kern in
  let r := hid_hw_raw_request_set env (log (bridge h)) uart_probe_report in
  let w1 := with_set_report uart_probe_report (bridge h) in
  ft260_uart_probe env kern port h =
  if negb (kfifo_alloc kern =? 0)
  then Done (- ENOMEM)
            (host_after (bridge h) (index h) t [TtyPortInit port; KfifoAlloc port] h)
  else
    match first_free t with
    | None =>
        Done (- EBUSY)
             (host_after (bridge h) (index h) t [TtyPortInit port; KfifoAlloc port] h)
    | Some i =>
        let calls := [TtyPortInit port; KfifoAlloc port;
                      TtyPortRegisterDeviceAttr (Z.of_nat i)] in
        if negb (devt =? 0)
        then Done devt
                  (host_after (bridge h) (Z.of_nat i) t
                     (calls ++ [TtyPortTtyHangup port; KfifoFree port]) h)
        else if r <? 0
        then Done r
                  (host_after w1 (Z.of_nat i) t
                     (calls ++ [TtyPortUnregisterDevice (Z.of_nat i);
                                TtyPortTtyHangup port; KfifoFree port]) h)
        else Done 0 (host_after w1 (Z.of_nat i) (slot_taken t i port) calls h)
    end.
Proof.
  intros Hok t devt r w1. subst devt.
  unfold ft260_uart_probe.
  unfold hbind at 1. unfold kcall at 1.
  set (h0 := mk_host (bridge h) (ft260_is_serial h) (index h) (drvdata h)
                     (ft260_uart_table h) (kcalls h ++ [TtyPortInit port])).
  assert (Hok0 : table_ok h0) by exact Hok.
  unfold hbind at 1.
  destruct (kfifo_alloc kern =? 0) eqn:Ek; cbn [negb].
  2:{ rewrite ft260_uart_add_port_eq, Ek. cbn [negb].
      unfold host_after, with_kcalls, h0. cbn [kcalls bridge ft260_is_serial index
        drvdata ft260_uart_table]. rewrite <- app_assoc. reflexivity. }
  apply Z.eqb_eq in Ek.
  rewrite (ft260_uart_add_port_run kern port h0 Hok0 Ek).
  cbn [ft260_uart_table h0]. fold t.
  destruct (first_free t) as [i|] eqn:Ef.
  2:{ cbn [Z.eqb negb]. unfold hret, host_after, with_kcalls, h0.
      cbn [kcalls bridge ft260_is_serial index drvdata ft260_uart_table].
      rewrite <- app_assoc. reflexivity. }
  destruct (first_free_spec _ _ Ef) as [Hlt Hnone].
  cbn [Z.eqb negb].
  unfold hbind at 1. unfold get_host.
  unfold hbind at 1. unfold kcall at 1.
  cbn [port_added h0 bridge ft260_is_serial index drvdata ft260_uart_table kcalls].
  fold t.
  assert (Hrm : forall w calls,
             ft260_uart_port_remove port
               (mk_host w (ft260_is_serial h) (Z.of_nat i) (drvdata h)
                        (slot_taken t i port) (kcalls h ++ calls))
             = Done tt (host_after w (Z.of_nat i) t
                          (calls ++ [TtyPortTtyHangup port; KfifoFree port]) h)).
  { intros w calls.
    rewrite (ft260_uart_port_remove_run port _ i); [|reflexivity|].
    - cbn [bridge ft260_is_serial index drvdata ft260_uart_table kcalls].
      rewrite slot_freed_taken by exact Hnone.
      unfold host_after. rewrite <- app_assoc. reflexivity.
    - cbn [ft260_uart_table]. unfold slot_taken.
      rewrite length_app, length_firstn. cbn [length]. rewrite length_skipn. lia. }
  destruct (tty_port_register_device_attr kern =? 0) eqn:Ed; cbn [negb].
  - unfold hbind at 1. unfold lift at 1.
    cbn [bridge ft260_is_serial index drvdata ft260_uart_table kcalls].
    rewrite ft260_uart_probe_request_sent.
    fold w1. fold r.
    cbn [bridge ft260_is_serial index drvdata ft260_uart_table kcalls].
    destruct (r <? 0).
    + unfold hbind at 1. unfold kcall at 1.
      cbn [bridge ft260_is_serial index drvdata ft260_uart_table kcalls].
      unfold hbind.
      rewrite <- !app_assoc. cbn [app].
      rewrite (Hrm w1 [TtyPortInit port; KfifoAlloc port;
                       TtyPortRegisterDeviceAttr (Z.of_nat i);
                       TtyPortUnregisterDevice (Z.of_nat i)]).
      reflexivity.
    + unfold hret, host_after. rewrite <- !app_assoc. reflexivity.
  - unfold hbind.
    rewrite <- !app_assoc. cbn [app].
    rewrite (Hrm (bridge h) [TtyPortInit port; KfifoAlloc port;
                             TtyPortRegisterDeviceAttr (Z.of_nat i)]).
    reflexivity.
Qed.

Lemma nth_error_slot_taken t i port :
  (i < length t)%nat -> nth_error (slot_taken t i port) i = Some (Some port).
Proof.
  intros H. unfold slot_taken.
  rewrite nth_error_app2 by (rewrite length_firstn; lia).
  rewrite length_firstn. replace (i - Nat.min i (length t))%nat with O by lia.
  reflexivity.
Qed.

(** X21.  [ft260_uart_probe] with a table of [UART_COUNT_MAX] slots
    always returns.  When it returns 0 the port sits in the lowest free
    slot of the table, the TTY device was registered under that index,
    and the one report sent is the configuration 9600-8-N-1.  When it
    fails the table is as it was: with no free slot it returns [-EBUSY]
    and the fifo it allocated is not freed; a failure after the port
    was added ends with the TTY hang-up and the release of the fifo. *)
Theorem uart_probe_outcomes env kern port h :
  table_ok h ->
  exists ret h',
    ft260_uart_probe env kern port h = Done ret h'
    /\ (ret = 0 ->
        exists i,
          first_free (ft260_uart_table h) = Some i
          /\ index h' = Z.of_nat i
          /\ ft260_uart_table h' = slot_taken (ft260_uart_table h) i port
          /\ nth_error (ft260_uart_table h') i = Some (Some port)
          /\ kcalls h' = kcalls h ++ [TtyPortInit port; KfifoAlloc port;
                                      TtyPortRegisterDeviceAttr (Z.of_nat i)]
          /\ bridge h' = with_set_report uart_probe_report (bridge h))
    /\ (ret <> 0 ->
        ft260_uart_table h' = ft260_uart_table h
        /\ (kfifo_alloc kern = 0 -> first_free (ft260_uart_table h) = None ->
            ret = - EBUSY
            /\ kcalls h' = kcalls h ++ [TtyPortInit port; KfifoAlloc port])
        /\ (kfifo_alloc kern = 0 -> first_free (ft260_uart_table h) <> None ->
            exists l,
              kcalls h' = kcalls h ++ TtyPortInit port :: KfifoAlloc port :: l
                                   ++ [TtyPortTtyHangup port; KfifoFree port])).
Proof.
  intros Hok. rewrite (ft260_uart_probe_run env kern port h Hok). cbv zeta.
  destruct (kfifo_alloc kern =? 0) eqn:Ek; cbn [negb].
  2:{ apply Z.eqb_neq in Ek. eexists _, _. split; [reflexivity|].
      split; [discriminate|]. intros _. split; [reflexivity|].
      split; intros; contradiction. }
  destruct (first_free (ft260_uart_table h)) as [i|] eqn:Ef.
  2:{ eexists _, _. split; [reflexivity|].
      split; [discriminate|]. intros _. split; [reflexivity|].
      split; [auto|]. intros _ Hne. contradiction. }
  destruct (first_free_spec _ _ Ef) as [Hlt Hnone].
  destruct (tty_port_register_device_attr kern =? 0) eqn:Ed; cbn [negb].
  - destruct (hid_hw_raw_request_set env (log (bridge h)) uart_probe_report <? 0)
      eqn:Er.
    + apply Z.ltb_lt in Er. eexists _, _. split; [reflexivity|].
      split; [intros; lia|]. intros _.
      unfold host_after. cbn [ft260_uart_table kcalls].
      split; [reflexivity|]. split; [intros _ [=]|]. intros _ _.
      exists [TtyPortRegisterDeviceAttr (Z.of_nat i);
              TtyPortUnregisterDevice (Z.of_nat i)]. reflexivity.
    + eexists _, _. split; [reflexivity|].
      split; [|intros Hne; contradiction]. intros _. exists i.
      unfold host_after. cbn [ft260_uart_table kcalls index bridge].
      repeat split. apply nth_error_slot_taken. exact Hlt.
  - apply Z.eqb_neq in Ed. eexists _, _. split; [reflexivity|].
    split; [intros; contradiction|]. intros _.
    unfold host_after. cbn [ft260_uart_table kcalls].
    split; [reflexivity|]. split; [intros _ [=]|]. intros _ _.
    exists [TtyPortRegisterDeviceAttr (Z.of_nat i)]. reflexivity.
Qed.

(** [ft260_probe], once the hardware is open. *)
Lemma ft260_probe_run env kern port interface version cfg h :
  hid_is_usb kern = true -> devm_kzalloc kern = true ->
  hid_parse kern = 0 -> hid_hw_start kern = 0 -> hid_hw_open kern = 0 ->
  let h0 := probe_opened h in
  ft260_probe env kern port interface version cfg h =
  match ft260_hid_feature_report_get env FT260_CHIP_VERSION version 13 (bridge h0) with
  | Fault f => Stopped f
  | Ok (rv, _) wv =>
      if rv <? 0
      then Done rv (with_kcalls [HidHwClose; HidHwStop] (probe_typed wv 0 h0))
      else
        match ft260_get_interface_type env interface 0 cfg wv with
        | Fault f => Stopped f
        | Ok (ret, ser) wt =>
            if ret <=? FT260_IFACE_NONE
            then Done ret (with_kcalls [HidHwClose; HidHwStop] (probe_typed wt ser h0))
            else if ser =? 0
            then match ft260_i2c_probe env kern (probe_bound wt ser h0) with
                 | Done r h3 => probe_finish r h3
                 | Stopped f => Stopped f
                 end
            else match ft260_uart_probe env kern port (probe_bound wt ser h0) with
                 | Done r h3 => probe_finish r h3
                 | Stopped f => Stopped f
                 end
        end
  end.
Proof.
  intros Husb Hmem Hparse Hstart Hopen h0.
  unfold ft260_probe. rewrite Husb, Hmem, Hparse, Hstart, Hopen.
  cbn [negb Z.eqb].
  unfold hbind at 1. unfold lift at 1, put_dev at 1.
  unfold hbind at 1. unfold set_is_serial at 1.
  unfold hbind at 1. unfold set_index at 1.
  unfold hbind at 1. unfold kcall at 1.
  unfold hbind at 1. unfold kcall at 1.
  unfold hbind at 1. unfold kcall at 1.
  cbn [bridge ft260_is_serial index drvdata ft260_uart_table kcalls dev mem log].
  rewrite <- !app_assoc. cbn [app].
  fold (probe_opened h). fold h0.
  unfold hbind at 1. unfold lift at 1.
  destruct (ft260_hid_feature_report_get env FT260_CHIP_VERSION version 13 (bridge h0))
    as [[rv dv] wv|f]; [|reflexivity].
  cbn [fst].
  destruct (rv <? 0).
  { unfold err_hid_close, err_hid_stop, hbind, kcall, hret, with_kcalls, probe_typed.
    cbn [bridge ft260_is_serial index drvdata ft260_uart_table kcalls].
    rewrite <- !app_assoc. reflexivity. }
  unfold hbind at 1. unfold lift at 1. cbn [bridge].
  destruct (ft260_get_interface_type env interface 0 cfg wv) as [[ret ser] wt|f];
    [|reflexivity].
  unfold hbind at 1. unfold set_is_serial at 1.
  cbn [bridge ft260_is_serial index drvdata ft260_uart_table kcalls].
  destruct (ret <=? FT260_IFACE_NONE).
  { unfold err_hid_close, err_hid_stop, hbind, kcall, hret, with_kcalls, probe_typed.
    cbn [bridge ft260_is_serial index drvdata ft260_uart_table kcalls].
    rewrite <- !app_assoc. reflexivity. }
  unfold hbind at 1. unfold kcall at 1.
  unfold hbind at 1. unfold set_drvdata at 1.
  unfold hbind at 1. unfold lift at 1, modify_dev at 1.
  cbn [bridge ft260_is_serial index drvdata ft260_uart_table kcalls].
  fold (probe_bound wt ser h0).
  assert (Hfin : forall r h3,
             (if negb (r =? 0) then err_hid_close r else hret 0) h3
             = probe_finish r h3).
  { intros r h3. unfold probe_finish. destruct (negb (r =? 0)); [|reflexivity].
    unfold err_hid_close, err_hid_stop, hbind, kcall, hret, with_kcalls.
    cbn [bridge ft260_is_serial index drvdata ft260_uart_table kcalls].
    rewrite <- !app_assoc. reflexivity. }
  destruct (ser =? 0); unfold hbind at 1.
  - destruct (ft260_i2c_probe env kern (probe_bound wt ser h0)) as [r h3|f];
      [apply Hfin|reflexivity].
  - destruct (ft260_uart_probe env kern port (probe_bound wt ser h0)) as [r h3|f];
      [apply Hfin|reflexivity].
Qed.

Lemma ft260_hid_feature_report_get_returns env id data len w :
  exists r d,
    ft260_hid_feature_report_get env id data len w
    = Ok (r, d) (mk_world (dev w) (mem w) (log w ++ [HidGetReport id len])).
Proof.
  unfold ft260_hid_feature_report_get, bind, get_log, call, Return.
  cbn [log dev mem].
  destruct (hid_hw_raw_request_get env (log w) id len) as [r b].
  destruct (r =? len); [eauto|]. destruct (0 <=? r); eauto.
Qed.

Lemma ft260_get_interface_type_returns env interface cfg w :
  exists ret ser,
    ft260_get_interface_type env interface 0 cfg w
    = Ok (ret, ser)
         (mk_world (dev w) (mem w)
                   (log w ++ [HidGetReport FT260_SYSTEM_SETTINGS 25]))
    /\ (ser = 0 \/ ser = 1)
    /\ (0 < ret -> (ser = 1 <-> ret = FT260_IFACE_UART)
                   /\ (ret = FT260_IFACE_I2C \/ ret = FT260_IFACE_UART)).
Proof.
  unfold ft260_get_interface_type.
  unfold bind at 1. rewrite ft260_get_system_config_eq.
  destruct (hid_hw_raw_request_get env (log w) FT260_SYSTEM_SETTINGS 25) as [r report].
  cbv zeta.
  unfold FT260_IFACE_NONE, FT260_IFACE_I2C, FT260_IFACE_UART, EIO in *.
  destruct (r =? 25).
  - cbn [Z.ltb Z.compare].
    destruct ((nth 1 (firstn 25 report) 0 =? FT260_MODE_ALL)
              || (nth 1 (firstn 25 report) 0 =? FT260_MODE_BOTH)).
    + destruct (interface =? 1); unfold Return; eexists _, _;
        (split; [reflexivity|]); split; auto; intros; lia.
    + destruct (nth 1 (firstn 25 report) 0 =? FT260_MODE_UART);
        [|destruct (nth 1 (firstn 25 report) 0 =? FT260_MODE_I2C)];
        unfold Return; eexists _, _;
        (split; [reflexivity|]); split; auto; intros; lia.
  - destruct (0 <=? r) eqn:E0; cbn [Z.ltb Z.compare].
    + unfold Return; eexists _, _; (split; [reflexivity|]); split; auto; intros; lia.
    + apply Z.leb_gt in E0.
      replace (r <? 0) with true by (symmetry; apply Z.ltb_lt; lia).
      unfold Return; eexists _, _; (split; [reflexivity|]); split; auto; intros; lia.
Qed.

(** The kernel calls of [ft260_i2c_probe] and what it returns. *)
Lemma ft260_i2c_probe_calls env kern h :
  exists w,
    ft260_i2c_probe env kern h =
    if i2c_add_adapter kern =? 0
    then Done (sysfs_create_group kern)
              (host_after w (index h) (ft260_uart_table h)
                          [I2cAddAdapter; SysfsCreateGroup; I2cDelAdapter] h)
    else Done (i2c_add_adapter kern)
              (host_after w (index h) (ft260_uart_table h) [I2cAddAdapter] h).
Proof.
  destruct (ft260_xfer_status_returns env (bridge h)) as (s & w1 & E & _).
  unfold ft260_i2c_probe.
  unfold hbind at 1. unfold lift at 1. rewrite E.
  exists (if s =? 0 then w1 else with_reset w1).
  unfold hbind at 1.
  assert (Hstep :
            (if negb (s =? 0)
             then hbind (lift (ft260_i2c_reset env)) (fun _ => hret tt)
             else hret tt)
              (mk_host w1 (ft260_is_serial h) (index h) (drvdata h)
                       (ft260_uart_table h) (kcalls h))
            = Done tt (mk_host (if s =? 0 then w1 else with_reset w1)
                               (ft260_is_serial h) (index h) (drvdata h)
                               (ft260_uart_table h) (kcalls h))).
  { destruct (s =? 0); cbn [negb]; [reflexivity|].
    unfold hbind, lift. cbn [bridge]. rewrite ft260_i2c_reset_eq. reflexivity. }
  rewrite Hstep.
  unfold hbind at 1. unfold kcall at 1.
  cbn [bridge ft260_is_serial index drvdata ft260_uart_table kcalls].
  destruct (i2c_add_adapter kern =? 0); cbn [negb].
  - unfold hbind, kcall, hret, host_after.
    cbn [bridge ft260_is_serial index drvdata ft260_uart_table kcalls].
    rewrite <- !app_assoc. reflexivity.
  - reflexivity.
Qed.

Lemma probe_finish_done r h :
  probe_finish r h
  = Done r (if r =? 0 then h else with_kcalls [HidHwClose; HidHwStop] h).
Proof.
  unfold probe_finish. destruct (r =? 0) eqn:E; cbn [negb]; [|reflexivity].
  apply Z.eqb_eq in E. subst r. reflexivity.
Qed.

(** [ft260_probe] from the open hardware on: what it returns, the kernel
    calls it makes after the three that opened the hardware, and the
    driver data. *)
Lemma ft260_probe_opened env kern port interface version cfg h :
  table_ok h ->
  hid_is_usb kern = true -> devm_kzalloc kern = true ->
  hid_parse kern = 0 -> hid_hw_start kern = 0 -> hid_hw_open kern = 0 ->
  exists ret h' mid,
    ft260_probe env kern port interface version cfg h = Done ret h'
    /\ kcalls h' = kcalls h ++ [HidParse; HidHwStart; HidHwOpen] ++ mid
    /\ ((ret = 0 /\ drvdata h' = true /\ ft260_is_serial h' = 0
         /\ mid = [HidSetDrvdata; I2cAddAdapter; SysfsCreateGroup; I2cDelAdapter]
         /\ ft260_uart_table h' = ft260_uart_table h)
        \/ (ret = 0 /\ drvdata h' = true /\ ft260_is_serial h' <> 0
            /\ exists i,
                first_free (ft260_uart_table h) = Some i
                /\ index h' = Z.of_nat i
                /\ ft260_uart_table h' = slot_taken (ft260_uart_table h) i port
                /\ mid = [HidSetDrvdata; TtyPortInit port; KfifoAlloc port;
                          TtyPortRegisterDeviceAttr (Z.of_nat i)])
        \/ (ret = 0 /\ drvdata h' = drvdata h
            /\ mid = [HidHwClose; HidHwStop]
            /\ ft260_uart_table h' = ft260_uart_table h)
        \/ (ret <> 0 /\ hw_calls mid = [HidHwClose; HidHwStop]
            /\ ft260_uart_table h' = ft260_uart_table h)).
Proof.
  intros Hok Husb Hmem Hparse Hstart Hopen.
  rewrite ft260_probe_run by assumption. cbv zeta.
  destruct (ft260_hid_feature_report_get_returns env FT260_CHIP_VERSION version 13
              (bridge (probe_opened h))) as (rv & dv & ->).
  set (wv := mk_world _ _ _).
  destruct (rv <? 0) eqn:Erv.
  { apply Z.ltb_lt in Erv. eexists _, _, [HidHwClose; HidHwStop].
    split; [reflexivity|].
    cbn [with_kcalls probe_typed probe_opened kcalls drvdata ft260_uart_table].
    split; [rewrite <- app_assoc; reflexivity|].
    right. right. right. split; [lia|]. auto. }
  destruct (ft260_get_interface_type_returns env interface cfg wv)
    as (ret & ser & -> & Hser & Htype).
  set (wt := mk_world _ _ _).
  destruct (ret <=? FT260_IFACE_NONE) eqn:Eret.
  { eexists _, _, [HidHwClose; HidHwStop]. split; [reflexivity|].
    cbn [with_kcalls probe_typed probe_opened kcalls drvdata ft260_uart_table].
    split; [rewrite <- app_assoc; reflexivity|].
    destruct (Z.eq_dec ret 0) as [->|Hne]; [right; right; left|right; right; right]; auto. }
  set (hb := probe_bound wt ser (probe_opened h)).
  assert (Hkb : kcalls hb = kcalls h ++ [HidParse; HidHwStart; HidHwOpen]
                                     ++ [HidSetDrvdata])
    by (cbn [hb probe_bound probe_opened kcalls]; rewrite <- app_assoc; reflexivity).
  assert (Hdb : drvdata hb = true) by reflexivity.
  assert (Htb : ft260_uart_table hb = ft260_uart_table h) by reflexivity.
  assert (Hsb : ft260_is_serial hb = ser) by reflexivity.
  destruct (ser =? 0) eqn:Eser;
    [apply Z.eqb_eq in Eser|apply Z.eqb_neq in Eser].
  - destruct (ft260_i2c_probe_calls env kern hb) as (w & ->).
    destruct (i2c_add_adapter kern =? 0) eqn:Ea.
    + rewrite probe_finish_done.
      destruct (sysfs_create_group kern =? 0) eqn:Es.
      * apply Z.eqb_eq in Es.
        eexists _, _, [HidSetDrvdata; I2cAddAdapter; SysfsCreateGroup; I2cDelAdapter].
        split; [reflexivity|].
        cbn [host_after kcalls drvdata ft260_is_serial ft260_uart_table].
        rewrite Hkb, <- !app_assoc.
        split; [reflexivity|]. left. rewrite Hsb. auto.
      * apply Z.eqb_neq in Es.
        eexists _, _, [HidSetDrvdata; I2cAddAdapter; SysfsCreateGroup; I2cDelAdapter;
                       HidHwClose; HidHwStop].
        split; [reflexivity|].
        cbn [with_kcalls host_after kcalls drvdata ft260_uart_table].
        rewrite Hkb, <- !app_assoc.
        split; [reflexivity|]. right. right. right. auto.
    + apply Z.eqb_neq in Ea. rewrite probe_finish_done.
      replace (i2c_add_adapter kern =? 0) with false
        by (symmetry; apply Z.eqb_neq; exact Ea).
      eexists _, _, [HidSetDrvdata; I2cAddAdapter; HidHwClose; HidHwStop].
      split; [reflexivity|].
      cbn [with_kcalls host_after kcalls drvdata ft260_uart_table].
      rewrite Hkb, <- !app_assoc.
      split; [reflexivity|]. right. right. right. auto.
  - assert (Hokb : table_ok hb) by exact Hok.
    rewrite (ft260_uart_probe_run env kern port hb Hokb). cbv zeta.
    rewrite Htb.
    destruct (kfifo_alloc kern =? 0); cbn [negb].
    2:{ rewrite probe_finish_done. change (- ENOMEM =? 0) with false.
        eexists _, _, [HidSetDrvdata; TtyPortInit port; KfifoAlloc port;
                       HidHwClose; HidHwStop].
        split; [reflexivity|].
        cbn [with_kcalls host_after kcalls drvdata ft260_uart_table].
        rewrite Hkb, <- !app_assoc.
        split; [reflexivity|]. right. right. right.
        split; [discriminate|]. auto. }
    destruct (first_free (ft260_uart_table h)) as [i|] eqn:Ef.
    2:{ rewrite probe_finish_done. change (- EBUSY =? 0) with false.
        eexists _, _, [HidSetDrvdata; TtyPortInit port; KfifoAlloc port;
                       HidHwClose; HidHwStop].
        split; [reflexivity|].
        cbn [with_kcalls host_after kcalls drvdata ft260_uart_table].
        rewrite Hkb, <- !app_assoc.
        split; [reflexivity|]. right. right. right.
        split; [discriminate|]. auto. }
    destruct (tty_port_register_device_attr kern =? 0) eqn:Ed; cbn [negb].
    + destruct (hid_hw_raw_request_set env (log (bridge hb)) uart_probe_report <? 0)
        eqn:Er.
      * apply Z.ltb_lt in Er. rewrite probe_finish_done.
        replace (_ =? 0) with false by (symmetry; apply Z.eqb_neq; lia).
        eexists _, _, [HidSetDrvdata; TtyPortInit port; KfifoAlloc port;
                       TtyPortRegisterDeviceAttr (Z.of_nat i);
                       TtyPortUnregisterDevice (Z.of_nat i);
                       TtyPortTtyHangup port; KfifoFree port;
                       HidHwClose; HidHwStop].
        split; [reflexivity|].
        cbn [with_kcalls host_after kcalls drvdata ft260_uart_table].
        rewrite Hkb, <- !app_assoc.
        split; [reflexivity|]. right. right. right.
        split; [lia|]. auto.
      * rewrite probe_finish_done. cbn [Z.eqb].
        eexists _, _, [HidSetDrvdata; TtyPortInit port; KfifoAlloc port;
                       TtyPortRegisterDeviceAttr (Z.of_nat i)].
        split; [reflexivity|].
        cbn [host_after kcalls drvdata ft260_is_serial ft260_uart_table index].
        rewrite Hkb, <- !app_assoc.
        split; [reflexivity|]. right. left. rewrite Hsb.
        split; [reflexivity|]. split; [reflexivity|]. split; [exact Eser|].
        exists i. auto.
    + apply Z.eqb_neq in Ed. rewrite probe_finish_done.
      replace (tty_port_register_device_attr kern =? 0) with false
        by (symmetry; apply Z.eqb_neq; exact Ed).
      eexists _, _, [HidSetDrvdata; TtyPortInit port; KfifoAlloc port;
                     TtyPortRegisterDeviceAttr (Z.of_nat i);
                     TtyPortTtyHangup port; KfifoFree port;
                     HidHwClose; HidHwStop].
      split; [reflexivity|].
      cbn [with_kcalls host_after kcalls drvdata ft260_uart_table].
      rewrite Hkb, <- !app_assoc.
      split; [reflexivity|]. right. right. right. auto.
Qed.

(** X22.  [ft260_probe] with a table of [UART_COUNT_MAX] slots always
    returns.  When it fails the port table is as it was and the hardware
    calls are unwound as far as they went: none, start alone when the
    start failed, start-open-stop when the open failed, and
    start-open-close-stop after that.  When it returns 0, either the
    hardware is left started and open with the driver data stored, or the
    interface type was [FT260_IFACE_NONE]: then the hardware has been
    closed and stopped again, no driver data is stored and the table is
    as it was, and 0 is returned all the same. *)
Theorem probe_unwinds env kern port interface version cfg h :
  table_ok h ->
  exists ret h' new,
    ft260_probe env kern port interface version cfg h = Done ret h'
    /\ kcalls h' = kcalls h ++ new
    /\ (ret <> 0 ->
        ft260_uart_table h' = ft260_uart_table h
        /\ ((hw_calls new = []
             /\ (hid_is_usb kern = false \/ devm_kzalloc kern = false
                 \/ ret = hid_parse kern))
            \/ (hw_calls new = [HidHwStart] /\ ret = hid_hw_start kern)
            \/ (hw_calls new = [HidHwStart; HidHwOpen; HidHwStop]
                /\ ret = hid_hw_open kern)
            \/ (hw_calls new = [HidHwStart; HidHwOpen; HidHwClose; HidHwStop]
                /\ hid_hw_start kern = 0 /\ hid_hw_open kern = 0)))
    /\ (ret = 0 ->
        (hw_calls new = [HidHwStart; HidHwOpen] /\ drvdata h' = true)
        \/ (new = [HidParse; HidHwStart; HidHwOpen; HidHwClose; HidHwStop]
            /\ drvdata h' = drvdata h
            /\ ft260_uart_table h' = ft260_uart_table h)).
Proof.
  intros Hok.
  destruct (hid_is_usb kern) eqn:Husb.
  2:{ exists (- EINVAL), h, []. unfold ft260_probe. rewrite Husb. cbn [negb].
      split; [reflexivity|]. split; [symmetry; apply app_nil_r|].
      split; [|discriminate]. intros _. split; [reflexivity|]. left. auto. }
  destruct (devm_kzalloc kern) eqn:Hmem.
  2:{ exists (- ENOMEM), h, []. unfold ft260_probe. rewrite Husb, Hmem. cbn [negb].
      split; [reflexivity|]. split; [symmetry; apply app_nil_r|].
      split; [|discriminate]. intros _. split; [reflexivity|]. left. auto. }
  destruct (Z.eq_dec (hid_parse kern) 0) as [Hparse|Hparse].
  2:{ eexists (hid_parse kern), _, [HidParse].
      unfold ft260_probe. rewrite Husb, Hmem. cbn [negb].
      replace (hid_parse kern =? 0) with false
        by (symmetry; apply Z.eqb_neq; exact Hparse).
      cbn [negb]. split; [reflexivity|].
      cbn [kcalls bridge ft260_is_serial index drvdata ft260_uart_table].
      split; [reflexivity|].
      split; [|intros; contradiction]. intros _. split; [reflexivity|]. left. auto. }
  destruct (Z.eq_dec (hid_hw_start kern) 0) as [Hstart|Hstart].
  2:{ eexists (hid_hw_start kern), _, [HidParse; HidHwStart].
      unfold ft260_probe. rewrite Husb, Hmem, Hparse. cbn [negb Z.eqb].
      replace (hid_hw_start kern =? 0) with false
        by (symmetry; apply Z.eqb_neq; exact Hstart).
      cbn [negb]. split; [reflexivity|].
      cbn [kcalls bridge ft260_is_serial index drvdata ft260_uart_table].
      rewrite <- !app_assoc. split; [reflexivity|].
      split; [|intros; contradiction]. intros _. split; [reflexivity|].
      right. left. auto. }
  destruct (Z.eq_dec (hid_hw_open kern) 0) as [Hopen|Hopen].
  2:{ eexists (hid_hw_open kern), _, [HidParse; HidHwStart; HidHwOpen; HidHwStop].
      unfold ft260_probe. rewrite Husb, Hmem, Hparse, Hstart. cbn [negb Z.eqb].
      replace (hid_hw_open kern =? 0) with false
        by (symmetry; apply Z.eqb_neq; exact Hopen).
      cbn [negb]. split; [reflexivity|].
      cbn [kcalls bridge ft260_is_serial index drvdata ft260_uart_table].
      rewrite <- !app_assoc. split; [reflexivity|].
      split; [|intros; contradiction]. intros _. split; [reflexivity|].
      right. right. left. auto. }
  destruct (ft260_probe_opened env kern port interface version cfg h
              Hok Husb Hmem Hparse Hstart Hopen)
    as (ret & h' & mid & E & Hk & Hcase).
  exists ret, h', ([HidParse; HidHwStart; HidHwOpen] ++ mid).
  split; [exact E|]. split; [exact Hk|].
  assert (Hhw : hw_calls ([HidParse; HidHwStart; HidHwOpen] ++ mid)
                = [HidHwStart; HidHwOpen] ++ hw_calls mid)
    by (unfold hw_calls; rewrite filter_app; reflexivity).
  rewrite Hhw.
  destruct Hcase as [(-> & Hd & _ & -> & _)
                    |[(-> & Hd & _ & i & _ & _ & _ & ->)
                     |[(-> & Hd & -> & Ht)|(Hne & Hm & Ht)]]].
  - split; [intros; contradiction|]. intros _. left. auto.
  - split; [intros; contradiction|]. intros _. left. auto.
  - split; [intros; contradiction|]. intros _. right. auto.
  - split; [|intros; contradiction]. intros _. split; [exact Ht|].
    right. right. right. rewrite Hm. auto.
Qed.

Lemma length_slot_taken t i port :
  (i < length t)%nat -> length (slot_taken t i port) = length t.
Proof.
  intros H. unfold slot_taken.
  rewrite length_app, length_firstn. cbn [length]. rewrite length_skipn. lia.
Qed.

(** X23.  [ft260_remove] after a [ft260_probe] that returned 0, on a
    device without driver data before the probe: the two together start,
    open, close and stop the hardware once each, in this order, and leave
    the port table as it was.  After a probe that found no interface the
    removal does nothing.  On the I2C interface the adapter is deleted
    twice, once at the end of the probe and once by the removal; on the
    UART interface the TTY device is unregistered under the index it was
    registered with, before the hang-up and the release of the fifo. *)
Theorem probe_then_remove env kern port interface version cfg h h1 :
  table_ok h -> drvdata h = false ->
  ft260_probe env kern port interface version cfg h = Done 0 h1 ->
  exists h2 new,
    ft260_remove port h1 = Done tt h2
    /\ kcalls h2 = kcalls h ++ new
    /\ hw_calls new = [HidHwStart; HidHwOpen; HidHwClose; HidHwStop]
    /\ ft260_uart_table h2 = ft260_uart_table h
    /\ ((h2 = h1
         /\ new = [HidParse; HidHwStart; HidHwOpen; HidHwClose; HidHwStop])
        \/ new = [HidParse; HidHwStart; HidHwOpen; HidSetDrvdata;
                  I2cAddAdapter; SysfsCreateGroup; I2cDelAdapter;
                  SysfsRemoveGroup; I2cDelAdapter; HidHwClose; HidHwStop]
        \/ exists i,
             first_free (ft260_uart_table h) = Some i
             /\ new = [HidParse; HidHwStart; HidHwOpen; HidSetDrvdata;
                       TtyPortInit port; KfifoAlloc port;
                       TtyPortRegisterDeviceAttr (Z.of_nat i);
                       TtyPortUnregisterDevice (Z.of_nat i);
                       TtyPortTtyHangup port; KfifoFree port;
                       HidHwClose; HidHwStop]).
Proof.
  intros Hok Hdrv Hrun.
  destruct (hid_is_usb kern) eqn:Husb.
  2:{ unfold ft260_probe in Hrun. rewrite Husb in Hrun. discriminate Hrun. }
  destruct (devm_kzalloc kern) eqn:Hmem.
  2:{ unfold ft260_probe in Hrun. rewrite Husb, Hmem in Hrun. discriminate Hrun. }
  destruct (Z.eq_dec (hid_parse kern) 0) as [Hparse|Hparse].
  2:{ unfold ft260_probe in Hrun. rewrite Husb, Hmem in Hrun. cbn [negb] in Hrun.
      replace (hid_parse kern =? 0) with false in Hrun
        by (symmetry; apply Z.eqb_neq; exact Hparse).
      cbn in Hrun. injection Hrun as E _. contradiction. }
  destruct (Z.eq_dec (hid_hw_start kern) 0) as [Hstart|Hstart].
  2:{ unfold ft260_probe in Hrun. rewrite Husb, Hmem, Hparse in Hrun.
      cbn [negb Z.eqb] in Hrun.
      replace (hid_hw_start kern =? 0) with false in Hrun
        by (symmetry; apply Z.eqb_neq; exact Hstart).
      cbn in Hrun. injection Hrun as E _. contradiction. }
  destruct (Z.eq_dec (hid_hw_open kern) 0) as [Hopen|Hopen].
  2:{ unfold ft260_probe in Hrun. rewrite Husb, Hmem, Hparse, Hstart in Hrun.
      cbn [negb Z.eqb] in Hrun.
      replace (hid_hw_open kern =? 0) with false in Hrun
        by (symmetry; apply Z.eqb_neq; exact Hopen).
      cbn in Hrun. injection Hrun as E _. contradiction. }
  destruct (ft260_probe_opened env kern port interface version cfg h
              Hok Husb Hmem Hparse Hstart Hopen)
    as (ret & h' & mid & E & Hk & Hcase).
  rewrite E in Hrun. injection Hrun as -> ->.
  unfold ft260_remove. unfold hbind at 1. unfold get_host.
  destruct Hcase as [(_ & Hd & Hs & -> & Ht)
                    |[(_ & Hd & Hs & i & Hf & Hi & Ht & ->)
                     |[(_ & Hd & -> & Ht)|(Hne & _)]]].
  - rewrite Hd, Hs. cbn [negb Z.eqb].
    unfold hbind, kcall, hret.
    cbn [bridge ft260_is_serial index drvdata ft260_uart_table kcalls].
    eexists _, _. split; [reflexivity|].
    cbn [kcalls ft260_uart_table]. rewrite Hk, <- !app_assoc. cbn [app].
    split; [reflexivity|]. split; [reflexivity|]. split; [exact Ht|].
    right. left. reflexivity.
  - rewrite Hd. cbn [negb].
    replace (ft260_is_serial h1 =? 0) with false
      by (symmetry; apply Z.eqb_neq; exact Hs).
    cbn [negb].
    destruct (first_free_spec _ _ Hf) as [Hlt Hnone].
    unfold hbind at 1. unfold hbind at 1. unfold kcall at 1.
    rewrite (ft260_uart_port_remove_run port _ i);
      [|exact Hi
       |cbn [ft260_uart_table]; rewrite Ht, length_slot_taken by exact Hlt;
        exact Hlt].
    unfold hbind, kcall, hret.
    cbn [bridge ft260_is_serial index drvdata ft260_uart_table kcalls].
    eexists _, _. split; [reflexivity|].
    cbn [kcalls ft260_uart_table].
    rewrite Hk, Ht, slot_freed_taken, Hi, <- !app_assoc by exact Hnone.
    cbn [app].
    split; [reflexivity|]. split; [reflexivity|]. split; [reflexivity|].
    right. right. exists i. auto.
  - rewrite Hd, Hdrv. cbn [negb]. unfold hret.
    exists h1, [HidParse; HidHwStart; HidHwOpen; HidHwClose; HidHwStop].
    split; [reflexivity|]. split; [exact Hk|]. split; [reflexivity|].
    split; [exact Ht|]. left. auto.
  - contradiction.
Qed.

(** ** A read answered with more bytes than were asked for *)

(** X24.  A read answered with more bytes than were asked for.  When the
    one input report raised during the wait carries more bytes than the
    read asked for (and at most 60), [ft260_raw_event] stores the whole
    payload at the destination, beyond the requested length; the offset
    then differs from the length, the completion is not signalled, and
    [ft260_i2c_read] returns [-ETIMEDOUT] after one bus reset. *)
Theorem i2c_read_overlong_answer env addr dst len flag w payload m' :
  0 <= hid_hw_output_report env (log w) (read_request addr flag len) ->
  input_reports env (log (read_started addr (Some dst) len flag w))
  = [i2c_input_report payload] ->
  u16 len < Z.of_nat (length payload) <= FT260_RD_DATA_MAX ->
  write_bytes (mem w) dst payload = Some m' ->
  exists w',
    ft260_i2c_read env addr (Some dst) len flag w = Ok (- ETIMEDOUT) w'
    /\ mem w' = m'
    /\ read_bytes m' dst (Z.of_nat (length payload)) = Some payload
    /\ read_idx (dev w') = Z.of_nat (length payload)
    /\ log w' = log w ++ [HidOutputReport (read_request addr flag len);
                          WaitForCompletion 5000; HidSetReport reset_report].
Proof.
  intros Hsent Hin Hlen Hwr.
  unfold FT260_RD_DATA_MAX in *.
  assert (Hu : 0 <= u16 len) by (unfold u16; apply Z.mod_pos_bound; lia).
  rewrite ft260_i2c_read_sent by (unfold FT260_RD_DATA_MAX; lia || assumption).
  set (w1 := read_started addr (Some dst) len flag w) in *.
  destruct (i2c_input_report_ok payload ltac:(lia)) as (Hrep & Hrl & Hrp).
  destruct (i2c_data_report_payload _ Hrep) as (H2 & Hrd & _).
  rewrite Hrp in Hrd.
  assert (Hev : ft260_raw_event env (i2c_input_report payload) w1
                = Ok 1 (mk_world (received (i2c_input_report payload) (dev w1))
                                 m' (log w1))).
  { apply (ft260_raw_event_i2c env _ w1 dst payload m'); try assumption.
    - apply Hrep.
    - reflexivity.
    - cbn [w1 read_started dev mem read_idx set_wait set_read].
      rewrite Z.add_0_r. exact Hwr. }
  assert (Hrecv : received (i2c_input_report payload) (dev w1)
                  = set_read_idx (Z.of_nat (length payload)) (dev w1)).
  { unfold received. rewrite Hrl.
    cbn [w1 read_started dev read_idx read_len set_wait set_read].
    rewrite Z.add_0_l.
    assert (Hp : u16 (Z.of_nat (length payload)) = Z.of_nat (length payload))
      by (apply u16_small; lia).
    rewrite Hp.
    replace (Z.of_nat (length payload) =? u16 len) with false
      by (symmetry; apply Z.eqb_neq; lia).
    reflexivity. }
  assert (Hwait : wait_for_completion_timeout env 5000 w1
                  = Ok 0 (mk_world (set_read_idx (Z.of_nat (length payload)) (dev w1))
                                   m' (log w1 ++ [WaitForCompletion 5000]))).
  { unfold wait_for_completion_timeout.
    unfold bind at 1 2. unfold get_log, call. cbn [log dev mem].
    rewrite Hin. cbn [deliver].
    unfold bind at 1 2. unfold get_dev at 1.
    cbn [w1 read_started dev wait set_wait set_read].
    unfold bind at 1.
    match goal with
    | |- context [ft260_raw_event env ?r ?w0] =>
        assert (Hev' : ft260_raw_event env r w0
                       = Ok 1 (mk_world (received r (dev w0)) m' (log w0)))
    end.
    { apply (ft260_raw_event_i2c env _ _ dst payload m'); try assumption.
      - apply Hrep.
      - reflexivity.
      - cbn [dev mem read_idx set_wait set_read]. rewrite Z.add_0_r. exact Hwr. }
    rewrite Hev'. unfold Return at 1.
    unfold bind, get_dev.
    cbn [dev mem log].
    change (received (i2c_input_report payload)
              (set_wait 0 (set_read (Some dst) 0 (u16 len) (dev w))))
      with (received (i2c_input_report payload) (dev w1)).
    rewrite Hrecv. reflexivity. }
  rewrite Hwait. cbn [Z.eqb].
  eexists. split; [reflexivity|].
  cbn [with_reset mem dev log read_idx set_read_idx set_read w1 read_started].
  split; [reflexivity|]. split.
  - pose proof (read_write_extend (mem w) dst 0 [] payload m') as Hext.
    rewrite Z.add_0_r, Z.add_0_l in Hext. cbn [app] in Hext.
    apply Hext.
    + unfold write_bytes in Hwr.
      destruct ((0 <=? dst) && _) eqn:Eb; [|discriminate].
      apply andb_true_iff in Eb as [Eb _]. apply Z.leb_le in Eb. exact Eb.
    + lia.
    + unfold write_bytes in Hwr.
      destruct ((0 <=? dst) && _) eqn:Eb; [|discriminate].
      apply andb_true_iff in Eb as [Eb1 Eb2].
      apply Z.leb_le in Eb1, Eb2.
      rewrite read_bytes_Some by lia. reflexivity.
    + exact Hwr.
  - split; [reflexivity|]. rewrite <- !app_assoc. reflexivity.
Qed.

(** ** The command byte before an SMBus read *)

(** The read request of [ft260_i2c_read], whatever becomes of the read. *)
Lemma ft260_i2c_read_requests env addr data len flag w ret w' :
  ft260_i2c_read env addr data len flag w = Ok ret w' ->
  ret <= 0
  /\ output_reports (log w')
     = output_reports (log w)
       ++ (if FT260_RD_DATA_MAX <? u16 len then []
           else [read_request addr flag len]).
Proof.
  intros Hrun.
  destruct (FT260_RD_DATA_MAX <? u16 len) eqn:Ebig.
  { unfold ft260_i2c_read in Hrun. cbv zeta in Hrun. rewrite Ebig in Hrun.
    injection Hrun as <- <-. rewrite app_nil_r. unfold EINVAL. split; [lia|auto]. }
  apply Z.ltb_ge in Ebig.
  destruct (Z_lt_dec (hid_hw_output_report env (log w) (read_request addr flag len)) 0)
    as [Hneg|Hpos].
  - unfold ft260_i2c_read in Hrun. cbv zeta in Hrun.
    assert (Hlen' : (FT260_RD_DATA_MAX <? u16 len) = false) by (apply Z.ltb_ge; lia).
    rewrite Hlen' in Hrun.
    unfold bind at 1 2 in Hrun.
    unfold reinit_completion, modify_dev in Hrun. cbn [log dev mem] in Hrun.
    unfold ft260_hid_output_report in Hrun.
    unfold bind at 1 2 3 in Hrun. unfold get_log, call, Return in Hrun.
    cbn [log dev mem] in Hrun.
    fold (read_request addr flag len) in Hrun.
    pose proof Hneg as Hneg'. apply Z.ltb_lt in Hneg'. rewrite Hneg' in Hrun.
    injection Hrun as <- <-. cbn [log].
    rewrite output_reports_app. split; [lia|reflexivity].
  - rewrite ft260_i2c_read_sent in Hrun by lia.
    destruct (wait_for_completion_timeout env 5000 _) as [t w2|f] eqn:Ew;
      [|discriminate].
    apply wait_for_completion_timeout_outputs in Ew as [Ho2 _].
    cbn [log read_started] in Ho2. rewrite output_reports_app in Ho2.
    cbn [output_reports] in Ho2.
    destruct (t =? 0).
    + injection Hrun as <- <-. cbn [with_reset log].
      rewrite output_reports_app, Ho2. cbn. rewrite app_nil_r.
      unfold ETIMEDOUT. split; [lia|reflexivity].
    + destruct (ft260_xfer_status env w2) as [r w3|f] eqn:Es; [|discriminate].
      apply ft260_xfer_status_frame in Es as (_ & _ & _ & Ho3).
      destruct (r =? 0); injection Hrun as <- <-.
      * rewrite Ho3, Ho2. split; [lia|reflexivity].
      * cbn [with_reset log]. rewrite output_reports_app, Ho3, Ho2. cbn.
        rewrite app_nil_r. unfold EIO. split; [lia|reflexivity].
Qed.

(** The command write that opens an SMBus read, whatever the device does. *)
Lemma ft260_smbus_write_command_any env addr cmd flag w r w1 :
  staging_ok w ->
  ft260_smbus_write env addr cmd None 0 flag w = Ok r w1 ->
  r <= 0
  /\ output_reports (log w1)
     = output_reports (log w) ++ [smbus_write_report addr cmd flag []]
  /\ mem w1 = mem w.
Proof.
  intros Hb Hrun.
  rewrite (ft260_smbus_write_eq env addr cmd None 0 flag w []) in Hrun;
    [|exact Hb|cbn; lia|reflexivity|cbn; lia].
  pose proof (check_status_result _ _ _ _ _ _ Hrun) as Hres.
  apply check_status_outputs in Hrun as (Ho & _ & Hm).
  split; [destruct Hres as [[-> _]|[H _]]; lia|]. auto.
Qed.

(** X25.  An SMBus read of byte data, word data, block data or I2C block
    data first writes the command byte with a START and no STOP.  When
    that write does not return 0 its code is the result and no read
    request is sent.  When it returns 0 at most one more report is sent,
    the read request with a repeated START and a STOP, for 1, 2,
    [block[0] + 1] and [block[0]] bytes; a length above 60 sends none.
    The result is never positive. *)
Theorem smbus_read_needs_command_ack env addr flags cmd size w ret w' :
  0 <= hid_hw_power env (log w) PM_HINT_FULLON -> staging_ok w ->
  In size [I2C_SMBUS_BYTE_DATA; I2C_SMBUS_WORD_DATA; I2C_SMBUS_BLOCK_DATA;
           I2C_SMBUS_I2C_BLOCK_DATA] ->
  ft260_smbus_xfer env addr flags I2C_SMBUS_READ cmd size w = Ok ret w' ->
  let w0 := mk_world (dev w) (mem w) (log w ++ [HidPower PM_HINT_FULLON]) in
  let command := smbus_write_report addr cmd FT260_FLAG_START [] in
  exists r w1,
    ft260_smbus_write env addr cmd None 0 FT260_FLAG_START w0 = Ok r w1
    /\ r <= 0 /\ ret <= 0
    /\ (r <> 0 ->
        ret = r
        /\ output_reports (log w') = output_reports (log w) ++ [command])
    /\ (r = 0 ->
        exists n,
          output_reports (log w')
          = output_reports (log w)
            ++ command
               :: (if FT260_RD_DATA_MAX <? u16 n then []
                   else [read_request addr FT260_FLAG_START_STOP_REPEATED n])
          /\ (size = I2C_SMBUS_BYTE_DATA -> n = 1)
          /\ (size = I2C_SMBUS_WORD_DATA -> n = 2)
          /\ (size = I2C_SMBUS_BLOCK_DATA ->
              exists block0, nth_error (mem w) 0 = Some block0 /\ n = block0 + 1)
          /\ (size = I2C_SMBUS_I2C_BLOCK_DATA ->
              exists block0, nth_error (mem w) 0 = Some block0 /\ n = block0)).
Proof.
  intros Hon Hb Hsize Hrun w0 command.
  unfold ft260_smbus_xfer, hw_power in Hrun.
  unfold bind at 1 2 3 in Hrun. unfold get_log, call, Return in Hrun.
  cbn [log dev mem] in Hrun.
  apply Z.ltb_ge in Hon. rewrite Hon in Hrun.
  apply bind_inv in Hrun as (data & w0' & G & Hrun).
  unfold get_mem in G. injection G as <- <-. fold w0 in Hrun.
  apply bind_inv in Hrun as (rb & wb & Hbody & Hrun).
  unfold bind at 1 2 in Hrun. unfold get_log, call, Return in Hrun.
  injection Hrun as <- <-. cbn [log].
  change (I2C_SMBUS_READ =? I2C_SMBUS_READ) with true in Hbody. cbv zeta in Hbody.
  cbn [mem w0] in Hbody.
  assert (Hb0 : staging_ok w0) by exact Hb.
  assert (Hgen : forall dst (n : Z),
             (ret0 <- ft260_smbus_write env addr cmd None 0 FT260_FLAG_START ;;
              if negb (ret0 =? 0) then Return ret0
              else ft260_i2c_read env addr (Some dst) n
                                  FT260_FLAG_START_STOP_REPEATED) w0
             = Ok rb wb ->
             exists r w1,
               ft260_smbus_write env addr cmd None 0 FT260_FLAG_START w0 = Ok r w1
               /\ r <= 0 /\ rb <= 0
               /\ (r <> 0 ->
                   rb = r
                   /\ output_reports (log wb ++ [HidPower PM_HINT_NORMAL])
                      = output_reports (log w) ++ [command])
               /\ (r = 0 ->
                   output_reports (log wb ++ [HidPower PM_HINT_NORMAL])
                   = output_reports (log w)
                     ++ command
                        :: (if FT260_RD_DATA_MAX <? u16 n then []
                            else [read_request addr FT260_FLAG_START_STOP_REPEATED n]))).
  { intros dst n H.
    apply bind_inv in H as (r & w1 & Ew & H).
    exists r, w1. split; [exact Ew|].
    destruct (ft260_smbus_write_command_any _ _ _ _ _ _ _ Hb0 Ew) as (Hr & Ho & _).
    cbn [log w0] in Ho. rewrite output_reports_app in Ho. cbn in Ho.
    rewrite app_nil_r in Ho.
    split; [exact Hr|].
    destruct (r =? 0) eqn:E0; cbn [negb] in H.
    - apply Z.eqb_eq in E0.
      apply ft260_i2c_read_requests in H as (Hle & Ho').
      split; [exact Hle|]. split; [intros; contradiction|]. intros _.
      rewrite output_reports_app, Ho', Ho. cbn. rewrite app_nil_r, <- app_assoc.
      reflexivity.
    - apply Z.eqb_neq in E0. injection H as <- <-.
      split; [exact Hr|]. split; [|intros; contradiction]. intros _.
      split; [reflexivity|].
      rewrite output_reports_app, Ho. cbn. apply app_nil_r. }
  cbn [In] in Hsize.
  unfold I2C_SMBUS_QUICK, I2C_SMBUS_BYTE, I2C_SMBUS_BYTE_DATA, I2C_SMBUS_WORD_DATA,
    I2C_SMBUS_BLOCK_DATA, I2C_SMBUS_I2C_BLOCK_DATA in *.
  destruct Hsize as [<-|[<-|[<-|[<-|[]]]]]; cbn [Z.eqb Pos.eqb] in Hbody.
  - destruct (Hgen 0 1 Hbody) as (r & w1 & Ew & Hr & Hrb & Hne & He).
    exists r, w1. repeat split; try assumption; try (apply Hne; assumption).
    intros E. exists 1. split; [apply He; exact E|].
    repeat split; intros; try discriminate; reflexivity.
  - destruct (Hgen 0 2 Hbody) as (r & w1 & Ew & Hr & Hrb & Hne & He).
    exists r, w1. repeat split; try assumption; try (apply Hne; assumption).
    intros E. exists 2. split; [apply He; exact E|].
    repeat split; intros; try discriminate; reflexivity.
  - assert (Hcase : (exists block0, nth_error (mem w) 0 = Some block0
                       /\ (ret0 <- ft260_smbus_write env addr cmd None 0 FT260_FLAG_START ;;
                           if negb (ret0 =? 0) then Return ret0
                           else ft260_i2c_read env addr (Some 0) (block0 + 1)
                                  FT260_FLAG_START_STOP_REPEATED) w0 = Ok rb wb)
                    \/ (nth_error (mem w) 0 = None
                        /\ exists r w1,
                             ft260_smbus_write env addr cmd None 0 FT260_FLAG_START w0
                             = Ok r w1 /\ r <> 0 /\ rb = r /\ wb = w1)).
    { apply bind_inv in Hbody as (r & w1 & Ew & H).
      destruct (nth_error (mem w) 0) as [block0|] eqn:En.
      - left. exists block0. split; [reflexivity|].
        unfold bind at 1. rewrite Ew.
        destruct (negb (r =? 0)); [exact H|].
        apply bind_inv in H as (b & w2 & F & H).
        apply from_option_inv in F as [F ->]. cbn in F. injection F as <-.
        exact H.
      - right. split; [reflexivity|]. exists r, w1. split; [exact Ew|].
        destruct (r =? 0) eqn:E0; cbn [negb] in H.
        + apply bind_inv in H as (b & w2 & F & H).
          apply from_option_inv in F as [F _]. discriminate F.
        + apply Z.eqb_neq in E0. injection H as <- <-. auto. }
    destruct Hcase as [(block0 & En & Hrun)|(En & r & w1 & Ew & Hne & -> & ->)].
    + destruct (Hgen 0 (block0 + 1) Hrun) as (r & w1 & Ew & Hr & Hrb & Hne & He).
      exists r, w1. repeat split; try assumption; try (apply Hne; assumption).
      intros E. exists (block0 + 1). split; [apply He; exact E|].
      repeat split; intros; try discriminate; eauto.
    + destruct (ft260_smbus_write_command_any _ _ _ _ _ _ _ Hb0 Ew) as (Hr & Ho & _).
      cbn [log w0] in Ho. rewrite output_reports_app in Ho. cbn in Ho.
      rewrite app_nil_r in Ho.
      exists r, w1. repeat split; try assumption; try contradiction.
      rewrite output_reports_app, Ho. cbn. apply app_nil_r.
  - assert (Hcase : (exists block0, nth_error (mem w) 0 = Some block0
                       /\ (ret0 <- ft260_smbus_write env addr cmd None 0 FT260_FLAG_START ;;
                           if negb (ret0 =? 0) then Return ret0
                           else ft260_i2c_read env addr (Some 1) block0
                                  FT260_FLAG_START_STOP_REPEATED) w0 = Ok rb wb)
                    \/ (nth_error (mem w) 0 = None
                        /\ exists r w1,
                             ft260_smbus_write env addr cmd None 0 FT260_FLAG_START w0
                             = Ok r w1 /\ r <> 0 /\ rb = r /\ wb = w1)).
    { apply bind_inv in Hbody as (r & w1 & Ew & H).
      destruct (nth_error (mem w) 0) as [block0|] eqn:En.
      - left. exists block0. split; [reflexivity|].
        unfold bind at 1. rewrite Ew.
        destruct (negb (r =? 0)); [exact H|].
        apply bind_inv in H as (b & w2 & F & H).
        apply from_option_inv in F as [F ->]. cbn in F. injection F as <-.
        exact H.
      - right. split; [reflexivity|]. exists r, w1. split; [exact Ew|].
        destruct (r =? 0) eqn:E0; cbn [negb] in H.
        + apply bind_inv in H as (b & w2 & F & H).
          apply from_option_inv in F as [F _]. discriminate F.
        + apply Z.eqb_neq in E0. injection H as <- <-. auto. }
    destruct Hcase as [(block0 & En & Hrun)|(En & r & w1 & Ew & Hne & -> & ->)].
    + destruct (Hgen 1 block0 Hrun) as (r & w1 & Ew & Hr & Hrb & Hne & He).
      exists r, w1. repeat split; try assumption; try (apply Hne; assumption).
      intros E. exists block0. split; [apply He; exact E|].
      repeat split; intros; try discriminate; eauto.
    + destruct (ft260_smbus_write_command_any _ _ _ _ _ _ _ Hb0 Ew) as (Hr & Ho & _).
      cbn [log w0] in Ho. rewrite output_reports_app in Ho. cbn in Ho.
      rewrite app_nil_r in Ho.
      exists r, w1. repeat split; try assumption; try contradiction.
      rewrite output_reports_app, Ho. cbn. apply app_nil_r.
Qed.

(** ** The statements at concrete inputs *)

Lemma C10_wait_time_witness :
  ft260_hid_output_report_check_status (idle_env 100) [0xD0; 0x50; 0x06; 0] 4
                                       (mk_world dev_zero [] [])
  = Fault DivideByZero.
Proof.
  refine (proj1 (C10_wait_time_divides_by_cached_clock (idle_env 100)
                   [0xD0; 0x50; 0x06; 0] 4 (mk_world dev_zero [] []) _) _).
  - vm_compute. discriminate.
  - reflexivity.
Defined.

Lemma C5_status_check_witness :
  (exists w',
     ft260_hid_output_report_check_status
       (scripted_env 100 [FT260_I2C_STATUS_CTRL_BUSY; FT260_I2C_STATUS_CTRL_BUSY]
                     (fun _ => []))
       [0xD0; 0x50; 0x06; 0] 4 (world_100 []) = Ok 0 w'
     /\ log w' = log (sent_and_slept [0xD0; 0x50; 0x06; 0] 4 (world_100 []))
                 ++ repeat status_poll 3)
  /\ (exists w',
        ft260_hid_output_report_check_status
          (scripted_env 100 [FT260_I2C_STATUS_CTRL_BUSY; 0x06] (fun _ => []))
          [0xD0; 0x50; 0x06; 0] 4 (world_100 []) = Ok (- EIO) w'
        /\ log w' = log (sent_and_slept [0xD0; 0x50; 0x06; 0] 4 (world_100 []))
                    ++ repeat status_poll 2 ++ [HidSetReport reset_report]).
Proof.
  split.
  - refine (proj1 (proj2 (proj2 (C5_status_check_after_send
                     (scripted_env 100 [FT260_I2C_STATUS_CTRL_BUSY;
                                        FT260_I2C_STATUS_CTRL_BUSY] (fun _ => []))
                     [0xD0; 0x50; 0x06; 0] 4 (world_100 []) _ _)))
                  2%nat FT260_I2C_STATUS_CTRL_IDLE _ _ _ _).
    + vm_compute. discriminate.
    + vm_compute. discriminate.
    + split; [lia|]. split; [|split].
      * intros k Hk. exists FT260_I2C_STATUS_CTRL_BUSY.
        destruct k as [|[|k]]; [| |lia];
          (split; [eexists; split; reflexivity|reflexivity]).
      * eexists. split; reflexivity.
      * reflexivity.
    + reflexivity.
    + reflexivity.
    + reflexivity.
  - refine (proj1 (proj2 (C5_status_check_after_send
                     (scripted_env 100 [FT260_I2C_STATUS_CTRL_BUSY; 0x06]
                                   (fun _ => []))
                     [0xD0; 0x50; 0x06; 0] 4 (world_100 []) _ _))
                  1%nat 0x06 _ _ _).
    + vm_compute. discriminate.
    + vm_compute. discriminate.
    + split; [lia|]. split; [|split].
      * intros k Hk. exists FT260_I2C_STATUS_CTRL_BUSY.
        destruct k as [|k]; [|lia].
        split; [eexists; split; reflexivity|reflexivity].
      * eexists. split; reflexivity.
      * reflexivity.
    + reflexivity.
    + reflexivity.
Defined.

Lemma C4_read_timeout_witness :
  (exists w3,
     ft260_i2c_read (idle_env 100) 0x50 (Some 0) 4 FT260_FLAG_START_STOP
                    (mk_world (set_wait 1 (dev_clock 100)) (repeat 0 4) [])
     = Ok (- ETIMEDOUT) w3
     /\ log w3 = [HidOutputReport [0xC2; 0x50; 0x06; 4; 0];
                  WaitForCompletion 5000; HidSetReport [0xA1; 0x20]])
  /\ (exists w3,
        ft260_i2c_read
          (scripted_env 100 [FT260_I2C_STATUS_BUS_BUSY]
                        (fun _ => [i2c_input_report [1; 2; 3; 4]]))
          0x50 (Some 0) 4 FT260_FLAG_START_STOP (world_100 (repeat 0 4))
        = Ok (- EIO) w3
        /\ mem w3 = [1; 2; 3; 4]
        /\ log w3 = [HidOutputReport [0xC2; 0x50; 0x06; 4; 0];
                     WaitForCompletion 5000; status_poll;
                     HidSetReport [0xA1; 0x20]]).
Proof.
  split.
  - refine (proj1 (proj2 (C4_read_timeout_and_status (idle_env 100) 0x50 (Some 0) 4
                            FT260_FLAG_START_STOP
                            (mk_world (set_wait 1 (dev_clock 100)) (repeat 0 4) [])
                            _ _)) _).
    + vm_compute. discriminate.
    + vm_compute. discriminate.
    + reflexivity.
  - destruct (proj1 (proj2 (proj2
               (C4_read_timeout_and_status
                  (scripted_env 100 [FT260_I2C_STATUS_BUS_BUSY]
                                (fun _ => [i2c_input_report [1; 2; 3; 4]]))
                  0x50 (Some 0) 4 FT260_FLAG_START_STOP (world_100 (repeat 0 4))
                  ltac:(vm_compute; discriminate) ltac:(vm_compute; discriminate))))
               1
               (mk_world (set_wait 0 (received (i2c_input_report [1; 2; 3; 4])
                                        (set_wait 0 (set_read (Some 0) 0 4
                                                       (dev_clock 100)))))
                         [1; 2; 3; 4]
                         [HidOutputReport [0xC2; 0x50; 0x06; 4; 0];
                          WaitForCompletion 5000])
               (status_report FT260_I2C_STATUS_BUS_BUSY 100)
               ltac:(vm_compute; reflexivity) ltac:(discriminate)
               ltac:(reflexivity))
      as [Hfail _].
    destruct Hfail as (E & Hl & _).
    + intros (_ & Hbb & _). vm_compute in Hbb. discriminate Hbb.
    + eexists. split; [exact E|]. split; [reflexivity|exact Hl].
Defined.

Lemma C3_dispatcher_witness :
  ft260_raw_event (idle_env 100) [0xF0; 61; 1; 2; 3] (world_100 [])
  = Ok (- EBADR) (world_100 []).
Proof.
  refine (proj1 (proj2 (proj1 (C3_dispatcher_rules (idle_env 100))
                          [0xF0; 61; 1; 2; 3] (world_100 []) _)) _ _).
  - cbn. lia.
  - reflexivity.
  - reflexivity.
Defined.

Lemma scripted_env_idle khz answers :
  0 < khz < 65536 -> idle_device (scripted_env khz [] answers).
Proof.
  intros H. split.
  - intros h data. cbn. lia.
  - intros h. eexists. split; [reflexivity|]. split.
    + destruct (status_polls h) as [|[|n]]; reflexivity.
    + unfold status_report. cbn [nth app cpu_to_le16].
      unfold le16_to_cpu, u16, u8.
      rewrite Z.shiftr_div_pow2 by lia. change (2 ^ 8) with 256.
      rewrite !Z.mod_mod by lia.
      assert (khz / 256 < 256) by (apply Z.div_lt_upper_bound; lia).
      assert (0 <= khz / 256) by (apply Z.div_pos; lia).
      rewrite (Z.mod_small (khz / 256)) by lia.
      replace (khz mod 256 + 256 * (khz / 256)) with khz
        by (pose proof (Z.div_mod khz 256 ltac:(lia)); lia).
      rewrite Z.mod_small by lia. lia.
Qed.

Lemma C7_smbus_block_read_witness :
  exists w',
    ft260_smbus_xfer (answering_env 100 (fun _ => [i2c_input_report [5; 1; 2; 3; 4; 5]]))
                     0x50 0 I2C_SMBUS_READ 0x10 I2C_SMBUS_BLOCK_DATA
                     (world_100 (5 :: repeat 0 33))
    = Ok 0 w'
    /\ output_reports (log w')
       = [[0xD1; 0x50; 0x02; 1; 0x10]; [0xC2; 0x50; 0x07; 6; 0]]
    /\ mem w' = [5; 1; 2; 3; 4; 5] ++ repeat 0 28.
Proof.
  refine (proj1 (C7_smbus_block_reads
                   (answering_env 100 (fun _ => [i2c_input_report [5; 1; 2; 3; 4; 5]]))
                   0x50 0 0x10 (world_100 (5 :: repeat 0 33)) 5 [5; 1; 2; 3; 4; 5]
                   _ _ _ _ _ _ _) _ _ _).
  - apply scripted_env_idle. lia.
  - intros h hint. cbn. lia.
  - intros h. reflexivity.
  - reflexivity.
  - vm_compute. discriminate.
  - reflexivity.
  - lia.
  - reflexivity.
  - vm_compute. discriminate.
  - cbn. lia.
Defined.

Lemma C6_combined_write_read_witness :
  exists w',
    ft260_i2c_write_read (answering_env 100 (fun _ => [i2c_input_report [9; 8; 7; 6]]))
                         [mk_msg 0x50 0 1 [0x20]; mk_msg 0x50 I2C_M_RD 4 []]
                         (world_100 (repeat 0 4))
    = Ok 0 w'
    /\ mem w' = [9; 8; 7; 6] ++ skipn 4 (repeat 0 4).
Proof.
  refine (proj2 (proj2 (C6_combined_write_read
                   (answering_env 100 (fun _ => [i2c_input_report [9; 8; 7; 6]]))
                   (mk_msg 0x50 0 1 [0x20]) (mk_msg 0x50 I2C_M_RD 4 [])
                   (world_100 (repeat 0 4))))
                _ _ _ _ _ [9; 8; 7; 6] _ _ _ _).
  - vm_compute. discriminate.
  - reflexivity.
  - vm_compute. discriminate.
  - vm_compute. discriminate.
  - vm_compute. discriminate.
  - apply scripted_env_idle. lia.
  - intros h. reflexivity.
  - reflexivity.
  - cbn. lia.
Defined.

Lemma C8_baud_witness :
  baudrate (speed_request (idle_env 100) (mk_termios CS8 300 300))
  = [0x80; 0x25; 0; 0]
  /\ le_value (baudrate (speed_request (idle_env 100) (mk_termios CS8 300 300)))
     = 9600.
Proof.
  refine (proj1 (proj2 (proj2 (C8_baud_and_data_bits (idle_env 100)
                   (mk_termios CS8 300 300) (world_100 []) _))) _).
  - reflexivity.
  - right. left. vm_compute. reflexivity.
Defined.

Lemma C9_flow_control_witness :
  nth 2 (req_bytes (speed_request (idle_env 100)
                      (mk_termios (CS8 + CRTSCTS) 115200 115200))) 0
  = FT260_CFG_FLOW_CTRL_NONE.
Proof.
  refine (proj1 (proj2 (C9_flow_control_and_break_forced (idle_env 100)
                   (mk_termios (CS8 + CRTSCTS) 115200 115200) (world_100 []) _))).
  reflexivity.
Defined.

Lemma check_status_outcomes_witness :
  exists w',
    ft260_hid_output_report_check_status (idle_env 100) [0xD0; 0x50; 0x06; 0] 4
                                         (world_100 []) = Ok 0 w'
    /\ output_reports (log w')
       = output_reports (log (world_100 [])) ++ [[0xD0; 0x50; 0x06; 0]].
Proof.
  eexists. split; [vm_compute; reflexivity|].
  refine (proj1 (check_status_outcomes (idle_env 100) [0xD0; 0x50; 0x06; 0] 4
                   (world_100 []) 0 _ _)).
  reflexivity.
Defined.

Lemma status_request_refused_witness :
  ft260_hid_output_report_check_status (refusing_env (- EBUSY))
    [0xD0; 0x50; 0x06; 0] 4 (world_100 [])
  = Ok 0 (mk_world (dev_clock 100) []
            (log (sent_and_slept [0xD0; 0x50; 0x06; 0] 4 (world_100 []))
             ++ [status_poll])).
Proof.
  refine (proj1 (status_request_refused (refusing_env (- EBUSY))
                   [0xD0; 0x50; 0x06; 0] 4 (world_100 []) (- EBUSY) [] _ _ _ _ _) _).
  - vm_compute. discriminate.
  - vm_compute. discriminate.
  - reflexivity.
  - vm_compute. discriminate.
  - vm_compute. discriminate.
  - reflexivity.
Defined.

Lemma xfer_status_ignores_nack_bits_witness :
  exists w',
    ft260_xfer_status
      (scripted_env 100 [Z.lor FT260_I2C_STATUS_CTRL_IDLE FT260_I2C_STATUS_ADDR_NO_ACK]
                    (fun _ => []))
      (world_100 []) = Ok 0 w'.
Proof.
  destruct (xfer_status_ignores_nack_bits
              (scripted_env 100 [Z.lor FT260_I2C_STATUS_CTRL_IDLE
                                       FT260_I2C_STATUS_ADDR_NO_ACK] (fun _ => []))
              (world_100 [])
              (status_report (Z.lor FT260_I2C_STATUS_CTRL_IDLE
                                    FT260_I2C_STATUS_ADDR_NO_ACK) 100)
              eq_refl) as (ret & w' & E & Hiff & _).
  exists w'. rewrite E. f_equal. apply Hiff. reflexivity.
Defined.

Lemma i2c_write_stops_at_failure_witness :
  exists k,
    (1 <= k <= length (chunks60 (repeat 7%Z 130)))%nat
    /\ output_reports
         (log (world_of (ft260_i2c_write (failing_send_env 100 1 (- EIO)) 0x50
                           (repeat 7 130) (Z.of_nat (length (repeat 7 130)))
                           FT260_FLAG_START_STOP (world_100 []))))
       = output_reports (log (world_100 []))
         ++ map (i2c_write_report 0x50 FT260_FLAG_START_STOP)
                (firstn k (chunks60 (repeat 7 130))).
Proof.
  destruct (i2c_write_stops_at_failure (failing_send_env 100 1 (- EIO)) 0x50
              (repeat 7 130) FT260_FLAG_START_STOP (world_100 []) (- EIO)
              (world_of (ft260_i2c_write (failing_send_env 100 1 (- EIO)) 0x50
                           (repeat 7 130) (Z.of_nat (length (repeat 7 130)))
                           FT260_FLAG_START_STOP (world_100 []))))
    as (k & Hk & Ho & _).
  - reflexivity.
  - vm_compute. reflexivity.
  - exists k. split; [exact Hk|exact Ho].
Defined.


Lemma smbus_xfer_power_hints_witness :
  power_bracket (idle_env 100) (world_100 []) (- EOPNOTSUPP)
    (world_of (ft260_smbus_xfer (idle_env 100) 0x50 0 I2C_SMBUS_WRITE 0x10 4
                                (world_100 []))).
Proof.
  refine (proj1 (smbus_xfer_power_hints (idle_env 100) 0x50 0 I2C_SMBUS_WRITE 0x10 4
                   (world_100 []) (- EOPNOTSUPP) _ _)).
  vm_compute. reflexivity.
Defined.

Lemma i2c_xfer_outcomes_witness :
  power_bracket (idle_env 100) (world_100 []) 1
    (world_of (ft260_i2c_xfer (idle_env 100) [mk_msg 0x50 0 2 [0x10; 0x20]] 1
                              (world_100 []))).
Proof.
  refine (proj1 (i2c_xfer_outcomes (idle_env 100) [mk_msg 0x50 0 2 [0x10; 0x20]] 1
                   (world_100 []) 1 _ _)).
  vm_compute. reflexivity.
Defined.

Lemma smbus_block_write_lengths_witness :
  ft260_smbus_xfer (idle_env 100) 0x50 0 I2C_SMBUS_WRITE 0x10 I2C_SMBUS_BLOCK_DATA
                   (world_100 (255 :: repeat 0 33))
  = ft260_smbus_xfer (idle_env 100) 0x50 0 I2C_SMBUS_WRITE 0x10 I2C_SMBUS_BYTE
                     (world_100 (255 :: repeat 0 33)).
Proof.
  refine (proj2 (proj2 (smbus_block_write_lengths (idle_env 100) 0x50 0 0x10
                          (world_100 (255 :: repeat 0 33)) 255 _ _)) _).
  - vm_compute. discriminate.
  - reflexivity.
  - reflexivity.
Defined.

Lemma uart_transmit_chars_outcomes_witness :
  ft260_uart_transmit_chars (idle_env 100) (world_100 [])
  = Ok (- EINVAL) (world_100 []).
Proof.
  refine (proj1 (uart_transmit_chars_outcomes (idle_env 100) (world_100 []) _ _) _).
  - reflexivity.
  - vm_compute. split; [discriminate|reflexivity].
  - right. reflexivity.
Defined.

Lemma uart_write_accepts_room_witness :
  exists w', ft260_uart_write (idle_env 100) [72; 105; 10] 3 (world_100 []) = Ok 3 w'.
Proof.
  destruct (uart_write_accepts_room (idle_env 100) [72; 105; 10] 3 (world_100 []))
    as (w' & E & _).
  - reflexivity.
  - vm_compute. split; [discriminate|reflexivity].
  - vm_compute. discriminate.
  - vm_compute. split; discriminate.
  - exists w'. exact E.
Defined.

Lemma raw_event_uart_receive_witness :
  ft260_raw_event (idle_env 100) [0xF0; 2; 72; 105] (world_100 [])
  = Ok 2 (mk_world (set_icount_rx 2 (dev_clock 100)) []
            [TtyInsertFlipString [72; 105]; TtyFlipBufferPush]).
Proof.
  refine (proj1 (raw_event_uart_receive (idle_env 100) [0xF0; 2; 72; 105]
                   (world_100 [])) _ _ _ _).
  - cbn. lia.
  - reflexivity.
  - vm_compute. split; discriminate.
  - vm_compute. discriminate.
Defined.

Lemma change_speed_parity_and_stop_bits_witness :
  exists ret termios' w' rep,
    ft260_uart_change_speed (idle_env 100)
      (mk_termios (CS5 + CSTOPB + PARENB) 9600 9600) (world_100 [])
    = Ok (ret, termios') w'
    /\ set_reports (log w') = set_reports (log (world_100 [])) ++ [rep]
    /\ nth 8 rep 0 = FT260_CFG_PAR_NO
    /\ nth 9 rep 0 = FT260_CFG_STOP_ONE_BIT
    /\ termios' = mk_termios CS8 9600 9600.
Proof.
  destruct (change_speed_parity_and_stop_bits (idle_env 100)
              (mk_termios (CS5 + CSTOPB + PARENB) 9600 9600) (world_100 []) eq_refl)
    as (ret & termios' & w' & rep & E & Hs & _ & H56 & _).
  exists ret, termios', w', rep. split; [exact E|]. split; [exact Hs|].
  destruct (H56 (or_introl eq_refl)) as (Hp & Hb & Ht).
  split; [exact Hp|]. split; [exact Hb|exact Ht].
Defined.

Lemma write_read_sends_every_turn_witness :
  exists read_off,
    output_reports
      (log (world_of (ft260_i2c_write_read (echo_env 100 7)
                        [mk_msg 0x50 0 2 [0xF0; 0x01]; mk_msg 0x50 I2C_M_RD 65 []]
                        (world_100 (repeat 0 65)))))
    = output_reports (log (world_100 (repeat 0 65)))
      ++ random_read_reports 0x50 2 read_off 65.
Proof.
  destruct (write_read_sends_every_turn (echo_env 100 7)
              (mk_msg 0x50 0 2 [0xF0; 0x01]) (mk_msg 0x50 I2C_M_RD 65 [])
              (world_100 (repeat 0 65))
              (world_of (ft260_i2c_write_read (echo_env 100 7)
                           [mk_msg 0x50 0 2 [0xF0; 0x01]; mk_msg 0x50 I2C_M_RD 65 []]
                           (world_100 (repeat 0 65)))))
    as (read_off & _ & Ho & _).
  - vm_compute. discriminate.
  - reflexivity.
  - vm_compute. reflexivity.
  - exists read_off. exact Ho.
Defined.

Lemma data_report_id_capacity_witness :
  in_range FT260_I2C_REPORT_MIN FT260_I2C_REPORT_MAX (FT260_I2C_DATA_REPORT_ID 60)
  = true.
Proof.
  refine (proj1 (data_report_id_capacity 60 _)).
  vm_compute. split; discriminate.
Defined.

Lemma interface_type_table_witness :
  log (world_of (ft260_get_interface_type (chip_env FT260_MODE_BOTH) 1 0 []
                   (world_100 [])))
  = [HidGetReport FT260_SYSTEM_SETTINGS 25].
Proof.
  refine (proj2 (proj2 (proj2 (proj2 (proj2
            (interface_type_table (chip_env FT260_MODE_BOTH) 1 0 [] (world_100 [])
               FT260_IFACE_UART 1
               (world_of (ft260_get_interface_type (chip_env FT260_MODE_BOTH) 1 0 []
                            (world_100 [])))
               _)))))).
  vm_compute. reflexivity.
Defined.

Lemma attr_store_outcomes_witness :
  ft260_byte_attr_store accepting_env FT260_SET_CLOCK (Some 1) 4294967298
                        (world_100 [])
  = Ok 2 (mk_world (dev_clock 100) []
            [HidSetReport [FT260_SYSTEM_SETTINGS; FT260_SET_CLOCK; 1]])
  /\ ft260_word_attr_store accepting_env FT260_SET_I2C_CLOCK_SPEED (Some 400) 4
                           (world_100 [])
     = Ok 4 (mk_world (dev_clock 100) []
               [HidSetReport [FT260_SYSTEM_SETTINGS; FT260_SET_I2C_CLOCK_SPEED;
                              0x90; 0x01]]).
Proof.
  split.
  - exact (proj1 (proj2 (attr_store_outcomes accepting_env FT260_SET_CLOCK
                           4294967298 (world_100 []))) 1).
  - exact (proj1 (proj2 (proj2 (attr_store_outcomes accepting_env
                                  FT260_SET_I2C_CLOCK_SPEED 4 (world_100 []))))
                 400).
Defined.

Lemma uart_activate_outcomes_witness :
  exists termios' tty_flags' w',
    ft260_uart_activate (idle_env 100) (mk_termios CS8 9600 9600) 5 (world_100 [])
    = Ok (0, termios', tty_flags') w'
    /\ xmit_fifo (dev w') = []
    /\ Z.testbit tty_flags' TTY_IO_ERROR = false.
Proof.
  destruct (uart_activate_outcomes (idle_env 100) (mk_termios CS8 9600 9600) 5
              (world_100 []) eq_refl)
    as (termios' & tty_flags' & w' & E & Hf & Hb & _).
  exists termios', tty_flags', w'. split; [exact E|]. split; assumption.
Defined.

Lemma uart_add_port_outcomes_witness :
  exists t',
    ft260_uart_add_port kernel_ok 7%nat (host_with [Some 3%nat; None; None; None])
    = Done 0 (mk_host (world_100 []) 0 1 false t' [KfifoAlloc 7%nat])
    /\ nth_error t' 1 = Some (Some 7%nat).
Proof.
  destruct (proj2 (proj2 (uart_add_port_outcomes kernel_ok 7%nat
                            (host_with [Some 3%nat; None; None; None]) eq_refl))
              1%nat eq_refl eq_refl)
    as (t' & E & _ & _ & Hn & _).
  exists t'. split; [exact E|exact Hn].
Defined.

Lemma uart_port_table_round_trip_witness :
  exists h2,
    ft260_uart_port_remove 7%nat
      (host_of (ft260_uart_add_port kernel_ok 7%nat
                  (host_with [Some 3%nat; None; None; None])))
    = Done tt h2
    /\ ft260_uart_table h2 = [Some 3%nat; None; None; None].
Proof.
  destruct (uart_port_table_round_trip kernel_ok 7%nat
              (host_with [Some 3%nat; None; None; None])
              (host_of (ft260_uart_add_port kernel_ok 7%nat
                          (host_with [Some 3%nat; None; None; None])))
              eq_refl)
    as (_ & (h2 & E & Ht & _) & _).
  - vm_compute. reflexivity.
  - exists h2. split; [exact E|exact Ht].
Defined.

Lemma uart_probe_outcomes_witness :
  exists ret h',
    ft260_uart_probe (chip_env FT260_MODE_UART) kernel_ok 7%nat
                     (host_with [Some 3%nat; None; None; None])
    = Done ret h'.
Proof.
  destruct (uart_probe_outcomes (chip_env FT260_MODE_UART) kernel_ok 7%nat
              (host_with [Some 3%nat; None; None; None]) eq_refl)
    as (ret & h' & E & _).
  exists ret, h'. exact E.
Defined.

Lemma probe_unwinds_witness :
  exists ret h',
    ft260_probe (chip_env 9) kernel_ok 7%nat 0 (repeat 0 13) (repeat 0 25)
                (host_with [None; None; None; None])
    = Done ret h'.
Proof.
  destruct (probe_unwinds (chip_env 9) kernel_ok 7%nat 0 (repeat 0 13) (repeat 0 25)
              (host_with [None; None; None; None]) eq_refl)
    as (ret & h' & new & E & _).
  exists ret, h'. exact E.
Defined.

Lemma probe_then_remove_witness :
  exists h2,
    ft260_remove 7%nat
      (host_of (ft260_probe (chip_env FT260_MODE_BOTH) kernel_ok 7%nat 1
                  (repeat 0 13) (repeat 0 25)
                  (host_with [Some 3%nat; None; None; None])))
    = Done tt h2
    /\ ft260_uart_table h2 = [Some 3%nat; None; None; None].
Proof.
  destruct (probe_then_remove (chip_env FT260_MODE_BOTH) kernel_ok 7%nat 1
              (repeat 0 13) (repeat 0 25)
              (host_with [Some 3%nat; None; None; None])
              (host_of (ft260_probe (chip_env FT260_MODE_BOTH) kernel_ok 7%nat 1
                          (repeat 0 13) (repeat 0 25)
                          (host_with [Some 3%nat; None; None; None])))
              eq_refl eq_refl)
    as (h2 & new & E & _ & _ & Ht & _).
  - vm_compute. reflexivity.
  - exists h2. split; [exact E|exact Ht].
Defined.

Lemma i2c_read_overlong_answer_witness :
  exists w',
    ft260_i2c_read (answering_env 100 (fun _ => [i2c_input_report [1; 2; 3; 4]]))
                   0x50 (Some 0) 2 FT260_FLAG_START_STOP (world_100 (repeat 0 4))
    = Ok (- ETIMEDOUT) w'
    /\ mem w' = [1; 2; 3; 4].
Proof.
  destruct (i2c_read_overlong_answer
              (answering_env 100 (fun _ => [i2c_input_report [1; 2; 3; 4]]))
              0x50 0 2 FT260_FLAG_START_STOP (world_100 (repeat 0 4))
              [1; 2; 3; 4] [1; 2; 3; 4])
    as (w' & E & Hm & _).
  - vm_compute. discriminate.
  - reflexivity.
  - vm_compute. split; [reflexivity|discriminate].
  - vm_compute. reflexivity.
  - exists w'. split; [exact E|exact Hm].
Defined.

Lemma smbus_read_needs_command_ack_witness :
  exists r w1,
    ft260_smbus_write (failing_send_env 100 0 (- EIO)) 0x50 0x10 None 0
                      FT260_FLAG_START
                      (mk_world (dev_clock 100) [0] [HidPower PM_HINT_FULLON])
    = Ok r w1
    /\ r <= 0.
Proof.
  destruct (smbus_read_needs_command_ack (failing_send_env 100 0 (- EIO)) 0x50 0
              0x10 I2C_SMBUS_BYTE_DATA (world_100 [0]) (- EIO)
              (world_of (ft260_smbus_xfer (failing_send_env 100 0 (- EIO)) 0x50 0
                           I2C_SMBUS_READ 0x10 I2C_SMBUS_BYTE_DATA (world_100 [0]))))
    as (r & w1 & E & Hr & _).
  - vm_compute. discriminate.
  - reflexivity.
  - left. reflexivity.
  - vm_compute. reflexivity.
  - exists r, w1. split; [exact E|exact Hr].
Defined.
